(* ===== verification/_CoqProject ===== *)
-Q . S2P
Prelude.v
JsValue.v
Schema.v
Gateway.v
GatewayFacts.v
Seed.v
Validation.v
UserController.v
PostController.v
Server.v
Integrity.v
ApiDocs.v
OpenApi.v
Responses.v
Client.v
ClientUsers.v
ClientDetail.v
ClientForms.v
ClientPosts.v
PostsAsync.v
UsersAsync.v
Routing.v
Render.v
App.v
Screens.v
Auth.v
