(* ===== verification/Prelude.v ===== *)
(** * blog-service: a verification development of the blog REST API

    The repository (tour-panurat/blog-service) is an Express + Prisma REST
    API over five related tables (users, addresses, geos, companies,
    posts) and a Next.js admin client.  [src/blog-api/src/index.ts]
    mounts two routers ([src/blog-api/src/routes/userRoutes.ts],
    [postRoutes.ts]) behind an identity gate and installs an error
    middleware last.  The handlers of
    [src/blog-api/src/controllers/userController.ts] and
    [postController.ts] are the core.  Each one reads its request, checks
    its guards, issues a sequence of Prisma calls and shapes a JSON
    response, and turns any exception into a 500.

    ** Files, in dependency order

    - [Prelude] (this file): a state/exception monad [St] in which the
      state survives an exception.  This is how a handler's sequence of
      Prisma calls behaves: each call is atomic, the sequence is not one
      transaction.  [st_steps R m] says that every run of [m] relates its
      start and end states by the preorder [R]; it composes through binds,
      catches and conditionals, and the tactic [st_step_tac] applies
      those rules.  [st_throws P m] says that [m] fails from every state
      satisfying [P].  The file also has id-keyed tables, kept as
      association lists in ascending id order, with their lemmas, and
      the hint databases [blog] and [blog_rw].
    - [JsValue]: the JavaScript values a handler sees.  Request fields
      are [jval], and numbers are [jsnum]: NaN, the infinities, or an
      exact rational.  The file has truthiness ([truthy]), [??]
      ([nullish_or]), [<], [-], [*], and [Number()] on strings
      ([string_to_number]: trimming, the empty string, decimals with a
      fraction and an exponent, Infinity, and the 0x/0o/0b prefixes).
    - [Schema]: the rows as the Swagger component schemas of
      [src/blog-api/src/swagger/docsSwagger.ts] declare them, the database
      record [db] with its five autoincrement sequences, Prisma's error
      kinds, the response type and the invariant [wf_db]: ids distinct and
      below their sequence within INT4, every foreign key pointing at a
      stored row, username and email unique, and at most one address and
      one company per user and one geo per address.
    - [Gateway]: each Prisma call the controllers issue, as a function in
      [St db gw_error].  These are findMany/count with [contains]
      ([insensitive]) filters and skip/take, findUnique with its includes,
      findFirst with OR/NOT, nested create inside a transaction, nested
      update with the geo upsert, deleteMany and delete.  The Prisma
      schema is not in the repository, so the constraint semantics are
      taken from the spec: Restrict on delete, the unique keys, sequences
      that advance on failed inserts, and rollback of rows but not
      sequences.
    - [GatewayFacts]: every gateway call preserves [wf_db] and never lowers
      a sequence ([gw_ok]).  The file also has the run lemmas of the
      calls on the inputs the theorems use, and the rollback behaviour of
      transactions ([transaction_abort]).
    - [Seed]: [prisma/seed.ts]: the data literal [usersData], the nested
      create of each entry as one transaction, and the loop that catches
      each entry's failure.
    - [Validation]: the request bodies and Joi's [userUpdateSchema]
      (abortEarly, key order, empty strings refused, Joi's messages).
      Joi's [email()] rule is library code and stays a section variable
      [is_email].  [simple_email] is a concrete rule for the witnesses.
    - [UserController], [PostController]: one definition per exported
      handler, translated statement by statement.  [try/catch] is
      [scatch], and an early [return res.status(..)] is [respond].
    - [Server]: [errorHandler], the routers, the gate in front of them,
      and [handle], one request against the database.  [startServer] is
      the start-up: listen on [PORT] after a successful database
      connection, exit with code 1 otherwise.
    - [Integrity]: the invariant the handlers keep together: the
      database is well formed and every user has an address.  [served]
      is the Inductive set of databases that requests and seed runs
      produce, in any order, from such a database.  Each handler keeps
      the invariant by the relation [addr_kept], composed through its
      binds like [st_steps].
    - [ApiDocs]: each [@swagger] operation block of docsSwagger.ts as its
      documented statuses and success body, and [route_endpoint], the
      operation a request reaches.
    - [OpenApi]: the options of [config/swagger.ts], the component
      schemas, security scheme and tags of docsSwagger.ts as data, the
      JSON that [res.json] sends for each body, and OpenAPI 3.0
      conformance of a body to a schema.  The check runs on fuel and
      reports running out as [None], distinct from a mismatch.
    - [Client]: how the pages of [src/blog-app/src/app] call the API.
      [axios] is one [handle] step that resolves on a 2xx status.  The
      file also has the requests the pages build, with [String(n)]
      ([int_to_string], [number_to_string] in [JsValue], which also
      proves that [Number(String(n)) = n]), and the MUI pagination guards.
    - [ClientUsers]: the user list page [users/page.tsx].  Its state
      hooks are a record, its handlers are events, and its fetch effect
      runs after an event that changes one of the effect's dependencies.
      [users_reach] is the Inductive reachability of (page state,
      database) pairs from the first render.
    - [Responses]: the kinds of answer the application sends, by
      status.
    - [ClientDetail]: the user page [users/[userId]/page.tsx] and the
      post page [posts/[postId]/page.tsx].  Each has its state record,
      its mount effect, its render guards and its delete dialog as
      events.
    - [ClientForms]: the create-user form [users/create/page.tsx] and
      the create-post form [users/[userId]/posts/create/page.tsx].
    - [ClientPosts]: the posts list page [posts/page.tsx], as
      [ClientUsers] models the users list.
    - [PostsAsync]: the posts list with its requests in flight.  An
      effect run sends GET /posts for its render's query, and its answer
      is applied later to the state as it is then.  A state holds the
      queries in flight.  An event is an input or the answer of any one
      of them, so answers can arrive in any order.
    - [UsersAsync]: the user list page with its requests in flight, as
      [PostsAsync] has the posts list: the fetches of the effect and of
      [handleDeleteUser]'s refresh, and the DELETE of the dialog, each
      answered later against the state as it is then.  [fetchUsers] is
      the closure of the render that called it, so it carries that
      render's query.  While the dialog is open, MUI's modal lets only
      the dialog's buttons through ([ui_enabled]).
    - [Routing]: Next.js's route table over the directories of
      [src/app], the link templates the pages use,
      [components/Navbar.tsx], the home page [page.tsx], and the sign-in
      redirect of [providers/Auth0Provider.tsx].
    - [Render]: what each page renders, as its text and controls in
      document order: texts, alerts, fields with their [required] flag,
      buttons with their [disabled] flag, links, [router.push] buttons
      and the pagination.  An interpolation [{x}] renders as React
      renders it ([Display]).
    - [App]: the whole client as one step relation on (screen,
      database), as [layout.tsx] composes it.  A screen is the current
      page with its state.  A step is a page event, or a click on a link
      the page or the navigation bar renders.  A [router.push] is
      followed at the end of the event.
    - [Screens]: the rendered screen of a session, [layout.tsx]'s
      navigation bar above [Render]'s page.
    - [Auth]: the client with and without a session: the
      [withAuthenticationRequired] wrapper of every page, Auth0's login
      and logout, and the provider's [onRedirectCallback]; a path opened
      by hand is an event.

    ** What is proved (claim ids C1..C40)

    - Invariant: every database that requests and seed runs produce from
      a well-formed database where every user has an address is well
      formed, and every user in it still has an address (C1, rule
      induction over [served], using the per-handler lemmas).
    - Users: delete removes the user and every dependent row in
      referential order, and leaves the other users (C2).  A later GET
      gives 404 and an empty post list (C3).  A created user is read back
      with its address, geo and company (C4).  A duplicate username or
      email gives 400 and writes nothing (C5).  getUsers puts the i-th
      filtered user on page i/limit + 1 (C6).  A page holds at most
      [limit] users, each matching the filters (C7).  page or limit below
      1 gives 400 (C8).  A NaN page gives 500 (C9).  A GET by an id that
      is not an INT4 integer gives 500, not 404 (C17).
    - Posts: deleting a missing post gives 500, not 404 (C10).  A post
      for a missing user gives 500 and burns a post id (C26).  PATCH with
      only a title keeps the body (C33).
    - Application: [errorHandler] never leaks the message of a 500 (C11).
      A rejected token never reaches a handler or the database (C12).
    - Validation and errors: the Joi schema admits exactly the bodies of
      the declarative [user_update_ok] (C13).  A username under 3
      characters is refused by PUT, although POST accepts it (C14).  PUT
      on a user without a company never succeeds and rolls back (C15).
      A create without an address gives 500 (C16).
    - Seed: a second run stores nothing and moves the user sequence by
      two (C35).  The script always runs to its end, each entry attempted
      once (C40).
    - Contract: nine operations keep to their Swagger blocks (C18).
      Every 2xx body of GET /users fails the documented array schema
      (C19).  Every post body conforms field by field to its documented
      schema, under either declaration of Post (C20).  A user's body
      conforms to the User schema only when the user has every optional
      row and field (C21).
    - Client pages: typing a filter on a later page keeps the page
      number, so the table can be empty although users match (C23).  A
      filled create-user form either stores exactly what was typed or
      shows the duplicate message and writes nothing (C24).  Deleting
      from the post page removes exactly that post and navigates to
      /posts (C29).  Deleting from the user page removes the user's rows
      and leaves the shown post links dead (C30).
    - Requests in flight: a double click on the dialog's Delete sends two
      DELETEs, and the page shows the failure message although the user
      is gone (C22).  Cancel while a DELETE is pending, then a new
      filter: the refresh shows the old query's users and total under
      the new filter (C25).  With answers in the order sent, the posts
      list is consistent whenever nothing is in flight (C27).  With
      answers out of order, it shows the total of an older filter (C28).
    - Navigation, sign-in and screens: the links the pages build parse
      back to the intended page and id (C31).  Signing in from any
      signed-out state lands on the page that was asked for (C32).  In
      every session through the whole client, the database stays well
      formed and no click reaches a missing page (C34).  A created
      user's page shows what was typed (C36).  A created post is listed
      on its user's page, and its page shows its title, body and author
      (C37).  Every stored user can be reached from the home page (C38).
    - Responses: every request is answered with a 2xx data body or an
      error body with a non-empty message, never an empty alert for the
      client (C39).

    The synchronous page models also prove, without a claim of their
    own, that with every answer before the next input the list pages
    show exactly the server's page for their filters
    ([ClientUsers.users_page_consistent], [ClientPosts.posts_page_consistent]),
    that the forms submit exactly when the browser's check of the
    rendered required fields passes, and that the links a session can
    follow are the rendered ones.

    ** Bounds and conventions

    Ids are Postgres INT4 values, in [1, 2^31-1].  A Prisma [Int] argument
    that is not an integer in that range (NaN, 1.5, 3e9) is a validation
    error ([int_arg]).  Rows without [orderBy] are listed in ascending id
    order: Postgres leaves that order unspecified, and the model fixes
    one.  Case-insensitive matching lowercases ASCII letters only.  JS
    numbers are exact rationals, so a decimal with more digits than a
    double holds may round differently in the engine.  Every definition
    is structurally recursive, so no fuel is needed, and all of them
    evaluate with [vm_compute] on the witnesses' concrete databases.

    ** Not modelled

    - The token check of express-oauth2-jwt-bearer: a request carries
      the gate's verdict.
    - The Swagger UI's pages (one payload [PDocs] answers every request
      below /api-docs), the database connection and the listening socket
      themselves ([startServer] keeps only their outcome), the CORS
      headers, and console logging.
    - express.json's own answer to a malformed JSON body (a 400 through
      [errorHandler]): a request carries its parsed body.
    - Interleavings of concurrent requests: each request is one atomic
      step of [handle].  Real Express interleaves the awaits, so two
      creates with the same username can both pass the duplicate check.
    - The client's layout and styles (the rendering keeps text and
      controls), MUI's internal labels (the pagination's "1-10 of n"),
      the browser's history ([router.back]), and paths typed by hand
      outside [Auth].  Outside [Auth], every page runs behind
      [withAuthenticationRequired], so a session is signed in and its
      requests carry a valid token.  Outside [PostsAsync] and
      [UsersAsync], a page event and the requests it triggers form one
      step, so a double click on a button that is not disabled is one
      click, and the modal guard of the dialogs is modelled only in
      [UsersAsync].
    - Express's route matching is case-sensitive and strict in the
      model: /Users and /users/ do not reach the users router, where
      Express's defaults would.  The pages only build lower-case paths
      without a trailing slash.
    - Joi's refusal of keys the schema does not name: the model's
      request bodies carry only the schema's keys.
    - The query string of the sign-in redirect: auth0-react's default
      [returnTo] is the path followed by the query string, and the model
      keeps the path only.  No page of the client reads the query
      string (filters and pagination are React state), so the page
      reached after signing in is the same.
    - How swagger-jsdoc merges the [@swagger] blocks (library code): the
      two declarations of Post are checked separately, and [$ref]s are
      resolved in the first components block.  Auth0's token handling
      and its login and logout pages are library code: a login either
      completes or is abandoned. *)

From stdpp Require Export base list decidable strings sets.
From Stdlib Require Export ZArith Lia.

Declare Scope st_scope.
Delimit Scope st_scope with st.

(** ** The handler monad: state passing with exceptions that keep the state *)

Inductive outcome (E A : Type) : Type :=
| Ok (a : A)
| Exn (e : E).
Arguments Ok {E A} a.
Arguments Exn {E A} e.

Definition St (S E A : Type) : Type := S -> outcome E A * S.

Definition sret {S E A} (a : A) : St S E A := fun s => (Ok a, s).

Definition sbind {S E A B} (m : St S E A) (k : A -> St S E B) : St S E B :=
  fun s =>
    match m s with
    | (Ok a, s') => k a s'
    | (Exn e, s') => (Exn e, s')
    end.

Definition sthrow {S E A} (e : E) : St S E A := fun s => (Exn e, s).

(** [try { m } catch (e) { h e }]: the handler runs on the state that the
    failing call left, not on the state before [m]. *)
Definition scatch {S E A} (m : St S E A) (h : E -> St S E A) : St S E A :=
  fun s =>
    match m s with
    | (Ok a, s') => (Ok a, s')
    | (Exn e, s') => h e s'
    end.

Definition sget {S E} : St S E S := fun s => (Ok s, s).
Definition sput {S E} (s : S) : St S E unit := fun _ => (Ok tt, s).

(** Lift a pure, possibly failing computation. *)
Definition slift {S E A} (r : E + A) : St S E A :=
  fun s => match r with inl e => (Exn e, s) | inr a => (Ok a, s) end.

Notation "x <- m ;; k" := (sbind m (fun x => k))
  (at level 100, m at next level, right associativity) : st_scope.
Notation "m ;;; k" := (sbind m (fun _ => k))
  (at level 100, right associativity) : st_scope.

Open Scope st_scope.

Create HintDb blog.
Create Rewrite HintDb blog_rw.

Section MonadLaws.
Context {S E : Type}.

Lemma sbind_ret_l {A B} (a : A) (k : A -> St S E B) s :
  sbind (sret a) k s = k a s.
Proof. reflexivity. Qed.

Lemma sbind_throw_l {A B} (e : E) (k : A -> St S E B) s :
  sbind (sthrow e) k s = (Exn e, s).
Proof. reflexivity. Qed.

Lemma sbind_assoc {A B C} (m : St S E A) (f : A -> St S E B) (g : B -> St S E C) s :
  sbind (sbind m f) g s = sbind m (fun a => sbind (f a) g) s.
Proof. unfold sbind. destruct (m s) as [[a|e] s']; reflexivity. Qed.

Lemma sbind_ok {A B} (m : St S E A) (k : A -> St S E B) s a s' :
  m s = (Ok a, s') -> sbind m k s = k a s'.
Proof. intros H. unfold sbind. rewrite H. reflexivity. Qed.

Lemma scatch_ret {A} (a : A) (h : E -> St S E A) s : scatch (sret a) h s = (Ok a, s).
Proof. reflexivity. Qed.

Lemma scatch_throw {A} (e : E) (h : E -> St S E A) s : scatch (sthrow e) h s = h e s.
Proof. reflexivity. Qed.

End MonadLaws.

(** ** Relations between the state before and after a computation

    [st_steps R m]: whatever [m] does, its final state is [R]-related to
    its initial one.  With [R] a preorder this composes along binds and
    catches, which is how every handler's invariant is proved from the
    gateway calls it makes. *)
Section Steps.
Context {S E : Type} (R : S -> S -> Prop).
Context {R_refl : Reflexive R} {R_trans : Transitive R}.

Definition st_steps {A} (m : St S E A) : Prop := forall s, R s (snd (m s)).

Lemma st_steps_ret {A} (a : A) : st_steps (sret a).
Proof. intros s. simpl. reflexivity. Qed.

Lemma st_steps_throw {A} (e : E) : st_steps (A:=A) (sthrow e).
Proof. intros s. simpl. reflexivity. Qed.

Lemma st_steps_lift {A} (r : E + A) : st_steps (slift r).
Proof. intros s. destruct r; simpl; reflexivity. Qed.

Lemma st_steps_bind {A B} (m : St S E A) (k : A -> St S E B) :
  st_steps m -> (forall a, st_steps (k a)) -> st_steps (sbind m k).
Proof.
  intros Hm Hk s. unfold sbind. specialize (Hm s).
  destruct (m s) as [[a|e] s']; simpl in *; [|exact Hm].
  etransitivity; [exact Hm | apply Hk].
Qed.

Lemma st_steps_catch {A} (m : St S E A) (h : E -> St S E A) :
  st_steps m -> (forall e, st_steps (h e)) -> st_steps (scatch m h).
Proof.
  intros Hm Hh s. unfold scatch. specialize (Hm s).
  destruct (m s) as [[a|e] s']; simpl in *; [exact Hm|].
  etransitivity; [exact Hm | apply Hh].
Qed.

Lemma st_steps_get : st_steps sget.
Proof. intros s. simpl. reflexivity. Qed.

Lemma st_steps_if {A} (b : bool) (m1 m2 : St S E A) :
  st_steps m1 -> st_steps m2 -> st_steps (if b then m1 else m2).
Proof. destruct b; auto. Qed.
End Steps.

#[export] Hint Resolve st_steps_ret st_steps_throw st_steps_lift st_steps_get : blog.

(** ** Computations that must fail

    [st_throws P m]: from every state satisfying [P], [m] ends in an
    exception.  [keeps P] relates a state to its successors when the
    property [P] carries over, so [st_steps (keeps P) m] says that [m]
    preserves [P] on every path. *)

Definition keeps {S} (P : S -> Prop) (s s' : S) : Prop := P s -> P s'.

#[export] Instance keeps_refl {S} (P : S -> Prop) : Reflexive (keeps P).
Proof. intros s H; exact H. Qed.

#[export] Instance keeps_trans {S} (P : S -> Prop) : Transitive (keeps P).
Proof. intros s1 s2 s3 H1 H2 H; exact (H2 (H1 H)). Qed.

Section Throws.
Context {S E : Type} (P : S -> Prop).

Definition st_throws {A} (m : St S E A) : Prop := forall s, P s -> exists e, fst (m s) = Exn e.

Lemma st_throws_throw {A} (e : E) : st_throws (A:=A) (sthrow e).
Proof. intros s _. exists e. reflexivity. Qed.

Lemma st_throws_bind_l {A B} (m : St S E A) (k : A -> St S E B) : st_throws m -> st_throws (sbind m k).
Proof.
  intros Hm s Hs. destruct (Hm s Hs) as [e He]. unfold sbind.
  destruct (m s) as [o s']. simpl in He. subst o. exists e. reflexivity.
Qed.

Lemma st_throws_bind_r {A B} (m : St S E A) (k : A -> St S E B) :
  st_steps (keeps P) m -> (forall a, st_throws (k a)) -> st_throws (sbind m k).
Proof.
  intros Hm Hk s Hs. specialize (Hm s Hs). unfold sbind.
  destruct (m s) as [[a|e] s']; simpl in *; [exact (Hk a s' Hm) | exists e; reflexivity].
Qed.
Lemma st_throws_get {B} (k : S -> St S E B) :
  (forall s, P s -> st_throws (k s)) -> st_throws (sbind sget k).
Proof. intros Hk s Hs. exact (Hk s Hs s Hs). Qed.
End Throws.

(** ** Postconditions of results

    [st_post Q m]: every value [m] returns satisfies [Q] (exceptions
    are unconstrained).  [st_answers Q m]: [m] never ends in an exception
    and its value satisfies [Q]; a [scatch] whose handler always answers
    turns the first into the second. *)

Section Post.
Context {S E A : Type} (Q : A -> Prop).

Definition st_post (m : St S E A) : Prop :=
  forall s, match fst (m s) with Ok a => Q a | Exn _ => True end.

Definition st_answers (m : St S E A) : Prop := forall s, exists a, fst (m s) = Ok a /\ Q a.

Lemma st_post_ret a : Q a -> st_post (sret a).
Proof. intros H s. exact H. Qed.

Lemma st_post_throw e : st_post (sthrow e).
Proof. intros s. exact I. Qed.

Lemma st_post_bind {B} (m : St S E B) (k : B -> St S E A) : (forall b, st_post (k b)) -> st_post (sbind m k).
Proof.
  intros Hk s. unfold sbind. destruct (m s) as [[b|e] s']; [apply Hk | exact I].
Qed.

Lemma st_answers_ret a : Q a -> st_answers (sret a).
Proof. intros H s. exists a. split; [reflexivity | exact H]. Qed.

Lemma st_answers_catch (m : St S E A) (h : E -> St S E A) :
  st_post m -> (forall e, st_answers (h e)) -> st_answers (scatch m h).
Proof.
  intros Hm Hh s. specialize (Hm s). unfold scatch.
  destruct (m s) as [[a|e] s']; simpl in *; [exists a; split; [reflexivity | exact Hm] | apply Hh].
Qed.

Lemma st_answers_bind {B} (m : St S E B) (k : B -> St S E A) :
  (forall s, exists b, fst (m s) = Ok b) -> (forall b, st_answers (k b)) -> st_answers (sbind m k).
Proof.
  intros Hm Hk s. destruct (Hm s) as [b Hb]. unfold sbind.
  destruct (m s) as [o s']. simpl in Hb. subst o. apply Hk.
Qed.
End Post.

Lemma st_answers_mono {S E A} (Q Q' : A -> Prop) (m : St S E A) :
  (forall a, Q a -> Q' a) -> st_answers Q m -> st_answers Q' m.
Proof. intros H Hm s. destruct (Hm s) as (a & Ha & Hq). exists a. auto. Qed.

(** [post_tac] splits an [st_post] goal along binds, conditionals and
    matches down to its returns and throws. *)
Ltac post_tac :=
  repeat first
    [ apply st_post_throw
    | apply st_post_bind; intro
    | match goal with
      | |- st_post _ (if ?b then _ else _) => destruct b
      | |- st_post _ (match ?x with _ => _ end) => destruct x
      | |- st_post _ (let '(_, _) := ?x in _) => destruct x
      end ].

Lemma st_steps_mono {S E A} (R R' : S -> S -> Prop) (m : St S E A) :
  (forall s s', R s s' -> R' s s') -> st_steps R m -> st_steps R' m.
Proof. intros H Hm s. apply H, Hm. Qed.

(** A computation whose [st_steps] relation is equality never changes the state. *)
Lemma st_steps_eq_state {S E A} (m : St S E A) s : st_steps eq m -> snd (m s) = s.
Proof. intros H. symmetry. apply H. Qed.

(** [st_step1] takes one step of, and [st_step_tac] completely,
    decomposes an [st_steps] goal along the structure of a
    handler: binds, catches, conditionals and matches; the leaves left
    are the gateway calls. *)
Ltac st_step1 :=
  first
    [ apply st_steps_bind; try typeclasses eauto; [| intro]
    | apply st_steps_catch; try typeclasses eauto; [| intro]
    | apply st_steps_ret; typeclasses eauto
    | apply st_steps_throw; typeclasses eauto
    | apply st_steps_lift; typeclasses eauto
    | apply st_steps_get; typeclasses eauto
    | match goal with
      | |- st_steps _ (if ?b then _ else _) => destruct b
      | |- st_steps _ (match ?x with _ => _ end) => destruct x
      | |- st_steps _ (let '(_, _) := ?x in _) => destruct x
      end ].

Ltac st_step_tac := repeat st_step1.

(** ** Tables: rows keyed by id, in ascending id order *)

(** A Prisma/Postgres table as the model sees it: an association list
    from the autoincrement id to the row, in insertion order, which is
    ascending id order because ids come from a counter. *)
Abbreviation table A := (list (Z * A)).

Section Tables.
Context {A : Type}.
Implicit Types (t : table A) (k : Z) (r : A).

Definition tbl_keys t : list Z := map fst t.

Fixpoint tbl_find t k : option A :=
  match t with
  | [] => None
  | (k', r) :: t' => if Z.eqb k k' then Some r else tbl_find t' k
  end.

Definition tbl_mem t k : bool := if tbl_find t k is Some _ then true else false.

(** The rows satisfying a boolean predicate, in table order. *)
Definition tbl_filter (p : Z -> A -> bool) t : table A :=
  List.filter (fun kr => p (fst kr) (snd kr)) t.

(** Replace the row under [k], keep the others. *)
Definition tbl_set t k r : table A :=
  map (fun kr => if Z.eqb (fst kr) k then (k, r) else kr) t.

Lemma tbl_find_app t1 t2 k :
  tbl_find (t1 ++ t2) k =
  match tbl_find t1 k with Some r => Some r | None => tbl_find t2 k end.
Proof.
  induction t1 as [|[k' r'] t1 IH]; simpl; [reflexivity|].
  destruct (Z.eqb k k'); auto.
Qed.

Lemma tbl_find_Some t k r : tbl_find t k = Some r -> In (k, r) t.
Proof.
  induction t as [|[k' r'] t IH]; simpl; [discriminate|].
  destruct (Z.eqb_spec k k'); intros H; [inversion H; subst; auto | auto].
Qed.

Lemma tbl_find_None t k : tbl_find t k = None <-> k ∉ tbl_keys t.
Proof.
  induction t as [|[k' r'] t IH]; simpl.
  - split; [intros _; apply not_elem_of_nil | reflexivity].
  - rewrite elem_of_cons. destruct (Z.eqb_spec k k'); [subst|].
    + split; [discriminate | intros H; exfalso; apply H; left; reflexivity].
    + rewrite IH. naive_solver.
Qed.

Lemma tbl_keys_in t k r : In (k, r) t -> k ∈ tbl_keys t.
Proof.
  intros H. unfold tbl_keys. apply list_elem_of_In.
  apply (in_map fst) in H. exact H.
Qed.

Lemma tbl_find_In_NoDup t k r :
  NoDup (tbl_keys t) -> In (k, r) t -> tbl_find t k = Some r.
Proof.
  induction t as [|[k' r'] t IH]; simpl; [contradiction|].
  intros Hnd Hin. apply NoDup_cons in Hnd as [Hk' Hnd].
  destruct Hin as [Heq|Hin].
  - inversion Heq; subst. rewrite Z.eqb_refl. reflexivity.
  - destruct (Z.eqb_spec k k'); [subst|auto].
    exfalso. apply Hk'. eapply tbl_keys_in; eauto.
Qed.

Lemma tbl_keys_filter_sub p t : tbl_keys (tbl_filter p t) ⊆ tbl_keys t.
Proof.
  intros k. unfold tbl_keys, tbl_filter.
  rewrite !list_elem_of_In, !in_map_iff.
  intros [[k' r] [Hk Hin]]. apply filter_In in Hin as [Hin _].
  exists (k', r). auto.
Qed.

Lemma tbl_filter_In p t k r :
  In (k, r) (tbl_filter p t) <-> In (k, r) t /\ p k r = true.
Proof. unfold tbl_filter. rewrite filter_In. reflexivity. Qed.

Lemma tbl_keys_set t k r : tbl_keys (tbl_set t k r) = tbl_keys t.
Proof.
  induction t as [|[k' r'] t IH]; simpl; [reflexivity|].
  destruct (Z.eqb_spec k' k); simpl; subst; f_equal; exact IH.
Qed.

Lemma tbl_set_In t k r k' r' :
  In (k', r') (tbl_set t k r) <->
  (k' = k /\ r' = r /\ k ∈ tbl_keys t) \/ (k' <> k /\ In (k', r') t).
Proof.
  induction t as [|[k0 r0] t IH]; simpl.
  - rewrite elem_of_nil. naive_solver.
  - rewrite elem_of_cons. destruct (Z.eqb_spec k0 k); simpl; rewrite IH; naive_solver.
Qed.

Lemma tbl_find_set_eq t k r :
  k ∈ tbl_keys t -> tbl_find (tbl_set t k r) k = Some r.
Proof.
  induction t as [|[k' r'] t IH]; simpl; [rewrite elem_of_nil; contradiction|].
  rewrite elem_of_cons. destruct (Z.eqb_spec k' k); simpl.
  - subst. rewrite Z.eqb_refl. reflexivity.
  - intros [->|H]; [congruence|]. rewrite (proj2 (Z.eqb_neq k k')) by congruence. auto.
Qed.

Lemma tbl_find_set_ne t k r k' :
  k' <> k -> tbl_find (tbl_set t k r) k' = tbl_find t k'.
Proof.
  intros Hne. induction t as [|[k0 r0] t IH]; simpl; [reflexivity|].
  destruct (Z.eqb_spec k0 k); simpl.
  - subst. rewrite (proj2 (Z.eqb_neq k' k)) by exact Hne. exact IH.
  - destruct (Z.eqb k' k0); [reflexivity | exact IH].
Qed.

Lemma tbl_find_filter p t k :
  NoDup (tbl_keys t) ->
  tbl_find (tbl_filter p t) k =
  match tbl_find t k with Some r => if p k r then Some r else None | None => None end.
Proof.
  induction t as [|[k' r'] t IH]; simpl; [reflexivity|].
  intros Hnd. apply NoDup_cons in Hnd as [Hk' Hnd].
  destruct (Z.eqb_spec k k'); [subst|].
  - destruct (p k' r') eqn:Hp; simpl; [rewrite Z.eqb_refl; reflexivity|].
    rewrite IH by exact Hnd. apply tbl_find_None in Hk'. rewrite Hk'. reflexivity.
  - destruct (p k' r'); simpl;
      [rewrite (proj2 (Z.eqb_neq k k')) by exact n|]; apply IH; exact Hnd.
Qed.
End Tables.

#[export] Hint Resolve tbl_keys_in tbl_find_Some : blog.
#[export] Hint Rewrite @tbl_keys_set : blog_rw.

(** ** Pagination: [skip]/[take] over a row list *)

Lemma length_firstn_le {A} n (l : list A) : length (firstn n l) <= n.
Proof. rewrite length_firstn. lia. Qed.

Lemma firstn_skipn_In {A} n m (l : list A) x : In x (firstn n (skipn m l)) -> In x l.
Proof.
  intros H. rewrite <- (firstn_skipn m l). apply in_or_app. right.
  rewrite <- (firstn_skipn n (skipn m l)). apply in_or_app. left. exact H.
Qed.

(** The [k]-th row of a [skip m]/[take n] slice is the [(m+k)]-th row. *)
Lemma nth_error_page {A} (l : list A) n m k :
  (k < n)%nat -> nth_error (firstn n (skipn m l)) k = nth_error l (m + k).
Proof.
  intros Hk. revert n k Hk. induction l as [|x l IH] in m |- *; intros n k Hk.
  - rewrite skipn_nil, firstn_nil. destruct (m + k)%nat, k; reflexivity.
  - destruct m as [|m]; simpl.
    + destruct n as [|n]; [lia|]. destruct k; simpl; [reflexivity|].
      change (nth_error (firstn n (skipn 0 l)) k = nth_error l (0 + k)). apply IH. lia.
    + apply IH. exact Hk.
Qed.

#[export] Hint Resolve length_firstn_le firstn_skipn_In : blog.
