(* ===== verification/JsValue.v ===== *)
(** * JavaScript values as the handlers see them

    Request bodies arrive as JSON-decoded values.  Query strings and path
    parameters arrive as strings, or [undefined] when missing.  This file
    models the JS operations the controllers apply to them: truthiness
    (the [&&] and [||] of [if (username || email)] and of
    [...(title && {...})]), nullish coalescing ([x ?? undefined]) and
    [Number(x)], with [Number] on strings following ECMAScript's
    StringToNumber grammar restricted to ASCII whitespace.  Numbers are
    exact rationals, plus NaN and the two infinities, with the subtraction,
    multiplication and comparison that the handlers use. *)

From S2P Require Import Prelude.
From Stdlib Require Import QArith Qreduction Ascii DecimalString DecimalZ Decimal.
Local Open Scope Z_scope.

(** ** Numbers *)

Inductive jsnum :=
| NaN
| PosInf
| NegInf
| Fin (q : Q).

(** Finite numbers are kept in lowest terms, so that equal numbers are
    equal terms. *)
Definition fin (q : Q) : jsnum := Fin (Qred q).

Definition js_of_Z (z : Z) : jsnum := Fin (inject_Z z).

Definition Qltb (a b : Q) : bool := negb (Qle_bool b a).

(** [a < b] on numbers: false whenever NaN is involved. *)
Definition js_lt (a b : jsnum) : bool :=
  match a, b with
  | NaN, _ | _, NaN => false
  | Fin x, Fin y => Qltb x y
  | NegInf, NegInf | PosInf, _ => false
  | NegInf, _ => true
  | Fin _, PosInf => true
  | Fin _, NegInf => false
  end.

Definition js_neg (a : jsnum) : jsnum :=
  match a with
  | NaN => NaN
  | PosInf => NegInf
  | NegInf => PosInf
  | Fin q => fin (- q)
  end.

Definition js_add (a b : jsnum) : jsnum :=
  match a, b with
  | NaN, _ | _, NaN => NaN
  | PosInf, NegInf | NegInf, PosInf => NaN
  | PosInf, _ | _, PosInf => PosInf
  | NegInf, _ | _, NegInf => NegInf
  | Fin x, Fin y => fin (x + y)
  end.

Definition js_sub (a b : jsnum) : jsnum := js_add a (js_neg b).

(** Sign of a number for the infinite cases of multiplication. *)
Definition js_sign (a : jsnum) : comparison :=
  match a with
  | NaN => Eq
  | PosInf => Gt
  | NegInf => Lt
  | Fin q => Qcompare q 0
  end.

Definition js_mul (a b : jsnum) : jsnum :=
  match a, b with
  | NaN, _ | _, NaN => NaN
  | Fin x, Fin y => fin (x * y)
  | _, _ =>
      match js_sign a, js_sign b with
      | Eq, _ | _, Eq => NaN
      | Gt, Gt | Lt, Lt => PosInf
      | _, _ => NegInf
      end
  end.

(** ** Values *)

Inductive jval :=
| JUndef
| JNull
| JBool (b : bool)
| JNum (n : jsnum)
| JStr (s : string)
| JObj.

(** ToBoolean. *)
Definition truthy (v : jval) : bool :=
  match v with
  | JUndef | JNull => false
  | JBool b => b
  | JNum NaN => false
  | JNum (Fin q) => negb (Qeq_bool q 0)
  | JNum _ => true
  | JStr s => negb (String.eqb s "")
  | JObj => true
  end.

(** [v ?? d]. *)
Definition nullish_or (v d : jval) : jval :=
  match v with
  | JUndef | JNull => d
  | _ => v
  end.

(** Express query strings and path parameters: [Some s] when present. *)
Abbreviation qparam := (option string).

Definition qval (q : qparam) : jval :=
  match q with None => JUndef | Some s => JStr s end.

(** A query parameter destructured with a default, [const { page = 1 }]:
    the default replaces [undefined] only. *)
Definition qparam_default (q : qparam) (d : jval) : jval :=
  match q with None => d | Some s => JStr s end.

(** ** [Number(string)] *)

Definition is_js_space (c : ascii) : bool :=
  match nat_of_ascii c with
  | 9%nat | 10%nat | 11%nat | 12%nat | 13%nat | 32%nat => true
  | _ => false
  end.

Fixpoint drop_spaces (l : list ascii) : list ascii :=
  match l with
  | c :: l' => if is_js_space c then drop_spaces l' else l
  | [] => []
  end.

Definition trim (l : list ascii) : list ascii := List.rev (drop_spaces (List.rev (drop_spaces l))).

(** The value of a digit in [base] (2, 8, 10 or 16). *)
Definition digit_val (base : Z) (c : ascii) : option Z :=
  let n := Z.of_nat (nat_of_ascii c) in
  let d :=
    if (48 <=? n) && (n <=? 57) then Some (n - 48)
    else if (97 <=? n) && (n <=? 102) then Some (n - 87)
    else if (65 <=? n) && (n <=? 70) then Some (n - 55)
    else None in
  match d with Some v => if v <? base then Some v else None | None => None end.

(** The longest digit run: its value, its length and the rest. *)
Fixpoint take_digits (base acc : Z) (cnt : nat) (l : list ascii) : Z * nat * list ascii :=
  match l with
  | c :: l' =>
      match digit_val base c with
      | Some d => take_digits base (acc * base + d) (S cnt) l'
      | None => (acc, cnt, l)
      end
  | [] => (acc, cnt, [])
  end.

Definition scale10 (m : Z) (k : Z) : Q :=
  if 0 <=? k then inject_Z (m * 10 ^ k) else Qmake m (Z.to_pos (10 ^ (- k))).

(** The exponent part: [e], an optional sign, at least one digit, and
    nothing after it. *)
Definition parse_exponent (l : list ascii) : option Z :=
  match l with
  | [] => Some 0
  | e :: l' =>
      if (Ascii.eqb e "e"%char || Ascii.eqb e "E"%char) then
        let '(sgn, l'') :=
          match l' with
          | c :: r => if Ascii.eqb c "-"%char then (-1, r)
                      else if Ascii.eqb c "+"%char then (1, r) else (1, l')
          | [] => (1, l')
          end in
        match take_digits 10 0 0 l'' with
        | (v, S _, []) => Some (sgn * v)
        | _ => None
        end
      else None
  end.

(** An unsigned decimal literal: digits, an optional fraction, at least
    one digit in all, then an optional exponent. *)
Definition parse_unsigned_decimal (l : list ascii) : option Q :=
  let '(ip, n1, r1) := take_digits 10 0 0 l in
  let '(fp, n2, r2) :=
    match r1 with
    | c :: r => if Ascii.eqb c "."%char then take_digits 10 0 0 r else (0, 0%nat, r1)
    | [] => (0, 0%nat, r1)
    end in
  if (n1 + n2 =? 0)%nat then None
  else match parse_exponent r2 with
       | Some ex => Some (scale10 (ip * 10 ^ Z.of_nat n2 + fp) (ex - Z.of_nat n2))
       | None => None
       end.

Definition infinity_chars : list ascii := String.list_ascii_of_string "Infinity".

Definition parse_unsigned (l : list ascii) : jsnum :=
  if bool_decide (l = infinity_chars) then PosInf
  else match parse_unsigned_decimal l with Some q => fin q | None => NaN end.

(** A prefixed integer literal [0x..], [0o..], [0b..]: no sign allowed. *)
Definition parse_prefixed (base : Z) (l : list ascii) : jsnum :=
  match take_digits base 0 0 l with
  | (v, S _, []) => js_of_Z v
  | _ => NaN
  end.

Definition string_to_number (s : string) : jsnum :=
  match trim (String.list_ascii_of_string s) with
  | [] => js_of_Z 0
  | "0"%char :: x :: l =>
      if Ascii.eqb x "x"%char || Ascii.eqb x "X"%char then parse_prefixed 16 l
      else if Ascii.eqb x "o"%char || Ascii.eqb x "O"%char then parse_prefixed 8 l
      else if Ascii.eqb x "b"%char || Ascii.eqb x "B"%char then parse_prefixed 2 l
      else parse_unsigned ("0"%char :: x :: l)
  | "-"%char :: l => js_neg (parse_unsigned l)
  | "+"%char :: l => parse_unsigned l
  | l => parse_unsigned l
  end.

(** [Number(v)]: objects are NaN (their string form is "[object Object]"). *)
Definition js_Number (v : jval) : jsnum :=
  match v with
  | JUndef => NaN
  | JNull => js_of_Z 0
  | JBool b => js_of_Z (if b then 1 else 0)
  | JNum n => n
  | JStr s => string_to_number s
  | JObj => NaN
  end.

(** ** Integers as Prisma receives them *)

(** A number that is an integer: its numerator, else [None]. *)
Definition js_integer (n : jsnum) : option Z :=
  match n with
  | Fin q => if Z.eqb (Zpos (Qden (Qred q))) 1 then Some (Qnum (Qred q)) else None
  | _ => None
  end.

(** ** [String(n)] of an integer

    Number::toString on an integer-valued number below 1e21: its decimal
    digits without leading zeros, after a minus sign when negative.  This
    is how axios writes a numeric query parameter and how a template
    literal [`/users/${id}`] writes an id. *)

Definition int_to_string (z : Z) : string := NilEmpty.string_of_int (Z.to_int z).

(** The value of a digit string, most significant digit first. *)

Fixpoint uint_horner (u : uint) (acc : Z) : Z :=
  match u with
  | Nil => acc
  | D0 u => uint_horner u (acc * 10) | D1 u => uint_horner u (acc * 10 + 1)
  | D2 u => uint_horner u (acc * 10 + 2) | D3 u => uint_horner u (acc * 10 + 3)
  | D4 u => uint_horner u (acc * 10 + 4) | D5 u => uint_horner u (acc * 10 + 5)
  | D6 u => uint_horner u (acc * 10 + 6) | D7 u => uint_horner u (acc * 10 + 7)
  | D8 u => uint_horner u (acc * 10 + 8) | D9 u => uint_horner u (acc * 10 + 9)
  end.

(** [parseInt(s, 10)]: leading white space, an optional sign, then the
    longest run of decimal digits; no digit at all is NaN.  The sign of
    zero is not modelled. *)
Definition split_sign (l : list ascii) : Z * list ascii :=
  match l with
  | c :: r => if Ascii.eqb c "-"%char then (-1, r) else if Ascii.eqb c "+"%char then (1, r) else (1, l)
  | [] => (1, l)
  end.

Definition parse_int10 (s : string) : jsnum :=
  let '(sgn, l) := split_sign (drop_spaces (String.list_ascii_of_string s)) in
  match take_digits 10 0 0 l with
  | (v, S _, _) => js_of_Z (sgn * v)
  | _ => NaN
  end.

(** [String(n)] for the numbers the client prints: NaN, the infinities and
    integers.  Other finite numbers never reach a request parameter (the
    client only prints [page + 1] and [parseInt] results); they are
    printed as their integer part followed by nothing, which the model
    does not use. *)
Definition number_to_string (n : jsnum) : string :=
  match n with
  | NaN => "NaN"
  | PosInf => "Infinity"
  | NegInf => "-Infinity"
  | Fin q => int_to_string (Qnum (Qred q) / Zpos (Qden (Qred q)))
  end.

(** ** Nested objects of a JSON body *)

(** A key of a body whose value is an object: absent, [null], or an
    object of the expected shape. *)
Inductive jobj (A : Type) :=
| OUndef
| ONull
| OVal (a : A).
Arguments OUndef {A}.
Arguments ONull {A}.
Arguments OVal {A} a.

(** [o?.f]: optional chaining yields [undefined] on [undefined] and [null]. *)
Definition ofield {A} (o : jobj A) (f : A -> jval) : jval :=
  match o with OVal a => f a | _ => JUndef end.

Definition otruthy {A} (o : jobj A) : bool :=
  match o with OVal _ => true | _ => false end.

(** ** Lemmas *)

Lemma Qred_inject_Z z : Qred (inject_Z z) = inject_Z z.
Proof.
  unfold Qred, inject_Z. simpl.
  pose proof (Z.ggcd_correct_divisors z 1) as Hd.
  pose proof (Z.ggcd_gcd z 1) as Hg. rewrite Z.gcd_1_r in Hg.
  destruct (Z.ggcd z 1) as [g [a b]]. simpl in *. subst g.
  destruct Hd as [Ha Hb]. rewrite Z.mul_1_l in Ha, Hb. subst. reflexivity.
Qed.

Lemma js_integer_of_Z z : js_integer (js_of_Z z) = Some z.
Proof.
  unfold js_integer, js_of_Z. rewrite Qred_inject_Z. simpl. reflexivity.
Qed.

Lemma js_lt_of_Z a b : js_lt (js_of_Z a) (js_of_Z b) = (a <? b)%Z.
Proof.
  unfold js_lt, js_of_Z, Qltb. simpl. unfold Qle_bool. simpl.
  rewrite !Z.mul_1_r. destruct (Z.ltb_spec a b), (Z.leb_spec b a); simpl; lia.
Qed.

Lemma js_sub_of_Z a b : js_sub (js_of_Z a) (js_of_Z b) = js_of_Z (a - b).
Proof.
  unfold js_sub, js_add, js_neg, js_of_Z, fin.
  change (- inject_Z b)%Q with (inject_Z (- b)). rewrite Qred_inject_Z.
  replace (inject_Z a + inject_Z (- b))%Q with (inject_Z (a - b)); [f_equal; apply Qred_inject_Z|].
  unfold inject_Z, Qplus. simpl. f_equal; lia.
Qed.

Lemma js_mul_of_Z a b : js_mul (js_of_Z a) (js_of_Z b) = js_of_Z (a * b).
Proof.
  unfold js_mul, js_of_Z, fin. f_equal.
  replace (inject_Z a * inject_Z b)%Q with (inject_Z (a * b)).
  - apply Qred_inject_Z.
  - reflexivity.
Qed.

Lemma js_Number_of_Z z : js_Number (JNum (js_of_Z z)) = js_of_Z z.
Proof. reflexivity. Qed.

#[export] Hint Rewrite js_integer_of_Z js_lt_of_Z js_sub_of_Z js_mul_of_Z js_Number_of_Z : blog_rw.

(** ** [Number(String(n)) = n] on integers *)

Lemma take_digits_uint u acc cnt :
  take_digits 10 acc cnt (String.list_ascii_of_string (NilEmpty.string_of_uint u))
  = (uint_horner u acc, (cnt + Decimal.nb_digits u)%nat, []).
Proof.
  revert acc cnt. induction u; intros acc cnt; simpl.
  { f_equal; f_equal; lia. }
  all: rewrite IHu; replace (S cnt + nb_digits u)%nat with (cnt + S (nb_digits u))%nat by lia;
    match goal with |- context [Z.of_nat (nat_of_ascii ?c)] =>
      let v := eval vm_compute in (Z.of_nat (nat_of_ascii c)) in change (Z.of_nat (nat_of_ascii c)) with v end;
    repeat f_equal; lia.
Qed.

Lemma of_uint_acc_horner u p : Zpos (Pos.of_uint_acc u p) = uint_horner u (Zpos p).
Proof. revert p. induction u; intros p; simpl; rewrite ?IHu; f_equal; lia. Qed.

Lemma of_uint_horner u : Z.of_uint u = uint_horner u 0.
Proof.
  unfold Z.of_uint. induction u; simpl; try exact IHu; try reflexivity;
    rewrite of_uint_acc_horner; reflexivity.
Qed.

Lemma drop_spaces_id l : Forall (fun c => is_js_space c = false) l -> drop_spaces l = l.
Proof. intros H. destruct H as [|c l Hc _]; simpl; [reflexivity | rewrite Hc; reflexivity]. Qed.

Lemma trim_id l : Forall (fun c => is_js_space c = false) l -> trim l = l.
Proof.
  intros H. unfold trim. rewrite (drop_spaces_id l H), drop_spaces_id; [apply rev_involutive|].
  apply Forall_rev. exact H.
Qed.

Lemma uint_chars_nonspace u :
  Forall (fun c => is_js_space c = false) (String.list_ascii_of_string (NilEmpty.string_of_uint u)).
Proof. induction u; simpl; constructor; auto. Qed.

Lemma to_int_value z :
  match Z.to_int z with Pos u => uint_horner u 0 = z /\ u <> Nil | Neg u => - uint_horner u 0 = z /\ u <> Nil end.
Proof.
  pose proof (DecimalZ.of_to z) as H. destruct z as [|p|p]; simpl in *.
  - split; [reflexivity | discriminate].
  - unfold Z.of_int in H. rewrite of_uint_horner in H. split; [exact H|].
    intros E. rewrite E in H. simpl in H. discriminate.
  - unfold Z.of_int in H. rewrite of_uint_horner in H. split; [exact H|].
    intros E. rewrite E in H. simpl in H. discriminate.
Qed.

Lemma parse_unsigned_uint u :
  u <> Nil -> parse_unsigned (String.list_ascii_of_string (NilEmpty.string_of_uint u)) = js_of_Z (uint_horner u 0).
Proof.
  intros Hu. unfold parse_unsigned. rewrite bool_decide_false.
  2: { destruct u; [contradiction| ..]; simpl; intros H; inversion H. }
  unfold parse_unsigned_decimal. rewrite take_digits_uint. simpl.
  destruct (nb_digits u) eqn:E; [destruct u; [contradiction | ..]; discriminate|]. simpl.
  unfold scale10. simpl. unfold fin, js_of_Z. rewrite Z.mul_1_r, Z.add_0_r, Z.mul_1_r. f_equal. apply Qred_inject_Z.
Qed.

Lemma js_neg_of_Z z : js_neg (js_of_Z z) = js_of_Z (- z).
Proof. unfold js_neg, js_of_Z, fin. f_equal. change (- inject_Z z)%Q with (inject_Z (- z)). apply Qred_inject_Z. Qed.

Lemma string_to_number_uint u :
  u <> Nil -> string_to_number (NilEmpty.string_of_uint u) = js_of_Z (uint_horner u 0).
Proof.
  intros Hu. rewrite <- (parse_unsigned_uint u Hu). unfold string_to_number.
  rewrite trim_id by apply uint_chars_nonspace.
  destruct u as [|u|u|u|u|u|u|u|u|u|u]; [contradiction| | reflexivity ..].
  destruct u; reflexivity.
Qed.

Lemma int_to_string_roundtrip z : string_to_number (int_to_string z) = js_of_Z z.
Proof.
  unfold int_to_string. pose proof (to_int_value z) as H.
  destruct (Z.to_int z) as [u|u]; destruct H as [Hv Hu]; simpl.
  - rewrite string_to_number_uint by exact Hu. rewrite Hv. reflexivity.
  - unfold string_to_number. simpl.
    rewrite trim_id by (constructor; [reflexivity | apply uint_chars_nonspace]).
    change (js_neg (parse_unsigned (String.list_ascii_of_string (NilEmpty.string_of_uint u))) = js_of_Z z).
    rewrite parse_unsigned_uint by exact Hu. rewrite js_neg_of_Z, Hv. reflexivity.
Qed.

Lemma split_sign_uint u :
  u <> Nil -> split_sign (String.list_ascii_of_string (NilEmpty.string_of_uint u))
              = (1, String.list_ascii_of_string (NilEmpty.string_of_uint u)).
Proof. intros Hu. destruct u; [contradiction | reflexivity ..]. Qed.

Lemma parse_int10_roundtrip z : parse_int10 (int_to_string z) = js_of_Z z.
Proof.
  unfold int_to_string, parse_int10. pose proof (to_int_value z) as H.
  destruct (Z.to_int z) as [u|u]; destruct H as [Hv Hu]; cbn [NilEmpty.string_of_int].
  - rewrite drop_spaces_id by apply uint_chars_nonspace. rewrite split_sign_uint by exact Hu.
    rewrite take_digits_uint. destruct (nb_digits u) eqn:E; [destruct u; [contradiction | ..]; discriminate|].
    rewrite Z.mul_1_l, Hv; reflexivity.
  - cbn [String.list_ascii_of_string drop_spaces is_js_space nat_of_ascii]. simpl split_sign.
    cbv beta iota. rewrite take_digits_uint. destruct (nb_digits u) eqn:E; [destruct u; [contradiction | ..]; discriminate|].
    rewrite <- Hv; f_equal; lia.
Qed.

Lemma number_to_string_of_Z z : number_to_string (js_of_Z z) = int_to_string z.
Proof. unfold number_to_string, js_of_Z. rewrite Qred_inject_Z. simpl. rewrite Z.div_1_r. reflexivity. Qed.

Lemma int_to_string_nonempty z : String.eqb (int_to_string z) "" = false.
Proof.
  unfold int_to_string. pose proof (to_int_value z) as H.
  destruct (Z.to_int z) as [u|u]; destruct H as [_ Hu]; [destruct u; [contradiction | reflexivity ..] | reflexivity].
Qed.
