(* ===== verification/Schema.v ===== *)
(** * The data model: rows, database, errors, responses, invariant

    Rows follow the component schemas of
    [src/blog-api/src/swagger/docsSwagger.ts]: a field listed under
    [required] is a [string], any other is an [option string], and the
    foreign keys ([userId], [addressId]) are integers.  The database is
    one table per Prisma model plus one autoincrement counter per table.
    The counters are Postgres sequences, so a failed INSERT still
    consumes a value.  [wf_db] is the invariant that the database
    constraints maintain.  The Prisma schema is not part of the
    repository, so the constraints come from the spec (section 3): foreign
    keys with the default Restrict action, unique username and email, and
    one-to-one Address/Company per user and Geo per address. *)

From S2P Require Import Prelude JsValue.
Local Open Scope Z_scope.

(** ** Rows *)

Record user := mkUser {
  name : string;
  username : string;
  email : string;
  phone : string;
  website : string;
}.

Record address := mkAddress {
  street : string;
  suite : option string;
  city : string;
  zipcode : string;
  addr_userId : Z;
}.

Record geo := mkGeo {
  lat : string;
  lng : string;
  geo_addressId : Z;
}.

Record company := mkCompany {
  comp_name : string;
  catchPhrase : option string;
  bs : option string;
  comp_userId : Z;
}.

Record post := mkPost {
  title : string;
  body : string;
  post_userId : Z;
}.

#[export] Instance user_eq_dec : EqDecision user.
Proof. solve_decision. Defined.
#[export] Instance address_eq_dec : EqDecision address.
Proof. solve_decision. Defined.
#[export] Instance geo_eq_dec : EqDecision geo.
Proof. solve_decision. Defined.
#[export] Instance company_eq_dec : EqDecision company.
Proof. solve_decision. Defined.
#[export] Instance post_eq_dec : EqDecision post.
Proof. solve_decision. Defined.

(** ** The database *)

Record db := mkDb {
  users : table user;
  addresses : table address;
  geos : table geo;
  companies : table company;
  posts : table post;
  seq_user : Z;
  seq_address : Z;
  seq_geo : Z;
  seq_company : Z;
  seq_post : Z;
}.

Definition empty_db : db := mkDb [] [] [] [] [] 1 1 1 1 1.

(** Postgres [integer] (INT4), the type of every id column. *)
Definition int4_max : Z := 2147483647.

(** ** Errors a gateway call raises *)

Inductive gw_error :=
| PrismaValidation      (* PrismaClientValidationError: a missing or mistyped argument *)
| UniqueViolation       (* P2002 *)
| ForeignKeyViolation   (* P2003 *)
| RecordNotFound        (* P2025: update/delete of a missing row, nested update of a missing relation *)
| IntOutOfRange         (* an integer argument outside INT4, or an exhausted sequence *)
| InconsistentResult    (* a required relation returned no row (P2015) *)
| TypeError.            (* a JS TypeError thrown by the handler code itself *)

Abbreviation GW := (St db gw_error).

(** ** Responses *)

(** A related row as Prisma returns it with [include]. *)
Abbreviation address_geo := (Z * address * option (Z * geo))%type.

Inductive payload :=
| PError (msg : string)                              (* { error: msg } *)
| PUser (id : Z) (u : user)                          (* the user's scalar fields *)
| PUserFull (id : Z) (u : user) (a : option address_geo) (c : option (Z * company))
| PUserPage (us : list (Z * user)) (total : Z) (page limit : jsnum)
| PPostList (ps : list (Z * post))
| PPostPage (ps : list (Z * post * (Z * user))) (total : Z)
| PPost (id : Z) (p : post)
| PPostFull (id : Z) (p : post) (u : Z * user)
| PEmpty
| PStatusError (msg : string)                        (* { status: "error", message: msg } *)
| PDocs                                              (* the Swagger UI pages under /api-docs *)
| PNoRoute.                                          (* Express's default 404 page *)

Record response := mkResponse { status : Z; payload_of : payload }.

Definition respond (code : Z) (p : payload) : GW response := sret (mkResponse code p).

(** ** Well-formedness *)

(** Ids of a table: distinct, and within [1, seq) where [seq] is the next
    value of its sequence, which itself stays within INT4. *)
Definition ids_ok {A} (t : table A) (seq : Z) : Prop :=
  NoDup (tbl_keys t) /\ Forall (fun k => 1 <= k < seq) (tbl_keys t) /\ 1 <= seq <= int4_max + 1.

Definition refs_ok {A B} (t : table A) (fk : A -> Z) (parent : table B) : Prop :=
  Forall (fun kr => fk (snd kr) ∈ tbl_keys parent) t.

(** The values of column [f], in table order. *)
Definition col {A B} (t : table A) (f : A -> B) : list B := map (fun kr => f (snd kr)) t.

(** No two rows share the value of column [f]. *)
Definition unique_by {A B} (t : table A) (f : A -> B) : Prop := NoDup (col t f).

Record wf_db (d : db) : Prop := {
  wf_users : ids_ok (users d) (seq_user d);
  wf_addresses : ids_ok (addresses d) (seq_address d);
  wf_geos : ids_ok (geos d) (seq_geo d);
  wf_companies : ids_ok (companies d) (seq_company d);
  wf_posts : ids_ok (posts d) (seq_post d);
  wf_addr_fk : refs_ok (addresses d) addr_userId (users d);
  wf_geo_fk : refs_ok (geos d) geo_addressId (addresses d);
  wf_comp_fk : refs_ok (companies d) comp_userId (users d);
  wf_post_fk : refs_ok (posts d) post_userId (users d);
  wf_username_uniq : unique_by (users d) username;
  wf_email_uniq : unique_by (users d) email;
  wf_addr_user_uniq : unique_by (addresses d) addr_userId;
  wf_geo_addr_uniq : unique_by (geos d) geo_addressId;
  wf_comp_user_uniq : unique_by (companies d) comp_userId;
}.

Lemma empty_db_wf : wf_db empty_db.
Proof.
  unfold empty_db, ids_ok, refs_ok, unique_by, col.
  split; simpl; repeat split; try constructor; unfold int4_max; lia.
Qed.
