(* ===== verification/Gateway.v ===== *)
(** * The persistence gateway: the Prisma client calls of the controllers

    A small relational engine over [Schema.db] in the monad [GW].
    - Row primitives with the database's own checks.  An INSERT takes the
      next sequence value first and then checks the unique and
      foreign-key constraints, so a rejected INSERT still consumes an id.
      An UPDATE checks uniqueness.  A DELETE is refused while a row
      references the deleted one (Restrict).
    - [transaction], the envelope of a nested write.  On failure it
      restores every table but keeps the sequences, as Postgres does.
    - Prisma's client-side argument validation: required and optional
      strings, INT4 ids, integer skip/take, and the [undefined]/[null]
      rules of [where] clauses.
    - One definition per Prisma call that the controllers make, named
      after the call. *)

From S2P Require Import Prelude JsValue Schema.
From Stdlib Require Import Ascii.
Local Open Scope Z_scope.

(** ** Record setters *)

Definition set_users (d : db) t := mkDb t (addresses d) (geos d) (companies d) (posts d)
  (seq_user d) (seq_address d) (seq_geo d) (seq_company d) (seq_post d).
Definition set_addresses (d : db) t := mkDb (users d) t (geos d) (companies d) (posts d)
  (seq_user d) (seq_address d) (seq_geo d) (seq_company d) (seq_post d).
Definition set_geos (d : db) t := mkDb (users d) (addresses d) t (companies d) (posts d)
  (seq_user d) (seq_address d) (seq_geo d) (seq_company d) (seq_post d).
Definition set_companies (d : db) t := mkDb (users d) (addresses d) (geos d) t (posts d)
  (seq_user d) (seq_address d) (seq_geo d) (seq_company d) (seq_post d).
Definition set_posts (d : db) t := mkDb (users d) (addresses d) (geos d) (companies d) t
  (seq_user d) (seq_address d) (seq_geo d) (seq_company d) (seq_post d).

(** The five sequences, to address them uniformly. *)
Inductive seq_name := SUser | SAddress | SGeo | SCompany | SPost.

Definition seq_of (d : db) (n : seq_name) : Z :=
  match n with
  | SUser => seq_user d | SAddress => seq_address d | SGeo => seq_geo d
  | SCompany => seq_company d | SPost => seq_post d
  end.

Definition bump_seq (d : db) (n : seq_name) : db :=
  let '(a, b, c, e, f) := (seq_user d, seq_address d, seq_geo d, seq_company d, seq_post d) in
  match n with
  | SUser => mkDb (users d) (addresses d) (geos d) (companies d) (posts d) (a + 1) b c e f
  | SAddress => mkDb (users d) (addresses d) (geos d) (companies d) (posts d) a (b + 1) c e f
  | SGeo => mkDb (users d) (addresses d) (geos d) (companies d) (posts d) a b (c + 1) e f
  | SCompany => mkDb (users d) (addresses d) (geos d) (companies d) (posts d) a b c (e + 1) f
  | SPost => mkDb (users d) (addresses d) (geos d) (companies d) (posts d) a b c e (f + 1)
  end.

(** [d0]'s rows with [d1]'s sequences: what a rolled-back transaction leaves. *)
Definition rollback_to (d0 d1 : db) : db :=
  mkDb (users d0) (addresses d0) (geos d0) (companies d0) (posts d0)
    (seq_user d1) (seq_address d1) (seq_geo d1) (seq_company d1) (seq_post d1).

Definition transaction {A} (m : GW A) : GW A :=
  d0 <- sget ;;
  scatch m (fun e => d1 <- sget ;; sput (rollback_to d0 d1) ;;; sthrow e).

(** ** Write inputs and the columns an update writes *)

(** The [data] objects the controllers build for nested writes. *)
Record geo_input := mkGeoIn { gi_lat : jval; gi_lng : jval }.

Record address_input := mkAddressIn {
  ai_street : jval; ai_suite : jval; ai_city : jval; ai_zipcode : jval;
  ai_geo : option geo_input;
}.

Record company_input := mkCompanyIn { ci_name : jval; ci_catchPhrase : jval; ci_bs : jval }.

Record user_input := mkUserIn {
  ui_name : jval; ui_username : jval; ui_email : jval; ui_phone : jval; ui_website : jval;
  ui_address : option address_input;
  ui_company : option company_input;
}.

(** A field of an update: [undefined] leaves the column, a string sets
    it, [null] clears an optional column and is refused for a required
    one.  Validity is checked for the whole query before any statement
    runs, so the [apply_*] functions are pure. *)
Definition valid_upd_req (v : jval) : bool :=
  match v with JUndef | JStr _ => true | _ => false end.

Definition valid_upd_opt (v : jval) : bool :=
  match v with JUndef | JNull | JStr _ => true | _ => false end.

Definition apply_req (v : jval) (old : string) : string :=
  match v with JStr s => s | _ => old end.

Definition apply_opt (v : jval) (old : option string) : option string :=
  match v with JStr s => Some s | JNull => None | _ => old end.

Definition apply_user_update (c : user_input) (u : user) : user :=
  mkUser (apply_req (ui_name c) (name u)) (apply_req (ui_username c) (username u))
    (apply_req (ui_email c) (email u)) (apply_req (ui_phone c) (phone u))
    (apply_req (ui_website c) (website u)).

Definition apply_address_update (a : address_input) (ad : address) : address :=
  mkAddress (apply_req (ai_street a) (street ad)) (apply_opt (ai_suite a) (suite ad))
    (apply_req (ai_city a) (city ad)) (apply_req (ai_zipcode a) (zipcode ad)) (addr_userId ad).

Definition apply_company_update (k : company_input) (co : company) : company :=
  mkCompany (apply_req (ci_name k) (comp_name co)) (apply_opt (ci_catchPhrase k) (catchPhrase co))
    (apply_opt (ci_bs k) (bs co)) (comp_userId co).

(** ** Row primitives *)

(** [nextval]: an exhausted INT4 sequence is an error. *)
Definition nextval (n : seq_name) : GW Z :=
  d <- sget ;;
  if seq_of d n <=? int4_max then sput (bump_seq d n) ;;; sret (seq_of d n)
  else sthrow IntOutOfRange.

Definition check (b : bool) (e : gw_error) : GW unit :=
  if b then sret tt else sthrow e.

Definition insert_user (u : user) : GW Z :=
  uid <- nextval SUser ;; d <- sget ;;
  check (bool_decide (username u ∉ col (users d) username)
         && bool_decide (email u ∉ col (users d) email)) UniqueViolation ;;;
  sput (set_users d (users d ++ [(uid, u)])) ;;; sret uid.

Definition insert_address (a : address) : GW Z :=
  aid <- nextval SAddress ;; d <- sget ;;
  check (bool_decide (addr_userId a ∈ tbl_keys (users d))) ForeignKeyViolation ;;;
  check (bool_decide (addr_userId a ∉ col (addresses d) addr_userId)) UniqueViolation ;;;
  sput (set_addresses d (addresses d ++ [(aid, a)])) ;;; sret aid.

Definition insert_geo (g : geo) : GW Z :=
  gid <- nextval SGeo ;; d <- sget ;;
  check (bool_decide (geo_addressId g ∈ tbl_keys (addresses d))) ForeignKeyViolation ;;;
  check (bool_decide (geo_addressId g ∉ col (geos d) geo_addressId)) UniqueViolation ;;;
  sput (set_geos d (geos d ++ [(gid, g)])) ;;; sret gid.

Definition insert_company (c : company) : GW Z :=
  cid <- nextval SCompany ;; d <- sget ;;
  check (bool_decide (comp_userId c ∈ tbl_keys (users d))) ForeignKeyViolation ;;;
  check (bool_decide (comp_userId c ∉ col (companies d) comp_userId)) UniqueViolation ;;;
  sput (set_companies d (companies d ++ [(cid, c)])) ;;; sret cid.

Definition insert_post (p : post) : GW Z :=
  pid <- nextval SPost ;; d <- sget ;;
  check (bool_decide (post_userId p ∈ tbl_keys (users d))) ForeignKeyViolation ;;;
  sput (set_posts d (posts d ++ [(pid, p)])) ;;; sret pid.

(** UPDATE of a user row: username and email stay unique among the
    other rows. *)
Definition update_user_row (uid : Z) (u : user) : GW unit :=
  d <- sget ;;
  let others := tbl_filter (fun k _ => negb (Z.eqb k uid)) (users d) in
  check (bool_decide (username u ∉ col others username)
         && bool_decide (email u ∉ col others email)) UniqueViolation ;;;
  sput (set_users d (tbl_set (users d) uid u)).

(** UPDATE of the scalar columns of one row: the foreign key is not
    among them, so it keeps its value.  No row under the id: no change. *)
Definition update_address_row (aid : Z) (a : address_input) : GW unit :=
  d <- sget ;;
  match tbl_find (addresses d) aid with
  | Some ad => sput (set_addresses d (tbl_set (addresses d) aid (apply_address_update a ad)))
  | None => sret tt
  end.

Definition update_geo_row (gid : Z) (la ln : string) : GW unit :=
  d <- sget ;;
  match tbl_find (geos d) gid with
  | Some g => sput (set_geos d (tbl_set (geos d) gid (mkGeo la ln (geo_addressId g))))
  | None => sret tt
  end.

Definition update_company_row (cid : Z) (k : company_input) : GW unit :=
  d <- sget ;;
  match tbl_find (companies d) cid with
  | Some co => sput (set_companies d (tbl_set (companies d) cid (apply_company_update k co)))
  | None => sret tt
  end.

Definition apply_post_update (t b : jval) (p : post) : post :=
  mkPost (apply_req t (title p)) (apply_req b (body p)) (post_userId p).

Definition update_post_row (pid : Z) (t b : jval) : GW unit :=
  d <- sget ;;
  match tbl_find (posts d) pid with
  | Some p => sput (set_posts d (tbl_set (posts d) pid (apply_post_update t b p)))
  | None => sret tt
  end.

(** DELETE ... WHERE p: refused while a remaining row refers to a deleted
    one. *)
Definition drop {A} (p : Z -> A -> bool) (t : table A) : table A :=
  tbl_filter (fun k r => negb (p k r)) t.

Definition referenced {A B} (doomed : table A) (child : table B) (fk : B -> Z) : bool :=
  existsb (fun kr => bool_decide (fk (snd kr) ∈ tbl_keys doomed)) child.

Definition delete_geos (p : Z -> geo -> bool) : GW Z :=
  d <- sget ;;
  sput (set_geos d (drop p (geos d))) ;;; sret (Z.of_nat (length (tbl_filter p (geos d)))).

Definition delete_addresses (p : Z -> address -> bool) : GW Z :=
  d <- sget ;;
  check (negb (referenced (tbl_filter p (addresses d)) (geos d) geo_addressId)) ForeignKeyViolation ;;;
  sput (set_addresses d (drop p (addresses d))) ;;; sret (Z.of_nat (length (tbl_filter p (addresses d)))).

Definition delete_companies (p : Z -> company -> bool) : GW Z :=
  d <- sget ;;
  sput (set_companies d (drop p (companies d))) ;;; sret (Z.of_nat (length (tbl_filter p (companies d)))).

Definition delete_posts (p : Z -> post -> bool) : GW Z :=
  d <- sget ;;
  sput (set_posts d (drop p (posts d))) ;;; sret (Z.of_nat (length (tbl_filter p (posts d)))).

Definition delete_users (p : Z -> user -> bool) : GW Z :=
  d <- sget ;;
  let doomed := tbl_filter p (users d) in
  check (negb (referenced doomed (addresses d) addr_userId || referenced doomed (companies d) comp_userId
               || referenced doomed (posts d) post_userId)) ForeignKeyViolation ;;;
  sput (set_users d (drop p (users d))) ;;; sret (Z.of_nat (length doomed)).

(** ** Prisma client-side argument validation *)

Definition int4_range (z : Z) : bool := (- int4_max - 1 <=? z) && (z <=? int4_max).

(** An [Int] argument: an integer, within INT4. *)
Definition int_arg (n : jsnum) : GW Z :=
  match js_integer n with
  | Some z => if int4_range z then sret z else sthrow IntOutOfRange
  | None => sthrow PrismaValidation
  end.

(** A required [String] field of a create. *)
Definition req_str (v : jval) : GW string :=
  match v with JStr s => sret s | _ => sthrow PrismaValidation end.

(** An optional [String?] field of a create: [undefined] and [null] both
    store NULL. *)
Definition opt_str (v : jval) : GW (option string) :=
  match v with
  | JStr s => sret (Some s)
  | JUndef | JNull => sret None
  | _ => sthrow PrismaValidation
  end.

(** [skip] and [take]: integers, [skip] not negative. *)
Definition page_args (skip take : jsnum) : GW (Z * Z) :=
  match js_integer skip, js_integer take with
  | Some s, Some t => if s <? 0 then sthrow PrismaValidation else sret (s, t)
  | _, _ => sthrow PrismaValidation
  end.

(** [skip]/[take] on a result list.  A negative [take] counts from the
    end, keeping the order. *)
Definition paginate {A} (rows : list A) (skip take : Z) : list A :=
  if 0 <=? take then firstn (Z.to_nat take) (skipn (Z.to_nat skip) rows)
  else rev (firstn (Z.to_nat (- take)) (skipn (Z.to_nat skip) (rev rows))).

(** ** String filters: [{ contains: s, mode: "insensitive" }] *)

Definition ascii_lower (c : ascii) : ascii :=
  let n := nat_of_ascii c in
  if (65 <=? n)%nat && (n <=? 90)%nat then ascii_of_nat (n + 32) else c.

Fixpoint str_lower (s : string) : string :=
  match s with
  | String.EmptyString => String.EmptyString
  | String.String c s' => String.String (ascii_lower c) (str_lower s')
  end.

Fixpoint str_contains (hay needle : string) : bool :=
  String.prefix needle hay ||
  match hay with
  | String.EmptyString => false
  | String.String _ h' => str_contains h' needle
  end.

Definition contains_ci (hay needle : string) : bool :=
  str_contains (str_lower hay) (str_lower needle).

Definition opt_filter (f : option string) (x : string) : bool :=
  match f with Some s => contains_ci x s | None => true end.

(** ** Relations as [include] returns them *)

Definition user_address (d : db) (uid : Z) : option (Z * address) :=
  List.find (fun kr => Z.eqb (addr_userId (snd kr)) uid) (addresses d).

Definition address_geo_of (d : db) (aid : Z) : option (Z * geo) :=
  List.find (fun kr => Z.eqb (geo_addressId (snd kr)) aid) (geos d).

Definition user_company (d : db) (uid : Z) : option (Z * company) :=
  List.find (fun kr => Z.eqb (comp_userId (snd kr)) uid) (companies d).

Definition with_geo (d : db) (a : Z * address) : address_geo :=
  (fst a, snd a, address_geo_of d (fst a)).

(** ** prisma.user *)

Record user_filter := mkUserFilter {
  uf_username : option string;
  uf_email : option string;
  uf_city : option string;
}.

Definition user_matches (d : db) (f : user_filter) (uid : Z) (u : user) : bool :=
  opt_filter (uf_username f) (username u) && opt_filter (uf_email f) (email u) &&
  match uf_city f with
  | None => true
  | Some c => match user_address d uid with Some (_, a) => contains_ci (city a) c | None => false end
  end.

Definition user_findMany (f : user_filter) (skip take : jsnum) : GW (list (Z * user)) :=
  st <- page_args skip take ;; d <- sget ;;
  sret (paginate (tbl_filter (user_matches d f) (users d)) (fst st) (snd st)).

Definition user_count (f : user_filter) : GW Z :=
  d <- sget ;; sret (Z.of_nat (length (tbl_filter (user_matches d f) (users d)))).

Abbreviation user_full := (Z * user * option address_geo * option (Z * company))%type.

(** [findUnique({ where: { id }, include: { address: { include: { geo } }, company } })] *)
Definition user_findUnique_full (id : jsnum) : GW (option user_full) :=
  uid <- int_arg id ;; d <- sget ;;
  sret (match tbl_find (users d) uid with
        | Some u => Some (uid, u, option_map (with_geo d) (user_address d uid), user_company d uid)
        | None => None
        end).

(** One branch [{ field: v }] of an [OR]: [undefined] drops the branch;
    [null] on the required columns [username] and [email] is refused by
    Prisma's argument validation, like any value that is not a string. *)
Inductive where_eq := WDrop | WEq (s : string).

Definition where_eq_arg (v : jval) : GW where_eq :=
  match v with
  | JUndef => sret WDrop
  | JStr s => sret (WEq s)
  | _ => sthrow PrismaValidation
  end.

Definition where_eq_match (w : where_eq) (x : string) : bool :=
  match w with WEq s => String.eqb x s | _ => false end.

(** [findFirst({ where: { OR: [{ username }, { email }], NOT: { id } } })],
    the [NOT] part when [excl] is given. *)
Definition user_findFirst_dup (vu ve : jval) (excl : option jsnum) : GW (option (Z * user)) :=
  wu <- where_eq_arg vu ;; we <- where_eq_arg ve ;;
  ex <- match excl with Some n => x <- int_arg n ;; sret (Some x) | None => sret None end ;;
  d <- sget ;;
  sret (List.find (fun kr => (where_eq_match wu (username (snd kr)) || where_eq_match we (email (snd kr)))
                             && match ex with Some x => negb (Z.eqb (fst kr) x) | None => true end)
                  (users d)).

Definition geo_create_data (g : geo_input) : GW (string * string) :=
  la <- req_str (gi_lat g) ;; ln <- req_str (gi_lng g) ;; sret (la, ln).

Definition address_create_data (a : address_input)
  : GW (string * option string * string * string * option (string * string)) :=
  st <- req_str (ai_street a) ;; su <- opt_str (ai_suite a) ;;
  ci <- req_str (ai_city a) ;; zp <- req_str (ai_zipcode a) ;;
  g <- match ai_geo a with Some g => x <- geo_create_data g ;; sret (Some x) | None => sret None end ;;
  sret (st, su, ci, zp, g).

Definition company_create_data (c : company_input) : GW (string * option string * option string) :=
  n <- req_str (ci_name c) ;; cp <- opt_str (ci_catchPhrase c) ;; b <- opt_str (ci_bs c) ;;
  sret (n, cp, b).

Definition opt_data {I O} (f : I -> GW O) (o : option I) : GW (option O) :=
  match o with Some i => x <- f i ;; sret (Some x) | None => sret None end.

(** [user.create({ data: { ..., address: { create: { ..., geo: { create } } },
    company: { create } } })]: validated first, then one transaction. *)
Definition user_create (c : user_input) : GW (Z * user) :=
  nm <- req_str (ui_name c) ;; un <- req_str (ui_username c) ;; em <- req_str (ui_email c) ;;
  ph <- req_str (ui_phone c) ;; ws <- req_str (ui_website c) ;;
  av <- opt_data address_create_data (ui_address c) ;;
  cv <- opt_data company_create_data (ui_company c) ;;
  let u := mkUser nm un em ph ws in
  transaction (
    uid <- insert_user u ;;
    match av with
    | Some (st, su, ci, zp, g) =>
        aid <- insert_address (mkAddress st su ci zp uid) ;;
        match g with Some (la, ln) => insert_geo (mkGeo la ln aid) ;;; sret tt | None => sret tt end
    | None => sret tt
    end ;;;
    match cv with
    | Some (n, cp, b) => insert_company (mkCompany n cp b uid) ;;; sret tt
    | None => sret tt
    end ;;;
    sret (uid, u)).

Definition valid_user_update (c : user_input) : bool :=
  valid_upd_req (ui_name c) && valid_upd_req (ui_username c) && valid_upd_req (ui_email c)
  && valid_upd_req (ui_phone c) && valid_upd_req (ui_website c)
  && match ui_address c with
     | Some a => valid_upd_req (ai_street a) && valid_upd_opt (ai_suite a)
                 && valid_upd_req (ai_city a) && valid_upd_req (ai_zipcode a)
     | None => true
     end
  && match ui_company c with
     | Some k => valid_upd_req (ci_name k) && valid_upd_opt (ci_catchPhrase k) && valid_upd_opt (ci_bs k)
     | None => true
     end.

(** [geo: { upsert: { create: g, update: g } }] of a nested address update. *)
Definition geo_upsert (aid : Z) (g : string * string) : GW unit :=
  d <- sget ;;
  match address_geo_of d aid with
  | Some (gid, _) => update_geo_row gid (fst g) (snd g)
  | None => insert_geo (mkGeo (fst g) (snd g) aid) ;;; sret tt
  end.

(** [user.update({ where: { id }, data: { ..., address: { update: ... },
    company: { update: ... } } })].  A nested [update] of a relation the
    user does not have is a RecordNotFound. *)
Definition user_update (id : jsnum) (c : user_input) : GW (Z * user) :=
  uid <- int_arg id ;;
  check (valid_user_update c) PrismaValidation ;;;
  gv <- opt_data geo_create_data (match ui_address c with Some a => ai_geo a | None => None end) ;;
  transaction (
    d <- sget ;;
    match tbl_find (users d) uid with
    | None => sthrow RecordNotFound
    | Some u =>
        let u' := apply_user_update c u in
        update_user_row uid u' ;;;
        match ui_address c with
        | Some a =>
            d <- sget ;;
            match user_address d uid with
            | Some (aid, _) =>
                update_address_row aid a ;;;
                match gv with Some g => geo_upsert aid g | None => sret tt end
            | None => sthrow RecordNotFound
            end
        | None => sret tt
        end ;;;
        match ui_company c with
        | Some k =>
            d <- sget ;;
            match user_company d uid with
            | Some (cid, _) => update_company_row cid k
            | None => sthrow RecordNotFound
            end
        | None => sret tt
        end ;;;
        sret (uid, u')
    end).

(** [geo.deleteMany({ where: { address: { userId } } })] *)
Definition geo_deleteMany_user (id : jsnum) : GW Z :=
  uid <- int_arg id ;; d <- sget ;;
  delete_geos (fun _ g => match tbl_find (addresses d) (geo_addressId g) with
                          | Some a => Z.eqb (addr_userId a) uid
                          | None => false
                          end).

(** [address/company/post.deleteMany({ where: { userId } })] *)
Definition address_deleteMany_user (id : jsnum) : GW Z :=
  uid <- int_arg id ;; delete_addresses (fun _ a => Z.eqb (addr_userId a) uid).

Definition company_deleteMany_user (id : jsnum) : GW Z :=
  uid <- int_arg id ;; delete_companies (fun _ c => Z.eqb (comp_userId c) uid).

Definition post_deleteMany_user (id : jsnum) : GW Z :=
  uid <- int_arg id ;; delete_posts (fun _ p => Z.eqb (post_userId p) uid).

(** [user.delete({ where: { id } })]: RecordNotFound when absent. *)
Definition user_delete (id : jsnum) : GW (Z * user) :=
  uid <- int_arg id ;; d <- sget ;;
  match tbl_find (users d) uid with
  | Some u => delete_users (fun k _ => Z.eqb k uid) ;;; sret (uid, u)
  | None => sthrow RecordNotFound
  end.

(** ** prisma.post *)

Definition post_matches (t : option string) (uid : option Z) (p : post) : bool :=
  opt_filter t (title p) && match uid with Some x => Z.eqb (post_userId p) x | None => true end.

(** [include: { user: true }]: the relation is required, so a missing
    user is an inconsistent result. *)
Definition include_user (d : db) (pp : Z * post) : GW (Z * post * (Z * user)) :=
  match tbl_find (users d) (post_userId (snd pp)) with
  | Some u => sret (fst pp, snd pp, (post_userId (snd pp), u))
  | None => sthrow InconsistentResult
  end.

Fixpoint include_users (d : db) (l : list (Z * post)) : GW (list (Z * post * (Z * user))) :=
  match l with
  | [] => sret []
  | pp :: l' => x <- include_user d pp ;; xs <- include_users d l' ;; sret (x :: xs)
  end.

Definition post_where (t : option string) (uid : option jsnum) : GW (option Z) :=
  opt_data int_arg uid.

Definition post_findMany (t : option string) (uid : option jsnum) (skip take : jsnum)
  : GW (list (Z * post * (Z * user))) :=
  w <- post_where t uid ;; st <- page_args skip take ;; d <- sget ;;
  include_users d (paginate (tbl_filter (fun _ p => post_matches t w p) (posts d)) (fst st) (snd st)).

Definition post_count (t : option string) (uid : option jsnum) : GW Z :=
  w <- post_where t uid ;; d <- sget ;;
  sret (Z.of_nat (length (tbl_filter (fun _ p => post_matches t w p) (posts d)))).

Definition post_findUnique_with_user (id : jsnum) : GW (option (Z * post * (Z * user))) :=
  pid <- int_arg id ;; d <- sget ;;
  match tbl_find (posts d) pid with
  | Some p => x <- include_user d (pid, p) ;; sret (Some x)
  | None => sret None
  end.

Definition post_create (t b : jval) (uid : jsnum) : GW (Z * post) :=
  ti <- req_str t ;; bo <- req_str b ;; u <- int_arg uid ;;
  let p := mkPost ti bo u in
  pid <- insert_post p ;; sret (pid, p).

Definition post_update (id : jsnum) (t b : jval) : GW (Z * post) :=
  pid <- int_arg id ;;
  check (valid_upd_req t && valid_upd_req b) PrismaValidation ;;;
  d <- sget ;;
  match tbl_find (posts d) pid with
  | Some p => update_post_row pid t b ;;; sret (pid, apply_post_update t b p)
  | None => sthrow RecordNotFound
  end.

Definition post_delete (id : jsnum) : GW (Z * post) :=
  pid <- int_arg id ;; d <- sget ;;
  match tbl_find (posts d) pid with
  | Some p => delete_posts (fun k _ => Z.eqb k pid) ;;; sret (pid, p)
  | None => sthrow RecordNotFound
  end.

(** [post.findMany({ where: { userId } })] *)
Definition post_findMany_user (id : jsnum) : GW (list (Z * post)) :=
  uid <- int_arg id ;; d <- sget ;;
  sret (tbl_filter (fun _ p => Z.eqb (post_userId p) uid) (posts d)).
