(* ===== verification/GatewayFacts.v ===== *)
(** * The gateway keeps the database well formed

    [gw_ok d d'] says that the sequences of [d'] are at least those of
    [d] and that [d'] is well formed whenever [d] is.  It is a preorder,
    and every gateway call [c] satisfies [st_steps gw_ok c]: on success
    and on failure alike, whatever the arguments.  The handlers inherit
    the property by [st_step_tac].  The first part holds the column
    lemmas shared by the per-call proofs: appending a fresh row, replacing
    a row, and deleting rows, for each component of [wf_db].  The later
    parts hold the run lemmas of the calls (their result on inputs that
    satisfy the constraints), the substring lemmas of the [insensitive]
    filter, and the aborted writes: a failed [transaction] leaves the rows
    as they were ([transaction_abort]), and a nested company update of a
    user without a company always fails ([user_update_no_company]). *)

From S2P Require Import Prelude JsValue Schema Gateway.
Local Open Scope Z_scope.

(** ** Columns and keys *)

Section Columns.
Context {A : Type}.
Implicit Types (t : table A) (k : Z) (r : A).

Lemma tbl_keys_app t1 t2 : tbl_keys (t1 ++ t2) = tbl_keys t1 ++ tbl_keys t2.
Proof. apply map_app. Qed.

Lemma col_app {B} t1 t2 (f : A -> B) : col (t1 ++ t2) f = col t1 f ++ col t2 f.
Proof. apply map_app. Qed.

Lemma NoDup_map_filter {X Y} (g : X -> Y) (p : X -> bool) (l : list X) :
  NoDup (map g l) -> NoDup (map g (List.filter p l)).
Proof.
  induction l as [|x l IH]; simpl; [auto|].
  intros Hnd. apply NoDup_cons in Hnd as [Hx Hnd].
  destruct (p x); simpl; [|auto].
  constructor; [|auto].
  intros Hin. apply Hx. apply list_elem_of_In in Hin. apply list_elem_of_In.
  apply in_map_iff in Hin as [y [<- Hy]]. apply filter_In in Hy as [Hy _].
  apply in_map. exact Hy.
Qed.

Lemma col_filter_sub {B} (p : Z -> A -> bool) t (f : A -> B) : col (tbl_filter p t) f ⊆ col t f.
Proof.
  intros x. unfold col, tbl_filter. rewrite !list_elem_of_In, !in_map_iff.
  intros [kr [Hx Hin]]. apply filter_In in Hin as [Hin _]. eauto.
Qed.

Lemma unique_by_filter {B} p t (f : A -> B) : unique_by t f -> unique_by (tbl_filter p t) f.
Proof. apply NoDup_map_filter. Qed.

Lemma keys_NoDup_filter p t : NoDup (tbl_keys t) -> NoDup (tbl_keys (tbl_filter p t)).
Proof. apply NoDup_map_filter. Qed.

Lemma tbl_set_notin t k r : k ∉ tbl_keys t -> tbl_set t k r = t.
Proof.
  induction t as [|[k' r'] t IH]; simpl; [reflexivity|].
  rewrite elem_of_cons. intros Hk. destruct (Z.eqb_spec k' k); [subst; naive_solver|].
  f_equal. apply IH. naive_solver.
Qed.

Lemma tbl_filter_ne_notin t k : k ∉ tbl_keys t -> tbl_filter (fun k' _ => negb (Z.eqb k' k)) t = t.
Proof.
  induction t as [|[k' r'] t IH]; simpl; [reflexivity|].
  rewrite elem_of_cons. intros Hk. unfold tbl_filter in *. simpl.
  destruct (Z.eqb_spec k' k); [subst; naive_solver|]. simpl. f_equal. apply IH. naive_solver.
Qed.

(** Replacing the row under an existing key [k]: the column is the new
    value followed by the column of the other rows, up to order. *)
Lemma col_set_perm {B} t k r (f : A -> B) :
  NoDup (tbl_keys t) -> k ∈ tbl_keys t ->
  Permutation (col (tbl_set t k r) f) (f r :: col (tbl_filter (fun k' _ => negb (Z.eqb k' k)) t) f).
Proof.
  induction t as [|[k0 r0] t IH]; simpl; [rewrite elem_of_nil; contradiction|].
  intros Hnd Hk. apply NoDup_cons in Hnd as [Hk0 Hnd]. unfold tbl_filter in *. simpl.
  destruct (Z.eqb_spec k0 k) as [->|Hne]; simpl.
  - rewrite tbl_set_notin by exact Hk0.
    fold (tbl_filter (fun k' (_ : A) => negb (Z.eqb k' k)) t).
    rewrite tbl_filter_ne_notin by exact Hk0. reflexivity.
  - rewrite elem_of_cons in Hk. destruct Hk as [->|Hk]; [congruence|].
    rewrite IH by assumption. apply perm_swap.
Qed.

Lemma unique_by_set {B} t k r (f : A -> B) :
  NoDup (tbl_keys t) -> k ∈ tbl_keys t -> unique_by t f ->
  f r ∉ col (tbl_filter (fun k' _ => negb (Z.eqb k' k)) t) f ->
  unique_by (tbl_set t k r) f.
Proof.
  intros Hnd Hk Hu Hr. unfold unique_by.
  rewrite (col_set_perm t k r f Hnd Hk).
  constructor; [exact Hr|]. apply unique_by_filter. exact Hu.
Qed.

(** Replacing a row by one with the same value in column [f] keeps the
    column. *)
Lemma col_set_same {B} t k r r0 (f : A -> B) :
  NoDup (tbl_keys t) -> tbl_find t k = Some r0 -> f r = f r0 -> col (tbl_set t k r) f = col t f.
Proof.
  induction t as [|[k' r'] t IH]; simpl; [discriminate|].
  intros Hnd Hfind Hf. apply NoDup_cons in Hnd as [Hk' Hnd].
  destruct (Z.eqb_spec k' k) as [->|Hne]; simpl.
  - rewrite Z.eqb_refl in Hfind. inversion Hfind; subst.
    rewrite tbl_set_notin by exact Hk'. rewrite Hf. reflexivity.
  - rewrite (proj2 (Z.eqb_neq k k')) in Hfind by congruence.
    f_equal. apply IH; assumption.
Qed.
End Columns.

(** ** The components of [wf_db] under appending, replacing and deleting *)

Section WfPieces.
Context {A B : Type}.
Implicit Types (t : table A) (p : table B).

Lemma ids_ok_append t seq r : ids_ok t seq -> seq <= int4_max -> ids_ok (t ++ [(seq, r)]) (seq + 1).
Proof.
  intros (Hnd & Hb & Hs) Hmax. unfold ids_ok. rewrite tbl_keys_app. simpl. repeat split.
  - apply NoDup_app. repeat split; [exact Hnd| |apply NoDup_singleton].
    intros x Hx Hy. apply list_elem_of_singleton in Hy. subst.
    rewrite Forall_forall in Hb. specialize (Hb _ Hx). lia.
  - apply Forall_app. split; [|constructor; [lia | constructor]].
    eapply Forall_impl; [exact Hb|]. simpl. lia.
  - lia.
  - lia.
Qed.

Lemma ids_ok_grow t s s' : ids_ok t s -> s <= s' <= int4_max + 1 -> ids_ok t s'.
Proof.
  intros (Hnd & Hb & Hs) Hle. repeat split; [exact Hnd| |lia|lia].
  eapply Forall_impl; [exact Hb|]. simpl. lia.
Qed.

Lemma ids_ok_filter q t s : ids_ok t s -> ids_ok (tbl_filter q t) s.
Proof.
  intros (Hnd & Hb & Hs). repeat split; [apply keys_NoDup_filter; exact Hnd| |lia|lia].
  rewrite Forall_forall in *. intros x Hx. apply Hb.
  apply tbl_keys_filter_sub in Hx. exact Hx.
Qed.

Lemma ids_ok_set t k r s : ids_ok t s -> ids_ok (tbl_set t k r) s.
Proof. unfold ids_ok. rewrite tbl_keys_set. exact id. Qed.

Lemma refs_ok_parent (c : table A) fk p p' :
  refs_ok c fk p -> tbl_keys p ⊆ tbl_keys p' -> refs_ok c fk p'.
Proof. intros H Hsub. eapply Forall_impl; [exact H|]. intros x Hx. apply Hsub. exact Hx. Qed.

Lemma refs_ok_append (c : table A) fk p k r :
  refs_ok c fk p -> fk r ∈ tbl_keys p -> refs_ok (c ++ [(k, r)]) fk p.
Proof. intros H Hr. apply Forall_app. split; [exact H | constructor; [exact Hr | constructor]]. Qed.

Lemma refs_ok_filter (c : table A) fk p q : refs_ok c fk p -> refs_ok (tbl_filter q c) fk p.
Proof.
  unfold refs_ok. rewrite !Forall_forall. intros H [k r] Hin.
  apply list_elem_of_In, tbl_filter_In in Hin as [Hin _]. apply H, list_elem_of_In. exact Hin.
Qed.

Lemma refs_ok_set (c : table A) fk p k r r0 :
  tbl_find c k = Some r0 -> fk r = fk r0 -> refs_ok c fk p -> refs_ok (tbl_set c k r) fk p.
Proof.
  unfold refs_ok. rewrite !Forall_forall. intros Hf Hfk H [k' r'] Hin.
  apply list_elem_of_In, tbl_set_In in Hin as [(-> & -> & _)|(_ & Hin)]; simpl.
  - rewrite Hfk. apply (H (k, r0)), list_elem_of_In, tbl_find_Some. exact Hf.
  - apply (H (k', r')), list_elem_of_In. exact Hin.
Qed.

(** Deleting parent rows that no child refers to keeps the references. *)
Lemma refs_ok_drop_parent (c : table A) fk p q :
  refs_ok c fk p -> referenced (tbl_filter q p) c fk = false -> refs_ok c fk (drop q p).
Proof.
  unfold refs_ok, referenced. rewrite !Forall_forall. intros H Hnr kr Hin.
  pose proof Hin as Hin'. apply list_elem_of_In in Hin'.
  assert (Hnot : fk (snd kr) ∉ tbl_keys (tbl_filter q p)).
  { intros Hk. assert (Hex : existsb (fun kr => bool_decide (fk (snd kr) ∈ tbl_keys (tbl_filter q p))) c = true).
    { apply existsb_exists. exists kr. split; [exact Hin' | apply bool_decide_eq_true; exact Hk]. }
    congruence. }
  specialize (H kr Hin). unfold tbl_keys in H. apply list_elem_of_In, in_map_iff in H as [[k r] [Hk Hkr]].
  simpl in Hk. subst k. apply list_elem_of_In, in_map_iff. exists (fk (snd kr), r). split; [reflexivity|].
  unfold drop. apply tbl_filter_In. split; [exact Hkr|].
  destruct (q (fk (snd kr)) r) eqn:Hq; [|reflexivity]. exfalso. apply Hnot.
  apply list_elem_of_In, in_map_iff. exists (fk (snd kr), r). split; [reflexivity|].
  apply tbl_filter_In. auto.
Qed.

Lemma unique_by_append {C} t (f : A -> C) k r :
  unique_by t f -> f r ∉ col t f -> unique_by (t ++ [(k, r)]) f.
Proof.
  intros Hu Hr. unfold unique_by. rewrite col_app. simpl.
  apply NoDup_app. repeat split; [exact Hu| |apply NoDup_singleton].
  intros x Hx Hy. apply list_elem_of_singleton in Hy. subst. contradiction.
Qed.

Lemma unique_by_set_same {C} t (f : A -> C) k r r0 :
  NoDup (tbl_keys t) -> tbl_find t k = Some r0 -> f r = f r0 -> unique_by t f -> unique_by (tbl_set t k r) f.
Proof. intros Hnd Hf Hfr Hu. unfold unique_by. erewrite col_set_same; eauto. Qed.
End WfPieces.

#[export] Hint Resolve ids_ok_filter ids_ok_set refs_ok_filter unique_by_filter refs_ok_append
  unique_by_append : blog.

(** ** [gw_ok], the relation every gateway call establishes *)

Definition seq_le (d d' : db) : Prop := forall n, seq_of d n <= seq_of d' n.

Definition gw_ok (d d' : db) : Prop := seq_le d d' /\ (wf_db d -> wf_db d').

#[export] Instance gw_ok_refl : Reflexive gw_ok.
Proof. intros d. split; [intros n; lia | exact id]. Qed.

#[export] Instance gw_ok_trans : Transitive gw_ok.
Proof.
  intros d1 d2 d3 [H12 W12] [H23 W23]. split; [intros n; specialize (H12 n); specialize (H23 n); lia|].
  intros W. apply W23, W12, W.
Qed.

Lemma gw_ok_wf d d' : gw_ok d d' -> wf_db d -> wf_db d'.
Proof. intros [_ W] Hd. apply W, Hd. Qed.

(** ** Sequences *)

Lemma seq_le_bump d n : seq_le d (bump_seq d n).
Proof. intros m. destruct n, m; simpl; lia. Qed.

Lemma wf_bump d n : wf_db d -> seq_of d n <= int4_max -> wf_db (bump_seq d n).
Proof.
  intros [] Hn. destruct n; simpl in *; constructor; simpl; auto;
    eapply ids_ok_grow; eauto; match goal with H : ids_ok _ _ |- _ => destruct H as (_ & _ & ?) end; lia.
Qed.

Lemma gw_ok_bump d n : seq_of d n <= int4_max -> gw_ok d (bump_seq d n).
Proof. intros Hn. split; [apply seq_le_bump | intros W; apply wf_bump; assumption]. Qed.

Lemma nextval_run n d :
  nextval n d = if seq_of d n <=? int4_max then (Ok (seq_of d n), bump_seq d n) else (Exn IntOutOfRange, d).
Proof. unfold nextval, sbind, sget. simpl. destruct (seq_of d n <=? int4_max); reflexivity. Qed.

Lemma nextval_ok n : st_steps gw_ok (nextval n).
Proof.
  intros d. rewrite nextval_run. destruct (Z.leb_spec (seq_of d n) int4_max); simpl.
  - apply gw_ok_bump. exact H.
  - reflexivity.
Qed.

Lemma check_run b e d : check b e d = if b then (Ok tt, d) else (Exn e, d).
Proof. destruct b; reflexivity. Qed.

#[export] Hint Rewrite nextval_run check_run : blog_rw.

Lemma keys_sub_app {A} (t : table A) k r : tbl_keys t ⊆ tbl_keys (t ++ [(k, r)]).
Proof. rewrite tbl_keys_app. set_solver. Qed.

Lemma keys_sub_drop {A} (t : table A) q : tbl_keys (drop q t) ⊆ tbl_keys t.
Proof. apply tbl_keys_filter_sub. Qed.

#[export] Hint Resolve keys_sub_app keys_sub_drop : blog.

(** The running state of an INSERT: it is well formed, and so is the
    state with the row appended once the checks have passed. *)
Ltac wf_finish :=
  repeat match goal with
         | H : wf_db _ |- _ => destruct H
         end;
  constructor; simpl in *;
  eauto using ids_ok_append, refs_ok_parent, ids_ok_grow with blog.

(** ** INSERT *)

Lemma insert_user_ok u : st_steps gw_ok (insert_user u).
Proof.
  intros d. unfold insert_user, sbind, sget, sput, sret. rewrite nextval_run.
  destruct (Z.leb_spec (seq_of d SUser) int4_max) as [Hn|Hn]; simpl; [|reflexivity].
  rewrite check_run.
  destruct (bool_decide (username u ∉ col (users d) username) && bool_decide (email u ∉ col (users d) email))
    eqn:Hc; simpl; [|apply gw_ok_bump; exact Hn].
  apply andb_true_iff in Hc as [Hc1 Hc2]. apply bool_decide_eq_true in Hc1, Hc2.
  split; [intros m; destruct m; simpl; lia|]. intros W. wf_finish.
Qed.

Ltac insert_tac :=
  intros d; unfold insert_address, insert_geo, insert_company, insert_post, sbind, sget, sput, sret;
  rewrite nextval_run;
  match goal with |- context [seq_of d ?n <=? int4_max] =>
    destruct (Z.leb_spec (seq_of d n) int4_max) as [Hn|Hn] end; simpl; [|reflexivity];
  repeat (rewrite check_run;
          match goal with |- context [if ?b then _ else _] =>
            let Hc := fresh "Hc" in
            destruct b eqn:Hc; simpl; [apply bool_decide_eq_true in Hc | apply gw_ok_bump; assumption]
          end);
  split; [intros m; destruct m; simpl; lia|]; intros W; wf_finish.

Lemma insert_address_ok a : st_steps gw_ok (insert_address a).
Proof. insert_tac. Qed.

Lemma insert_geo_ok g : st_steps gw_ok (insert_geo g).
Proof. insert_tac. Qed.

Lemma insert_company_ok c : st_steps gw_ok (insert_company c).
Proof. insert_tac. Qed.

Lemma insert_post_ok p : st_steps gw_ok (insert_post p).
Proof. insert_tac. Qed.

(** ** UPDATE *)

Lemma keys_sub_set {A} (t : table A) k r : tbl_keys t ⊆ tbl_keys (tbl_set t k r).
Proof. rewrite tbl_keys_set. reflexivity. Qed.

#[export] Hint Resolve keys_sub_set : blog.

Lemma update_user_row_ok uid u : st_steps gw_ok (update_user_row uid u).
Proof.
  intros d. unfold update_user_row, sbind, sget, sput, sret. rewrite check_run.
  match goal with |- context [if ?b then _ else _] => destruct b eqn:Hc end; simpl; [|reflexivity].
  apply andb_true_iff in Hc as [Hc1 Hc2]. apply bool_decide_eq_true in Hc1, Hc2.
  split; [intros m; destruct m; simpl; lia|]. intros W.
  destruct (decide (uid ∈ tbl_keys (users d))) as [Hin|Hout].
  - pose proof (wf_users d W) as (Hnd & _). wf_finish; apply unique_by_set; assumption.
  - rewrite tbl_set_notin by exact Hout. wf_finish.
Qed.

(** The row-update primitives keep the foreign key and every unique
    column but the user's. *)
Ltac update_tac :=
  intros d; unfold update_address_row, update_geo_row, update_company_row, update_post_row,
    sbind, sget, sput, sret;
  match goal with |- context [match tbl_find ?t ?k with _ => _ end] =>
    destruct (tbl_find t k) eqn:Hf end; simpl; [|reflexivity];
  split; [intros m; destruct m; simpl; lia|]; intros W;
  wf_finish;
  first [ eapply refs_ok_set; [eassumption | reflexivity | eassumption]
        | eapply unique_by_set_same;
          [ match goal with H : ids_ok ?t _ |- NoDup (tbl_keys ?t) => apply H end
          | eassumption | reflexivity | eassumption ] ].

Lemma update_address_row_ok aid a : st_steps gw_ok (update_address_row aid a).
Proof. update_tac. Qed.

Lemma update_geo_row_ok gid la ln : st_steps gw_ok (update_geo_row gid la ln).
Proof. update_tac. Qed.

Lemma update_company_row_ok cid k : st_steps gw_ok (update_company_row cid k).
Proof. update_tac. Qed.

Lemma update_post_row_ok pid t b : st_steps gw_ok (update_post_row pid t b).
Proof. update_tac. Qed.

(** ** DELETE *)

Ltac delete_tac :=
  intros d; unfold delete_geos, delete_addresses, delete_companies, delete_posts, delete_users,
    sbind, sget, sput, sret;
  repeat (rewrite check_run;
          match goal with |- context [if ?b then _ else _] =>
            let Hc := fresh "Hc" in destruct b eqn:Hc; simpl; [|reflexivity]
          end);
  repeat match goal with
         | H : negb _ = true |- _ => apply negb_true_iff in H
         | H : (_ || _) = false |- _ => apply orb_false_iff in H as [? ?]
         end;
  split; [intros m; destruct m; simpl; lia|]; intros W;
  wf_finish; unfold drop in *; eauto using refs_ok_drop_parent with blog.

Lemma delete_geos_ok p : st_steps gw_ok (delete_geos p).
Proof. delete_tac. Qed.

Lemma delete_addresses_ok p : st_steps gw_ok (delete_addresses p).
Proof. delete_tac. Qed.

Lemma delete_companies_ok p : st_steps gw_ok (delete_companies p).
Proof. delete_tac. Qed.

Lemma delete_posts_ok p : st_steps gw_ok (delete_posts p).
Proof. delete_tac. Qed.

Lemma delete_users_ok p : st_steps gw_ok (delete_users p).
Proof. delete_tac. Qed.

#[export] Hint Resolve nextval_ok insert_user_ok insert_address_ok insert_geo_ok insert_company_ok
  insert_post_ok update_user_row_ok update_address_row_ok update_geo_row_ok update_company_row_ok
  update_post_row_ok delete_geos_ok delete_addresses_ok delete_companies_ok delete_posts_ok
  delete_users_ok : blog.

(** ** Transactions *)

(** A rolled-back transaction leaves the old rows with the newer
    sequences: still well formed, because sequences only grow and stay
    within INT4. *)
Lemma gw_ok_rollback d0 d1 : gw_ok d0 d1 -> gw_ok d0 (rollback_to d0 d1).
Proof.
  intros [Hle W]. split; [intros n; specialize (Hle n); destruct n; simpl in *; lia|].
  intros W0. pose proof (W W0) as W1. pose proof (Hle SUser). pose proof (Hle SAddress).
  pose proof (Hle SGeo). pose proof (Hle SCompany). pose proof (Hle SPost). simpl in *.
  destruct W0, W1. constructor; simpl; auto;
    (eapply ids_ok_grow; [eassumption|];
     match goal with H : ids_ok _ (?s d1) |- _ <= ?s d1 <= _ => destruct H as (_ & _ & ?) end; lia).
Qed.

Lemma transaction_ok {A} (m : GW A) : st_steps gw_ok m -> st_steps gw_ok (transaction m).
Proof.
  intros Hm d0. unfold transaction, sbind, sget, scatch, sput, sthrow. specialize (Hm d0).
  destruct (m d0) as [[a|e] d1]; simpl in *; [exact Hm | apply gw_ok_rollback; exact Hm].
Qed.

#[export] Hint Resolve transaction_ok : blog.

(** ** The Prisma calls *)

Lemma check_ok b e : st_steps gw_ok (check b e).
Proof. unfold check. st_step_tac. Qed.

Lemma opt_data_ok {I O} (f : I -> GW O) (o : option I) :
  (forall i, st_steps gw_ok (f i)) -> st_steps gw_ok (opt_data f o).
Proof. intros Hf. unfold opt_data. destruct o; st_step_tac; auto. Qed.

#[export] Hint Resolve check_ok : blog.

Ltac gw_tac :=
  repeat first
    [ solve [eauto with blog]
    | apply transaction_ok
    | apply opt_data_ok; intro
    | st_step1 ].

Lemma int_arg_ok n : st_steps gw_ok (int_arg n).
Proof. unfold int_arg. gw_tac. Qed.
Lemma req_str_ok v : st_steps gw_ok (req_str v).
Proof. unfold req_str. gw_tac. Qed.
Lemma opt_str_ok v : st_steps gw_ok (opt_str v).
Proof. unfold opt_str. gw_tac. Qed.
Lemma page_args_ok s t : st_steps gw_ok (page_args s t).
Proof. unfold page_args. gw_tac. Qed.
Lemma where_eq_arg_ok v : st_steps gw_ok (where_eq_arg v).
Proof. unfold where_eq_arg. gw_tac. Qed.

#[export] Hint Resolve int_arg_ok req_str_ok opt_str_ok page_args_ok where_eq_arg_ok : blog.

Lemma geo_create_data_ok g : st_steps gw_ok (geo_create_data g).
Proof. unfold geo_create_data. gw_tac. Qed.
#[export] Hint Resolve geo_create_data_ok : blog.
Lemma address_create_data_ok a : st_steps gw_ok (address_create_data a).
Proof. unfold address_create_data. gw_tac. Qed.
Lemma company_create_data_ok c : st_steps gw_ok (company_create_data c).
Proof. unfold company_create_data. gw_tac. Qed.
Lemma include_user_ok d pp : st_steps gw_ok (include_user d pp).
Proof. unfold include_user. gw_tac. Qed.
#[export] Hint Resolve address_create_data_ok company_create_data_ok include_user_ok : blog.

Lemma include_users_ok d l : st_steps gw_ok (include_users d l).
Proof. induction l; simpl; gw_tac. Qed.
Lemma geo_upsert_ok aid g : st_steps gw_ok (geo_upsert aid g).
Proof. unfold geo_upsert. gw_tac. Qed.
#[export] Hint Resolve include_users_ok geo_upsert_ok : blog.

Lemma user_findMany_ok f s t : st_steps gw_ok (user_findMany f s t).
Proof. unfold user_findMany. gw_tac. Qed.
Lemma user_count_ok f : st_steps gw_ok (user_count f).
Proof. unfold user_count. gw_tac. Qed.
Lemma user_findUnique_full_ok n : st_steps gw_ok (user_findUnique_full n).
Proof. unfold user_findUnique_full. gw_tac. Qed.
Lemma user_findFirst_dup_ok u e x : st_steps gw_ok (user_findFirst_dup u e x).
Proof. unfold user_findFirst_dup. gw_tac. Qed.
Lemma user_create_ok c : st_steps gw_ok (user_create c).
Proof. unfold user_create. gw_tac. Qed.
Lemma user_update_ok n c : st_steps gw_ok (user_update n c).
Proof. unfold user_update. gw_tac. Qed.
Lemma geo_deleteMany_user_ok n : st_steps gw_ok (geo_deleteMany_user n).
Proof. unfold geo_deleteMany_user. gw_tac. Qed.
Lemma address_deleteMany_user_ok n : st_steps gw_ok (address_deleteMany_user n).
Proof. unfold address_deleteMany_user. gw_tac. Qed.
Lemma company_deleteMany_user_ok n : st_steps gw_ok (company_deleteMany_user n).
Proof. unfold company_deleteMany_user. gw_tac. Qed.
Lemma post_deleteMany_user_ok n : st_steps gw_ok (post_deleteMany_user n).
Proof. unfold post_deleteMany_user. gw_tac. Qed.
Lemma user_delete_ok n : st_steps gw_ok (user_delete n).
Proof. unfold user_delete. gw_tac. Qed.
Lemma post_findMany_ok t u s k : st_steps gw_ok (post_findMany t u s k).
Proof. unfold post_findMany, post_where. gw_tac. Qed.
Lemma post_count_ok t u : st_steps gw_ok (post_count t u).
Proof. unfold post_count, post_where. gw_tac. Qed.
Lemma post_findUnique_with_user_ok n : st_steps gw_ok (post_findUnique_with_user n).
Proof. unfold post_findUnique_with_user. gw_tac. Qed.
Lemma post_create_ok t b u : st_steps gw_ok (post_create t b u).
Proof. unfold post_create. gw_tac. Qed.
Lemma post_update_ok n t b : st_steps gw_ok (post_update n t b).
Proof. unfold post_update. gw_tac. Qed.
Lemma post_delete_ok n : st_steps gw_ok (post_delete n).
Proof. unfold post_delete. gw_tac. Qed.
Lemma post_findMany_user_ok n : st_steps gw_ok (post_findMany_user n).
Proof. unfold post_findMany_user. gw_tac. Qed.

#[export] Hint Resolve user_findMany_ok user_count_ok user_findUnique_full_ok user_findFirst_dup_ok
  user_create_ok user_update_ok geo_deleteMany_user_ok address_deleteMany_user_ok
  company_deleteMany_user_ok post_deleteMany_user_ok user_delete_ok post_findMany_ok post_count_ok
  post_findUnique_with_user_ok post_create_ok post_update_ok post_delete_ok post_findMany_user_ok : blog.

(** ** What the calls return *)

Lemma int_arg_run n z d : js_integer n = Some z -> int4_range z = true -> int_arg n d = (Ok z, d).
Proof. intros Hn Hr. unfold int_arg. rewrite Hn, Hr. reflexivity. Qed.

Lemma int4_range_key {A} (t : table A) s k : ids_ok t s -> k ∈ tbl_keys t -> int4_range k = true.
Proof.
  intros (_ & Hb & Hs) Hk. rewrite Forall_forall in Hb. specialize (Hb k Hk).
  unfold int4_range, int4_max in *. apply andb_true_iff. split; apply Z.leb_le; lia.
Qed.

Lemma tbl_find_key {A} (t : table A) k r : tbl_find t k = Some r -> k ∈ tbl_keys t.
Proof. intros H. apply tbl_find_Some in H. eapply tbl_keys_in; eauto. Qed.

Lemma int4_range_find {A} (t : table A) s k r : ids_ok t s -> tbl_find t k = Some r -> int4_range k = true.
Proof. intros Hok H. exact (int4_range_key t s k Hok (tbl_find_key t k r H)). Qed.

Lemma delete_geos_run p d :
  delete_geos p d = (Ok (Z.of_nat (length (tbl_filter p (geos d)))), set_geos d (drop p (geos d))).
Proof. reflexivity. Qed.

Lemma delete_addresses_run p d :
  referenced (tbl_filter p (addresses d)) (geos d) geo_addressId = false ->
  delete_addresses p d = (Ok (Z.of_nat (length (tbl_filter p (addresses d)))), set_addresses d (drop p (addresses d))).
Proof. intros H. unfold delete_addresses, sbind, sget. rewrite check_run, H. reflexivity. Qed.

Lemma delete_companies_run p d :
  delete_companies p d = (Ok (Z.of_nat (length (tbl_filter p (companies d)))), set_companies d (drop p (companies d))).
Proof. reflexivity. Qed.

Lemma delete_posts_run p d :
  delete_posts p d = (Ok (Z.of_nat (length (tbl_filter p (posts d)))), set_posts d (drop p (posts d))).
Proof. reflexivity. Qed.

Lemma delete_users_run p d :
  referenced (tbl_filter p (users d)) (addresses d) addr_userId = false ->
  referenced (tbl_filter p (users d)) (companies d) comp_userId = false ->
  referenced (tbl_filter p (users d)) (posts d) post_userId = false ->
  delete_users p d = (Ok (Z.of_nat (length (tbl_filter p (users d)))), set_users d (drop p (users d))).
Proof. intros H1 H2 H3. unfold delete_users, sbind, sget. rewrite check_run, H1, H2, H3. reflexivity. Qed.

(** [referenced] is false exactly when no child points into the doomed rows. *)
Lemma referenced_false {A B} (doomed : table A) (child : table B) fk :
  (forall k r, In (k, r) child -> fk r ∉ tbl_keys doomed) -> referenced doomed child fk = false.
Proof.
  intros H. unfold referenced. apply Bool.not_true_is_false. intros Hex.
  apply existsb_exists in Hex as [[k r] [Hin Hb]]. apply bool_decide_eq_true in Hb.
  exact (H k r Hin Hb).
Qed.

Lemma keys_filter_In {A} (p : Z -> A -> bool) t k :
  k ∈ tbl_keys (tbl_filter p t) -> exists r, In (k, r) t /\ p k r = true.
Proof.
  unfold tbl_keys. rewrite list_elem_of_In, in_map_iff. intros [[k' r] [Hk Hin]]. simpl in Hk. subst.
  apply tbl_filter_In in Hin. eauto.
Qed.

#[export] Hint Rewrite delete_geos_run delete_companies_run delete_posts_run : blog_rw.

(** ** Fresh ids and the INSERTs that succeed *)

Lemma fresh_key {A} (t : table A) seq : ids_ok t seq -> seq ∉ tbl_keys t.
Proof. intros (_ & Hb & _) Hin. rewrite Forall_forall in Hb. specialize (Hb _ Hin). lia. Qed.

(** A foreign-key column never holds the next id of its parent table. *)
Lemma fk_fresh {A B} (c : table A) fk (p : table B) seq :
  refs_ok c fk p -> ids_ok p seq -> seq ∉ col c fk.
Proof.
  intros Hr Hp Hin. unfold col in Hin. apply list_elem_of_In, in_map_iff in Hin as [kr [Heq Hkr]].
  unfold refs_ok in Hr. rewrite Forall_forall in Hr. apply list_elem_of_In in Hkr.
  specialize (Hr _ Hkr). rewrite Heq in Hr. exact (fresh_key _ _ Hp Hr).
Qed.

Lemma transaction_commit {A} (m : GW A) d a d' : m d = (Ok a, d') -> transaction m d = (Ok a, d').
Proof. intros H. unfold transaction, sbind, sget, scatch. rewrite H. reflexivity. Qed.

Lemma insert_user_run u d :
  seq_user d <= int4_max -> username u ∉ col (users d) username -> email u ∉ col (users d) email ->
  insert_user u d = (Ok (seq_user d), set_users (bump_seq d SUser) (users d ++ [(seq_user d, u)])).
Proof.
  intros Hs H1 H2. unfold insert_user, sbind, sget, sput, sret. rewrite nextval_run.
  simpl. destruct (Z.leb_spec (seq_user d) int4_max); [|lia]. rewrite check_run.
  rewrite (bool_decide_eq_true_2 _ H1), (bool_decide_eq_true_2 _ H2). reflexivity.
Qed.

Lemma insert_address_run a d :
  seq_address d <= int4_max -> addr_userId a ∈ tbl_keys (users d) ->
  addr_userId a ∉ col (addresses d) addr_userId ->
  insert_address a d = (Ok (seq_address d), set_addresses (bump_seq d SAddress) (addresses d ++ [(seq_address d, a)])).
Proof.
  intros Hs H1 H2. unfold insert_address, sbind, sget, sput, sret. rewrite nextval_run.
  simpl. destruct (Z.leb_spec (seq_address d) int4_max); [|lia]. rewrite !check_run.
  rewrite (bool_decide_eq_true_2 _ H1), (bool_decide_eq_true_2 _ H2). reflexivity.
Qed.

Lemma insert_geo_run g d :
  seq_geo d <= int4_max -> geo_addressId g ∈ tbl_keys (addresses d) ->
  geo_addressId g ∉ col (geos d) geo_addressId ->
  insert_geo g d = (Ok (seq_geo d), set_geos (bump_seq d SGeo) (geos d ++ [(seq_geo d, g)])).
Proof.
  intros Hs H1 H2. unfold insert_geo, sbind, sget, sput, sret. rewrite nextval_run.
  simpl. destruct (Z.leb_spec (seq_geo d) int4_max); [|lia]. rewrite !check_run.
  rewrite (bool_decide_eq_true_2 _ H1), (bool_decide_eq_true_2 _ H2). reflexivity.
Qed.

Lemma insert_company_run c d :
  seq_company d <= int4_max -> comp_userId c ∈ tbl_keys (users d) ->
  comp_userId c ∉ col (companies d) comp_userId ->
  insert_company c d = (Ok (seq_company d), set_companies (bump_seq d SCompany) (companies d ++ [(seq_company d, c)])).
Proof.
  intros Hs H1 H2. unfold insert_company, sbind, sget, sput, sret. rewrite nextval_run.
  simpl. destruct (Z.leb_spec (seq_company d) int4_max); [|lia]. rewrite !check_run.
  rewrite (bool_decide_eq_true_2 _ H1), (bool_decide_eq_true_2 _ H2). reflexivity.
Qed.

Lemma insert_post_run p d :
  seq_post d <= int4_max -> post_userId p ∈ tbl_keys (users d) ->
  insert_post p d = (Ok (seq_post d), set_posts (bump_seq d SPost) (posts d ++ [(seq_post d, p)])).
Proof.
  intros Hs H1. unfold insert_post, sbind, sget, sput, sret. rewrite nextval_run.
  simpl. destruct (Z.leb_spec (seq_post d) int4_max); [|lia]. rewrite !check_run.
  rewrite (bool_decide_eq_true_2 _ H1). reflexivity.
Qed.

(** [List.find] over rows none of which matches, then one more row. *)
Lemma find_app_last {X} (f : X -> bool) (l : list X) x :
  (forall y, In y l -> f y = false) -> List.find f (l ++ [x]) = if f x then Some x else None.
Proof.
  induction l as [|y l IH]; simpl; intros H; [reflexivity|].
  rewrite (H y (or_introl eq_refl)). apply IH. intros; apply H; auto.
Qed.

Lemma find_none {X} (f : X -> bool) (l : list X) :
  (forall y, In y l -> f y = false) -> List.find f l = None.
Proof.
  induction l as [|y l IH]; simpl; intros H; [reflexivity|].
  rewrite (H y (or_introl eq_refl)). apply IH. intros; apply H; auto.
Qed.

(** No row of a table has the next id of the parent in its foreign key. *)
Lemma fk_fresh_In {A B} (c : table A) fk (p : table B) seq k r :
  refs_ok c fk p -> ids_ok p seq -> In (k, r) c -> fk r <> seq.
Proof.
  intros Hr Hp Hin Heq. apply (fk_fresh c fk p seq Hr Hp). rewrite <- Heq.
  apply list_elem_of_In, in_map_iff. exists (k, r). auto.
Qed.

(** ** Case-insensitive [contains] *)

Lemma str_app_cons c a b : String.String c a +:+ b = String.String c (a +:+ b).
Proof. reflexivity. Qed.
Lemma str_app_nil b : String.EmptyString +:+ b = b.
Proof. reflexivity. Qed.
Lemma str_lower_app a b : str_lower (a +:+ b) = str_lower a +:+ str_lower b.
Proof. induction a as [|c a IH]; rewrite ?str_app_cons; simpl; [reflexivity|]. rewrite IH. reflexivity. Qed.
Lemma prefix_app n y : String.prefix n (n +:+ y) = true.
Proof.
  induction n as [|c n IH]; rewrite ?str_app_cons; simpl; [destruct y; reflexivity|].
  destruct (Ascii.ascii_dec c c); [exact IH|congruence].
Qed.
Lemma str_contains_prefix h n : String.prefix n h = true -> str_contains h n = true.
Proof. destruct h; simpl; intros ->; reflexivity. Qed.
Lemma str_contains_app x n y : str_contains (x +:+ n +:+ y) n = true.
Proof.
  induction x as [|c x IH]; [rewrite str_app_nil; apply str_contains_prefix, prefix_app|].
  rewrite str_app_cons. simpl. rewrite IH, orb_true_r. reflexivity.
Qed.
Lemma contains_ci_app x m y q : str_lower m = str_lower q -> contains_ci (x +:+ m +:+ y) q = true.
Proof. intros H. unfold contains_ci. rewrite !str_lower_app, <- H. apply str_contains_app. Qed.

(** Well-formedness of a small concrete database, by computation. *)
Ltac wf_concrete :=
  constructor; unfold ids_ok, refs_ok, unique_by, col, int4_max; simpl;
    repeat split; first [apply NoDup_singleton | repeat constructor; first [lia | set_solver]].

(** ** Aborted writes

    A transaction whose body fails leaves the rows as they were; the
    companies table is untouched by the user, address and geo writes, so
    a missing company is still missing when [user.update] reaches its
    nested [company: { update }]. *)

Definition same_rows (d d' : db) : Prop :=
  users d' = users d /\ addresses d' = addresses d /\ geos d' = geos d /\
  companies d' = companies d /\ posts d' = posts d.

Lemma same_rows_refl d : same_rows d d.
Proof. repeat split. Qed.

Lemma same_rows_rollback d d1 : same_rows d (rollback_to d d1).
Proof. repeat split. Qed.

Lemma transaction_abort {A} (P : db -> Prop) (m : GW A) d :
  st_throws P m -> P d -> exists e, transaction m d = (Exn e, rollback_to d (snd (m d))).
Proof.
  intros Hm Hd. destruct (Hm d Hd) as [e He]. exists e.
  unfold transaction, sbind, sget, scatch, sput, sthrow. destruct (m d) as [o d1]. simpl in He. subst o. reflexivity.
Qed.

Definition same_companies (d d' : db) : Prop := companies d' = companies d.

#[export] Instance same_companies_refl : Reflexive same_companies.
Proof. intros d. reflexivity. Qed.
#[export] Instance same_companies_trans : Transitive same_companies.
Proof. intros d1 d2 d3 H1 H2. unfold same_companies in *. congruence. Qed.

Ltac companies_tac :=
  intros ?d; unfold nextval, check, sbind, sget, sput, sret, same_companies;
  repeat (simpl; match goal with
                 | |- context [if ?b then _ else _] => destruct b
                 | |- context [match ?x with Some _ => _ | None => _ end] => destruct x as [[]|]
                 end); reflexivity.

Lemma update_user_row_companies uid u : st_steps same_companies (update_user_row uid u).
Proof. unfold update_user_row. companies_tac. Qed.

Lemma update_address_row_companies aid a : st_steps same_companies (update_address_row aid a).
Proof. unfold update_address_row. companies_tac. Qed.

Lemma geo_upsert_companies aid g : st_steps same_companies (geo_upsert aid g).
Proof. unfold geo_upsert, update_geo_row, insert_geo. companies_tac. Qed.

Lemma user_company_kept uid : forall d d', same_companies d d' -> keeps (fun d => user_company d uid = None) d d'.
Proof. intros d d' H. unfold keeps, user_company, same_companies in *. rewrite H. exact id. Qed.

Lemma user_update_no_company id uid c k d :
  js_integer id = Some uid -> ui_company c = Some k -> user_company d uid = None ->
  exists e d', user_update id c d = (Exn e, d') /\ same_rows d d'.
Proof.
  intros Hid Hk Hc. unfold user_update, int_arg, check, sbind at 1. rewrite Hid.
  destruct (int4_range uid); [|eexists _, _; split; [reflexivity | apply same_rows_refl]].
  unfold sbind at 1. simpl. destruct (valid_user_update c); [|eexists _, _; split; [reflexivity | apply same_rows_refl]].
  simpl. unfold sbind at 1.
  assert (Hg : st_steps eq (opt_data geo_create_data (match ui_address c with Some a => ai_geo a | None => None end))).
  { unfold opt_data, geo_create_data, req_str. st_step_tac. }
  pose proof (st_steps_eq_state _ d Hg) as Hd.
  destruct (opt_data geo_create_data _ d) as [[gv|e] d1]; simpl in Hd; subst d1;
    [|eexists _, _; split; [reflexivity | apply same_rows_refl]].
  match goal with |- context [transaction ?m d] =>
    assert (Ht : st_throws (fun d => user_company d uid = None) m) end.
  2: { destruct (transaction_abort _ _ d Ht Hc) as [e He]. rewrite He.
       eexists _, _; split; [reflexivity | apply same_rows_rollback]. }
  apply st_throws_get. intros s _. destruct (tbl_find (users s) uid); [|apply st_throws_throw].
  apply st_throws_bind_r.
  { apply (st_steps_mono same_companies); [apply user_company_kept | apply update_user_row_companies]. }
  intros []. apply st_throws_bind_r.
  { destruct (ui_address c);
      repeat first [ apply (st_steps_mono same_companies);
                     [apply user_company_kept | first [apply update_address_row_companies | apply geo_upsert_companies]]
                   | st_step1 ]. }
  intros []. rewrite Hk. apply st_throws_bind_l, st_throws_get. intros s' Hs'. rewrite Hs'. apply st_throws_throw.
Qed.
