(* ===== verification/Seed.v ===== *)
(** * The seed script [src/blog-api/prisma/seed.ts]

    [main] walks the literal array [usersData] and, for each entry, issues
    one [prisma.user.create] with nested creates of the address (with its
    geo), the company and the posts; a failure is caught and logged, and
    the loop goes on with the next entry.  The nested create is one
    transaction ([transaction] of [Gateway]): rows are rolled back on
    failure, sequences are not.

    The theorems: seeding keeps a well-formed database well formed ([seed_keeps_wf]);
    seeding again stores nothing new, though it consumes user ids
    ([seed_again_no_rows]); and the script always runs to its end, attempting each entry
    exactly once ([seed_completes]). *)

From S2P Require Import Prelude JsValue Schema Gateway GatewayFacts.
Local Open Scope Z_scope.

(** ** The data literal *)

Record seed_geo := mkSeedGeo { sg_lat : string; sg_lng : string }.
Record seed_address := mkSeedAddress {
  sa_street : string; sa_suite : string; sa_city : string; sa_zipcode : string; sa_geo : seed_geo;
}.
Record seed_company := mkSeedCompany { sc_name : string; sc_catchPhrase : string; sc_bs : string }.
Record seed_post := mkSeedPost { sp_title : string; sp_body : string }.
Record seed_user := mkSeedUser {
  sd_name : string; sd_username : string; sd_email : string; sd_phone : string; sd_website : string;
  sd_address : seed_address; sd_company : seed_company; sd_posts : list seed_post;
}.

(** [usersData]; the post bodies are template literals, newlines and
    indentation included. *)
Definition usersData : list seed_user := [
  mkSeedUser "Leanne Graham" "Bret" "Sincere@april.biz" "1-770-736-8031 x56442" "hildegard.org"
    (mkSeedAddress "Kulas Light" "Apt. 556" "Gwenborough" "92998-3874" (mkSeedGeo "-37.3159" "81.1496"))
    (mkSeedCompany "Romaguera-Crona" "Multi-layered client-server neural-net" "harness real-time e-markets")
    [mkSeedPost "sunt aut" "quia et suscipit
                 suscipit recusandae consequuntur expedita et cum
                 reprehenderit molestiae ut ut quas totam
                 nostrum rerum est autem sunt rem eveniet architecto"];
  mkSeedUser "Ervin Howell" "Antonette" "Shanna@melissa.tv" "010-692-6593 x09125" "anastasia.net"
    (mkSeedAddress "Victor Plains Suite 879" "Apt. 556" "Romaguera" "45647-4825" (mkSeedGeo "-43.9509" "-34.4618"))
    (mkSeedCompany "Deckow-Crist" "Proactive didactic contingency" "synergize scalable supply-chains")
    [mkSeedPost "qui est esse" "est rerum tempore vitae
                sequi sint nihil reprehenderit dolor beatae
                vitae dolorum tempore"]
].

(** ** The nested create and the loop *)

(** [posts: { create: userData.posts.map(...) }], in array order. *)
Fixpoint insert_posts (uid : Z) (ps : list seed_post) : GW unit :=
  match ps with
  | [] => sret tt
  | p :: ps' => insert_post (mkPost (sp_title p) (sp_body p) uid) ;;; insert_posts uid ps'
  end.

Definition seed_row (s : seed_user) : user :=
  mkUser (sd_name s) (sd_username s) (sd_email s) (sd_phone s) (sd_website s).

(** [prisma.user.create({ data: { ..., address: { create: { ..., geo:
    { create } } }, company: { create }, posts: { create } } })]. *)
Definition seed_create (s : seed_user) : GW (Z * user) :=
  let u := seed_row s in
  let a := sd_address s in
  let c := sd_company s in
  transaction (
    uid <- insert_user u ;;
    aid <- insert_address (mkAddress (sa_street a) (Some (sa_suite a)) (sa_city a) (sa_zipcode a) uid) ;;
    insert_geo (mkGeo (sg_lat (sa_geo a)) (sg_lng (sa_geo a)) aid) ;;;
    insert_company (mkCompany (sc_name c) (Some (sc_catchPhrase c)) (Some (sc_bs c)) uid) ;;;
    insert_posts uid (sd_posts s) ;;;
    sret (uid, u)).

(** [for (const userData of usersData) { try { ... } catch { console.error } }] *)
Fixpoint seed_loop (l : list seed_user) : GW unit :=
  match l with
  | [] => sret tt
  | s :: l' => scatch (seed_create s ;;; sret tt) (fun _ => sret tt) ;;; seed_loop l'
  end.

(** [main()]: the loop over [usersData]; the final [$disconnect] is I/O. *)
Definition seed_main : GW unit := seed_loop usersData.

(** ** Seeding keeps the database well formed *)

Lemma insert_posts_ok uid ps : st_steps gw_ok (insert_posts uid ps).
Proof. induction ps; simpl; gw_tac. Qed.

#[local] Hint Resolve insert_posts_ok : blog.

Lemma seed_create_ok s : st_steps gw_ok (seed_create s).
Proof. unfold seed_create. gw_tac. Qed.

#[local] Hint Resolve seed_create_ok : blog.

Lemma seed_loop_ok l : st_steps gw_ok (seed_loop l).
Proof. induction l; simpl; gw_tac. Qed.

(** running the seed script on a well-formed database (empty, or
    already seeded, or changed by any requests) leaves it well formed,
    whichever of its creates fail. *)
Theorem seed_keeps_wf d : wf_db d -> wf_db (snd (seed_main d)).
Proof. intros W. exact (gw_ok_wf d _ (seed_loop_ok usersData d) W). Qed.

Lemma seed_keeps_wf_witness : wf_db (snd (seed_main empty_db)).
Proof. exact (seed_keeps_wf empty_db empty_db_wf). Defined.

(** ** Seeding again *)

Lemma insert_user_taken u d :
  seq_user d <= int4_max -> username u ∈ col (users d) username ->
  insert_user u d = (Exn UniqueViolation, bump_seq d SUser).
Proof.
  intros Hs Hu. unfold insert_user, sbind, sget, sput, sret. rewrite nextval_run.
  simpl. destruct (Z.leb_spec (seq_user d) int4_max); [|lia]. rewrite check_run.
  rewrite bool_decide_false by (intros Hn; apply Hn; exact Hu). reflexivity.
Qed.

Lemma seed_create_taken s d :
  seq_user d <= int4_max -> sd_username s ∈ col (users d) username ->
  seed_create s d = (Exn UniqueViolation, rollback_to d (bump_seq d SUser)).
Proof.
  intros Hs Hu. unfold seed_create, transaction, scatch, sbind, sget, sput, sthrow.
  rewrite (insert_user_taken (seed_row s) d Hs Hu). reflexivity.
Qed.

(** Each entry whose username is taken only consumes one user id. *)
Lemma seed_loop_taken l d :
  Forall (fun s => sd_username s ∈ col (users d) username) l ->
  seq_user d + Z.of_nat (length l) <= int4_max + 1 ->
  exists d', seed_loop l d = (Ok tt, d') /\ same_rows d d' /\
    seq_user d' = seq_user d + Z.of_nat (length l) /\ seq_address d' = seq_address d /\
    seq_geo d' = seq_geo d /\ seq_company d' = seq_company d /\ seq_post d' = seq_post d.
Proof.
  induction l as [|s l IH] in d |- *; intros Hl Hs; simpl.
  - exists d. split; [reflexivity|]. split; [apply same_rows_refl | simpl; lia].
  - apply Forall_cons in Hl as [Hu Hl]. simpl in Hs.
    unfold scatch, sbind at 1. unfold sbind at 1.
    rewrite (seed_create_taken s d ltac:(lia) Hu). simpl.
    destruct (IH (rollback_to d (bump_seq d SUser)) Hl ltac:(simpl; lia))
      as (d' & Hr & (E1 & E2 & E3 & E4 & E5) & S1 & S2 & S3 & S4 & S5).
    exists d'. unfold sbind in Hr. rewrite Hr. simpl in *.
    split; [reflexivity|]. split; [repeat split; assumption|]. lia.
Qed.

(** C35: running the seed on a database that already has the usernames of
    [usersData] (for instance a second run) stores, changes and deletes
    no row: both creates fail on the unique username and are caught.
    Each failed create still consumes a user id, so the user sequence
    moves on by two while the other sequences stay. *)
Theorem seed_again_no_rows d :
  Forall (fun s => sd_username s ∈ col (users d) username) usersData -> seq_user d + 2 <= int4_max + 1 ->
  fst (seed_main d) = Ok tt /\ same_rows d (snd (seed_main d)) /\
  seq_user (snd (seed_main d)) = seq_user d + 2 /\ seq_post (snd (seed_main d)) = seq_post d.
Proof.
  intros Hl Hs. destruct (seed_loop_taken usersData d Hl Hs) as (d' & Hr & Hrows & S1 & _ & _ & _ & S5).
  unfold seed_main. rewrite Hr. auto.
Qed.

Lemma seed_again_no_rows_witness :
  let d1 := snd (seed_main empty_db) in
  fst (seed_main d1) = Ok tt /\ same_rows d1 (snd (seed_main d1)) /\
  seq_user (snd (seed_main d1)) = seq_user d1 + 2 /\ seq_post (snd (seed_main d1)) = seq_post d1.
Proof.
  apply seed_again_no_rows; [vm_compute; repeat constructor; set_solver | vm_compute; congruence].
Defined.

(** ** The script always runs to the end *)

(** Two states with the same user sequence. *)
Definition user_seq_same (d d' : db) : Prop := seq_user d' = seq_user d.

#[local] Instance user_seq_same_refl : Reflexive user_seq_same.
Proof. intros d. reflexivity. Qed.
#[local] Instance user_seq_same_trans : Transitive user_seq_same.
Proof. intros a b c H1 H2. unfold user_seq_same in *. congruence. Qed.

(** Inserts other than a user's leave the user sequence alone. *)
Ltac seq_unfold := intros d; cbv [nextval check sbind sget sput sret sthrow]; repeat case_match; simplify_eq; reflexivity.

Lemma insert_address_user_seq a : st_steps user_seq_same (insert_address a).
Proof. unfold insert_address. seq_unfold. Qed.
Lemma insert_geo_user_seq g : st_steps user_seq_same (insert_geo g).
Proof. unfold insert_geo. seq_unfold. Qed.
Lemma insert_company_user_seq c : st_steps user_seq_same (insert_company c).
Proof. unfold insert_company. seq_unfold. Qed.
Lemma insert_post_user_seq p : st_steps user_seq_same (insert_post p).
Proof. unfold insert_post. seq_unfold. Qed.

#[local] Hint Resolve insert_address_user_seq insert_geo_user_seq insert_company_user_seq insert_post_user_seq : blog.

Lemma insert_posts_user_seq uid ps : st_steps user_seq_same (insert_posts uid ps).
Proof.
  induction ps as [|p ps IH]; cbn [insert_posts]; [apply st_steps_ret; typeclasses eauto|].
  apply st_steps_bind; [typeclasses eauto .. | apply insert_post_user_seq | intros; exact IH].
Qed.

(** [insert_user] consumes one user id whether or not the row goes in. *)
Lemma insert_user_seq u d : seq_user d <= int4_max -> seq_user (snd (insert_user u d)) = seq_user d + 1.
Proof.
  intros Hs. unfold insert_user, sbind, sget, sput, sret. rewrite nextval_run.
  cbn [seq_of]. rewrite (proj2 (Z.leb_le _ _) Hs). cbv [check sthrow]. cbn.
  destruct (bool_decide _ && bool_decide _); reflexivity.
Qed.

Lemma bind_user_seq {A B} (m : GW A) (k : A -> GW B) d :
  (forall a, st_steps user_seq_same (k a)) -> seq_user (snd (sbind m k d)) = seq_user (snd (m d)).
Proof. intros Hk. unfold sbind. destruct (m d) as [[a|e] d1]; [exact (Hk a d1) | reflexivity]. Qed.

(** A transaction keeps the sequences its body reached. *)
Lemma transaction_user_seq {A} (m : GW A) d : seq_user (snd (transaction m d)) = seq_user (snd (m d)).
Proof. unfold transaction, scatch, sbind, sget, sput, sthrow. cbn. destruct (m d) as [[a|e] d1]; reflexivity. Qed.

Lemma seed_create_user_seq s d : seq_user d <= int4_max -> seq_user (snd (seed_create s d)) = seq_user d + 1.
Proof.
  intros Hs. unfold seed_create. rewrite transaction_user_seq, bind_user_seq.
  2: { intros uid. repeat (apply st_steps_bind; [typeclasses eauto .. | first [apply insert_address_user_seq
         | apply insert_geo_user_seq | apply insert_company_user_seq | apply insert_posts_user_seq] | intros]).
       apply st_steps_ret; typeclasses eauto. }
  exact (insert_user_seq _ d Hs).
Qed.

Lemma seed_loop_completes l d :
  fst (seed_loop l d) = Ok tt /\
  (seq_user d + Z.of_nat (length l) <= int4_max + 1 -> seq_user (snd (seed_loop l d)) = seq_user d + Z.of_nat (length l)).
Proof.
  induction l as [|s l IH] in d |- *; cbn [seed_loop length]; [split; [reflexivity | intros; simpl; lia]|].
  assert (Hstep : exists d1, scatch (seed_create s ;;; sret tt) (fun _ => sret tt) d = (Ok tt, d1) /\
                    (seq_user d <= int4_max -> seq_user d1 = seq_user d + 1)).
  { pose proof (seed_create_user_seq s d) as Hc. unfold scatch, sbind.
    destruct (seed_create s d) as [[x|e] d1]; cbn in *; exists d1; auto. }
  destruct Hstep as (d1 & E & Hd1). rewrite (sbind_ok _ _ _ _ _ E). destruct (IH d1) as [Ho Hq].
  split; [exact Ho|]. intros Hs. rewrite Hq; rewrite Hd1 by lia; lia.
Qed.

(** C40: the seed script runs to its end on every database: whatever the
    database holds and whichever creates fail (a taken username, a full
    sequence), each failure is caught and logged and the loop goes on,
    so [main] always reaches its [$disconnect]; and each entry of
    [usersData] is attempted exactly once, consuming one user id, while
    the sequence has room. *)
Theorem seed_completes d :
  fst (seed_main d) = Ok tt /\
  (seq_user d + 2 <= int4_max + 1 -> seq_user (snd (seed_main d)) = seq_user d + 2).
Proof. exact (seed_loop_completes usersData d). Qed.

Lemma seed_completes_witness :
  fst (seed_main empty_db) = Ok tt /\
  (seq_user empty_db + 2 <= int4_max + 1 -> seq_user (snd (seed_main empty_db)) = seq_user empty_db + 2).
Proof. exact (seed_completes empty_db). Defined.
