(* ===== verification/Validation.v ===== *)
(** * Request bodies and the Joi schema of the full user update

    [user_body] is the JSON body destructured by the user handlers
    ([const { name, username, ..., address, company } = req.body]);
    [post_body] the one of the post handlers.  [validate_user_update]
    translates [userUpdateSchema] (userController.ts, lines 134-155)
    with Joi's default options: keys are checked in schema order, the
    first violation aborts (abortEarly) and its message is returned.  A
    Joi string refuses non-strings (including [null]) and the empty
    string, then applies its rules in order.  An optional object refuses
    [null].  Joi's [email()] rule (RFC 5321 syntax plus the IANA
    top-level-domain list) is a library check: it is the section variable
    [is_email].  [user_update_ok] states declaratively what the schema
    admits; [validate_user_update_spec] ([validate_user_update_spec]) shows the two agree. *)

From S2P Require Import Prelude JsValue Gateway.
From Stdlib Require Import Ascii.
Local Open Scope Z_scope.

Record address_body := mkAddressBody {
  ab_street : jval; ab_suite : jval; ab_city : jval; ab_zipcode : jval;
  ab_geo : jobj geo_input;
}.

Record user_body := mkUserBody {
  b_name : jval; b_username : jval; b_email : jval; b_phone : jval; b_website : jval;
  b_address : jobj address_body;
  b_company : jobj company_input;
}.

Record post_body := mkPostBody { pb_title : jval; pb_body : jval; pb_userId : jval }.

(** ** Joi messages *)

Local Infix "+++" := String.append (right associativity, at level 60).

Definition dq : string := String.String (ascii_of_nat 34) String.EmptyString.
Definition label (path : string) : string := dq +++ path +++ dq.

Definition msg_required p := label p +++ " is required".
Definition msg_string p := label p +++ " must be a string".
Definition msg_empty p := label p +++ " is not allowed to be empty".
Definition msg_object p := label p +++ " must be of type object".
Definition msg_min p (n : string) := label p +++ " length must be at least " +++ n +++ " characters long".
Definition msg_max p (n : string) :=
  label p +++ " length must be less than or equal to " +++ n +++ " characters long".
Definition msg_email p := label p +++ " must be a valid email".

Fixpoint first_some (l : list (option string)) : option string :=
  match l with
  | [] => None
  | Some m :: _ => Some m
  | None :: l' => first_some l'
  end.

Section JoiSchema.
Variable is_email : string -> bool.

Inductive str_rule := RMin (n : nat) (shown : string) | RMax (n : nat) (shown : string) | REmail.

Definition rule_error (p : string) (r : str_rule) (s : string) : option string :=
  match r with
  | RMin n shown => if (String.length s <? n)%nat then Some (msg_min p shown) else None
  | RMax n shown => if (n <? String.length s)%nat then Some (msg_max p shown) else None
  | REmail => if is_email s then None else Some (msg_email p)
  end.

(** [Joi.string()], [.required()] or [.optional()], then [rules]. *)
Definition joi_string (p : string) (required : bool) (rules : list str_rule) (v : jval) : option string :=
  match v with
  | JUndef => if required then Some (msg_required p) else None
  | JStr s =>
      if String.eqb s "" then Some (msg_empty p)
      else first_some (map (fun r => rule_error p r s) rules)
  | _ => Some (msg_string p)
  end.

(** [Joi.object({...}).optional()]. *)
Definition joi_object {A} (p : string) (children : A -> option string) (o : jobj A) : option string :=
  match o with
  | OUndef => None
  | ONull => Some (msg_object p)
  | OVal a => children a
  end.

Definition joi_geo (g : geo_input) : option string :=
  first_some [joi_string "address.geo.lat" false [] (gi_lat g);
              joi_string "address.geo.lng" false [] (gi_lng g)].

Definition joi_address (a : address_body) : option string :=
  first_some [joi_string "address.street" false [] (ab_street a);
              joi_string "address.suite" false [] (ab_suite a);
              joi_string "address.city" false [] (ab_city a);
              joi_string "address.zipcode" false [] (ab_zipcode a);
              joi_object "address.geo" joi_geo (ab_geo a)].

Definition joi_company (c : company_input) : option string :=
  first_some [joi_string "company.name" false [] (ci_name c);
              joi_string "company.catchPhrase" false [] (ci_catchPhrase c);
              joi_string "company.bs" false [] (ci_bs c)].

(** [userUpdateSchema.validate(req.body)]: [Some message] is [error]. *)
Definition validate_user_update (b : user_body) : option string :=
  first_some [joi_string "name" true [] (b_name b);
              joi_string "username" true [RMin 3 "3"; RMax 30 "30"] (b_username b);
              joi_string "email" true [REmail] (b_email b);
              joi_string "phone" true [] (b_phone b);
              joi_string "website" true [] (b_website b);
              joi_object "address" joi_address (b_address b);
              joi_object "company" joi_company (b_company b)].

(** ** What the schema admits, declaratively *)

Definition nonempty_str (v : jval) : Prop := exists s, v = JStr s /\ s <> "".
Definition opt_nonempty_str (v : jval) : Prop := v = JUndef \/ nonempty_str v.
Definition opt_obj_ok {A} (P : A -> Prop) (o : jobj A) : Prop := o = OUndef \/ exists a, o = OVal a /\ P a.

Definition geo_body_ok (g : geo_input) : Prop := opt_nonempty_str (gi_lat g) /\ opt_nonempty_str (gi_lng g).

Definition address_body_ok (a : address_body) : Prop :=
  opt_nonempty_str (ab_street a) /\ opt_nonempty_str (ab_suite a) /\ opt_nonempty_str (ab_city a) /\
  opt_nonempty_str (ab_zipcode a) /\ opt_obj_ok geo_body_ok (ab_geo a).

Definition company_body_ok (c : company_input) : Prop :=
  opt_nonempty_str (ci_name c) /\ opt_nonempty_str (ci_catchPhrase c) /\ opt_nonempty_str (ci_bs c).

(** A body the full update admits: the five scalar fields are non-empty
    strings, the username has 3 to 30 characters, the email passes the
    email rule, and address and company, when present, are objects whose
    fields are absent or non-empty strings. *)
Definition user_update_ok (b : user_body) : Prop :=
  nonempty_str (b_name b) /\
  (exists s, b_username b = JStr s /\ (3 <= String.length s <= 30)%nat) /\
  (exists s, b_email b = JStr s /\ s <> "" /\ is_email s = true) /\
  nonempty_str (b_phone b) /\ nonempty_str (b_website b) /\
  opt_obj_ok address_body_ok (b_address b) /\ opt_obj_ok company_body_ok (b_company b).
End JoiSchema.

(** A stand-in for Joi's email rule on concrete inputs: one [@] with a
    non-empty local part and a dotted domain. *)
Definition simple_email (s : string) : bool :=
  match String.index 0 "@" s with
  | Some i =>
      let dom := String.substring (S i) (String.length s) s in
      (0 <? i)%nat && negb (String.eqb dom "")
      && match String.index 0 "@" dom with None => true | Some _ => false end
      && match String.index 0 "." dom with Some j => (0 <? j)%nat && (S j <? String.length dom)%nat | None => false end
  | None => false
  end.

(** ** The Joi checks against the declarative schema *)

Section JoiFacts.
Variable is_email : string -> bool.

Lemma first_some_None l : first_some l = None <-> Forall (fun o => o = None) l.
Proof.
  induction l as [|[m|] l IH]; simpl.
  - split; auto.
  - split; [discriminate | intros H; inversion H; discriminate].
  - rewrite IH. split; [intros H; constructor; auto | intros H; inversion H; auto].
Qed.

Lemma joi_string_required p v : joi_string is_email p true [] v = None <-> nonempty_str v.
Proof.
  unfold nonempty_str. destruct v as [| | | |s|]; simpl; try (split; [discriminate | intros (? & ? & _); discriminate]).
  destruct (String.eqb_spec s ""); split.
  - discriminate.
  - intros (? & [= <-] & ?); contradiction.
  - eauto.
  - reflexivity.
Qed.

Lemma joi_string_optional p v : joi_string is_email p false [] v = None <-> opt_nonempty_str v.
Proof.
  unfold opt_nonempty_str, nonempty_str. destruct v as [| | | |s|]; simpl;
    try (split; [discriminate | intros [? | (? & ? & _)]; discriminate]).
  - split; auto.
  - destruct (String.eqb_spec s ""); split.
    + discriminate.
    + intros [? | (? & [= <-] & ?)]; [discriminate | contradiction].
    + eauto.
    + reflexivity.
Qed.

Lemma joi_object_ok {A} p (f : A -> option string) (P : A -> Prop) o :
  (forall a, f a = None <-> P a) -> joi_object p f o = None <-> opt_obj_ok P o.
Proof.
  intros Hf. unfold opt_obj_ok. destruct o as [| |a]; simpl.
  - split; auto.
  - split; [discriminate | intros [? | (? & ? & _)]; discriminate].
  - rewrite Hf. split; [eauto | intros [? | (? & [= <-] & ?)]; [discriminate | assumption]].
Qed.

Lemma joi_username_ok v :
  joi_string is_email "username" true [RMin 3 "3"; RMax 30 "30"] v = None <->
  exists s, v = JStr s /\ (3 <= String.length s <= 30)%nat.
Proof.
  destruct v as [| | | |s|]; simpl; try (split; [discriminate | intros (? & ? & _); discriminate]).
  destruct (String.eqb_spec s "") as [->|Hs]; [split; [discriminate | intros (? & [= <-] & ?); simpl in *; lia]|].
  destruct (Nat.ltb_spec (String.length s) 3), (Nat.ltb_spec 30 (String.length s)); simpl;
    (split; [intros Hv; try discriminate; eauto with lia | intros (? & [= <-] & ?); try reflexivity; lia]).
Qed.

Lemma joi_email_ok v :
  joi_string is_email "email" true [REmail] v = None <->
  exists s, v = JStr s /\ s <> "" /\ is_email s = true.
Proof.
  destruct v as [| | | |s|]; simpl; try (split; [discriminate | intros (? & ? & _); discriminate]).
  destruct (String.eqb_spec s "") as [->|Hs]; [split; [discriminate | intros (? & [= <-] & ? & _); contradiction]|].
  destruct (is_email s) eqn:E; simpl.
  - split; eauto.
  - split; [discriminate | intros (? & [= <-] & _ & ?); congruence].
Qed.
Ltac joi_unfold := rewrite first_some_None, ?Forall_cons, Forall_nil.

Lemma joi_geo_ok g : joi_geo is_email g = None <-> geo_body_ok g.
Proof. unfold joi_geo, geo_body_ok. joi_unfold. rewrite !joi_string_optional. tauto. Qed.

Lemma joi_address_ok a : joi_address is_email a = None <-> address_body_ok a.
Proof.
  unfold joi_address, address_body_ok. joi_unfold.
  rewrite !joi_string_optional, (joi_object_ok _ _ _ _ joi_geo_ok). tauto.
Qed.

Lemma joi_company_ok c : joi_company is_email c = None <-> company_body_ok c.
Proof. unfold joi_company, company_body_ok. joi_unfold. rewrite !joi_string_optional. tauto. Qed.

(** Every Joi message starts with the quoted path of the key it is about. *)
Definition labelled (o : option string) : Prop := forall m, o = Some m -> exists p x, m = label p +++ x.

Lemma first_some_labelled l : Forall labelled l -> labelled (first_some l).
Proof.
  induction 1 as [|o l Ho _ IH]; intros m Hm; [discriminate|].
  destruct o as [m'|]; [injection Hm as ->; exact (Ho m eq_refl) | exact (IH m Hm)].
Qed.

Lemma joi_string_labelled p req rules v : labelled (joi_string is_email p req rules v).
Proof.
  unfold joi_string. destruct v as [| |s| | |]; try (intros m [= <-]; eexists _, _; reflexivity);
    try (destruct req; [intros m [= <-]; eexists _, _; reflexivity | discriminate]).
  destruct (String.eqb s ""); [intros m [= <-]; eexists _, _; reflexivity|].
  apply first_some_labelled, Forall_forall. intros o Ho. apply list_elem_of_In, in_map_iff in Ho as [r [<- _]].
  destruct r; cbn; repeat case_match; try discriminate; intros m [= <-]; eexists _, _; reflexivity.
Qed.

Lemma joi_object_labelled {A} p (ch : A -> option string) o :
  (forall a, labelled (ch a)) -> labelled (joi_object p ch o).
Proof. intros H. destruct o; cbn; [discriminate | intros m [= <-]; eexists _, _; reflexivity | apply H]. Qed.

Lemma validate_labelled b : labelled (validate_user_update is_email b).
Proof.
  unfold validate_user_update. apply first_some_labelled.
  repeat constructor; try apply joi_string_labelled; apply joi_object_labelled; intros a;
    apply first_some_labelled; repeat constructor; try apply joi_string_labelled;
    apply joi_object_labelled; intros g; apply first_some_labelled; repeat constructor; apply joi_string_labelled.
Qed.

Lemma validate_message_nonempty b m : validate_user_update is_email b = Some m -> m <> "".
Proof. intros H. destruct (validate_labelled b m H) as (p & x & ->). discriminate. Qed.

(** C13: the Joi schema of PUT /users/:id admits exactly the bodies of
    [user_update_ok]: the five required fields are non-empty strings, the
    username has 3 to 30 characters, the email passes the email rule,
    and the optional address (with its optional geo) and company are
    objects whose fields are absent or non-empty strings (spec sections
    4.1 and 4.3). *)
Theorem validate_user_update_spec b : validate_user_update is_email b = None <-> user_update_ok is_email b.
Proof.
  unfold validate_user_update, user_update_ok. joi_unfold.
  rewrite !joi_string_required, joi_username_ok, joi_email_ok,
    (joi_object_ok _ _ _ _ joi_address_ok), (joi_object_ok _ _ _ _ joi_company_ok).
  tauto.
Qed.
End JoiFacts.
