(* ===== verification/UserController.v ===== *)
(** * The user handlers of [src/blog-api/src/controllers/userController.ts]

    One definition per exported handler.  A handler takes its path
    parameter (a string), its query parameters ([qparam]) and its body
    ([user_body]), and returns a [response] in the gateway monad.  The
    [try { ... } catch { res.status(500) ... }] of every handler is
    [scatch]; an early [return res.status(4xx)] inside the [try] is a
    [respond] that ends the computation.  The section variable
    [is_email] is Joi's email rule (see [Validation]).

    The theorems follow the handlers: delete and the reads after it
    ([deleteUser_removes_user], [deleteUser_then_get]), create and the read after it ([createUser_roundtrip]) and its duplicate and
    missing-address failures ([createUser_duplicate], [createUser_without_address]), the pages of getUsers ([getUsers_row_on_page] to [getUsers_nan_page]),
    and the full update ([updateUser_short_username], [updateUser_without_company]) and the lookup of a bad id ([getUserById_bad_id]).  The
    small databases [sample_db] (the spec's scenario user with an
    address, a geo, a company and a post) and [two_user_db] are the
    witnesses' inputs. *)

From S2P Require Import Prelude JsValue Schema Gateway GatewayFacts Validation.
Local Open Scope Z_scope.

(** [...(x && { f: { contains: String(x), mode: "insensitive" } })]:
    a query filter applies when its string is non-empty. *)
Definition str_filter (q : qparam) : option string :=
  match q with Some s => if truthy (JStr s) then Some s else None | None => None end.

Definition js_one : jsnum := js_of_Z 1.

Section Handlers.
Variable is_email : string -> bool.

(** [getUsers]: page and limit default to 1 and 10; the fetch filters on
    username and email, the count also on city. *)
Definition getUsers (q_username q_email q_city q_page q_limit : qparam) : GW response :=
  let pageNumber := js_Number (qparam_default q_page (JNum (js_of_Z 1))) in
  let pageSize := js_Number (qparam_default q_limit (JNum (js_of_Z 10))) in
  if js_lt pageNumber js_one || js_lt pageSize js_one then
    respond 400 (PError "Page and limit must be positive integers.")
  else
    scatch
      (us <- user_findMany (mkUserFilter (str_filter q_username) (str_filter q_email) None)
               (js_mul (js_sub pageNumber js_one) pageSize) pageSize ;;
       total <- user_count (mkUserFilter (str_filter q_username) (str_filter q_email) (str_filter q_city)) ;;
       respond 200 (PUserPage us total pageNumber pageSize))
      (fun _ => respond 500 (PError "Failed to retrieve users.")).

Definition getUserById (id : string) : GW response :=
  scatch
    (r <- user_findUnique_full (js_Number (JStr id)) ;;
     match r with
     | None => respond 404 (PError "User not found.")
     | Some (uid, u, a, c) => respond 200 (PUserFull uid u a c)
     end)
    (fun _ => respond 500 (PError "Failed to retrieve the user.")).

(** [address: { create: { ...address, geo: address.geo ? { create: address.geo } : undefined } }]:
    reading [address.geo] throws a TypeError when [address] is missing.
    [company: { create: company }]: an absent company creates none, a
    [null] one is refused by Prisma. *)
Definition create_address_input (a : jobj address_body) : GW address_input :=
  match a with
  | OVal a => sret (mkAddressIn (ab_street a) (ab_suite a) (ab_city a) (ab_zipcode a)
                      (match ab_geo a with OVal g => Some g | _ => None end))
  | _ => sthrow TypeError
  end.

Definition create_company_input (c : jobj company_input) : GW (option company_input) :=
  match c with
  | OUndef => sret None
  | ONull => sthrow PrismaValidation
  | OVal c => sret (Some c)
  end.

Definition createUser (b : user_body) : GW response :=
  scatch
    (existing <- user_findFirst_dup (b_username b) (b_email b) None ;;
     match existing with
     | Some _ => respond 400 (PError "Username or email already exists.")
     | None =>
         a <- create_address_input (b_address b) ;;
         c <- create_company_input (b_company b) ;;
         r <- user_create (mkUserIn (b_name b) (b_username b) (b_email b) (b_phone b) (b_website b)
                             (Some a) c) ;;
         respond 201 (PUser (fst r) (snd r))
     end)
    (fun _ => respond 500 (PError "Failed to create user.")).

(** The duplicate check of both updates:
    [if (username || email) { findFirst({ OR, NOT: { id } }) }]. *)
Definition duplicate_exists (id : string) (b : user_body) : GW bool :=
  if truthy (b_username b) || truthy (b_email b) then
    e <- user_findFirst_dup (b_username b) (b_email b) (Some (js_Number (JStr id))) ;;
    sret (if e is Some _ then true else false)
  else sret false.

(** The [data] of [updateUser]: nested [update]s always present, fields
    read with [?.]. *)
Definition update_input (b : user_body) : user_input :=
  mkUserIn (b_name b) (b_username b) (b_email b) (b_phone b) (b_website b)
    (Some (mkAddressIn (ofield (b_address b) ab_street) (ofield (b_address b) ab_suite)
             (ofield (b_address b) ab_city) (ofield (b_address b) ab_zipcode)
             (match b_address b with
              | OVal a => match ab_geo a with OVal g => Some g | _ => None end
              | _ => None
              end)))
    (Some (mkCompanyIn (ofield (b_company b) ci_name) (ofield (b_company b) ci_catchPhrase)
             (ofield (b_company b) ci_bs))).

Definition updateUser (id : string) (b : user_body) : GW response :=
  match validate_user_update is_email b with
  | Some msg => respond 400 (PError msg)
  | None =>
      scatch
        (dup <- duplicate_exists id b ;;
         if dup then respond 400 (PError "Username or email already exists.")
         else
           r <- user_update (js_Number (JStr id)) (update_input b) ;;
           respond 200 (PUser (fst r) (snd r)))
        (fun _ => respond 500 (PError "Failed to update user."))
  end.

(** The [data] of [patchUser]: every field [x ?? undefined], nested
    updates only for a truthy [address] / [company]. *)
Definition patch_input (b : user_body) : user_input :=
  mkUserIn (nullish_or (b_name b) JUndef) (nullish_or (b_username b) JUndef)
    (nullish_or (b_email b) JUndef) (nullish_or (b_phone b) JUndef)
    (nullish_or (b_website b) JUndef)
    (match b_address b with
     | OVal a =>
         Some (mkAddressIn (nullish_or (ab_street a) JUndef) (nullish_or (ab_suite a) JUndef)
                 (nullish_or (ab_city a) JUndef) (nullish_or (ab_zipcode a) JUndef)
                 (match ab_geo a with OVal g => Some g | _ => None end))
     | _ => None
     end)
    (match b_company b with
     | OVal c =>
         Some (mkCompanyIn (nullish_or (ci_name c) JUndef) (nullish_or (ci_catchPhrase c) JUndef)
                 (nullish_or (ci_bs c) JUndef))
     | _ => None
     end).

Definition patchUser (id : string) (b : user_body) : GW response :=
  scatch
    (dup <- duplicate_exists id b ;;
     if dup then respond 400 (PError "Username or email already exists.")
     else
       r <- user_update (js_Number (JStr id)) (patch_input b) ;;
       respond 200 (PUser (fst r) (snd r)))
    (fun _ => respond 500 (PError "Failed to update user.")).

(** Geo, then Address, then Company, then Post rows, then the user. *)
Definition deleteUser (id : string) : GW response :=
  scatch
    (let n := js_Number (JStr id) in
     geo_deleteMany_user n ;;;
     address_deleteMany_user n ;;;
     company_deleteMany_user n ;;;
     post_deleteMany_user n ;;;
     user_delete n ;;;
     respond 204 PEmpty)
    (fun _ => respond 500 (PError "Failed to delete user.")).

Definition getUserPosts (id : string) : GW response :=
  scatch
    (ps <- post_findMany_user (js_Number (JStr id)) ;;
     respond 200 (PPostList ps))
    (fun _ => respond 500 (PError "Failed to retrieve posts.")).
End Handlers.

(** ** The user handlers' behaviour *)

(** The rows a user owns: its geo (through its address), its address,
    its company and its posts. *)
Definition geo_of_user (d : db) (uid : Z) (_ : Z) (g : geo) : bool :=
  match tbl_find (addresses d) (geo_addressId g) with Some a => Z.eqb (addr_userId a) uid | None => false end.

Definition without_user (d : db) (uid : Z) : db :=
  mkDb (drop (fun k _ => Z.eqb k uid) (users d))
       (drop (fun _ a => Z.eqb (addr_userId a) uid) (addresses d))
       (drop (geo_of_user d uid) (geos d))
       (drop (fun _ c => Z.eqb (comp_userId c) uid) (companies d))
       (drop (fun _ p => Z.eqb (post_userId p) uid) (posts d))
       (seq_user d) (seq_address d) (seq_geo d) (seq_company d) (seq_post d).

Lemma js_integer_string sid z : string_to_number sid = js_of_Z z -> js_integer (js_Number (JStr sid)) = Some z.
Proof. intros H. simpl. rewrite H. apply js_integer_of_Z. Qed.

(** Once the geos of [uid] are gone, no geo refers to an address of [uid]. *)
Lemma no_geo_left d uid :
  NoDup (tbl_keys (addresses d)) ->
  referenced (tbl_filter (fun _ a => Z.eqb (addr_userId a) uid) (addresses d))
    (drop (geo_of_user d uid) (geos d)) geo_addressId = false.
Proof.
  intros Hnd. apply referenced_false. intros k g Hin Hk.
  apply tbl_filter_In in Hin as [_ Hg]. apply keys_filter_In in Hk as [a [Ha Hu]].
  unfold geo_of_user in Hg. rewrite (tbl_find_In_NoDup _ _ _ Hnd Ha), Hu in Hg. discriminate.
Qed.

Lemma no_child_left {A} (child : table A) (fk : A -> Z) (t : table user) uid :
  referenced (tbl_filter (fun k _ => Z.eqb k uid) t) (drop (fun _ c => Z.eqb (fk c) uid) child) fk = false.
Proof.
  apply referenced_false. intros k c Hin Hk.
  apply tbl_filter_In in Hin as [_ Hc]. apply keys_filter_In in Hk as [r [_ Hu]].
  apply Z.eqb_eq in Hu. rewrite Hu, Z.eqb_refl in Hc. discriminate.
Qed.

(** The whole handler on an existing user: 204 and [without_user]. *)
Lemma deleteUser_run_int d sid uid u :
  wf_db d -> js_integer (js_Number (JStr sid)) = Some uid -> tbl_find (users d) uid = Some u ->
  deleteUser sid d = (Ok (mkResponse 204 PEmpty), without_user d uid).
Proof.
  intros W Hint Hu.
  pose proof (int4_range_key _ _ _ (wf_users d W) (tbl_find_key _ _ _ Hu)) as Hr.
  unfold deleteUser, geo_deleteMany_user, address_deleteMany_user, company_deleteMany_user,
    post_deleteMany_user, user_delete, scatch, sbind, sget.
  rewrite !(int_arg_run _ _ _ Hint Hr), delete_geos_run. simpl.
  rewrite (int_arg_run _ _ _ Hint Hr).
  rewrite delete_addresses_run; [| exact (no_geo_left d uid (proj1 (wf_addresses d W)))].
  simpl. rewrite (int_arg_run _ _ _ Hint Hr). simpl.
  rewrite (int_arg_run _ _ _ Hint Hr). simpl. rewrite (int_arg_run _ _ _ Hint Hr). simpl.
  rewrite Hu. rewrite delete_users_run; [reflexivity | exact (no_child_left _ _ _ _) ..].
Qed.

Lemma deleteUser_run d sid uid u :
  wf_db d -> string_to_number sid = js_of_Z uid -> tbl_find (users d) uid = Some u ->
  deleteUser sid d = (Ok (mkResponse 204 PEmpty), without_user d uid).
Proof. intros W Hsid. apply deleteUser_run_int; [exact W | exact (js_integer_string _ _ Hsid)]. Qed.

(** The whole handler on an id that names no user: the deletes of its
    rows find nothing to refuse or nothing to delete, [user.delete] fails
    with RecordNotFound, and the answer is 500; the users are untouched. *)
Lemma deleteUser_missing d sid uid :
  string_to_number sid = js_of_Z uid -> int4_range uid = true -> tbl_find (users d) uid = None ->
  fst (deleteUser sid d) = Ok (mkResponse 500 (PError "Failed to delete user.")) /\
  users (snd (deleteUser sid d)) = users d.
Proof.
  intros Hsid Hr Hu. pose proof (js_integer_string _ _ Hsid) as Hint.
  unfold deleteUser, geo_deleteMany_user, address_deleteMany_user, company_deleteMany_user,
    post_deleteMany_user, user_delete, scatch, sbind, sget.
  rewrite !(int_arg_run _ _ _ Hint Hr), delete_geos_run. simpl. rewrite (int_arg_run _ _ _ Hint Hr).
  unfold delete_addresses, sbind, sget. rewrite check_run.
  destruct (negb _); simpl; [|split; reflexivity].
  rewrite !(int_arg_run _ _ _ Hint Hr). simpl. rewrite (int_arg_run _ _ _ Hint Hr). simpl.
  rewrite (int_arg_run _ _ _ Hint Hr). simpl. rewrite Hu. split; reflexivity.
Qed.

Lemma find_drop_self {A} (t : table A) uid :
  NoDup (tbl_keys t) -> tbl_find (drop (fun k _ => Z.eqb k uid) t) uid = None.
Proof.
  intros Hnd. unfold drop. rewrite tbl_find_filter by exact Hnd.
  destruct (tbl_find t uid); [rewrite Z.eqb_refl; reflexivity | reflexivity].
Qed.

Lemma find_drop_other {A} (t : table A) uid k :
  NoDup (tbl_keys t) -> k <> uid -> tbl_find (drop (fun k _ => Z.eqb k uid) t) k = tbl_find t k.
Proof.
  intros Hnd Hk. unfold drop. rewrite tbl_find_filter by exact Hnd.
  destruct (tbl_find t k); [rewrite (proj2 (Z.eqb_neq k uid) Hk); reflexivity | reflexivity].
Qed.

Lemma In_drop_fk {A} (t : table A) (fk : A -> Z) uid k r :
  In (k, r) (drop (fun _ c => Z.eqb (fk c) uid) t) -> fk r <> uid.
Proof.
  unfold drop. rewrite tbl_filter_In. intros [_ H]. apply negb_true_iff, Z.eqb_neq in H. exact H.
Qed.

(** What [without_user] leaves: nothing of [uid], every other user. *)
Lemma without_user_spec d uid :
  NoDup (tbl_keys (users d)) ->
  tbl_find (users (without_user d uid)) uid = None /\
  (forall k a, In (k, a) (addresses (without_user d uid)) -> addr_userId a <> uid) /\
  (forall k c, In (k, c) (companies (without_user d uid)) -> comp_userId c <> uid) /\
  (forall k p, In (k, p) (posts (without_user d uid)) -> post_userId p <> uid) /\
  (forall k, k <> uid -> tbl_find (users (without_user d uid)) k = tbl_find (users d) k).
Proof.
  intros Hnd. simpl. split; [apply find_drop_self, Hnd|].
  split; [intros k a; apply In_drop_fk|]. split; [intros k c; apply In_drop_fk|].
  split; [intros k p; apply In_drop_fk|]. intros k Hk. apply find_drop_other; assumption.
Qed.

(** C2: DELETE /users/:id on an existing user of a well-formed database answers
    204 and leaves no user under that id, no address, company or post
    referring to it, and every other user unchanged: the Geo, Address,
    Company, Post, User order of deletions never trips a foreign key. *)
Theorem deleteUser_removes_user d sid uid u :
  wf_db d -> string_to_number sid = js_of_Z uid -> tbl_find (users d) uid = Some u ->
  fst (deleteUser sid d) = Ok (mkResponse 204 PEmpty) /\
  tbl_find (users (snd (deleteUser sid d))) uid = None /\
  (forall k a, In (k, a) (addresses (snd (deleteUser sid d))) -> addr_userId a <> uid) /\
  (forall k c, In (k, c) (companies (snd (deleteUser sid d))) -> comp_userId c <> uid) /\
  (forall k p, In (k, p) (posts (snd (deleteUser sid d))) -> post_userId p <> uid) /\
  (forall k, k <> uid -> tbl_find (users (snd (deleteUser sid d))) k = tbl_find (users d) k).
Proof.
  intros W Hsid Hu. rewrite (deleteUser_run d sid uid u W Hsid Hu).
  split; [reflexivity|]. apply without_user_spec, (wf_users d W).
Qed.

(** The database of the spec's scenario: user 1 with an address, a geo,
    a company and a post. *)
Definition sample_db : db :=
  mkDb [(1, mkUser "A" "u1" "a@x.com" "1" "w")]
       [(1, mkAddress "S" None "C" "Z" 1)]
       [(1, mkGeo "-37.3" "81.1" 1)]
       [(1, mkCompany "Co" None None 1)]
       [(1, mkPost "t" "b" 1)]
       2 2 2 2 2.

Lemma sample_db_wf : wf_db sample_db.
Proof.
  unfold sample_db. wf_concrete.
Qed.

Lemma deleteUser_removes_user_witness :
  wf_db sample_db /\ string_to_number "1" = js_of_Z 1 /\
  tbl_find (users sample_db) 1 = Some (mkUser "A" "u1" "a@x.com" "1" "w") /\
  fst (deleteUser "1" sample_db) = Ok (mkResponse 204 PEmpty).
Proof.
  split; [exact sample_db_wf|]. split; [reflexivity|]. split; [reflexivity|].
  exact (proj1 (deleteUser_removes_user sample_db "1" 1 _ sample_db_wf eq_refl eq_refl)).
Defined.

Lemma user_findUnique_full_run n uid d :
  js_integer n = Some uid -> int4_range uid = true ->
  user_findUnique_full n d =
  (Ok (match tbl_find (users d) uid with
       | Some u => Some (uid, u, option_map (with_geo d) (user_address d uid), user_company d uid)
       | None => None
       end), d).
Proof. intros Hn Hr. unfold user_findUnique_full, sbind. rewrite (int_arg_run _ _ _ Hn Hr). reflexivity. Qed.

(** GET /users/:id of a stored user: the user with its address, geo
    and company. *)
Lemma getUserById_run d uid u :
  int4_range uid = true -> tbl_find (users d) uid = Some u ->
  fst (getUserById (int_to_string uid) d)
  = Ok (mkResponse 200 (PUserFull uid u (option_map (with_geo d) (user_address d uid)) (user_company d uid))).
Proof.
  intros Hr Hu. unfold getUserById, scatch, sbind.
  rewrite (user_findUnique_full_run _ uid _ (js_integer_string _ _ (int_to_string_roundtrip uid)) Hr).
  unfold user_address, user_company, with_geo, address_geo_of. rewrite Hu. reflexivity.
Qed.

Lemma getUserById_missing d sid uid :
  string_to_number sid = js_of_Z uid -> int4_range uid = true -> tbl_find (users d) uid = None ->
  getUserById sid d = (Ok (mkResponse 404 (PError "User not found.")), d).
Proof.
  intros Hsid Hr Hu. unfold getUserById, scatch, sbind.
  rewrite (user_findUnique_full_run _ uid _ (js_integer_string _ _ Hsid) Hr), Hu. reflexivity.
Qed.

Lemma getUserPosts_run d sid uid :
  string_to_number sid = js_of_Z uid -> int4_range uid = true ->
  getUserPosts sid d =
  (Ok (mkResponse 200 (PPostList (tbl_filter (fun _ p => Z.eqb (post_userId p) uid) (posts d)))), d).
Proof.
  intros Hsid Hr. unfold getUserPosts, post_findMany_user, scatch, sbind.
  rewrite (int_arg_run _ _ _ (js_integer_string _ _ Hsid) Hr). reflexivity.
Qed.

Lemma filter_none_match {A} (t : table A) (p : Z -> A -> bool) :
  (forall k r, In (k, r) t -> p k r = false) -> tbl_filter p t = [].
Proof.
  induction t as [|[k r] t IH]; simpl; intros H; [reflexivity|].
  unfold tbl_filter in *. simpl. rewrite (H k r (or_introl eq_refl)). apply IH. intros; apply H; auto.
Qed.

(** C3: after DELETE /users/:id of an existing user, GET /users/:id answers 404
    and GET /users/:id/posts answers an empty list (spec section 8). *)
Theorem deleteUser_then_get d sid uid u :
  wf_db d -> string_to_number sid = js_of_Z uid -> tbl_find (users d) uid = Some u ->
  fst (getUserById sid (snd (deleteUser sid d))) = Ok (mkResponse 404 (PError "User not found.")) /\
  fst (getUserPosts sid (snd (deleteUser sid d))) = Ok (mkResponse 200 (PPostList [])).
Proof.
  intros W Hsid Hu.
  pose proof (int4_range_key _ _ _ (wf_users d W) (tbl_find_key _ _ _ Hu)) as Hr.
  rewrite (deleteUser_run d sid uid u W Hsid Hu). simpl snd.
  destruct (without_user_spec d uid (proj1 (wf_users d W))) as (Hgone & _ & _ & Hposts & _).
  split.
  - rewrite (getUserById_missing _ sid uid Hsid Hr Hgone). reflexivity.
  - rewrite (getUserPosts_run _ sid uid Hsid Hr). simpl. do 3 f_equal.
    apply filter_none_match. intros k p Hin. apply Z.eqb_neq. exact (Hposts k p Hin).
Qed.

Lemma deleteUser_then_get_witness :
  fst (getUserById "1" (snd (deleteUser "1" sample_db))) = Ok (mkResponse 404 (PError "User not found.")) /\
  fst (getUserPosts "1" (snd (deleteUser "1" sample_db))) = Ok (mkResponse 200 (PPostList [])).
Proof.
  exact (deleteUser_then_get sample_db "1" 1 (mkUser "A" "u1" "a@x.com" "1" "w") sample_db_wf eq_refl eq_refl).
Defined.

Definition jopt (o : option string) : jval := match o with Some s => JStr s | None => JUndef end.

(** A create body as the client's form builds it: every field a string,
    [suite], [catchPhrase] and [bs] optional, [geo] and [company] present
    or absent. *)
Definition create_body (u : user) (st : string) (su : option string) (ci zp : string)
  (g : option (string * string)) (c : option (string * option string * option string)) : user_body :=
  mkUserBody (JStr (name u)) (JStr (username u)) (JStr (email u)) (JStr (phone u)) (JStr (website u))
    (OVal (mkAddressBody (JStr st) (jopt su) (JStr ci) (JStr zp)
       (match g with Some (la, ln) => OVal (mkGeoIn (JStr la) (JStr ln)) | None => OUndef end)))
    (match c with Some (cn, cp, cb) => OVal (mkCompanyIn (JStr cn) (jopt cp) (jopt cb)) | None => OUndef end).

Lemma findFirst_dup_fresh un em d :
  un ∉ col (users d) username -> em ∉ col (users d) email ->
  user_findFirst_dup (JStr un) (JStr em) None d = (Ok None, d).
Proof.
  intros H1 H2. unfold user_findFirst_dup, sbind, sret. simpl. rewrite find_none; [reflexivity|].
  intros [k u] Hin. simpl.
  destruct (String.eqb_spec (username u) un) as [E1|]; [exfalso; apply H1; rewrite <- E1;
    apply list_elem_of_In, in_map_iff; exists (k, u); auto|].
  destruct (String.eqb_spec (email u) em) as [E2|]; [exfalso; apply H2; rewrite <- E2;
    apply list_elem_of_In, in_map_iff; exists (k, u); auto|].
  reflexivity.
Qed.

Lemma opt_str_jopt o d : opt_str (jopt o) d = (Ok o, d).
Proof. destruct o; reflexivity. Qed.

(** The database after a successful nested create. *)
Definition created_db (d : db) (u : user) (a : address) (g : option (string * string))
  (c : option (string * option string * option string)) : db :=
  mkDb (users d ++ [(seq_user d, u)])
       (addresses d ++ [(seq_address d, a)])
       (match g with Some (la, ln) => geos d ++ [(seq_geo d, mkGeo la ln (seq_address d))] | None => geos d end)
       (match c with
        | Some (cn, cp, cb) => companies d ++ [(seq_company d, mkCompany cn cp cb (seq_user d))]
        | None => companies d
        end)
       (posts d)
       (seq_user d + 1) (seq_address d + 1)
       (match g with Some _ => seq_geo d + 1 | None => seq_geo d end)
       (match c with Some _ => seq_company d + 1 | None => seq_company d end)
       (seq_post d).

Definition geo_in (g : option (string * string)) : option geo_input :=
  match g with Some (la, ln) => Some (mkGeoIn (JStr la) (JStr ln)) | None => None end.

Definition company_in (c : option (string * option string * option string)) : option company_input :=
  match c with Some (cn, cp, cb) => Some (mkCompanyIn (JStr cn) (jopt cp) (jopt cb)) | None => None end.

Lemma user_create_run d u st su ci zp g c :
  wf_db d -> username u ∉ col (users d) username -> email u ∉ col (users d) email ->
  seq_user d <= int4_max -> seq_address d <= int4_max -> seq_geo d <= int4_max -> seq_company d <= int4_max ->
  user_create (mkUserIn (JStr (name u)) (JStr (username u)) (JStr (email u)) (JStr (phone u)) (JStr (website u))
                 (Some (mkAddressIn (JStr st) (jopt su) (JStr ci) (JStr zp) (geo_in g))) (company_in c)) d
  = (Ok (seq_user d, u), created_db d u (mkAddress st su ci zp (seq_user d)) g c).
Proof.
  intros W Hun Hem S1 S2 S3 S4.
  unfold user_create, address_create_data, company_create_data, opt_data, sbind.
  cbn [req_str sret ui_name ui_username ui_email ui_phone ui_website ui_address ui_company
       ai_street ai_suite ai_city ai_zipcode ai_geo].
  rewrite opt_str_jopt.
  pose proof (wf_users d W) as Wu. pose proof (wf_addresses d W) as Wa.
  pose proof (wf_addr_fk d W) as Fa. pose proof (wf_geo_fk d W) as Fg. pose proof (wf_comp_fk d W) as Fc.
  destruct u as [nm un em ph ws]. simpl in Hun, Hem.
  destruct g as [[la ln]|]; destruct c as [[[cn cp] cb]|];
    cbn -[insert_user insert_address insert_geo insert_company transaction];
    rewrite ?opt_str_jopt; cbn -[insert_user insert_address insert_geo insert_company transaction];
    (erewrite transaction_commit; [reflexivity|]);
    rewrite insert_user_run by assumption; cbn -[insert_address insert_geo insert_company];
    (rewrite insert_address_run; [cbn -[insert_geo insert_company] | simpl; lia | simpl; rewrite tbl_keys_app; set_solver
      | simpl; exact (fk_fresh _ _ _ _ Fa Wu)]).
  all: try (rewrite insert_geo_run; [cbn -[insert_company] | simpl; lia
                                   | simpl; rewrite tbl_keys_app; set_solver
                                   | simpl; exact (fk_fresh _ _ _ _ Fg Wa)]).
  all: try (rewrite insert_company_run; [cbn | simpl; lia
                                       | simpl; rewrite tbl_keys_app; set_solver
                                       | simpl; exact (fk_fresh _ _ _ _ Fc Wu)]).
  all: reflexivity.
Qed.
Lemma createUser_run d u st su ci zp g c :
  wf_db d -> username u ∉ col (users d) username -> email u ∉ col (users d) email ->
  seq_user d <= int4_max -> seq_address d <= int4_max -> seq_geo d <= int4_max -> seq_company d <= int4_max ->
  createUser (create_body u st su ci zp g c) d
  = (Ok (mkResponse 201 (PUser (seq_user d) u)), created_db d u (mkAddress st su ci zp (seq_user d)) g c).
Proof.
  intros W Hun Hem S1 S2 S3 S4.
  pose proof (user_create_run d u st su ci zp g c W Hun Hem S1 S2 S3 S4) as E.
  unfold createUser, create_body, scatch, sbind.
  cbn [b_username b_email b_address b_company b_name b_phone b_website].
  rewrite findFirst_dup_fresh by assumption.
  destruct g as [[la ln]|]; destruct c as [[[cn cp] cb]|]; cbn -[user_create] in *; rewrite E; reflexivity.
Qed.

(** What GET /users/:id answers for the user [createUser] just stored. *)
Definition created_full (d : db) (u : user) (a : address) (g : option (string * string))
  (c : option (string * option string * option string)) : payload :=
  PUserFull (seq_user d) u
    (Some (seq_address d, a,
           match g with Some (la, ln) => Some (seq_geo d, mkGeo la ln (seq_address d)) | None => None end))
    (match c with Some (cn, cp, cb) => Some (seq_company d, mkCompany cn cp cb (seq_user d)) | None => None end).

Lemma getUserById_created d u a g c sid :
  wf_db d -> seq_user d <= int4_max -> addr_userId a = seq_user d ->
  string_to_number sid = js_of_Z (seq_user d) ->
  fst (getUserById sid (created_db d u a g c)) = Ok (mkResponse 200 (created_full d u a g c)).
Proof.
  intros W S1 Ha Hsid.
  pose proof (wf_users d W) as Wu. pose proof (wf_addresses d W) as Wa.
  pose proof (wf_addr_fk d W) as Fa. pose proof (wf_geo_fk d W) as Fg. pose proof (wf_comp_fk d W) as Fc.
  assert (Hr : int4_range (seq_user d) = true).
  { destruct Wu as (_ & _ & Hs). unfold int4_range, int4_max in *. apply andb_true_iff; split; apply Z.leb_le; lia. }
  unfold getUserById, scatch, sbind.
  rewrite (user_findUnique_full_run _ (seq_user d) _ (js_integer_string _ _ Hsid) Hr).
  unfold created_db, user_address, user_company, with_geo, address_geo_of. simpl.
  rewrite tbl_find_app, (proj2 (tbl_find_None _ _) (fresh_key _ _ Wu)). simpl. rewrite Z.eqb_refl.
  rewrite find_app_last by (intros [k r] Hin; apply Z.eqb_neq; exact (fk_fresh_In _ _ _ _ _ _ Fa Wu Hin)).
  simpl. rewrite Ha, Z.eqb_refl. simpl.
  destruct g as [[la ln]|]; destruct c as [[[cn cp] cb]|]; simpl;
    rewrite ?find_app_last, ?find_none, ?Z.eqb_refl; try reflexivity;
    intros [k r] Hin; apply Z.eqb_neq;
    first [exact (fk_fresh_In _ _ _ _ _ _ Fg Wa Hin) | exact (fk_fresh_In _ _ _ _ _ _ Fc Wu Hin)].
Qed.

(** C4: POST /users with a body that has every field, and whose username
    and email are not taken, answers 201 with the next user id; a later
    GET /users/:id for that id answers 200 with the same user fields, the
    address that was sent, and the geo and company when they were sent
    (the create-then-read round trip of spec section 8). *)
Theorem createUser_roundtrip d u st su ci zp g c sid :
  wf_db d -> username u ∉ col (users d) username -> email u ∉ col (users d) email ->
  seq_user d <= int4_max -> seq_address d <= int4_max -> seq_geo d <= int4_max -> seq_company d <= int4_max ->
  string_to_number sid = js_of_Z (seq_user d) ->
  fst (createUser (create_body u st su ci zp g c) d) = Ok (mkResponse 201 (PUser (seq_user d) u)) /\
  fst (getUserById sid (snd (createUser (create_body u st su ci zp g c) d)))
  = Ok (mkResponse 200 (created_full d u (mkAddress st su ci zp (seq_user d)) g c)).
Proof.
  intros W Hun Hem S1 S2 S3 S4 Hsid.
  rewrite (createUser_run d u st su ci zp g c W Hun Hem S1 S2 S3 S4).
  split; [reflexivity|]. apply getUserById_created; auto.
Qed.

Lemma createUser_roundtrip_witness :
  fst (createUser (create_body (mkUser "A" "u2" "b@x.com" "1" "w") "S" None "C" "Z" (Some ("1", "2"))
                     (Some ("Co", None, None))) sample_db)
  = Ok (mkResponse 201 (PUser 2 (mkUser "A" "u2" "b@x.com" "1" "w"))) /\
  fst (getUserById "2" (snd (createUser (create_body (mkUser "A" "u2" "b@x.com" "1" "w") "S" None "C" "Z"
                                           (Some ("1", "2")) (Some ("Co", None, None))) sample_db)))
  = Ok (mkResponse 200 (created_full sample_db (mkUser "A" "u2" "b@x.com" "1" "w")
                          (mkAddress "S" None "C" "Z" 2) (Some ("1", "2")) (Some ("Co", None, None)))).
Proof.
  apply (createUser_roundtrip sample_db (mkUser "A" "u2" "b@x.com" "1" "w") "S" None "C" "Z"
           (Some ("1", "2")) (Some ("Co", None, None)) "2" sample_db_wf);
    [vm_compute; set_solver | vm_compute; set_solver | vm_compute; congruence .. | reflexivity].
Defined.

(** ** [getUsers]: pages of the filtered users *)

(** The rows [findMany] pages through: username and email filters only. *)
Definition fetched_users (d : db) (qu qe : qparam) : table user :=
  tbl_filter (user_matches d (mkUserFilter (str_filter qu) (str_filter qe) None)) (users d).

(** The rows [count] counts: the city filter as well. *)
Definition counted_users (d : db) (qu qe qc : qparam) : table user :=
  tbl_filter (user_matches d (mkUserFilter (str_filter qu) (str_filter qe) (str_filter qc))) (users d).

Lemma getUsers_run d qu qe qc qp ql p l :
  js_Number (qparam_default qp (JNum (js_of_Z 1))) = js_of_Z p ->
  js_Number (qparam_default ql (JNum (js_of_Z 10))) = js_of_Z l ->
  1 <= p -> 1 <= l ->
  getUsers qu qe qc qp ql d
  = (Ok (mkResponse 200 (PUserPage (firstn (Z.to_nat l) (skipn (Z.to_nat ((p - 1) * l)) (fetched_users d qu qe)))
                            (Z.of_nat (length (counted_users d qu qe qc))) (js_of_Z p) (js_of_Z l))), d).
Proof.
  intros Hp Hl H1 H2. unfold getUsers, js_one. rewrite Hp, Hl, !js_lt_of_Z.
  destruct (Z.ltb_spec p 1), (Z.ltb_spec l 1); try lia. simpl orb. cbv iota.
  unfold scatch, sbind, user_findMany, user_count, page_args, respond, sget, sret.
  rewrite js_sub_of_Z, js_mul_of_Z, !js_integer_of_Z.
  destruct (Z.ltb_spec ((p - 1) * l) 0); [nia|]. unfold paginate. simpl.
  destruct (Z.leb_spec 0 l); [reflexivity | lia].
Qed.

(** The scenario database with a second user, without address. *)
Definition two_user_db : db :=
  mkDb (users sample_db ++ [(2, mkUser "B" "u2" "b@x.com" "2" "v")])
       (addresses sample_db) (geos sample_db) (companies sample_db) (posts sample_db) 3 2 2 2 2.

(** C6: GET /users pages through the username/email-filtered users in id
    order: with [limit = l >= 1], the [i]-th filtered user (from 0) is
    returned by the request for [page = i / l + 1], at position [i mod l]
    of that page (spec section 4, pagination). *)
Theorem getUsers_row_on_page d qu qe qc qp ql i l r :
  js_Number (qparam_default qp (JNum (js_of_Z 1))) = js_of_Z (i / l + 1) ->
  js_Number (qparam_default ql (JNum (js_of_Z 10))) = js_of_Z l ->
  1 <= l -> 0 <= i -> nth_error (fetched_users d qu qe) (Z.to_nat i) = Some r ->
  exists us total,
    fst (getUsers qu qe qc qp ql d) = Ok (mkResponse 200 (PUserPage us total (js_of_Z (i / l + 1)) (js_of_Z l))) /\
    nth_error us (Z.to_nat (i mod l)) = Some r.
Proof.
  intros Hp Hl H1 Hi Hr.
  assert (Hq : 0 <= i / l) by (apply Z.div_pos; lia).
  pose proof (Z.mod_pos_bound i l ltac:(lia)) as Hm.
  rewrite (getUsers_run d qu qe qc qp ql (i / l + 1) l Hp Hl ltac:(lia) H1).
  eexists _, _; split; [reflexivity|].
  rewrite nth_error_page by lia. rewrite <- Hr. f_equal.
  rewrite <- Z2Nat.inj_add by nia. f_equal.
  rewrite (Z.div_mod i l) at 3 by lia. lia.
Qed.

Lemma getUsers_row_on_page_witness :
  exists us total,
    fst (getUsers None None None (Some "2") (Some "1") two_user_db) =
      Ok (mkResponse 200 (PUserPage us total (js_of_Z (1 / 1 + 1)) (js_of_Z 1))) /\
    nth_error us (Z.to_nat (1 mod 1)) = Some (2, mkUser "B" "u2" "b@x.com" "2" "v").
Proof.
  apply (getUsers_row_on_page two_user_db None None None (Some "2") (Some "1") 1 1);
    [vm_compute; reflexivity | vm_compute; reflexivity | lia | lia | vm_compute; reflexivity].
Defined.

(** C7: a 200 answer of GET /users with integer [page >= 1] and
    [limit = l >= 1] holds at most [l] users, each a stored user that
    matches the username and email filters, and leaves the database as
    it was. *)
Theorem getUsers_page_bounded d qu qe qc qp ql p l us total pg lim :
  js_Number (qparam_default qp (JNum (js_of_Z 1))) = js_of_Z p ->
  js_Number (qparam_default ql (JNum (js_of_Z 10))) = js_of_Z l ->
  1 <= p -> 1 <= l ->
  fst (getUsers qu qe qc qp ql d) = Ok (mkResponse 200 (PUserPage us total pg lim)) ->
  Z.of_nat (length us) <= l /\
  (forall k u, In (k, u) us ->
     In (k, u) (users d) /\ opt_filter (str_filter qu) (username u) && opt_filter (str_filter qe) (email u) = true) /\
  snd (getUsers qu qe qc qp ql d) = d.
Proof.
  intros Hp Hl H1 H2. rewrite (getUsers_run d qu qe qc qp ql p l Hp Hl H1 H2). simpl.
  intros [= <- _ _ _]. split; [|split; [|reflexivity]].
  - pose proof (length_firstn_le (Z.to_nat l) (skipn (Z.to_nat ((p - 1) * l)) (fetched_users d qu qe))). lia.
  - intros k u Hin. apply firstn_skipn_In, tbl_filter_In in Hin as [Hin Hm].
    split; [exact Hin|]. unfold user_matches in Hm. simpl in Hm. rewrite andb_true_r in Hm. exact Hm.
Qed.

Lemma getUsers_page_bounded_witness :
  Z.of_nat (length [(1, mkUser "A" "u1" "a@x.com" "1" "w")]) <= 1 /\
  (forall k u, In (k, u) [(1, mkUser "A" "u1" "a@x.com" "1" "w")] ->
     In (k, u) (users two_user_db) /\ opt_filter (str_filter (Some "u")) (username u)
                                      && opt_filter (str_filter None) (email u) = true) /\
  snd (getUsers (Some "u") None None None (Some "1") two_user_db) = two_user_db.
Proof.
  apply (getUsers_page_bounded two_user_db (Some "u") None None None (Some "1") 1 1 _ 2 (js_of_Z 1) (js_of_Z 1));
    [reflexivity | vm_compute; reflexivity | lia | lia | vm_compute; reflexivity].
Defined.

(** C8: GET /users with an integer page below 1, or an integer limit below
    1, answers 400 and reads nothing (spec section 8: [?page=0] or
    [?limit=0] yields 400). *)
Theorem getUsers_bad_page d qu qe qc qp ql n :
  (js_Number (qparam_default qp (JNum (js_of_Z 1))) = js_of_Z n \/
   js_Number (qparam_default ql (JNum (js_of_Z 10))) = js_of_Z n) -> n < 1 ->
  getUsers qu qe qc qp ql d = (Ok (mkResponse 400 (PError "Page and limit must be positive integers.")), d).
Proof.
  intros Hn H1. unfold getUsers, js_one.
  assert (Hlt : js_lt (js_of_Z n) (js_of_Z 1) = true) by (rewrite js_lt_of_Z; apply Z.ltb_lt; exact H1).
  destruct Hn as [Hn | Hn]; rewrite Hn, Hlt; [reflexivity|]. rewrite orb_true_r. reflexivity.
Qed.

Lemma getUsers_bad_page_witness :
  getUsers None None None (Some "0") None sample_db
  = (Ok (mkResponse 400 (PError "Page and limit must be positive integers.")), sample_db).
Proof. apply (getUsers_bad_page sample_db None None None (Some "0") None 0); [left; vm_compute; reflexivity | lia]. Defined.

(** C9: GET /users with a page that [Number()] reads as NaN (for instance
    [?page=abc]) passes the [< 1] guard, since NaN compares false, and the
    NaN [skip] makes the query fail: the answer is 500, not the 400 of
    the guard's message "Page and limit must be positive integers.". *)
Theorem getUsers_nan_page d qu qe qc qp ql :
  js_Number (qparam_default qp (JNum (js_of_Z 1))) = NaN ->
  js_lt (js_Number (qparam_default ql (JNum (js_of_Z 10)))) js_one = false ->
  getUsers qu qe qc qp ql d = (Ok (mkResponse 500 (PError "Failed to retrieve users.")), d).
Proof.
  intros Hp Hl. unfold getUsers. rewrite Hp, Hl. reflexivity.
Qed.

Lemma getUsers_nan_page_witness :
  getUsers None None None (Some "abc") None sample_db
  = (Ok (mkResponse 500 (PError "Failed to retrieve users.")), sample_db).
Proof. apply (getUsers_nan_page sample_db None None None (Some "abc") None); vm_compute; reflexivity. Defined.

(** ** [createUser]: the duplicate pre-check *)

Lemma find_exists {X} (f : X -> bool) (l : list X) x :
  In x l -> f x = true -> exists y, List.find f l = Some y.
Proof.
  induction l as [|y l IH]; simpl; [tauto|]. intros [<- | Hin] Hx.
  - rewrite Hx. eauto.
  - destruct (f y); eauto.
Qed.

Lemma findFirst_dup_taken un em d :
  un ∈ col (users d) username \/ em ∈ col (users d) email ->
  exists r, user_findFirst_dup (JStr un) (JStr em) None d = (Ok (Some r), d).
Proof.
  intros H. unfold user_findFirst_dup, sbind, sret. simpl.
  assert (Hx : exists kr, In kr (users d) /\ (String.eqb (username (snd kr)) un || String.eqb (email (snd kr)) em) = true).
  { destruct H as [H | H]; unfold col in H; apply list_elem_of_In, in_map_iff in H as [[k u] [E Hin]];
      exists (k, u); simpl in *; subst; rewrite String.eqb_refl, ?orb_true_r; auto. }
  destruct Hx as [kr [Hin Hm]].
  destruct (find_exists (fun kr => (String.eqb (username (snd kr)) un || String.eqb (email (snd kr)) em) && true)
              (users d) kr Hin ltac:(cbn beta; rewrite Hm; reflexivity)) as [r Hr].
  exists r. rewrite Hr. reflexivity.
Qed.

(** C5: POST /users whose username or email is already stored answers 400
    "Username or email already exists." and writes nothing: tables and
    id sequences are unchanged (spec section 8). *)
Theorem createUser_duplicate b d un em :
  b_username b = JStr un -> b_email b = JStr em ->
  un ∈ col (users d) username \/ em ∈ col (users d) email ->
  createUser b d = (Ok (mkResponse 400 (PError "Username or email already exists.")), d).
Proof.
  intros Hu He Hd. destruct (findFirst_dup_taken un em d Hd) as [r Hr].
  unfold createUser, scatch, sbind. rewrite Hu, He, Hr. reflexivity.
Qed.

Lemma createUser_duplicate_witness :
  createUser (create_body (mkUser "A" "u1" "c@x.com" "1" "w") "S" None "C" "Z" None (Some ("Co", None, None))) sample_db
  = (Ok (mkResponse 400 (PError "Username or email already exists.")), sample_db).
Proof.
  apply (createUser_duplicate _ sample_db "u1" "c@x.com"); [reflexivity | reflexivity | left; vm_compute; set_solver].
Defined.

(** ** [updateUser]: the schema check comes first *)

(** C14: PUT /users/:id with a valid name and a non-empty username of
    fewer than 3 characters answers 400 with Joi's message [msg_min]
    (the username length must be at least 3 characters long) and reads
    nothing; so the body of the spec's scenario (username "u1"), which
    POST /users accepts, is refused by PUT (spec section 8 scenario). *)
Theorem updateUser_short_username is_email id b d s :
  nonempty_str (b_name b) -> b_username b = JStr s -> s <> "" -> (String.length s < 3)%nat ->
  updateUser is_email id b d = (Ok (mkResponse 400 (PError (msg_min "username" "3"))), d).
Proof.
  intros (n & Hn & Hne) Hu Hs Hl. unfold updateUser, validate_user_update, joi_string. rewrite Hn, Hu.
  destruct (String.eqb_spec n "") as [|_]; [contradiction|]. destruct (String.eqb_spec s "") as [|_]; [contradiction|].
  simpl. destruct (Nat.ltb_spec (String.length s) 3); [reflexivity | lia].
Qed.

Lemma updateUser_short_username_witness :
  updateUser simple_email "1" (create_body (mkUser "A" "u1" "a@x.com" "1" "w") "S" None "C" "Z" None (Some ("Co", None, None)))
    sample_db = (Ok (mkResponse 400 (PError (msg_min "username" "3"))), sample_db).
Proof.
  apply (updateUser_short_username simple_email _ _ sample_db "u1");
    [exists "A"; split; [reflexivity | discriminate] | reflexivity | discriminate | simpl; lia].
Defined.

Lemma duplicate_exists_pure id b : st_steps eq (duplicate_exists id b).
Proof. unfold duplicate_exists, user_findFirst_dup, where_eq_arg, int_arg. st_step_tac. Qed.

(** C15: PUT /users/:id of a user that has no company never succeeds, even
    with a body the schema admits: [updateUser] always sends a nested
    [company: { update }], which fails on a missing relation, so the
    answer is the duplicate 400 or the 500 "Failed to update user.", and
    the transaction leaves every row as it was (spec section 4.1 says
    the update is in place for User, Address and Company). *)
Theorem updateUser_without_company is_email sid uid b d :
  string_to_number sid = js_of_Z uid -> user_company d uid = None -> validate_user_update is_email b = None ->
  (fst (updateUser is_email sid b d) = Ok (mkResponse 400 (PError "Username or email already exists.")) \/
   fst (updateUser is_email sid b d) = Ok (mkResponse 500 (PError "Failed to update user."))) /\
  same_rows d (snd (updateUser is_email sid b d)).
Proof.
  intros Hsid Hc Hv. unfold updateUser. rewrite Hv. unfold scatch, sbind.
  pose proof (st_steps_eq_state _ d (duplicate_exists_pure sid b)) as Hd.
  destruct (duplicate_exists sid b d) as [[dup|e] d1]; simpl in Hd; subst d1; simpl;
    [| split; [right; reflexivity | apply same_rows_refl]].
  destruct dup; [split; [left; reflexivity | apply same_rows_refl]|].
  destruct (user_update_no_company _ uid (update_input b) _ d (js_integer_string _ _ Hsid) eq_refl Hc)
    as (e & d' & Hu & Hr).
  cbn [js_Number] in Hu. rewrite Hu. split; [right; reflexivity | exact Hr].
Qed.

(** A body the schema admits, for user 2 of [two_user_db], who has no company. *)
Definition full_update_body : user_body :=
  create_body (mkUser "B" "bob" "b@x.com" "2" "v") "S" None "C" "Z" None (Some ("Co", None, None)).

Lemma updateUser_without_company_witness :
  (fst (updateUser simple_email "2" full_update_body two_user_db)
     = Ok (mkResponse 400 (PError "Username or email already exists.")) \/
   fst (updateUser simple_email "2" full_update_body two_user_db)
     = Ok (mkResponse 500 (PError "Failed to update user."))) /\
  same_rows two_user_db (snd (updateUser simple_email "2" full_update_body two_user_db)).
Proof. apply (updateUser_without_company simple_email "2" 2); vm_compute; reflexivity. Defined.

(** ** Inputs the handlers do not anticipate *)

(** C17: GET /users/:id with an id that is not an integer, such as "abc"
    or "1.5", or an integer outside INT4, answers 500 "Failed to retrieve
    the user.": Prisma refuses the argument before any lookup, so the
    absent-user 404 of the spec is not given (spec section 4.1). *)
Theorem getUserById_bad_id d sid :
  (js_integer (string_to_number sid) = None \/
   exists z, js_integer (string_to_number sid) = Some z /\ int4_range z = false) ->
  getUserById sid d = (Ok (mkResponse 500 (PError "Failed to retrieve the user.")), d).
Proof.
  intros H. unfold getUserById, user_findUnique_full, int_arg, scatch, sbind. simpl.
  destruct H as [-> | (z & -> & ->)]; reflexivity.
Qed.

Lemma getUserById_bad_id_witness :
  getUserById "abc" sample_db = (Ok (mkResponse 500 (PError "Failed to retrieve the user.")), sample_db).
Proof. apply getUserById_bad_id. left. vm_compute. reflexivity. Defined.

(** C16: POST /users without an [address] (or with [address: null]) and
    with a fresh username and email answers 500 "Failed to create user."
    and writes nothing: the handler reads [address.geo] on the missing
    object, a TypeError inside the [try] (spec section 4.1 requires the
    nested address but names no error for its absence). *)
Theorem createUser_without_address b d un em :
  b_username b = JStr un -> b_email b = JStr em ->
  un ∉ col (users d) username -> em ∉ col (users d) email ->
  (b_address b = OUndef \/ b_address b = ONull) ->
  createUser b d = (Ok (mkResponse 500 (PError "Failed to create user.")), d).
Proof.
  intros Hu He H1 H2 Ha. unfold createUser, scatch, sbind. rewrite Hu, He, (findFirst_dup_fresh un em d H1 H2).
  unfold create_address_input. destruct Ha as [-> | ->]; reflexivity.
Qed.

Lemma createUser_without_address_witness :
  createUser (mkUserBody (JStr "A") (JStr "u2") (JStr "b@x.com") (JStr "1") (JStr "w") OUndef OUndef) sample_db
  = (Ok (mkResponse 500 (PError "Failed to create user.")), sample_db).
Proof.
  apply (createUser_without_address _ sample_db "u2" "b@x.com");
    [reflexivity | reflexivity | vm_compute; set_solver | vm_compute; set_solver | left; reflexivity].
Defined.
