(* ===== verification/PostController.v ===== *)
(** * The post handlers of [src/blog-api/src/controllers/postController.ts]

    One definition per exported handler, in the style of
    [UserController].  [getPosts] computes [skip] before its [try] and
    does not validate page or limit.  [updatePost] and [patchPost] have
    the same body, [title ?? undefined] and [body ?? undefined].

    The theorems: PATCH of a title keeps the body ([patchPost_title_keeps_body]), getPosts' page
    and [total] use one filter ([getPosts_total_consistent]), which ignores ASCII case ([getPosts_title_case_insensitive]), and
    the 500s of a post for a missing user ([createPost_orphan]) and of deleting a missing
    post ([deletePost_missing]). *)

From S2P Require Import Prelude JsValue Schema Gateway GatewayFacts Validation UserController.
Local Open Scope Z_scope.

Definition getPosts (q_title q_userId q_page q_limit : qparam) : GW response :=
  let page := js_Number (qparam_default q_page (JNum (js_of_Z 1))) in
  let limit := js_Number (qparam_default q_limit (JNum (js_of_Z 10))) in
  let skip := js_mul (js_sub page js_one) limit in
  let uid := if truthy (qval q_userId) then Some (js_Number (qval q_userId)) else None in
  scatch
    (ps <- post_findMany (str_filter q_title) uid skip limit ;;
     total <- post_count (str_filter q_title) uid ;;
     respond 200 (PPostPage ps total))
    (fun _ => respond 500 (PError "Failed to retrieve posts.")).

Definition getPostById (id : string) : GW response :=
  scatch
    (r <- post_findUnique_with_user (js_Number (JStr id)) ;;
     match r with
     | None => respond 404 (PError "Post not found.")
     | Some (pid, p, u) => respond 200 (PPostFull pid p u)
     end)
    (fun _ => respond 500 (PError "Failed to retrieve the post.")).

Definition createPost (b : post_body) : GW response :=
  scatch
    (r <- post_create (pb_title b) (pb_body b) (js_Number (pb_userId b)) ;;
     respond 201 (PPost (fst r) (snd r)))
    (fun _ => respond 500 (PError "Failed to create post.")).

Definition updatePost (id : string) (b : post_body) : GW response :=
  scatch
    (r <- post_update (js_Number (JStr id)) (nullish_or (pb_title b) JUndef) (nullish_or (pb_body b) JUndef) ;;
     respond 200 (PPost (fst r) (snd r)))
    (fun _ => respond 500 (PError "Failed to update post.")).

Definition patchPost (id : string) (b : post_body) : GW response :=
  scatch
    (r <- post_update (js_Number (JStr id)) (nullish_or (pb_title b) JUndef) (nullish_or (pb_body b) JUndef) ;;
     respond 200 (PPost (fst r) (snd r)))
    (fun _ => respond 500 (PError "Failed to update post.")).

Definition deletePost (id : string) : GW response :=
  scatch
    (post_delete (js_Number (JStr id)) ;;;
     respond 204 PEmpty)
    (fun _ => respond 500 (PError "Failed to delete post.")).

(** ** Updates and reads of one post *)

(** A stored post's user exists in a well-formed database. *)
Lemma post_user_exists d pid p :
  wf_db d -> tbl_find (posts d) pid = Some p -> exists u, tbl_find (users d) (post_userId p) = Some u.
Proof.
  intros W Hp. apply tbl_find_Some in Hp.
  pose proof (wf_post_fk d W) as F. unfold refs_ok in F. rewrite Forall_forall in F.
  specialize (F (pid, p) ltac:(apply list_elem_of_In; exact Hp)). simpl in F.
  destruct (tbl_find (users d) (post_userId p)) as [u|] eqn:E; [eauto|].
  apply tbl_find_None in E. contradiction.
Qed.

Lemma post_update_run n pid t b p d :
  js_integer n = Some pid -> int4_range pid = true -> valid_upd_req t = true -> valid_upd_req b = true ->
  tbl_find (posts d) pid = Some p ->
  post_update n t b d
  = (Ok (pid, apply_post_update t b p), set_posts d (tbl_set (posts d) pid (apply_post_update t b p))).
Proof.
  intros Hn Hr Ht Hb Hp. unfold post_update, update_post_row, check, sbind, sget.
  rewrite (int_arg_run _ _ _ Hn Hr), Ht, Hb. simpl. rewrite Hp. simpl. rewrite Hp. reflexivity.
Qed.

Lemma getPostById_run sid pid p u d :
  string_to_number sid = js_of_Z pid -> int4_range pid = true ->
  tbl_find (posts d) pid = Some p -> tbl_find (users d) (post_userId p) = Some u ->
  getPostById sid d = (Ok (mkResponse 200 (PPostFull pid p (post_userId p, u))), d).
Proof.
  intros Hsid Hr Hp Hu. unfold getPostById, post_findUnique_with_user, include_user, scatch, sbind, sget.
  rewrite (int_arg_run _ _ _ (js_integer_string _ _ Hsid) Hr). simpl. rewrite Hp. simpl. rewrite Hu. reflexivity.
Qed.

(** C33: PATCH /posts/:id of a stored post with only a title answers 200
    with the new title and the old body, and a later GET /posts/:id
    returns the post with that title, the old body and its user (spec
    section 8). *)
Theorem patchPost_title_keeps_body d sid pid p b t :
  wf_db d -> string_to_number sid = js_of_Z pid -> tbl_find (posts d) pid = Some p ->
  pb_title b = JStr t -> (pb_body b = JUndef \/ pb_body b = JNull) ->
  fst (patchPost sid b d) = Ok (mkResponse 200 (PPost pid (mkPost t (body p) (post_userId p)))) /\
  exists u, tbl_find (users d) (post_userId p) = Some u /\
    fst (getPostById sid (snd (patchPost sid b d)))
    = Ok (mkResponse 200 (PPostFull pid (mkPost t (body p) (post_userId p)) (post_userId p, u))).
Proof.
  intros W Hsid Hp Ht Hb.
  pose proof (int4_range_key _ _ _ (wf_posts d W) (tbl_find_key _ _ _ Hp)) as Hr.
  assert (Hrun : patchPost sid b d
                 = (Ok (mkResponse 200 (PPost pid (mkPost t (body p) (post_userId p)))),
                    set_posts d (tbl_set (posts d) pid (mkPost t (body p) (post_userId p))))).
  { unfold patchPost, scatch, sbind. rewrite Ht. cbn [nullish_or].
    replace (nullish_or (pb_body b) JUndef) with JUndef by (destruct Hb as [-> | ->]; reflexivity).
    rewrite (post_update_run _ pid (JStr t) JUndef p d (js_integer_string _ _ Hsid) Hr eq_refl eq_refl Hp).
    reflexivity. }
  rewrite Hrun. split; [reflexivity|].
  destruct (post_user_exists d pid p W Hp) as [u Hu]. exists u. split; [exact Hu|].
  rewrite (getPostById_run sid pid (mkPost t (body p) (post_userId p)) u); try assumption; [reflexivity|].
  simpl. apply tbl_find_set_eq, (tbl_find_key _ _ _ Hp).
Qed.

Lemma patchPost_title_keeps_body_witness :
  fst (patchPost "1" (mkPostBody (JStr "new") JUndef JUndef) sample_db)
  = Ok (mkResponse 200 (PPost 1 (mkPost "new" "b" 1))) /\
  exists u, tbl_find (users sample_db) 1 = Some u /\
    fst (getPostById "1" (snd (patchPost "1" (mkPostBody (JStr "new") JUndef JUndef) sample_db)))
    = Ok (mkResponse 200 (PPostFull 1 (mkPost "new" "b" 1) (1, u))).
Proof.
  exact (patchPost_title_keeps_body sample_db "1" 1 (mkPost "t" "b" 1) (mkPostBody (JStr "new") JUndef JUndef) "new"
           sample_db_wf eq_refl eq_refl eq_refl (or_introl eq_refl)).
Defined.

(** ** [getPosts]: the fetch and the count use one filter *)

(** The posts both queries of [getPosts] select: the title filter and, when
    given, the user id. *)
Definition fetched_posts (d : db) (t : option string) (uid : option Z) : table post :=
  tbl_filter (fun _ p => post_matches t uid p) (posts d).

(** [include: { user: true }] succeeds on posts whose users exist, and
    pairs each post with its user. *)
Lemma include_users_run d l :
  (forall k p, In (k, p) l -> post_userId p ∈ tbl_keys (users d)) ->
  exists xs, include_users d l d = (Ok xs, d) /\ map fst xs = l /\
    Forall (fun x => fst (snd x) = post_userId (snd (fst x)) /\ tbl_find (users d) (fst (snd x)) = Some (snd (snd x))) xs.
Proof.
  induction l as [|[k p] l IH]; intros H; simpl; [exists []; auto|].
  destruct (tbl_find (users d) (post_userId p)) as [u|] eqn:E;
    [| apply tbl_find_None in E; exfalso; apply E, (H k p); left; reflexivity].
  destruct IH as [xs (Hr & Hm & Hf)]; [intros; eapply H; right; eassumption|].
  exists ((k, p, (post_userId p, u)) :: xs). unfold include_user, sbind, sret. cbn. rewrite E.
  rewrite Hr. simpl. rewrite Hm. auto.
Qed.

Lemma getPosts_run d qt quid qp ql p l :
  wf_db d -> js_Number (qparam_default qp (JNum (js_of_Z 1))) = js_of_Z p ->
  js_Number (qparam_default ql (JNum (js_of_Z 10))) = js_of_Z l -> 1 <= p -> 0 <= l ->
  (quid = None \/ quid = Some "") ->
  exists ps, getPosts qt quid qp ql d
    = (Ok (mkResponse 200 (PPostPage ps (Z.of_nat (length (fetched_posts d (str_filter qt) None))))), d) /\
    map fst ps = firstn (Z.to_nat l) (skipn (Z.to_nat ((p - 1) * l)) (fetched_posts d (str_filter qt) None)) /\
    Forall (fun x => fst (snd x) = post_userId (snd (fst x)) /\ tbl_find (users d) (fst (snd x)) = Some (snd (snd x))) ps.
Proof.
  intros W Hp Hl H1 H2 Hq.
  destruct (include_users_run d (firstn (Z.to_nat l) (skipn (Z.to_nat ((p - 1) * l)) (fetched_posts d (str_filter qt) None))))
    as [xs (Hr & Hm & Hf)].
  { intros k r Hin. apply firstn_skipn_In, tbl_filter_In in Hin as [Hin _].
    pose proof (wf_post_fk d W) as F. unfold refs_ok in F. rewrite Forall_forall in F.
    exact (F (k, r) ltac:(apply list_elem_of_In; exact Hin)). }
  exists xs. split; [|split; assumption].
  unfold getPosts, js_one. rewrite Hp, Hl, js_sub_of_Z, js_mul_of_Z.
  replace (if truthy (qval quid) then Some (js_Number (qval quid)) else None) with (@None jsnum)
    by (destruct Hq as [-> | ->]; reflexivity).
  unfold post_findMany, post_count, post_where, opt_data, page_args, scatch, sbind, sget, sret, respond.
  rewrite !js_integer_of_Z. destruct (Z.ltb_spec ((p - 1) * l) 0); [nia|]. simpl.
  unfold paginate. destruct (Z.leb_spec 0 l); [|lia]. unfold fetched_posts in Hr. rewrite Hr. reflexivity.
Qed.

(** a 200 answer of GET /posts without a user id, for integer
    [page >= 1] and [limit >= 0], pages through the same posts it counts:
    every returned post is one of the [total] posts the title filter
    selects, each comes with its stored user, there are at most [total]
    of them, and the database is unchanged (spec section 4.2: the fetch
    and the count use one filter set). *)
Theorem getPosts_total_consistent d qt quid qp ql p l ps total :
  wf_db d -> js_Number (qparam_default qp (JNum (js_of_Z 1))) = js_of_Z p ->
  js_Number (qparam_default ql (JNum (js_of_Z 10))) = js_of_Z l -> 1 <= p -> 0 <= l ->
  (quid = None \/ quid = Some "") ->
  fst (getPosts qt quid qp ql d) = Ok (mkResponse 200 (PPostPage ps total)) ->
  total = Z.of_nat (length (fetched_posts d (str_filter qt) None)) /\
  (forall k r uid u, In (k, r, (uid, u)) ps ->
     In (k, r) (fetched_posts d (str_filter qt) None) /\ uid = post_userId r /\ tbl_find (users d) uid = Some u) /\
  Z.of_nat (length ps) <= total /\
  snd (getPosts qt quid qp ql d) = d.
Proof.
  intros W Hp Hl H1 H2 Hq.
  destruct (getPosts_run d qt quid qp ql p l W Hp Hl H1 H2 Hq) as [xs (Hr & Hm & Hf)].
  rewrite Hr. simpl. intros [= <- <-]. split; [reflexivity|]. split; [|split; [|reflexivity]].
  - intros k r uid u Hin. rewrite Forall_forall in Hf.
    destruct (Hf _ (proj2 (list_elem_of_In _ _) Hin)) as [Hu1 Hu2]. simpl in Hu1, Hu2.
    split; [|split; assumption].
    apply (firstn_skipn_In (Z.to_nat l) (Z.to_nat ((p - 1) * l))). rewrite <- Hm.
    apply in_map_iff. exists (k, r, (uid, u)). auto.
  - rewrite <- (length_map fst xs), Hm. pose proof (length_firstn (Z.to_nat l) (skipn (Z.to_nat ((p - 1) * l))
      (fetched_posts d (str_filter qt) None))) as E. rewrite length_skipn in E. lia.
Qed.

Lemma getPosts_total_consistent_witness :
  Z.of_nat 1 = Z.of_nat (length (fetched_posts sample_db (str_filter None) None)) /\
  (forall k r uid u, In (k, r, (uid, u)) [(1, mkPost "t" "b" 1, (1, mkUser "A" "u1" "a@x.com" "1" "w"))] ->
     In (k, r) (fetched_posts sample_db (str_filter None) None) /\ uid = post_userId r /\
     tbl_find (users sample_db) uid = Some u) /\
  Z.of_nat (length [(1, mkPost "t" "b" 1, (1, mkUser "A" "u1" "a@x.com" "1" "w"))]) <= Z.of_nat 1 /\
  snd (getPosts None None None None sample_db) = sample_db.
Proof.
  apply (getPosts_total_consistent sample_db None None None None 1 10);
    [exact sample_db_wf | reflexivity | reflexivity | lia | lia | left; reflexivity | vm_compute; reflexivity].
Defined.

Lemma str_filter_some q : q <> "" -> str_filter (Some q) = Some q.
Proof. intros H. unfold str_filter. simpl. destruct (String.eqb_spec q ""); [contradiction | reflexivity]. Qed.

(** GET /posts?title=q matches titles case-insensitively: a stored
    post whose title contains [q] up to ASCII case (for instance "FooBar"
    for [q = "foo"]) is one of the posts the filter selects, and the 200
    answer counts it in [total] (spec section 8). *)
Theorem getPosts_title_case_insensitive d k r x m y q :
  wf_db d -> In (k, r) (posts d) -> title r = x +:+ m +:+ y -> str_lower m = str_lower q -> q <> "" ->
  In (k, r) (fetched_posts d (Some q) None) /\
  exists ps, fst (getPosts (Some q) None None None d)
             = Ok (mkResponse 200 (PPostPage ps (Z.of_nat (length (fetched_posts d (Some q) None))))).
Proof.
  intros W Hin Ht Hm Hq. split.
  - apply tbl_filter_In. split; [exact Hin|]. unfold post_matches, opt_filter. rewrite Ht, contains_ci_app by exact Hm.
    reflexivity.
  - destruct (getPosts_run d (Some q) None None None 1 10 W eq_refl eq_refl ltac:(lia) ltac:(lia) (or_introl eq_refl))
      as [ps (Hr & _ & _)].
    exists ps. rewrite Hr, (str_filter_some q Hq). reflexivity.
Qed.

(** The post "FooBar" of user 1, found by [?title=foo]. *)
Definition foobar_db : db := set_posts sample_db [(1, mkPost "FooBar" "b" 1)].

Lemma getPosts_title_case_insensitive_witness :
  In (1, mkPost "FooBar" "b" 1) (fetched_posts foobar_db (Some "foo") None) /\
  exists ps, fst (getPosts (Some "foo") None None None foobar_db)
             = Ok (mkResponse 200 (PPostPage ps (Z.of_nat (length (fetched_posts foobar_db (Some "foo") None))))).
Proof.
  apply (getPosts_title_case_insensitive foobar_db 1 (mkPost "FooBar" "b" 1) "" "Foo" "Bar" "foo").
  - unfold foobar_db, sample_db. wf_concrete.
  - left; reflexivity.
  - reflexivity.
  - vm_compute; reflexivity.
  - discriminate.
Defined.

(** ** Failures that surface as 500 *)

(** C26: POST /posts for a user id that no user has answers 500 "Failed to
    create post." (the foreign key rejects the row; there is no 400 or 404
    for a bad reference, spec sections 4.2 and 9): no post is stored, but
    the post id sequence has moved on, so the id is never used. *)
Theorem createPost_orphan d b t bo uid :
  pb_title b = JStr t -> pb_body b = JStr bo -> js_Number (pb_userId b) = js_of_Z uid ->
  int4_range uid = true -> uid ∉ tbl_keys (users d) -> seq_post d <= int4_max ->
  createPost b d = (Ok (mkResponse 500 (PError "Failed to create post.")), bump_seq d SPost).
Proof.
  intros Ht Hb Hu Hr Hn Hs.
  unfold createPost, post_create, req_str, int_arg, insert_post, nextval, check, scatch, sbind, sget, sput.
  rewrite Ht, Hb, Hu, js_integer_of_Z, Hr. simpl.
  destruct (Z.leb_spec (seq_post d) int4_max); [|lia]. simpl.
  rewrite bool_decide_false by exact Hn. reflexivity.
Qed.

Lemma createPost_orphan_witness :
  createPost (mkPostBody (JStr "t") (JStr "b") (JStr "7")) sample_db
  = (Ok (mkResponse 500 (PError "Failed to create post.")), bump_seq sample_db SPost).
Proof.
  apply (createPost_orphan sample_db _ "t" "b" 7); try reflexivity; [vm_compute; set_solver | vm_compute; congruence].
Defined.

(** C10: DELETE /posts/:id of an id no post has answers 500 "Failed to
    delete post." and changes nothing: the handler has no 404 branch,
    although the Swagger documentation of the route lists 404 (spec
    section 4.2). *)
Theorem deletePost_missing d sid pid :
  string_to_number sid = js_of_Z pid -> int4_range pid = true -> tbl_find (posts d) pid = None ->
  deletePost sid d = (Ok (mkResponse 500 (PError "Failed to delete post.")), d).
Proof.
  intros Hsid Hr Hp. unfold deletePost, post_delete, scatch, sbind, sget.
  rewrite (int_arg_run _ _ _ (js_integer_string _ _ Hsid) Hr). simpl. rewrite Hp. reflexivity.
Qed.

Lemma deletePost_missing_witness :
  deletePost "2" sample_db = (Ok (mkResponse 500 (PError "Failed to delete post.")), sample_db).
Proof. apply (deletePost_missing sample_db "2" 2); reflexivity. Defined.
