(* ===== verification/Server.v ===== *)
(** * The Express application: routing, identity gate, error middleware

    [src/blog-api/src/index.ts] mounts the two routers of
    [src/blog-api/src/routes/] under [/users] and [/posts], each behind
    [authMiddleware], and installs [errorHandler]
    ([src/blog-api/src/middlewares/errorHandler.ts]) last.  No handler
    calls [next(err)], so [errorHandler] only receives errors from the
    middleware in front of the routers: a rejected bearer token.  The
    token check itself (express-oauth2-jwt-bearer) is a library.  A
    request carries its outcome: [None] when the token is accepted,
    [Some err] with the error object the middleware passes on otherwise.

    [handle] is one request against the database; every request keeps
    the database well formed ([handle_ok], from the per-call lemmas of
    [GatewayFacts]), and [Integrity] shows what the handlers add to
    that.  [errorHandler] hides the
    message of every 500 ([errorHandler_hides_500]), and a rejected token never reaches a
    handler ([gate_rejects]). *)

From S2P Require Import Prelude JsValue Schema Gateway GatewayFacts Validation UserController PostController.
Local Open Scope Z_scope.

(** ** [errorHandler] *)

(** [AppError]: a message and an optional numeric [status]. *)
Record app_error := mkAppError { err_message : string; err_status : option Z }.

(** [const statusCode = err.status || 500]; the message is hidden for 500. *)
Definition errorHandler (err : app_error) : response :=
  let statusCode := match err_status err with Some s => if Z.eqb s 0 then 500 else s | None => 500 end in
  mkResponse statusCode
    (PStatusError (if Z.eqb statusCode 500 then "Something went wrong!" else err_message err)).

(** [createError(message, statusCode)]. *)
Definition createError (message : string) (statusCode : Z) : app_error :=
  mkAppError message (Some statusCode).

(** ** Requests *)

Inductive http_method := GET | POST | PUT | PATCH | DELETE.

Record query := mkQuery {
  q_username : qparam; q_email : qparam; q_city : qparam;
  q_title : qparam; q_userId : qparam; q_page : qparam; q_limit : qparam;
}.

Definition no_query : query := mkQuery None None None None None None None.

(** The JSON body, with the keys the user handlers and the post handlers read. *)
Record json_body := mkBody { jb_user : user_body; jb_post : post_body }.

Record request := mkRequest {
  rq_method : http_method;
  rq_path : list string;        (* the path segments, e.g. ["users"; "3"; "posts"] *)
  rq_query : query;
  rq_body : json_body;
  rq_auth : option app_error;   (* the error authMiddleware raises, if any *)
}.

Section App.
Variable is_email : string -> bool.

(** [userRoutes]: the paths below the [/users] mount. *)
Definition userRoutes (m : http_method) (path : list string) (q : query) (b : user_body)
  : option (GW response) :=
  match m, path with
  | GET, [] => Some (getUsers (q_username q) (q_email q) (q_city q) (q_page q) (q_limit q))
  | GET, [id] => Some (getUserById id)
  | GET, [id; seg] => if String.eqb seg "posts" then Some (getUserPosts id) else None
  | POST, [] => Some (createUser b)
  | PUT, [id] => Some (updateUser is_email id b)
  | PATCH, [id] => Some (patchUser id b)
  | DELETE, [id] => Some (deleteUser id)
  | _, _ => None
  end.

(** [postRoutes]. *)
Definition postRoutes (m : http_method) (path : list string) (q : query) (b : post_body)
  : option (GW response) :=
  match m, path with
  | GET, [] => Some (getPosts (q_title q) (q_userId q) (q_page q) (q_limit q))
  | GET, [id] => Some (getPostById id)
  | POST, [] => Some (createPost b)
  | PUT, [id] => Some (updatePost id b)
  | PATCH, [id] => Some (patchPost id b)
  | DELETE, [id] => Some (deletePost id)
  | _, _ => None
  end.

Definition no_route : GW response := respond 404 PNoRoute.

(** A router behind [authMiddleware]: a rejected token goes to
    [errorHandler], an unmatched path to Express's 404. *)
Definition gated (auth : option app_error) (route : option (GW response)) : GW response :=
  match auth with
  | Some err => sret (errorHandler err)
  | None => match route with Some h => h | None => no_route end
  end.

(** [app.use("/users", authMiddleware, userRoutes)] and the same for
    [/posts]; [GET /profile] sends [JSON.stringify(req.auth)], which is
    empty outside the gate; [app.use("/api-docs", swaggerUi.serve,
    swaggerUi.setup(swaggerDocs))] answers every request below
    [/api-docs] with the Swagger UI's pages (library code: the pages are
    one payload [PDocs], and the UI's own redirects are not modelled). *)
Definition handle (r : request) : GW response :=
  match rq_path r with
  | seg :: rest =>
      if String.eqb seg "users" then
        gated (rq_auth r) (userRoutes (rq_method r) rest (rq_query r) (jb_user (rq_body r)))
      else if String.eqb seg "posts" then
        gated (rq_auth r) (postRoutes (rq_method r) rest (rq_query r) (jb_post (rq_body r)))
      else if String.eqb seg "profile" then
        match rq_method r, rest with GET, [] => respond 200 PEmpty | _, _ => no_route end
      else if String.eqb seg "api-docs" then respond 200 PDocs
      else no_route
  | [] => no_route
  end.

End App.

(** ** Start-up *)

(** [const PORT = process.env.PORT || 3001]: an unset or empty variable
    gives 3001. *)
Definition PORT (env_port : option string) : string :=
  match env_port with Some p => if String.eqb p "" then "3001" else p | None => "3001" end.

(** What [startServer] leaves: the app listening on a port, or the process
    gone with exit code 1. *)
Inductive server_state := Listening (port : string) | Exited (code : Z).

(** [startServer()]: [await prisma.$connect()], then [app.listen(PORT)];
    a failed connection exits with code 1, before anything listens. *)
Definition startServer (connected : bool) (env_port : option string) : server_state :=
  if connected then Listening (PORT env_port) else Exited 1.

(** ** Every request keeps the database well formed *)


Lemma respond_ok c p : st_steps gw_ok (respond c p).
Proof. unfold respond. gw_tac. Qed.

Lemma create_address_input_ok a : st_steps gw_ok (create_address_input a).
Proof. unfold create_address_input. gw_tac. Qed.

Lemma create_company_input_ok c : st_steps gw_ok (create_company_input c).
Proof. unfold create_company_input. gw_tac. Qed.

Lemma duplicate_exists_ok id b : st_steps gw_ok (duplicate_exists id b).
Proof. unfold duplicate_exists. gw_tac. Qed.

#[export] Hint Resolve respond_ok create_address_input_ok create_company_input_ok duplicate_exists_ok : blog.

Section HandlersOk.
Variable is_email : string -> bool.

Lemma getUsers_ok a b c p l : st_steps gw_ok (getUsers a b c p l).
Proof. unfold getUsers. gw_tac. Qed.
Lemma getUserById_ok id : st_steps gw_ok (getUserById id).
Proof. unfold getUserById. gw_tac. Qed.
Lemma createUser_ok b : st_steps gw_ok (createUser b).
Proof. unfold createUser. gw_tac. Qed.
Lemma updateUser_ok id b : st_steps gw_ok (updateUser is_email id b).
Proof. unfold updateUser. gw_tac. Qed.
Lemma patchUser_ok id b : st_steps gw_ok (patchUser id b).
Proof. unfold patchUser. gw_tac. Qed.
Lemma deleteUser_ok id : st_steps gw_ok (deleteUser id).
Proof. unfold deleteUser. gw_tac. Qed.
Lemma getUserPosts_ok id : st_steps gw_ok (getUserPosts id).
Proof. unfold getUserPosts. gw_tac. Qed.
Lemma getPosts_ok t u p l : st_steps gw_ok (getPosts t u p l).
Proof. unfold getPosts. gw_tac. Qed.
Lemma getPostById_ok id : st_steps gw_ok (getPostById id).
Proof. unfold getPostById. gw_tac. Qed.
Lemma createPost_ok b : st_steps gw_ok (createPost b).
Proof. unfold createPost. gw_tac. Qed.
Lemma updatePost_ok id b : st_steps gw_ok (updatePost id b).
Proof. unfold updatePost. gw_tac. Qed.
Lemma patchPost_ok id b : st_steps gw_ok (patchPost id b).
Proof. unfold patchPost. gw_tac. Qed.
Lemma deletePost_ok id : st_steps gw_ok (deletePost id).
Proof. unfold deletePost. gw_tac. Qed.

#[local] Hint Resolve getUsers_ok getUserById_ok createUser_ok updateUser_ok patchUser_ok
  deleteUser_ok getUserPosts_ok getPosts_ok getPostById_ok createPost_ok updatePost_ok
  patchPost_ok deletePost_ok : blog.

Lemma userRoutes_ok m path q b h :
  userRoutes is_email m path q b = Some h -> st_steps gw_ok h.
Proof.
  unfold userRoutes. intros H.
  repeat (case_match; simplify_eq; try discriminate); subst; eauto with blog.
Qed.

Lemma postRoutes_ok m path q b h : postRoutes m path q b = Some h -> st_steps gw_ok h.
Proof.
  unfold postRoutes. intros H.
  repeat (case_match; simplify_eq; try discriminate); subst; eauto with blog.
Qed.

Lemma gated_ok auth route :
  (forall h, route = Some h -> st_steps gw_ok h) -> st_steps gw_ok (gated auth route).
Proof.
  intros Hr. unfold gated, no_route. destruct auth; [gw_tac|].
  destruct route; [apply Hr; reflexivity | gw_tac].
Qed.

Lemma handle_ok r : st_steps gw_ok (handle is_email r).
Proof.
  unfold handle, no_route. destruct (rq_path r) as [|seg rest]; [gw_tac|].
  repeat (destruct (String.eqb _ _)); try (apply gated_ok; intros h;
    first [apply userRoutes_ok | apply postRoutes_ok]); gw_tac.
Qed.

End HandlersOk.

(** A body with every field the create form of the client sends. *)
Definition sample_user_body : user_body :=
  mkUserBody (JStr "A") (JStr "u1") (JStr "a@x.com") (JStr "1") (JStr "w")
    (OVal (mkAddressBody (JStr "S") JUndef (JStr "C") (JStr "Z") OUndef))
    (OVal (mkCompanyIn (JStr "Co") JUndef JUndef)).

Definition empty_post_body : post_body := mkPostBody JUndef JUndef JUndef.

Definition sample_create_request : request :=
  mkRequest POST ["users"] no_query (mkBody sample_user_body empty_post_body) None.

(** ** The error middleware and the identity gate *)

(** C11: [errorHandler] never answers with status 0 and never leaks the
    message of an error whose status is 500 or absent: such an answer is
    500 with the fixed message "Something went wrong!"; any other status
    is answered with the error's own message (spec section 7). *)
Theorem errorHandler_hides_500 err :
  status (errorHandler err) <> 0 /\
  (status (errorHandler err) = 500 -> payload_of (errorHandler err) = PStatusError "Something went wrong!") /\
  (status (errorHandler err) <> 500 ->
     err_status err = Some (status (errorHandler err)) /\ payload_of (errorHandler err) = PStatusError (err_message err)).
Proof.
  unfold errorHandler. destruct (err_status err) as [s|]; simpl; [|intuition discriminate].
  destruct (Z.eqb_spec s 0) as [->|Hs]; simpl; [intuition discriminate|].
  destruct (Z.eqb_spec s 500) as [->|H5]; intuition congruence.
Qed.

(** C12: a request to [/users] or [/posts] whose bearer token the gate
    rejects never reaches a handler: the answer is [errorHandler]'s
    response to the gate's error and the database is left as it was
    (spec section 6: unauthenticated calls never reach the handlers). *)
Theorem gate_rejects (is_email : string -> bool) d r seg err :
  rq_path r = seg :: List.tl (rq_path r) -> (seg = "users" \/ seg = "posts") -> rq_auth r = Some err ->
  handle is_email r d = (Ok (errorHandler err), d).
Proof.
  intros Hp Hs Ha. unfold handle, gated. rewrite Hp, Ha.
  destruct Hs as [-> | ->]; reflexivity.
Qed.

Lemma gate_rejects_witness :
  handle simple_email (mkRequest DELETE ["users"; "1"] no_query (mkBody sample_user_body empty_post_body)
                        (Some (createError "Invalid token" 401))) sample_db
  = (Ok (errorHandler (createError "Invalid token" 401)), sample_db).
Proof. apply (gate_rejects simple_email sample_db _ "users"); [reflexivity | left; reflexivity | reflexivity]. Defined.

Lemma errorHandler_hides_500_witness :
  status (errorHandler (mkAppError "db down" None)) <> 0 /\
  (status (errorHandler (mkAppError "db down" None)) = 500 ->
     payload_of (errorHandler (mkAppError "db down" None)) = PStatusError "Something went wrong!") /\
  (status (errorHandler (mkAppError "db down" None)) <> 500 ->
     err_status (mkAppError "db down" None) = Some (status (errorHandler (mkAppError "db down" None))) /\
     payload_of (errorHandler (mkAppError "db down" None)) = PStatusError (err_message (mkAppError "db down" None))).
Proof. exact (errorHandler_hides_500 (mkAppError "db down" None)). Defined.
