(* ===== verification/Integrity.v ===== *)
(** * Every user keeps an address

    The spec makes a user's address part of the user: [createUser] reads
    [address.geo] and creates the address in the same nested write as the
    user, and no handler offers to remove an address on its own.  So
    every user of a database produced by the API has an address row
    ([users_have_address]).  That is not a property of the engine: a
    handler that inserts a user without its address, or that deletes the
    address and then fails to delete the user, breaks it, and only the
    handlers' code keeps it.

    The proof follows the code.
    - [addr_kept ex d d']: the users of [d'] were users of [d], every
      user outside [ex] that had an address still has one, and
      [gw_ok] holds.  It is a preorder, and every gateway call but
      [insert_user] and [delete_addresses] establishes it, so the
      handlers that call neither inherit it by [st_step_tac].
    - The two nested creates, [user_create] with an address
      ([createUser]) and [seed_create] ([prisma/seed.ts]), insert the
      user and then its address inside one transaction: when the body
      commits both rows are there, when it fails the rollback restores
      the rows ([user_with_address], [transaction_keeps]).
    - [deleteUser] deletes the address of the user before the user; the
      final [user.delete] cannot then be refused, because the geo, the
      company and the posts are gone too ([deleteUser_run]); on a user
      that is not stored nothing of another user is touched.

    The theorems: every database produced from a well-formed one in
    which every user has an address, by requests and seed runs in any
    order, is well formed and every user in it has an address
    ([served_consistent]). *)

From S2P Require Import Prelude JsValue Schema Gateway GatewayFacts Seed Validation UserController PostController Server.
Local Open Scope Z_scope.

(** ** The invariant and the relation the gateway calls keep *)

Definition users_have_address (d : db) : Prop :=
  forall uid, uid ∈ tbl_keys (users d) -> is_Some (user_address d uid).

(** The users of [d'] come from [d]; those outside [ex] keep their address. *)
Definition addr_part (ex : Z -> bool) (d d' : db) : Prop :=
  forall v, v ∈ tbl_keys (users d') ->
    v ∈ tbl_keys (users d) /\ (ex v = false -> is_Some (user_address d v) -> is_Some (user_address d' v)).

Definition addr_kept (ex : Z -> bool) (d d' : db) : Prop := gw_ok d d' /\ (wf_db d -> addr_part ex d d').

Definition no_user : Z -> bool := fun _ => false.

#[export] Instance addr_kept_refl ex : Reflexive (addr_kept ex).
Proof. intros d. split; [reflexivity|]. intros _ v Hv. split; [exact Hv | auto]. Qed.

#[export] Instance addr_kept_trans ex : Transitive (addr_kept ex).
Proof.
  intros d1 d2 d3 [G12 A12] [G23 A23]. split; [etransitivity; eassumption|].
  intros W1 v Hv. pose proof (gw_ok_wf _ _ G12 W1) as W2.
  destruct (A23 W2 v Hv) as [Hv2 K23]. destruct (A12 W1 v Hv2) as [Hv1 K12]. auto.
Qed.

Lemma addr_kept_has d d' : addr_kept no_user d d' -> wf_db d -> users_have_address d -> users_have_address d'.
Proof. intros [_ A] W H v Hv. destruct (A W v Hv) as [Hv' K]. apply K; [reflexivity | apply H, Hv']. Qed.

(** ** [user_address] under the table operations *)

Lemma find_app_some {X} (f : X -> bool) l l' : is_Some (List.find f l) -> is_Some (List.find f (l ++ l')).
Proof.
  intros [x Hx]. apply List.find_some in Hx as [Hin Hf].
  destruct (List.find f (l ++ l')) eqn:Hn; [eauto|].
  pose proof (List.find_none _ _ Hn x (in_or_app _ _ _ (or_introl Hin))). congruence.
Qed.

Lemma find_filter_some {X} (f g : X -> bool) l :
  (forall x, In x l -> f x = true -> g x = true) -> is_Some (List.find f l) -> is_Some (List.find f (List.filter g l)).
Proof.
  intros Hg [x Hx]. apply List.find_some in Hx as [Hin Hf].
  destruct (List.find f (List.filter g l)) eqn:Hn; [eauto|].
  pose proof (List.find_none _ _ Hn x (proj2 (filter_In _ _ _) (conj Hin (Hg x Hin Hf)))). congruence.
Qed.

Lemma find_map_some {X} (f : X -> bool) (h : X -> X) l :
  (forall x, In x l -> f (h x) = f x) -> is_Some (List.find f l) -> is_Some (List.find f (map h l)).
Proof.
  intros Hh [x Hx]. apply List.find_some in Hx as [Hin Hf].
  destruct (List.find f (map h l)) eqn:Hn; [eauto|].
  pose proof (List.find_none _ _ Hn (h x) (in_map h l x Hin)). rewrite Hh in H by exact Hin. congruence.
Qed.

(** Deleting addresses of users in [ex] only. *)
Lemma addr_part_drop ex d (p : Z -> address -> bool) :
  (forall k a, p k a = true -> ex (addr_userId a) = true) -> addr_part ex d (set_addresses d (drop p (addresses d))).
Proof.
  intros Hp v Hv. split; [exact Hv|]. intros Hex. apply find_filter_some.
  intros [k a] _ Hf. simpl in Hf. apply Z.eqb_eq in Hf. subst v. simpl.
  destruct (p k a) eqn:E; [| reflexivity]. rewrite (Hp k a E) in Hex. discriminate.
Qed.

(** Updating the scalar columns of an address keeps its user. *)
Lemma addr_part_set ex d aid ad a :
  NoDup (tbl_keys (addresses d)) -> tbl_find (addresses d) aid = Some ad ->
  addr_part ex d (set_addresses d (tbl_set (addresses d) aid (apply_address_update a ad))).
Proof.
  intros Hnd Hf v Hv. split; [exact Hv|]. intros _. apply find_map_some.
  intros [k r] Hin. simpl. destruct (Z.eqb_spec k aid); [subst|reflexivity]. simpl.
  rewrite (tbl_find_In_NoDup _ _ _ Hnd Hin) in Hf. injection Hf as ->. reflexivity.
Qed.

Lemma addr_part_intro ex d d' :
  tbl_keys (users d') ⊆ tbl_keys (users d) ->
  (forall v, ex v = false -> is_Some (user_address d v) -> is_Some (user_address d' v)) -> addr_part ex d d'.
Proof. intros Hs Hk v Hv. split; [apply Hs, Hv | apply Hk]. Qed.

(** ** The gateway calls that keep every address *)

Lemma addr_kept_intro ex {A} (m : GW A) :
  st_steps gw_ok m -> (forall d, wf_db d -> addr_part ex d (snd (m d))) -> st_steps (addr_kept ex) m.
Proof. intros Hg Ha d. split; [apply Hg | apply Ha]. Qed.

(** Runs a row primitive to its final states and discharges [addr_part]
    on each: the users' keys shrink or stay, the addresses grow, stay or
    keep their user. *)
Ltac addr_prim :=
  apply addr_kept_intro; [solve [eauto with blog] | intros ? ?];
  unfold insert_address, insert_geo, insert_company, insert_post, update_user_row,
    update_address_row, update_geo_row, update_company_row, update_post_row, delete_geos,
    delete_companies, delete_posts, delete_users, nextval, check, sbind, sget, sput, sret, sthrow;
  repeat (first [ match goal with |- context [if ?b then _ else _] => destruct b end
                | match goal with |- context [match ?x with _ => _ end] => destruct x eqn:? end ]; simpl);
  first [ apply addr_part_set; [match goal with W : wf_db _ |- _ => apply (proj1 (wf_addresses _ W)) end | assumption]
        | apply addr_part_intro; simpl;
          [ rewrite ?tbl_keys_set; first [reflexivity | apply keys_sub_drop]
          | intros v _; unfold user_address; simpl; first [exact id | apply find_app_some] ] ].

Lemma nextval_kept ex n : st_steps (addr_kept ex) (nextval n).
Proof. destruct n; addr_prim. Qed.
Lemma check_kept ex b e : st_steps (addr_kept ex) (check b e).
Proof. addr_prim. Qed.
Lemma insert_address_kept ex a : st_steps (addr_kept ex) (insert_address a).
Proof. addr_prim. Qed.
Lemma insert_geo_kept ex g : st_steps (addr_kept ex) (insert_geo g).
Proof. addr_prim. Qed.
Lemma insert_company_kept ex c : st_steps (addr_kept ex) (insert_company c).
Proof. addr_prim. Qed.
Lemma insert_post_kept ex p : st_steps (addr_kept ex) (insert_post p).
Proof. addr_prim. Qed.
Lemma update_user_row_kept ex uid u : st_steps (addr_kept ex) (update_user_row uid u).
Proof. addr_prim. Qed.
Lemma update_address_row_kept ex aid a : st_steps (addr_kept ex) (update_address_row aid a).
Proof. addr_prim. Qed.
Lemma update_geo_row_kept ex gid la ln : st_steps (addr_kept ex) (update_geo_row gid la ln).
Proof. addr_prim. Qed.
Lemma update_company_row_kept ex cid k : st_steps (addr_kept ex) (update_company_row cid k).
Proof. addr_prim. Qed.
Lemma update_post_row_kept ex pid t b : st_steps (addr_kept ex) (update_post_row pid t b).
Proof. addr_prim. Qed.
Lemma delete_geos_kept ex p : st_steps (addr_kept ex) (delete_geos p).
Proof. addr_prim. Qed.
Lemma delete_companies_kept ex p : st_steps (addr_kept ex) (delete_companies p).
Proof. addr_prim. Qed.
Lemma delete_posts_kept ex p : st_steps (addr_kept ex) (delete_posts p).
Proof. addr_prim. Qed.
Lemma delete_users_kept ex p : st_steps (addr_kept ex) (delete_users p).
Proof. addr_prim. Qed.

(** A rolled-back transaction leaves the rows it started from. *)
Lemma transaction_kept ex {A} (m : GW A) : st_steps (addr_kept ex) m -> st_steps (addr_kept ex) (transaction m).
Proof.
  intros Hm d0. unfold transaction, sbind, sget, scatch, sput, sthrow. specialize (Hm d0).
  destruct (m d0) as [[a|e] d1]; simpl in *; [exact Hm|]. destruct Hm as [G _].
  split; [apply gw_ok_rollback, G|]. intros _. apply addr_part_intro; simpl; [reflexivity | auto].
Qed.

Create HintDb addr.
#[export] Hint Resolve nextval_kept check_kept insert_address_kept insert_geo_kept insert_company_kept
  insert_post_kept update_user_row_kept update_address_row_kept update_geo_row_kept update_company_row_kept
  update_post_row_kept delete_geos_kept delete_companies_kept delete_posts_kept delete_users_kept : addr.

(** [gw_tac] for [addr_kept]. *)
Ltac addr_tac :=
  repeat first
    [ solve [eauto with addr]
    | apply transaction_kept
    | apply st_steps_ret; typeclasses eauto
    | apply st_steps_throw; typeclasses eauto
    | apply st_steps_lift; typeclasses eauto
    | apply st_steps_get; typeclasses eauto
    | st_step1 ].

Section Calls.
Variable ex : Z -> bool.
Lemma int_arg_kept n : st_steps (addr_kept ex) (int_arg n).
Proof. unfold int_arg. addr_tac. Qed.
Lemma req_str_kept v : st_steps (addr_kept ex) (req_str v).
Proof. unfold req_str. addr_tac. Qed.
Lemma opt_str_kept v : st_steps (addr_kept ex) (opt_str v).
Proof. unfold opt_str. addr_tac. Qed.
Lemma page_args_kept s t : st_steps (addr_kept ex) (page_args s t).
Proof. unfold page_args. addr_tac. Qed.
Lemma where_eq_arg_kept v : st_steps (addr_kept ex) (where_eq_arg v).
Proof. unfold where_eq_arg. addr_tac. Qed.
#[local] Hint Resolve int_arg_kept req_str_kept opt_str_kept page_args_kept where_eq_arg_kept : addr.
Lemma geo_create_data_kept g : st_steps (addr_kept ex) (geo_create_data g).
Proof. unfold geo_create_data. addr_tac. Qed.
#[local] Hint Resolve geo_create_data_kept : addr.
Lemma address_create_data_kept a : st_steps (addr_kept ex) (address_create_data a).
Proof. unfold address_create_data. addr_tac. Qed.
Lemma company_create_data_kept c : st_steps (addr_kept ex) (company_create_data c).
Proof. unfold company_create_data. addr_tac. Qed.
Lemma opt_data_kept {I O} (f : I -> GW O) o :
  (forall i, st_steps (addr_kept ex) (f i)) -> st_steps (addr_kept ex) (opt_data f o).
Proof. intros Hf. unfold opt_data. destruct o; addr_tac; auto. Qed.
Lemma include_user_kept d pp : st_steps (addr_kept ex) (include_user d pp).
Proof. unfold include_user. addr_tac. Qed.
#[local] Hint Resolve address_create_data_kept company_create_data_kept include_user_kept : addr.
Lemma include_users_kept d l : st_steps (addr_kept ex) (include_users d l).
Proof. induction l; simpl; addr_tac. Qed.
Lemma geo_upsert_kept aid g : st_steps (addr_kept ex) (geo_upsert aid g).
Proof. unfold geo_upsert. addr_tac. Qed.
#[local] Hint Resolve include_users_kept geo_upsert_kept : addr.
Lemma user_findMany_kept f s t : st_steps (addr_kept ex) (user_findMany f s t).
Proof. unfold user_findMany. addr_tac. Qed.
Lemma user_count_kept f : st_steps (addr_kept ex) (user_count f).
Proof. unfold user_count. addr_tac. Qed.
Lemma user_findUnique_full_kept n : st_steps (addr_kept ex) (user_findUnique_full n).
Proof. unfold user_findUnique_full. addr_tac. Qed.
Lemma user_findFirst_dup_kept u e x : st_steps (addr_kept ex) (user_findFirst_dup u e x).
Proof. unfold user_findFirst_dup. addr_tac. Qed.
Lemma user_update_kept n c : st_steps (addr_kept ex) (user_update n c).
Proof. unfold user_update. addr_tac; apply opt_data_kept; intro; addr_tac. Qed.
Lemma geo_deleteMany_user_kept n : st_steps (addr_kept ex) (geo_deleteMany_user n).
Proof. unfold geo_deleteMany_user. addr_tac. Qed.
Lemma company_deleteMany_user_kept n : st_steps (addr_kept ex) (company_deleteMany_user n).
Proof. unfold company_deleteMany_user. addr_tac. Qed.
Lemma post_deleteMany_user_kept n : st_steps (addr_kept ex) (post_deleteMany_user n).
Proof. unfold post_deleteMany_user. addr_tac. Qed.
Lemma user_delete_kept n : st_steps (addr_kept ex) (user_delete n).
Proof. unfold user_delete. addr_tac. Qed.
Lemma post_findMany_kept t u s k : st_steps (addr_kept ex) (post_findMany t u s k).
Proof. unfold post_findMany, post_where. addr_tac; apply opt_data_kept; intro; addr_tac. Qed.
Lemma post_count_kept t u : st_steps (addr_kept ex) (post_count t u).
Proof. unfold post_count, post_where. addr_tac; apply opt_data_kept; intro; addr_tac. Qed.
Lemma post_findUnique_with_user_kept n : st_steps (addr_kept ex) (post_findUnique_with_user n).
Proof. unfold post_findUnique_with_user. addr_tac. Qed.
Lemma post_create_kept t b u : st_steps (addr_kept ex) (post_create t b u).
Proof. unfold post_create. addr_tac. Qed.
Lemma post_update_kept n t b : st_steps (addr_kept ex) (post_update n t b).
Proof. unfold post_update. addr_tac. Qed.
Lemma post_delete_kept n : st_steps (addr_kept ex) (post_delete n).
Proof. unfold post_delete. addr_tac. Qed.
Lemma post_findMany_user_kept n : st_steps (addr_kept ex) (post_findMany_user n).
Proof. unfold post_findMany_user. addr_tac. Qed.
End Calls.

#[export] Hint Resolve int_arg_kept req_str_kept opt_str_kept page_args_kept where_eq_arg_kept
  geo_create_data_kept address_create_data_kept company_create_data_kept include_user_kept
  include_users_kept geo_upsert_kept user_findMany_kept user_count_kept user_findUnique_full_kept
  user_findFirst_dup_kept user_update_kept geo_deleteMany_user_kept company_deleteMany_user_kept
  post_deleteMany_user_kept user_delete_kept post_findMany_kept post_count_kept
  post_findUnique_with_user_kept post_create_kept post_update_kept post_delete_kept
  post_findMany_user_kept : addr.

(** ** The handlers that create or delete neither users nor addresses *)

Section Handlers.
Variable is_email : string -> bool.
Variable ex : Z -> bool.

Lemma respond_kept c p : st_steps (addr_kept ex) (respond c p).
Proof. unfold respond. addr_tac. Qed.
Lemma create_address_input_kept a : st_steps (addr_kept ex) (create_address_input a).
Proof. unfold create_address_input. addr_tac. Qed.
Lemma create_company_input_kept c : st_steps (addr_kept ex) (create_company_input c).
Proof. unfold create_company_input. addr_tac. Qed.
Lemma duplicate_exists_kept id b : st_steps (addr_kept ex) (duplicate_exists id b).
Proof. unfold duplicate_exists. addr_tac. Qed.
#[local] Hint Resolve respond_kept create_address_input_kept create_company_input_kept duplicate_exists_kept : addr.

Lemma getUsers_kept a b c p l : st_steps (addr_kept ex) (getUsers a b c p l).
Proof. unfold getUsers. addr_tac. Qed.
Lemma getUserById_kept id : st_steps (addr_kept ex) (getUserById id).
Proof. unfold getUserById. addr_tac. Qed.
Lemma updateUser_kept id b : st_steps (addr_kept ex) (updateUser is_email id b).
Proof. unfold updateUser. addr_tac. Qed.
Lemma patchUser_kept id b : st_steps (addr_kept ex) (patchUser id b).
Proof. unfold patchUser. addr_tac. Qed.
Lemma getUserPosts_kept id : st_steps (addr_kept ex) (getUserPosts id).
Proof. unfold getUserPosts. addr_tac. Qed.
Lemma getPosts_kept t u p l : st_steps (addr_kept ex) (getPosts t u p l).
Proof. unfold getPosts. addr_tac. Qed.
Lemma getPostById_kept id : st_steps (addr_kept ex) (getPostById id).
Proof. unfold getPostById. addr_tac. Qed.
Lemma createPost_kept b : st_steps (addr_kept ex) (createPost b).
Proof. unfold createPost. addr_tac. Qed.
Lemma updatePost_kept id b : st_steps (addr_kept ex) (updatePost id b).
Proof. unfold updatePost. addr_tac. Qed.
Lemma patchPost_kept id b : st_steps (addr_kept ex) (patchPost id b).
Proof. unfold patchPost. addr_tac. Qed.
Lemma deletePost_kept id : st_steps (addr_kept ex) (deletePost id).
Proof. unfold deletePost. addr_tac. Qed.
End Handlers.

#[export] Hint Resolve respond_kept create_address_input_kept create_company_input_kept duplicate_exists_kept
  getUsers_kept getUserById_kept updateUser_kept patchUser_kept getUserPosts_kept getPosts_kept
  getPostById_kept createPost_kept updatePost_kept patchPost_kept deletePost_kept : addr.

(** ** Nested creates and [deleteUser] *)

Definition addr_inv (d : db) : Prop := wf_db d /\ users_have_address d.

Lemma kept_keeps {A} (m : GW A) : st_steps (addr_kept no_user) m -> st_steps (keeps addr_inv) m.
Proof.
  intros Hm d [W H]. specialize (Hm d). split; [exact (gw_ok_wf _ _ (proj1 Hm) W) | exact (addr_kept_has _ _ Hm W H)].
Qed.

(** A bind whose first computation returns values in [Q] only needs its
    continuation on [Q]. *)
Lemma st_steps_bind_post {S E A B} (R : S -> S -> Prop) `{Transitive S R} (Q : A -> Prop)
  (m : St S E A) (k : A -> St S E B) :
  st_post Q m -> st_steps R m -> (forall a, Q a -> st_steps R (k a)) -> st_steps R (sbind m k).
Proof.
  intros Hq Hm Hk s. specialize (Hq s). specialize (Hm s). unfold sbind.
  destruct (m s) as [[a|e] s']; simpl in *; [etransitivity; [exact Hm | apply Hk, Hq] | exact Hm].
Qed.

Lemma sbind_Ok_inv {S E A B} (m : St S E A) (k : A -> St S E B) s b s'' :
  sbind m k s = (Ok b, s'') -> exists a s', m s = (Ok a, s') /\ k a s' = (Ok b, s'').
Proof. unfold sbind. destruct (m s) as [[a|e] s']; [eauto | discriminate]. Qed.

Lemma st_steps_run {S E A} (R : S -> S -> Prop) (m : St S E A) s r s' : st_steps R m -> m s = (r, s') -> R s s'.
Proof. intros Hm Hr. specialize (Hm s). rewrite Hr in Hm. exact Hm. Qed.

Lemma find_in_some {X} (f : X -> bool) l x : In x l -> f x = true -> is_Some (List.find f l).
Proof.
  intros Hin Hf. destruct (List.find f l) eqn:Hn; [eauto|].
  pose proof (List.find_none _ _ Hn x Hin). congruence.
Qed.

Lemma insert_user_shape u d uid d' :
  insert_user u d = (Ok uid, d') -> users d' = users d ++ [(uid, u)] /\ addresses d' = addresses d.
Proof.
  unfold insert_user, sbind, sget, sput, sret. rewrite nextval_run.
  destruct (seq_of d SUser <=? int4_max); simpl; [|discriminate]. rewrite check_run.
  destruct (_ && _); simpl; intros H; inversion H; subst; auto.
Qed.

Lemma insert_address_shape a d aid d' :
  insert_address a d = (Ok aid, d') -> users d' = users d /\ addresses d' = addresses d ++ [(aid, a)].
Proof.
  unfold insert_address, sbind, sget, sput, sret. rewrite nextval_run.
  destruct (seq_of d SAddress <=? int4_max); simpl; [|discriminate]. rewrite !check_run.
  destruct (bool_decide _); simpl; [|discriminate]. destruct (bool_decide _); simpl; [|discriminate].
  intros H; inversion H; subst; auto.
Qed.

(** A user inserted together with its address: every user has one. *)
Lemma user_with_address d0 u uid d1 a aid d2 :
  addr_inv d0 -> insert_user u d0 = (Ok uid, d1) -> insert_address a d1 = (Ok aid, d2) ->
  addr_userId a = uid -> addr_inv d2.
Proof.
  intros [W H] Hu Ha Hid.
  pose proof (gw_ok_wf _ _ (st_steps_run _ _ _ _ _ (insert_user_ok u) Hu) W) as W1.
  split; [exact (gw_ok_wf _ _ (st_steps_run _ _ _ _ _ (insert_address_ok a) Ha) W1)|].
  apply insert_user_shape in Hu as [Hu1 Ha1]. apply insert_address_shape in Ha as [Hu2 Ha2].
  intros v Hv. unfold user_address. rewrite Ha2, Ha1. rewrite Hu2, Hu1, tbl_keys_app in Hv.
  apply elem_of_app in Hv as [Hv|Hv].
  - apply find_app_some, H, Hv.
  - apply list_elem_of_singleton in Hv. subst v.
    apply (find_in_some _ _ (aid, a)); [apply in_or_app; right; left; reflexivity | simpl; rewrite Hid; apply Z.eqb_refl].
Qed.

(** A transaction whose committed runs keep the invariant keeps it: a
    failed one is rolled back. *)
Lemma transaction_keeps {A} (m : GW A) :
  st_steps gw_ok m -> (forall d0 a d1, addr_inv d0 -> m d0 = (Ok a, d1) -> addr_inv d1) ->
  st_steps (keeps addr_inv) (transaction m).
Proof.
  intros Hg Hm d0 Hi. unfold transaction, sbind, sget, scatch, sput, sthrow.
  destruct (m d0) as [[a|e] d1] eqn:Hr; simpl; [exact (Hm _ _ _ Hi Hr)|].
  destruct Hi as [W H]. split; [exact (gw_ok_wf _ _ (gw_ok_rollback _ _ (st_steps_run _ _ _ _ _ Hg Hr)) W)|].
  exact H.
Qed.

Lemma kept_run {A} (m : GW A) s r s' : st_steps (addr_kept no_user) m -> m s = (r, s') -> addr_inv s -> addr_inv s'.
Proof. intros Hm Hr. exact (st_steps_run _ _ _ _ _ (kept_keeps m Hm) Hr). Qed.

(** [user.create] with a nested address, as [createUser] calls it. *)
Lemma user_create_keeps c a : ui_address c = Some a -> st_steps (keeps addr_inv) (user_create c).
Proof.
  intros Hc. unfold user_create. rewrite Hc.
  do 5 (apply st_steps_bind; [typeclasses eauto | apply kept_keeps; addr_tac | intro]).
  apply (st_steps_bind_post _ is_Some).
  { intros s. unfold opt_data, sbind. destruct (address_create_data a s) as [[x|e] s']; simpl; eauto. }
  { apply kept_keeps. apply opt_data_kept. intro. addr_tac. }
  intros av [[[[[st su] ci] zp] g] ->].
  apply st_steps_bind; [typeclasses eauto | apply kept_keeps, opt_data_kept; intro; addr_tac | intro cv].
  apply transaction_keeps; [gw_tac|]. intros d0 r d3 Hi Hr.
  apply sbind_Ok_inv in Hr as (uid & d1 & Hu & Hr). apply sbind_Ok_inv in Hr as (t & d2' & Ha & Hr).
  apply sbind_Ok_inv in Ha as (aid & d2 & Hins & Hg).
  pose proof (user_with_address _ _ _ _ _ _ _ Hi Hu Hins eq_refl) as I2.
  refine (kept_run _ _ _ _ _ Hr (kept_run _ _ _ _ _ Hg I2)); addr_tac.
Qed.

Lemma createUser_keeps b : st_steps (keeps addr_inv) (createUser b).
Proof.
  unfold createUser. apply st_steps_catch; try typeclasses eauto; [| intro; apply kept_keeps; addr_tac].
  apply st_steps_bind; try typeclasses eauto; [apply kept_keeps; addr_tac | intros [?|]];
    [apply kept_keeps; addr_tac|].
  do 2 (apply st_steps_bind; try typeclasses eauto; [apply kept_keeps; addr_tac | intro]).
  apply st_steps_bind; try typeclasses eauto; [eapply user_create_keeps; reflexivity | intro].
  apply kept_keeps; addr_tac.
Qed.

(** [deleteUser] on an id that names no stored user: only rows of that id go. *)
Lemma delete_addresses_for z :
  st_steps (addr_kept (Z.eqb z)) (delete_addresses (fun _ a => Z.eqb (addr_userId a) z)).
Proof.
  apply addr_kept_intro; [eauto with blog | intros d W].
  unfold delete_addresses, check, sbind, sget, sput, sret, sthrow. destruct (negb _); simpl.
  - apply addr_part_drop. intros k a E. apply Z.eqb_eq in E. rewrite E. apply Z.eqb_refl.
  - apply addr_part_intro; [reflexivity | auto].
Qed.

Lemma deleteUser_kept_for sid z :
  js_integer (js_Number (JStr sid)) = Some z -> int4_range z = true ->
  st_steps (addr_kept (Z.eqb z)) (deleteUser sid).
Proof.
  intros Hj Hr. unfold deleteUser. apply st_steps_catch; try typeclasses eauto; [| intro; addr_tac].
  apply st_steps_bind; try typeclasses eauto; [addr_tac | intro].
  apply st_steps_bind; try typeclasses eauto; [| intro; addr_tac].
  unfold address_deleteMany_user. apply (st_steps_bind_post _ (fun x => x = z)); [| addr_tac |].
  - intros s. unfold int_arg. rewrite Hj, Hr. reflexivity.
  - intros ? ->. apply delete_addresses_for.
Qed.

(** What [deleteUser] leaves of a stored user: every other user keeps its address. *)
Lemma without_user_has d z : users_have_address d -> users_have_address (without_user d z).
Proof.
  intros H v Hv. apply keys_filter_In in Hv as [r [Hin Hne]]. apply negb_true_iff, Z.eqb_neq in Hne.
  unfold user_address. simpl. unfold drop, tbl_filter. apply find_filter_some; [|apply H; eapply tbl_keys_in; eauto].
  intros [k a] _ Hf. simpl in *. apply Z.eqb_eq in Hf. subst v. apply negb_true_iff, Z.eqb_neq. exact Hne.
Qed.

Lemma deleteUser_keeps sid : st_steps (keeps addr_inv) (deleteUser sid).
Proof.
  intros d [W H].
  destruct (js_integer (js_Number (JStr sid))) as [z|] eqn:Hj; [destruct (int4_range z) eqn:Hr|];
    [| unfold deleteUser, geo_deleteMany_user, int_arg, scatch, sbind; rewrite Hj; try rewrite Hr;
       split; assumption ..].
  destruct (tbl_find (users d) z) as [u|] eqn:Hu.
  - rewrite (deleteUser_run_int d sid z u W Hj Hu). simpl.
    split; [exact (gw_ok_wf _ _ (st_steps_run _ _ _ _ _ (deleteUser_ok sid) (deleteUser_run_int d sid z u W Hj Hu)) W)|].
    apply without_user_has, H.
  - destruct (deleteUser_kept_for sid z Hj Hr d) as [G A]. split; [exact (gw_ok_wf _ _ G W)|].
    intros v Hv. destruct (A W v Hv) as [Hv' K]. apply K; [| apply H, Hv'].
    apply Z.eqb_neq. intros ->. apply tbl_find_None in Hu. contradiction.
Qed.

(** [prisma/seed.ts]: each entry's user and address in one transaction. *)
Lemma insert_posts_kept uid ps : st_steps (addr_kept no_user) (insert_posts uid ps).
Proof. induction ps; simpl; addr_tac. Qed.

Lemma seed_create_keeps s : st_steps (keeps addr_inv) (seed_create s).
Proof.
  unfold seed_create. apply transaction_keeps; [gw_tac; apply insert_posts_ok|].
  intros d0 r d3 Hi Hr.
  apply sbind_Ok_inv in Hr as (uid & d1 & Hu & Hr). apply sbind_Ok_inv in Hr as (aid & d2 & Ha & Hr).
  refine (kept_run _ _ _ _ _ Hr (user_with_address _ _ _ _ _ _ _ Hi Hu Ha eq_refl)).
  addr_tac; apply insert_posts_kept.
Qed.

Lemma seed_main_keeps : st_steps (keeps addr_inv) seed_main.
Proof.
  unfold seed_main. induction usersData as [|s l IH]; simpl; [apply st_steps_ret; typeclasses eauto|].
  apply st_steps_bind; try typeclasses eauto; [|intro; exact IH].
  apply st_steps_catch; try typeclasses eauto; [|intro; apply st_steps_ret; typeclasses eauto].
  apply st_steps_bind; try typeclasses eauto; [apply seed_create_keeps | intro; apply st_steps_ret; typeclasses eauto].
Qed.

(** ** Requests *)

Section Routes.
Variable is_email : string -> bool.

Lemma userRoutes_keeps m path q b h :
  userRoutes is_email m path q b = Some h -> st_steps (keeps addr_inv) h.
Proof.
  unfold userRoutes. intros H. repeat (case_match; simplify_eq; try discriminate); subst;
    first [apply createUser_keeps | apply deleteUser_keeps | apply kept_keeps; eauto with addr].
Qed.

Lemma postRoutes_keeps m path q b h : postRoutes m path q b = Some h -> st_steps (keeps addr_inv) h.
Proof.
  unfold postRoutes. intros H. repeat (case_match; simplify_eq; try discriminate); subst;
    apply kept_keeps; eauto with addr.
Qed.

Lemma handle_keeps r : st_steps (keeps addr_inv) (handle is_email r).
Proof.
  unfold handle, gated, no_route. destruct (rq_path r) as [|seg rest]; [apply kept_keeps; addr_tac|].
  repeat (destruct (String.eqb _ _)); try (destruct (rq_auth r); [apply kept_keeps; addr_tac|]);
    repeat case_match; first [ eapply userRoutes_keeps; eassumption | eapply postRoutes_keeps; eassumption
                             | apply kept_keeps; addr_tac ].
Qed.
End Routes.

(** Databases the application and the seed script produce, in any order,
    from a well-formed start in which every user has an address (an empty
    database, for one). *)
Inductive served (is_email : string -> bool) : db -> Prop :=
| served_start d : wf_db d -> users_have_address d -> served is_email d
| served_request d r : served is_email d -> served is_email (snd (handle is_email r d))
| served_seed d : served is_email d -> served is_email (snd (seed_main d)).

Lemma empty_db_has_address : users_have_address empty_db.
Proof. intros uid Hu. apply not_elem_of_nil in Hu. contradiction. Qed.

(** C1: every database that requests and seed runs produce, in any order,
    from a well-formed database in which every user has an address, is
    well formed and every user in it still has an address: [createUser]
    writes the address in the user's own nested create, the updates
    never remove one, and [deleteUser] removes a user's address only on
    the way to removing the user. *)
Theorem served_consistent is_email d : served is_email d -> wf_db d /\ users_have_address d.
Proof.
  induction 1 as [d W H | d r _ IH | d _ IH]; [split; assumption | |].
  - exact (handle_keeps is_email r d IH).
  - exact (seed_main_keeps d IH).
Qed.

Lemma served_consistent_witness :
  served simple_email (snd (seed_main (snd (handle simple_email sample_create_request empty_db)))) /\
  users_have_address (snd (seed_main (snd (handle simple_email sample_create_request empty_db)))).
Proof.
  assert (H : served simple_email (snd (seed_main (snd (handle simple_email sample_create_request empty_db))))).
  { apply served_seed, served_request, served_start; [apply empty_db_wf | apply empty_db_has_address]. }
  split; [exact H | exact (proj2 (served_consistent simple_email _ H))].
Defined.
