(* ===== verification/ApiDocs.v ===== *)
(** * The API contract of [src/blog-api/src/swagger/docsSwagger.ts]

    The Swagger comments document, for every operation of the two
    routers, the status codes it answers and the shape of its success
    body.  Each [doc_*] definition below is one [@swagger] block of that
    file; [route_endpoint] is the routing of [Server.handle] onto those
    operations.

    The theorems compare the handlers with the document.  An accepted
    request is always answered, never left with an exception ([handle_answers]).  For
    nine of the thirteen operations every answer has a documented status
    ([handle_documented]).  GET /users, POST /users, PUT and PATCH /users/:id can answer
    400, which their blocks do not list ([UserController]'s
    [getUsers_bad_page], [createUser_duplicate], [updateUser_short_username]).  Conformance is stated
    for requests the gate accepts: the gate's own statuses (401 for a
    missing token) are documented in none of the blocks. *)

From S2P Require Import Prelude JsValue Schema Gateway GatewayFacts Validation UserController PostController Server.
Local Open Scope Z_scope.

(** ** The documented operations *)

Inductive endpoint :=
| GetUsers | GetUser | GetUserPosts | CreateUser | PutUser | PatchUser | DeleteUser
| GetPosts | GetPost | CreatePost | PutPost | PatchPost | DeletePost.

(** The success bodies the document names. *)
Inductive doc_body :=
| DUserArray      (* type: array, items: User *)
| DUser           (* $ref: User *)
| DPostArray      (* type: array, items: Post *)
| DPostPage       (* type: object, properties: posts (array of Post), total *)
| DPost           (* $ref: Post *)
| DNoBody.        (* a 204 without content *)

Record operation_doc := mkOpDoc { documented : list Z; success_body : doc_body }.

(** [paths: /users: get:] *)
Definition doc_get_users : operation_doc := mkOpDoc [200; 500] DUserArray.
(** [paths: /users/{id}: get:] *)
Definition doc_get_user : operation_doc := mkOpDoc [200; 404; 500] DUser.
(** [paths: /users/{id}/posts: get:] *)
Definition doc_get_user_posts : operation_doc := mkOpDoc [200; 404; 500] DPostArray.
(** [paths: /users: post:] *)
Definition doc_create_user : operation_doc := mkOpDoc [201; 500] DUser.
(** [paths: /users/{id}: put:] *)
Definition doc_put_user : operation_doc := mkOpDoc [200; 404; 500] DUser.
(** [paths: /users/{id}: patch:] *)
Definition doc_patch_user : operation_doc := mkOpDoc [200; 404; 500] DUser.
(** [paths: /users/{id}: delete:] *)
Definition doc_delete_user : operation_doc := mkOpDoc [204; 404; 500] DNoBody.
(** [paths: /posts: get:] *)
Definition doc_get_posts : operation_doc := mkOpDoc [200; 500] DPostPage.
(** [paths: /posts/{id}: get:] *)
Definition doc_get_post : operation_doc := mkOpDoc [200; 404; 500] DPost.
(** [paths: /posts: post:] *)
Definition doc_create_post : operation_doc := mkOpDoc [201; 500] DPost.
(** [paths: /posts/{id}: put:] *)
Definition doc_put_post : operation_doc := mkOpDoc [200; 404; 500] DPost.
(** [paths: /posts/{id}: patch:] *)
Definition doc_patch_post : operation_doc := mkOpDoc [200; 404; 500] DPost.
(** [paths: /posts/{id}: delete:] *)
Definition doc_delete_post : operation_doc := mkOpDoc [204; 404; 500] DNoBody.

Definition endpoint_doc (e : endpoint) : operation_doc :=
  match e with
  | GetUsers => doc_get_users | GetUser => doc_get_user | GetUserPosts => doc_get_user_posts
  | CreateUser => doc_create_user | PutUser => doc_put_user | PatchUser => doc_patch_user
  | DeleteUser => doc_delete_user | GetPosts => doc_get_posts | GetPost => doc_get_post
  | CreatePost => doc_create_post | PutPost => doc_put_post | PatchPost => doc_patch_post
  | DeletePost => doc_delete_post
  end.

(** The shape of a response body, in the document's terms. *)
Definition body_shape (p : payload) : option doc_body :=
  match p with
  | PUser _ _ | PUserFull _ _ _ _ => Some DUser
  | PPostList _ => Some DPostArray
  | PPostPage _ _ => Some DPostPage
  | PPost _ _ | PPostFull _ _ _ => Some DPost
  | PEmpty => Some DNoBody
  | _ => None
  end.

(** The operation a request reaches: the mounts of [index.ts] and the
    routes of [userRoutes.ts] and [postRoutes.ts], as [handle] does. *)
Definition route_endpoint (m : http_method) (path : list string) : option endpoint :=
  match path with
  | seg :: rest =>
      if String.eqb seg "users" then
        match m, rest with
        | GET, [] => Some GetUsers
        | GET, [_] => Some GetUser
        | GET, [_; s] => if String.eqb s "posts" then Some GetUserPosts else None
        | POST, [] => Some CreateUser
        | PUT, [_] => Some PutUser
        | PATCH, [_] => Some PatchUser
        | DELETE, [_] => Some DeleteUser
        | _, _ => None
        end
      else if String.eqb seg "posts" then
        match m, rest with
        | GET, [] => Some GetPosts
        | GET, [_] => Some GetPost
        | POST, [] => Some CreatePost
        | PUT, [_] => Some PutPost
        | PATCH, [_] => Some PatchPost
        | DELETE, [_] => Some DeletePost
        | _, _ => None
        end
      else None
  | [] => None
  end.

(** A response with a status among [L] whose success body (a 2xx) has
    the shape [B]. *)
Definition answers_doc (L : list Z) (B : option doc_body) (r : response) : Prop :=
  status r ∈ L /\ (status r < 300 -> body_shape (payload_of r) = B).

(** The operations whose every answer the document lists. *)
Definition conforming (e : endpoint) : bool :=
  match e with GetUsers | CreateUser | PutUser | PatchUser => false | _ => true end.

(** ** Every handler answers, with a known set of statuses and bodies *)

Ltac doc_leaf :=
  unfold respond; first [apply st_post_ret | apply st_answers_ret]; unfold answers_doc; simpl;
  split; [apply list_elem_of_In; simpl; tauto | intros; first [reflexivity | lia]].

Ltac answers_tac :=
  repeat first
    [ match goal with |- st_answers _ (if ?b then _ else _) => destruct b end
    | apply st_answers_catch; [post_tac; doc_leaf | intro; doc_leaf]
    | doc_leaf ].

Lemma getUsers_answers a b c p l : st_answers (answers_doc [200; 400; 500] None) (getUsers a b c p l).
Proof. unfold getUsers. answers_tac. Qed.
Lemma getUserById_answers id : st_answers (answers_doc [200; 404; 500] (Some DUser)) (getUserById id).
Proof. unfold getUserById. answers_tac. Qed.
Lemma getUserPosts_answers id : st_answers (answers_doc [200; 500] (Some DPostArray)) (getUserPosts id).
Proof. unfold getUserPosts. answers_tac. Qed.
Lemma createUser_answers b : st_answers (answers_doc [201; 400; 500] (Some DUser)) (createUser b).
Proof. unfold createUser. answers_tac. Qed.
Lemma updateUser_answers is_email id b : st_answers (answers_doc [200; 400; 500] (Some DUser)) (updateUser is_email id b).
Proof. unfold updateUser. destruct (validate_user_update is_email b); answers_tac. Qed.
Lemma patchUser_answers id b : st_answers (answers_doc [200; 400; 500] (Some DUser)) (patchUser id b).
Proof. unfold patchUser. answers_tac. Qed.
Lemma deleteUser_answers id : st_answers (answers_doc [204; 500] (Some DNoBody)) (deleteUser id).
Proof. unfold deleteUser. answers_tac. Qed.
Lemma getPosts_answers t u p l : st_answers (answers_doc [200; 500] (Some DPostPage)) (getPosts t u p l).
Proof. unfold getPosts. answers_tac. Qed.
Lemma getPostById_answers id : st_answers (answers_doc [200; 404; 500] (Some DPost)) (getPostById id).
Proof. unfold getPostById. answers_tac. Qed.
Lemma createPost_answers b : st_answers (answers_doc [201; 500] (Some DPost)) (createPost b).
Proof. unfold createPost. answers_tac. Qed.
Lemma updatePost_answers id b : st_answers (answers_doc [200; 500] (Some DPost)) (updatePost id b).
Proof. unfold updatePost. answers_tac. Qed.
Lemma patchPost_answers id b : st_answers (answers_doc [200; 500] (Some DPost)) (patchPost id b).
Proof. unfold patchPost. answers_tac. Qed.
Lemma deletePost_answers id : st_answers (answers_doc [204; 500] (Some DNoBody)) (deletePost id).
Proof. unfold deletePost. answers_tac. Qed.

(** ** Routing: an accepted request reaches its operation's handler *)

Section Routing.
Variable is_email : string -> bool.

(** The statuses and success bodies each operation's handler produces. *)
Definition observed (e : endpoint) : list Z * option doc_body :=
  match e with
  | GetUsers => ([200; 400; 500], None)
  | GetUser => ([200; 404; 500], Some DUser)
  | GetUserPosts => ([200; 500], Some DPostArray)
  | CreateUser => ([201; 400; 500], Some DUser)
  | PutUser | PatchUser => ([200; 400; 500], Some DUser)
  | DeleteUser => ([204; 500], Some DNoBody)
  | GetPosts => ([200; 500], Some DPostPage)
  | GetPost => ([200; 404; 500], Some DPost)
  | CreatePost => ([201; 500], Some DPost)
  | PutPost | PatchPost => ([200; 500], Some DPost)
  | DeletePost => ([204; 500], Some DNoBody)
  end.

Lemma handle_observed r e :
  rq_auth r = None -> route_endpoint (rq_method r) (rq_path r) = Some e ->
  st_answers (answers_doc (fst (observed e)) (snd (observed e))) (handle is_email r).
Proof.
  destruct r as [m path q b auth]; simpl. intros -> H. unfold handle, gated. simpl.
  unfold route_endpoint in H. destruct path as [|seg rest]; [discriminate|].
  destruct (String.eqb seg "users"); [|destruct (String.eqb seg "posts"); [|discriminate]];
    destruct m, rest as [|id [|s [|]]]; simplify_eq; simpl;
    try (destruct (String.eqb s "posts"); simplify_eq; simpl);
    first [ apply getUsers_answers | apply getUserById_answers | apply getUserPosts_answers
          | apply createUser_answers | apply updateUser_answers | apply patchUser_answers
          | apply deleteUser_answers | apply getPosts_answers | apply getPostById_answers
          | apply createPost_answers | apply updatePost_answers | apply patchPost_answers
          | apply deletePost_answers ].
Qed.
End Routing.

(** ** The handlers against the document *)

Lemma not_routed_answers is_email r :
  rq_auth r = None -> route_endpoint (rq_method r) (rq_path r) = None ->
  st_answers (fun resp => status resp ∈ [200; 404]) (handle is_email r).
Proof.
  destruct r as [m path q b auth]; simpl. intros -> H. unfold handle, gated, no_route. simpl.
  unfold route_endpoint in H. destruct path as [|seg rest];
    [unfold respond; apply st_answers_ret; apply list_elem_of_In; simpl; tauto|].
  destruct (String.eqb seg "users");
    [|destruct (String.eqb seg "posts"); [|destruct (String.eqb seg "profile"); [|destruct (String.eqb seg "api-docs")]]];
    destruct m, rest as [|id [|s [|t rest']]]; simplify_eq; simpl;
    try (destruct (String.eqb s "posts"); simplify_eq; simpl);
    unfold respond; apply st_answers_ret; apply list_elem_of_In; simpl; tauto.
Qed.

(** every request the gate accepts is answered, with no exception
    left to Express, and its status is one of 200, 201, 204, 400, 404
    and 500. *)
Theorem handle_answers is_email r :
  rq_auth r = None -> st_answers (fun resp => status resp ∈ [200; 201; 204; 400; 404; 500]) (handle is_email r).
Proof.
  intros Ha. destruct (route_endpoint (rq_method r) (rq_path r)) as [e|] eqn:Hr.
  - generalize (handle_observed is_email r e Ha Hr). apply st_answers_mono. intros resp [Hin _].
    apply list_elem_of_In in Hin. apply list_elem_of_In. destruct e; simpl in *; tauto.
  - generalize (not_routed_answers is_email r Ha Hr). apply st_answers_mono. intros resp Hin.
    apply list_elem_of_In in Hin. apply list_elem_of_In. simpl in *; tauto.
Qed.

Lemma handle_answers_witness :
  st_answers (fun resp => status resp ∈ [200; 201; 204; 400; 404; 500]) (handle simple_email sample_create_request).
Proof. apply handle_answers. reflexivity. Defined.

(** C18: for the nine operations other than GET /users, POST /users and
    PUT and PATCH /users/:id, every answer to an accepted request has a
    status that the operation's Swagger block lists, and a success answer
    has the body shape the block declares. *)
Theorem handle_documented is_email r e :
  rq_auth r = None -> route_endpoint (rq_method r) (rq_path r) = Some e -> conforming e = true ->
  st_answers (answers_doc (documented (endpoint_doc e)) (Some (success_body (endpoint_doc e)))) (handle is_email r).
Proof.
  intros Ha Hr Hc. generalize (handle_observed is_email r e Ha Hr). apply st_answers_mono.
  intros resp [Hin Hs]. apply list_elem_of_In in Hin.
  destruct e; simpl in *; try discriminate; (split; [apply list_elem_of_In; simpl; tauto | exact Hs]).
Qed.

Definition get_user_request : request :=
  mkRequest GET ["users"; "1"] no_query (mkBody sample_user_body empty_post_body) None.

Lemma handle_documented_witness :
  st_answers (answers_doc (documented doc_get_user) (Some (success_body doc_get_user)))
    (handle simple_email get_user_request).
Proof. apply (handle_documented simple_email get_user_request GetUser); reflexivity. Defined.

