(* ===== verification/OpenApi.v ===== *)
(** * The OpenAPI document and the JSON bodies it describes

    [src/blog-api/src/config/swagger.ts] hands swagger-jsdoc an OpenAPI
    3.0.0 definition (title, version, description, one server whose url
    is [process.env.SERVER_URL]) and the glob of the files whose
    [@swagger] blocks complete it; [index.ts] serves the result under
    /api-docs.  [src/blog-api/src/swagger/docsSwagger.ts] holds those
    blocks: a components block (the JWT security scheme and the schemas
    User, Address, Geo, Company and Post), the two tags, one block per
    operation ([ApiDocs]) and a second components block that declares
    Post again, with an embedded [user] object.

    The schemas are data ([schema]); the handlers' bodies are the JSON
    that [res.json] sends for the Prisma rows ([payload_json]); a body
    conforms to a schema as OpenAPI 3.0 reads it ([conforms]): [type]
    checks the JSON type, [required] names keys that must be present,
    other keys are free, and [null] satisfies no typed schema since no
    schema sets [nullable].  A [$ref] is resolved in the first components
    block, the only one that declares the referenced Address, Geo and
    Company.  How swagger-jsdoc merges the two declarations of Post is
    library code and is not modelled: post bodies are checked against
    both.

    [conforms] runs on fuel and answers [None] when the fuel runs out,
    so a [Some false] is a real mismatch, never an exhausted check.  The
    document's deepest body (a user with its address and geo) needs 6
    levels; [doc_fuel] is 16.

    The theorems: every post body the API sends conforms to both Post
    declarations ([post_bodies_conform]); the body of GET /users/:id
    conforms to User exactly when the user has an address with a suite
    and a geo, and a company with a catch phrase and a bs
    ([user_body_conforms]). *)

From S2P Require Import Prelude JsValue Schema Gateway GatewayFacts Validation UserController PostController Server ApiDocs.
Local Open Scope Z_scope.

(** ** swagger.ts *)

Record api_info := mkApiInfo { info_title : string; info_version : string; info_description : string }.

Record swagger_options := mkSwaggerOptions {
  so_openapi : string;
  so_info : api_info;
  so_servers : list (option string);   (* the [url] of each server, [undefined] when unset *)
  so_apis : list string;               (* the globs of the files holding [@swagger] blocks *)
}.

Definition swaggerOptions (SERVER_URL : option string) : swagger_options :=
  mkSwaggerOptions "3.0.0" (mkApiInfo "Blog API" "1.0.0" "API documentation.") [SERVER_URL] ["./src/swagger/*.ts"].

(** ** JSON values *)

Inductive json :=
| Jnull
| Jnum (n : jsnum)
| Jstring (s : string)
| Jarray (items : list json)
| Jobject (fields : list (string * json)).

(** The value of key [k] of an object. *)
Definition jfield (k : string) (fs : list (string * json)) : option json :=
  option_map snd (List.find (fun kv => String.eqb (fst kv) k) fs).

(** ** Schemas *)

Inductive schema :=
| SInteger                                        (* type: integer *)
| SString                                         (* type: string *)
| SObject (props : list (string * schema)) (required : list string)  (* type: object *)
| SArray (items : schema)                         (* type: array *)
| SRef (name : string).                           (* $ref: '#/components/schemas/name' *)

Record security_scheme := mkSecurityScheme { ss_type : string; ss_scheme : string; ss_bearerFormat : string }.

(** [components.securitySchemes.JWT]. *)
Definition jwt_scheme : security_scheme := mkSecurityScheme "http" "bearer" "JWT".

Definition user_schema : schema :=
  SObject [("id", SInteger); ("name", SString); ("username", SString); ("email", SString); ("phone", SString);
           ("website", SString); ("company", SRef "Company"); ("address", SRef "Address");
           ("posts", SArray (SRef "Post"))]
          ["name"; "username"; "email"; "phone"; "website"].

Definition address_schema : schema :=
  SObject [("id", SInteger); ("street", SString); ("suite", SString); ("city", SString); ("zipcode", SString);
           ("geo", SRef "Geo"); ("userId", SInteger)]
          ["street"; "city"; "zipcode"].

Definition geo_schema : schema :=
  SObject [("id", SInteger); ("lat", SString); ("lng", SString); ("addressId", SInteger)] ["lat"; "lng"].

Definition company_schema : schema :=
  SObject [("id", SInteger); ("name", SString); ("catchPhrase", SString); ("bs", SString); ("userId", SInteger)]
          ["name"].

Definition post_schema : schema :=
  SObject [("id", SInteger); ("title", SString); ("body", SString); ("userId", SInteger)] ["title"; "body"].

(** The second declaration of Post, at the end of docsSwagger.ts. *)
Definition post_schema_again : schema :=
  SObject [("id", SInteger); ("title", SString); ("body", SString); ("userId", SInteger);
           ("user", SObject [("id", SInteger); ("name", SString); ("username", SString); ("email", SString);
                             ("phone", SString); ("website", SString); ("company", SString)] [])]
          [].

(** The components, with one of the two declarations of Post. *)
Definition defs_with_post (ps : schema) : list (string * schema) :=
  [("User", user_schema); ("Address", address_schema); ("Geo", geo_schema); ("Company", company_schema);
   ("Post", ps)].

(** The first components block. *)
Definition components_schemas : list (string * schema) := defs_with_post post_schema.

(** The two [tags] blocks. *)
Definition users_tag : string * string := ("Users", "User management").
Definition posts_tag : string * string := ("Posts", "Post management").
Definition doc_tags : list (string * string) := [users_tag; posts_tag].

(** The response schema of each operation's success, as its block
    writes it under [responses.2xx.content]. *)
Definition doc_schema (b : doc_body) : option schema :=
  match b with
  | DUserArray => Some (SArray (SRef "User"))
  | DUser => Some (SRef "User")
  | DPostArray => Some (SArray (SRef "Post"))
  | DPostPage => Some (SObject [("posts", SArray (SRef "Post")); ("total", SInteger)] [])
  | DPost => Some (SRef "Post")
  | DNoBody => None
  end.

(** ** Conformance *)

Definition present {A} (o : option A) : bool := match o with Some _ => true | None => false end.

(** Every check passed ([Some true]), one failed ([Some false]), or one
    ran out of fuel ([None]). *)
Definition all_checks (l : list (option bool)) : option bool :=
  fold_right (fun o acc => match o, acc with Some b, Some c => Some (b && c) | _, _ => None end) (Some true) l.

Fixpoint conforms (fuel : nat) (defs : list (string * schema)) (s : schema) (j : json) : option bool :=
  match fuel with
  | O => None
  | S n =>
      match s, j with
      | SInteger, Jnum x => Some (present (js_integer x))
      | SString, Jstring _ => Some true
      | SObject props req, Jobject fs =>
          if forallb (fun k => present (jfield k fs)) req then
            all_checks (map (fun kp => match jfield (fst kp) fs with
                                       | Some v => conforms n defs (snd kp) v
                                       | None => Some true
                                       end) props)
          else Some false
      | SArray it, Jarray l => all_checks (map (conforms n defs it) l)
      | SRef r, _ =>
          match List.find (fun kv => String.eqb (fst kv) r) defs with
          | Some (_, s') => conforms n defs s' j
          | None => Some false
          end
      | _, _ => Some false
      end
  end.

Definition doc_fuel : nat := 16.

(** A body against a schema of the document. *)
Definition body_check (s : schema) (j : json) : option bool := conforms doc_fuel components_schemas s j.

(** ** The bodies [res.json] sends *)

Definition int_json (z : Z) : json := Jnum (js_of_Z z).
Definition opt_json (o : option string) : json := match o with Some s => Jstring s | None => Jnull end.

Definition user_fields (id : Z) (u : user) : list (string * json) :=
  [("id", int_json id); ("name", Jstring (name u)); ("username", Jstring (username u));
   ("email", Jstring (email u)); ("phone", Jstring (phone u)); ("website", Jstring (website u))].

Definition geo_json (g : Z * geo) : json :=
  Jobject [("id", int_json (fst g)); ("lat", Jstring (lat (snd g))); ("lng", Jstring (lng (snd g)));
           ("addressId", int_json (geo_addressId (snd g)))].

Definition address_json (a : address_geo) : json :=
  let '(aid, x, g) := a in
  Jobject [("id", int_json aid); ("street", Jstring (street x)); ("suite", opt_json (suite x));
           ("city", Jstring (city x)); ("zipcode", Jstring (zipcode x)); ("userId", int_json (addr_userId x));
           ("geo", match g with Some g => geo_json g | None => Jnull end)].

Definition company_json (c : Z * company) : json :=
  Jobject [("id", int_json (fst c)); ("name", Jstring (comp_name (snd c)));
           ("catchPhrase", opt_json (catchPhrase (snd c))); ("bs", opt_json (bs (snd c)));
           ("userId", int_json (comp_userId (snd c)))].

Definition post_fields (pid : Z) (p : post) : list (string * json) :=
  [("id", int_json pid); ("title", Jstring (title p)); ("body", Jstring (body p)); ("userId", int_json (post_userId p))].

Definition post_json (r : Z * post) : json := Jobject (post_fields (fst r) (snd r)).

Definition post_user_json (x : Z * post * (Z * user)) : json :=
  let '(pid, p, (uid, u)) := x in Jobject (post_fields pid p ++ [("user", Jobject (user_fields uid u))]).

Definition payload_json (p : payload) : json :=
  match p with
  | PError m => Jobject [("error", Jstring m)]
  | PUser id u => Jobject (user_fields id u)
  | PUserFull id u a c =>
      Jobject (user_fields id u ++
               [("address", match a with Some a => address_json a | None => Jnull end);
                ("company", match c with Some c => company_json c | None => Jnull end)])
  | PUserPage us total page limit =>
      Jobject [("users", Jarray (map (fun r => Jobject (user_fields (fst r) (snd r))) us)); ("total", int_json total);
               ("page", Jnum page); ("limit", Jnum limit)]
  | PPostList ps => Jarray (map post_json ps)
  | PPostPage ps total => Jobject [("posts", Jarray (map post_user_json ps)); ("total", int_json total)]
  | PPost id q => post_json (id, q)
  | PPostFull id q u => post_user_json (id, q, u)
  | PEmpty => Jnull                                  (* a 204 has no body *)
  | PStatusError m => Jobject [("status", Jstring "error"); ("message", Jstring m)]
  | PDocs | PNoRoute => Jnull                        (* HTML pages, not JSON *)
  end.

(** GET /users/1/posts, for the examples. *)
Definition get_user_posts_request : request :=
  mkRequest GET ["users"; "1"; "posts"] no_query (mkBody sample_user_body empty_post_body) None.

(** ** Post bodies *)

Lemma all_checks_true l : Forall (fun o => o = Some true) l -> all_checks l = Some true.
Proof. unfold all_checks. induction 1 as [|o l Ho _ IH]; [reflexivity|]. cbn. rewrite Ho, IH. reflexivity. Qed.

Lemma all_checks_map_true {A} (f : A -> option bool) l : (forall x, f x = Some true) -> all_checks (map f l) = Some true.
Proof. intros H. apply all_checks_true, List.Forall_forall. intros o Ho. apply in_map_iff in Ho as (x & <- & _). apply H. Qed.

(** The two declarations of Post, and what each resolves [$ref: Post] to. *)
Definition post_decl (ps : schema) : Prop := ps = post_schema \/ ps = post_schema_again.

Ltac conforms_tac :=
  repeat match goal with H : post_decl _ |- _ => destruct H as [->| ->] end;
  cbn -[js_integer js_of_Z]; rewrite ?js_integer_of_Z; reflexivity.

Lemma post_json_conforms ps n r : post_decl ps -> conforms (S (S (S (S n)))) (defs_with_post ps) (SRef "Post") (post_json r) = Some true.
Proof. intros Hp. destruct r as [pid p]. conforms_tac. Qed.

Lemma post_user_json_conforms ps n x :
  post_decl ps -> conforms (S (S (S (S n)))) (defs_with_post ps) (SRef "Post") (post_user_json x) = Some true.
Proof. intros Hp. destruct x as [[pid p] [uid u]]. conforms_tac. Qed.

Lemma conforms_array n defs it l : conforms (S n) defs (SArray it) (Jarray l) = all_checks (map (conforms n defs it) l).
Proof. reflexivity. Qed.

Lemma conforms_object n defs props req fs :
  conforms (S n) defs (SObject props req) (Jobject fs)
  = if forallb (fun k => present (jfield k fs)) req then
      all_checks (map (fun kp => match jfield (fst kp) fs with Some v => conforms n defs (snd kp) v | None => Some true end)
                    props)
    else Some false.
Proof. reflexivity. Qed.

Lemma conforms_int n defs z : conforms (S n) defs SInteger (int_json z) = Some true.
Proof. cbn -[js_integer js_of_Z]. rewrite js_integer_of_Z. reflexivity. Qed.

(** A post-shaped body conforms to its documented schema. *)
Lemma post_shape_conforms ps p B :
  post_decl ps -> body_shape p = Some B -> B ∈ [DPost; DPostArray; DPostPage] ->
  exists s, doc_schema B = Some s /\ conforms doc_fuel (defs_with_post ps) s (payload_json p) = Some true.
Proof.
  intros Hp Hs HB.
  destruct p as [| | | |l|l total| | | | | |]; cbn in Hs; simplify_eq;
    try (apply list_elem_of_In in HB; cbn in HB; intuition discriminate);
    (eexists; split; [reflexivity|]); unfold doc_fuel.
  - cbn [payload_json]. rewrite conforms_array, map_map. apply all_checks_map_true. intros r.
    exact (post_json_conforms ps 11 r Hp).
  - cbn [payload_json]. rewrite conforms_object. cbn -[conforms int_json].
    rewrite conforms_array, conforms_int, map_map, all_checks_map_true; [reflexivity|].
    intros x. exact (post_user_json_conforms ps 10 x Hp).
  - exact (post_json_conforms ps 12 _ Hp).
  - exact (post_user_json_conforms ps 12 _ Hp).
Qed.

(** C20: every success body of the operations the document says return
    posts (GET /users/:id/posts, GET /posts, GET, POST, PUT and PATCH of
    /posts and /posts/:id) conforms to the schema of its block, whichever
    of the two declarations of Post [$ref] resolves to: ids are
    integers, titles and bodies strings, the required title and body are
    there, and the embedded author is an object of the declared fields. *)
Theorem post_bodies_conform is_email r e ps :
  rq_auth r = None -> route_endpoint (rq_method r) (rq_path r) = Some e -> post_decl ps ->
  success_body (endpoint_doc e) ∈ [DPost; DPostArray; DPostPage] ->
  st_answers (fun resp => status resp < 300 ->
                exists s, doc_schema (success_body (endpoint_doc e)) = Some s /\
                  conforms doc_fuel (defs_with_post ps) s (payload_json (payload_of resp)) = Some true)
    (handle is_email r).
Proof.
  intros Ha Hr Hp HB. generalize (handle_observed is_email r e Ha Hr). apply st_answers_mono.
  intros resp [_ Hs] Hlt. specialize (Hs Hlt).
  assert (Ho : snd (observed e) = Some (success_body (endpoint_doc e))).
  { destruct e; cbn in HB |- *; try reflexivity; apply list_elem_of_In in HB; cbn in HB; intuition discriminate. }
  rewrite Ho in Hs. exact (post_shape_conforms ps _ _ Hp Hs HB).
Qed.

Lemma post_bodies_conform_witness :
  rq_auth get_user_posts_request = None /\
  route_endpoint (rq_method get_user_posts_request) (rq_path get_user_posts_request) = Some GetUserPosts /\
  post_decl post_schema_again /\ success_body (endpoint_doc GetUserPosts) ∈ [DPost; DPostArray; DPostPage] /\
  st_answers (fun resp => status resp < 300 ->
                exists s, doc_schema (success_body (endpoint_doc GetUserPosts)) = Some s /\
                  conforms doc_fuel (defs_with_post post_schema_again) s (payload_json (payload_of resp)) = Some true)
    (handle simple_email get_user_posts_request).
Proof.
  assert (H1 : rq_auth get_user_posts_request = None) by reflexivity.
  assert (H2 : route_endpoint (rq_method get_user_posts_request) (rq_path get_user_posts_request) = Some GetUserPosts)
    by reflexivity.
  assert (H3 : post_decl post_schema_again) by (right; reflexivity).
  assert (H4 : success_body (endpoint_doc GetUserPosts) ∈ [DPost; DPostArray; DPostPage]) by (cbn; set_solver).
  split; [exact H1|]. split; [exact H2|]. split; [exact H3|]. split; [exact H4|].
  exact (post_bodies_conform simple_email get_user_posts_request GetUserPosts post_schema_again H1 H2 H3 H4).
Defined.

(** ** User bodies *)

(** The user has an address with a suite and a geo, and a company with a
    catch phrase and a bs. *)
Definition full_profile (a : option address_geo) (c : option (Z * company)) : bool :=
  match a with Some (_, x, Some _) => present (suite x) | _ => false end &&
  match c with Some (_, y) => present (catchPhrase y) && present (bs y) | None => false end.

Lemma user_full_conforms n uid u a c :
  conforms (S (S (S (S (S (S (S n))))))) components_schemas (SRef "User") (payload_json (PUserFull uid u a c))
  = Some (full_profile a c).
Proof.
  destruct a as [[[aid x] [[gid g]|]]|], c as [[cid y]|]; cbn -[js_integer js_of_Z]; rewrite ?js_integer_of_Z;
    unfold full_profile; try destruct (suite x); try destruct (catchPhrase y); try destruct (bs y); reflexivity.
Qed.

(** C21: the body GET /users/:id sends for a stored user conforms to the
    document's User schema exactly when the user has an address with a
    suite and a geo, and a company with a catch phrase and a bs: the
    schema types [address] and [company] as objects and [suite],
    [catchPhrase] and [bs] as strings, none of them nullable, while the
    handler sends [null] for each one the user lacks. *)
Theorem user_body_conforms d uid u :
  int4_range uid = true -> tbl_find (users d) uid = Some u ->
  exists p, fst (getUserById (int_to_string uid) d) = Ok (mkResponse 200 p) /\
    body_check (SRef "User") (payload_json p)
    = Some (full_profile (option_map (with_geo d) (user_address d uid)) (user_company d uid)).
Proof.
  intros Hr Hu. eexists. split; [exact (getUserById_run d uid u Hr Hu)|]. apply user_full_conforms.
Qed.

(** The sample user has no suite: its body does not conform. *)
Lemma user_body_conforms_witness :
  int4_range 1 = true /\ tbl_find (users sample_db) 1 = Some (mkUser "A" "u1" "a@x.com" "1" "w") /\
  exists p, fst (getUserById (int_to_string 1) sample_db) = Ok (mkResponse 200 p) /\
    body_check (SRef "User") (payload_json p) = Some false.
Proof.
  split; [reflexivity|]. split; [reflexivity|].
  destruct (user_body_conforms sample_db 1 (mkUser "A" "u1" "a@x.com" "1" "w") eq_refl eq_refl) as (p & Hp & Hc).
  exists p. split; [exact Hp|]. rewrite Hc. reflexivity.
Defined.

(** ** The list of users *)






