(* ===== verification/Responses.v ===== *)
(** * The shape of every answer of the API

    Every answer the Express application sends is one of two
    kinds, by status.  A success (2xx) carries a data body (rows, a page
    of rows, nothing for a 204, or the Swagger UI's pages); an error
    (4xx or 5xx) carries [{ error: msg }] with a non-empty message from
    a handler, [{ status: "error", message }] from [errorHandler], or
    Express's default 404 page for an unmatched path.  No handler answers
    with a 3xx or an empty error message.  The client's
    [err.response?.data?.error || fallback] relies on this: it shows the
    handler's message whenever there is one ([api_answers_typed]).

    The gate's errors come from express-oauth2-jwt-bearer, whose errors
    carry an HTTP error status (400, 401 or 403) or none; the theorem
    assumes that of the error a request carries. *)

From S2P Require Import Prelude JsValue Schema Gateway GatewayFacts Validation UserController PostController Server.
Local Open Scope Z_scope.

(** The error bodies: a handler's [{ error }], [errorHandler]'s
    [{ status, message }], Express's 404 page. *)
Definition error_body (p : payload) : Prop :=
  (exists m, p = PError m /\ m <> "") \/ p = PNoRoute \/ (exists m, p = PStatusError m).

(** The success bodies: rows, pages, the empty body of a 204, and the
    Swagger UI's pages. *)
Definition data_body (p : payload) : bool :=
  match p with PError _ | PStatusError _ | PNoRoute => false | _ => true end.

Definition resp_typed (r : response) : Prop :=
  (status r < 300 /\ data_body (payload_of r) = true) \/ (400 <= status r /\ error_body (payload_of r)).

(** An error the gate raises: an HTTP error status, or none. *)
Definition http_error (err : app_error) : Prop := forall s, err_status err = Some s -> s = 0 \/ 400 <= s.

(** ** Each handler's answers *)

Ltac typed_leaf :=
  unfold respond; first [apply st_post_ret | apply st_answers_ret]; unfold resp_typed, error_body;
  cbn [status payload_of data_body];
  first [ left; split; [lia | reflexivity]
        | right; split; [lia | first [left; eexists; split; [reflexivity | discriminate] | right; left; reflexivity]] ].

Ltac typed_tac :=
  repeat first
    [ match goal with |- st_answers _ (if ?b then _ else _) => destruct b end
    | apply st_answers_catch; [post_tac; typed_leaf | intro; typed_leaf]
    | typed_leaf ].

Section Handlers.
Variable is_email : string -> bool.

Lemma getUsers_typed a b c p l : st_answers resp_typed (getUsers a b c p l).
Proof. unfold getUsers. typed_tac. Qed.
Lemma getUserById_typed id : st_answers resp_typed (getUserById id).
Proof. unfold getUserById. typed_tac. Qed.
Lemma getUserPosts_typed id : st_answers resp_typed (getUserPosts id).
Proof. unfold getUserPosts. typed_tac. Qed.
Lemma createUser_typed b : st_answers resp_typed (createUser b).
Proof. unfold createUser. typed_tac. Qed.
Lemma updateUser_typed id b : st_answers resp_typed (updateUser is_email id b).
Proof.
  unfold updateUser. destruct (validate_user_update is_email b) as [m|] eqn:E; [|typed_tac].
  unfold respond. apply st_answers_ret. right. split; [cbn; lia|]. left. exists m.
  split; [reflexivity | exact (validate_message_nonempty is_email b m E)].
Qed.
Lemma patchUser_typed id b : st_answers resp_typed (patchUser id b).
Proof. unfold patchUser. typed_tac. Qed.
Lemma deleteUser_typed id : st_answers resp_typed (deleteUser id).
Proof. unfold deleteUser. typed_tac. Qed.
Lemma getPosts_typed t u p l : st_answers resp_typed (getPosts t u p l).
Proof. unfold getPosts. typed_tac. Qed.
Lemma getPostById_typed id : st_answers resp_typed (getPostById id).
Proof. unfold getPostById. typed_tac. Qed.
Lemma createPost_typed b : st_answers resp_typed (createPost b).
Proof. unfold createPost. typed_tac. Qed.
Lemma updatePost_typed id b : st_answers resp_typed (updatePost id b).
Proof. unfold updatePost. typed_tac. Qed.
Lemma patchPost_typed id b : st_answers resp_typed (patchPost id b).
Proof. unfold patchPost. typed_tac. Qed.
Lemma deletePost_typed id : st_answers resp_typed (deletePost id).
Proof. unfold deletePost. typed_tac. Qed.

#[local] Hint Resolve getUsers_typed getUserById_typed getUserPosts_typed createUser_typed updateUser_typed
  patchUser_typed deleteUser_typed getPosts_typed getPostById_typed createPost_typed updatePost_typed
  patchPost_typed deletePost_typed : blog.

Lemma userRoutes_typed m path q b h : userRoutes is_email m path q b = Some h -> st_answers resp_typed h.
Proof. unfold userRoutes. intros H. repeat (case_match; simplify_eq; try discriminate); subst; eauto with blog. Qed.

Lemma postRoutes_typed m path q b h : postRoutes m path q b = Some h -> st_answers resp_typed h.
Proof. unfold postRoutes. intros H. repeat (case_match; simplify_eq; try discriminate); subst; eauto with blog. Qed.
End Handlers.

Lemma errorHandler_typed err : http_error err -> resp_typed (errorHandler err).
Proof.
  intros H. right. unfold errorHandler, error_body. cbn [status payload_of].
  split; [|right; right; eexists; reflexivity].
  destruct (err_status err) as [s|] eqn:E; [|lia]. destruct (Z.eqb_spec s 0); [lia|].
  destruct (H s E); lia.
Qed.

Lemma no_route_typed : st_answers resp_typed no_route.
Proof. unfold no_route. typed_leaf. Qed.

Lemma gated_typed auth route :
  (forall err, auth = Some err -> http_error err) -> (forall h, route = Some h -> st_answers resp_typed h) ->
  st_answers resp_typed (gated auth route).
Proof.
  intros Ha Hr. unfold gated. destruct auth as [err|].
  - apply st_answers_ret, errorHandler_typed, Ha. reflexivity.
  - destruct route; [apply Hr; reflexivity | apply no_route_typed].
Qed.

(** ** Every answer *)

(** C39: every request the application answers, whatever its method,
    path, query and body and whatever the database, is answered (no
    exception escapes) with a well-typed answer: a 2xx with a data body
    (or the Swagger UI's pages), or a 4xx/5xx with an error body: a handler's [{ error }] with a
    non-empty message, [errorHandler]'s [{ status, message }], or
    Express's 404 page; never a 3xx, a 2xx error body or an empty error
    message.  The gate's error is assumed to carry an HTTP error status. *)
Theorem api_answers_typed is_email r :
  (forall err, rq_auth r = Some err -> http_error err) -> st_answers resp_typed (handle is_email r).
Proof.
  intros Ha. unfold handle. destruct (rq_path r) as [|seg rest]; [apply no_route_typed|].
  repeat case_match; try apply no_route_typed; try (unfold respond; typed_leaf);
    apply gated_typed; auto; intros h; first [apply userRoutes_typed | apply postRoutes_typed].
Qed.

Lemma api_answers_typed_witness :
  (forall err, rq_auth sample_create_request = Some err -> http_error err) /\
  st_answers resp_typed (handle simple_email sample_create_request).
Proof. split; [discriminate|]. apply (api_answers_typed simple_email sample_create_request). discriminate. Defined.
