(* ===== verification/Client.v ===== *)
(** * How the admin client talks to the API

    The pages of [src/blog-app/src/app] call the API with axios, behind
    [withAuthenticationRequired]: every call carries the bearer token of
    a signed-in user, which the gate accepts ([rq_auth = None]).  A call
    is one [Server.handle] step on the database.  axios resolves on a 2xx
    status and rejects otherwise, with [err.response] holding the answer.
    An exception that escapes a handler leaves the request unanswered,
    which the page sees as a rejection without a response.

    The requests the pages build are written out as the pages write them.
    Query parameters are strings: axios prints numbers with [String(n)]
    and keeps empty strings.  Path segments come from template literals
    such as [`/users/${id}`]. *)

From S2P Require Import Prelude JsValue Schema Gateway Validation UserController PostController Server.
From Stdlib Require Import QArith.
Local Open Scope Z_scope.

(** The body of a request without one (GET, DELETE). *)
Definition no_user_body : user_body := mkUserBody JUndef JUndef JUndef JUndef JUndef OUndef OUndef.
Definition no_body : json_body := mkBody no_user_body empty_post_body.

(** The outcome of an axios call. *)
Inductive ax_result :=
| AxOk (r : response)           (* resolved: a 2xx answer *)
| AxErr (r : response)          (* rejected with err.response *)
| AxNoResponse.                 (* rejected without a response *)

Definition axios (is_email : string -> bool) (r : request) (d : db) : ax_result * db :=
  let (o, d') := handle is_email r d in
  match o with
  | Ok resp => (if (200 <=? status resp) && (status resp <? 300) then AxOk resp else AxErr resp, d')
  | Exn _ => (AxNoResponse, d')
  end.

(** [axios.get(`${API}/users`, { params: { username, email, page: page + 1, limit } })] *)
Definition users_list_request (username email : string) (page : Z) (limit : jsnum) : request :=
  mkRequest GET ["users"]
    (mkQuery (Some username) (Some email) None None None (Some (int_to_string (page + 1)))
             (Some (number_to_string limit)))
    no_body None.

(** [axios.delete(`${API}/users/${id}`)] *)
Definition user_delete_request (id : Z) : request :=
  mkRequest DELETE ["users"; int_to_string id] no_query no_body None.

(** [axios.get(`${API}/posts`, { params: { title, page: page + 1, limit } })] *)
Definition posts_list_request (title : string) (page : Z) (limit : jsnum) : request :=
  mkRequest GET ["posts"]
    (mkQuery None None None (Some title) None (Some (int_to_string (page + 1))) (Some (number_to_string limit)))
    no_body None.

(** The MUI [TablePagination] of both list pages.  Its "previous" button
    is disabled on page 0 and its "next" button on the last page, from
    [count] and [rowsPerPage]; its select offers [rowsPerPageOptions]. *)
Definition last_page (count : Z) (rows : Z) : Z := (count + rows - 1) / rows - 1.

Definition page_change_allowed (page count rows newPage : Z) : bool :=
  ((newPage =? page - 1) && (0 <? page)) || ((newPage =? page + 1) && (page <? last_page count rows)).

(** [rowsPerPageOptions={[5, 10, 25]}] of the users page. *)
Definition rowsPerPageOptions : list Z := [5; 10; 25].

(** The posts page sets no [rowsPerPageOptions]: MUI's default. *)
Definition mui_rowsPerPageOptions : list Z := [10; 25; 50; 100].

(** Equality of numbers as React compares dependencies ([Object.is], up
    to the sign of zero, which the model does not have). *)
Definition jsnum_eqb (a b : jsnum) : bool :=
  match a, b with
  | NaN, NaN | PosInf, PosInf | NegInf, NegInf => true
  | Fin x, Fin y => Z.eqb (Qnum x) (Qnum y) && Pos.eqb (Qden x) (Qden y)
  | _, _ => false
  end.

(** ** The pagination guard *)

(** MUI's buttons never lead to a negative page. *)
Lemma page_change_nonneg p c r n : 0 <= p -> page_change_allowed p c r n = true -> 0 <= n.
Proof.
  unfold page_change_allowed. intros Hp H.
  apply orb_true_iff in H as [H|H]; apply andb_true_iff in H as [H1 H2]; apply Z.eqb_eq in H1;
    [apply Z.ltb_lt in H2|]; lia.
Qed.

Lemma jsnum_eqb_eq a b : jsnum_eqb a b = true -> a = b.
Proof.
  destruct a as [| | |[n1 d1]], b as [| | |[n2 d2]]; simpl; try discriminate; try reflexivity.
  intros H. apply andb_true_iff in H as [H1 H2]. apply Z.eqb_eq in H1. apply Pos.eqb_eq in H2. subst. reflexivity.
Qed.
