(* ===== verification/ClientUsers.v ===== *)
(** * The user list page [src/blog-app/src/app/users/page.tsx]

    The page keeps the list it shows, an error message, the two filter
    inputs, the (0-based) page, the total, the page size and the state of
    the delete dialog.  Its effect fetches the list whenever a filter,
    the page or the page size changes (React reruns an effect when a
    dependency changes under [Object.is]); the delete dialog's "Delete"
    button deletes the chosen user and fetches again.  A step of the page
    is one UI event together with the API calls it causes, against the
    database: [users_step].  [users_reach] holds the (page, database)
    pairs reachable from the first render on a well-formed database.

    In the synchronous model every reachable pair shows exactly the
    server's page for the current filters, page and size
    ([users_page_consistent]); [UsersAsync] drops the assumption that
    each answer arrives before the next event.  The page does not reset the page number when a
    filter changes, so it can show an empty table for a filter that
    matches users ([filter_keeps_page]). *)

From S2P Require Import Prelude JsValue Schema Gateway GatewayFacts Validation UserController PostController Server Client.
Local Open Scope Z_scope.

Record users_view := mkUsersView {
  uv_users : list (Z * user);        (* users *)
  uv_error : option string;          (* error *)
  uv_usernameFilter : string;        (* usernameFilter *)
  uv_emailFilter : string;           (* emailFilter *)
  uv_page : Z;                       (* page, 0-based *)
  uv_totalUsers : Z;                 (* totalUsers *)
  uv_limit : jsnum;                  (* limit *)
  uv_open : bool;                    (* open, the delete dialog *)
  uv_userToDelete : option Z;        (* userToDelete *)
}.

(** The [useState] initial values. *)
Definition users_init : users_view := mkUsersView [] None "" "" 0 0 (js_of_Z 10) false None.

Definition set_list (v : users_view) (us : list (Z * user)) (total : Z) : users_view :=
  mkUsersView us (uv_error v) (uv_usernameFilter v) (uv_emailFilter v) (uv_page v) total (uv_limit v)
    (uv_open v) (uv_userToDelete v).

Definition set_error (v : users_view) (msg : string) : users_view :=
  mkUsersView (uv_users v) (Some msg) (uv_usernameFilter v) (uv_emailFilter v) (uv_page v) (uv_totalUsers v)
    (uv_limit v) (uv_open v) (uv_userToDelete v).

Definition set_query (v : users_view) (u e : string) (page : Z) (limit : jsnum) : users_view :=
  mkUsersView (uv_users v) (uv_error v) u e page (uv_totalUsers v) limit (uv_open v) (uv_userToDelete v).

Definition set_dialog (v : users_view) (open : bool) (target : option Z) : users_view :=
  mkUsersView (uv_users v) (uv_error v) (uv_usernameFilter v) (uv_emailFilter v) (uv_page v)
    (uv_totalUsers v) (uv_limit v) open target.

(** The query a [fetchUsers] closure captures: the filters, [page] and
    [limit] of the render that created it. *)
Record users_query := mkUsersQuery { uq_username : string; uq_email : string; uq_page : Z; uq_limit : jsnum }.

Definition uquery_of (v : users_view) : users_query :=
  mkUsersQuery (uv_usernameFilter v) (uv_emailFilter v) (uv_page v) (uv_limit v).

(** [await axios.get(`${API}/users`, { params: ... })] of a query. *)
Definition users_answer (is_email : string -> bool) (q : users_query) (d : db) : ax_result * db :=
  axios is_email (users_list_request (uq_username q) (uq_email q) (uq_page q) (uq_limit q)) d.

(** What [fetchUsers] does with the answer:
    [setUsers(res.data.users); setTotalUsers(res.data.total)], or the
    error message on a rejection.  A 2xx answer of GET /users is always a
    page object ([OpenApi.getUsers_page_body]). *)
Definition users_resolve (v : users_view) (res : ax_result) : users_view :=
  match res with
  | AxOk resp =>
      match payload_of resp with
      | PUserPage us total _ _ => set_list v us total
      | _ => v
      end
  | _ => set_error v "Failed to fetch users. Please try again later."
  end.

(** [fetchUsers]: the GET for the query of the render, then [users_resolve]. *)
Definition fetchUsers (is_email : string -> bool) (v : users_view) (d : db) : users_view * db :=
  let (res, d') := users_answer is_email (uquery_of v) d in (users_resolve v res, d').

(** The effect's dependencies [usernameFilter, emailFilter, page, limit]. *)
Definition deps_changed (v v' : users_view) : bool :=
  negb (String.eqb (uv_usernameFilter v) (uv_usernameFilter v') && String.eqb (uv_emailFilter v) (uv_emailFilter v')
        && Z.eqb (uv_page v) (uv_page v') && jsnum_eqb (uv_limit v) (uv_limit v')).

(** The events the page handles. *)
Inductive users_event :=
| UsernameInput (s : string)      (* onChange of the Username field *)
| EmailInput (s : string)         (* onChange of the Email field *)
| PageChange (newPage : Z)        (* TablePagination onPageChange *)
| RowsPerPageChange (n : Z)       (* TablePagination onRowsPerPageChange, option n *)
| DeleteClick (id : Z)            (* the row's Delete button: handleClickOpen(user.id) *)
| DialogCancel                    (* handleClose *)
| DialogDelete.                   (* handleDeleteUser *)

(** The state after an event's [setState] calls, before any effect. *)
Definition users_update (v : users_view) (ev : users_event) : users_view :=
  match ev with
  | UsernameInput s => set_query v s (uv_emailFilter v) (uv_page v) (uv_limit v)
  | EmailInput s => set_query v (uv_usernameFilter v) s (uv_page v) (uv_limit v)
  | PageChange n =>
      let rows := match js_integer (uv_limit v) with Some r => r | None => 0 end in
      if page_change_allowed (uv_page v) (uv_totalUsers v) rows n
      then set_query v (uv_usernameFilter v) (uv_emailFilter v) n (uv_limit v) else v
  | RowsPerPageChange n =>
      (* [setLimit(parseInt(event.target.value, 10)); setPage(0)]; the
         select's value is the option's [String(n)] *)
      if bool_decide (n ∈ rowsPerPageOptions)
      then set_query v (uv_usernameFilter v) (uv_emailFilter v) 0 (parse_int10 (int_to_string n)) else v
  | DeleteClick id =>
      if bool_decide (id ∈ map fst (uv_users v)) then set_dialog v true (Some id) else v
  | DialogCancel => set_dialog v false None
  | DialogDelete => v
  end.

(** [handleDeleteUser]: [if (userToDelete)], the DELETE, then close the
    dialog and [fetchUsers()]; a rejection sets the error. *)
Definition handleDeleteUser (is_email : string -> bool) (v : users_view) (d : db) : users_view * db :=
  match uv_userToDelete v with
  | Some id =>
      if Z.eqb id 0 then (v, d)
      else
        let (res, d') := axios is_email (user_delete_request id) d in
        match res with
        | AxOk _ => fetchUsers is_email (set_dialog v false None) d'
        | _ => (set_error v "Failed to delete user. Please try again later.", d')
        end
  | None => (v, d)
  end.

(** One event: its state updates, then the effect when a dependency
    changed, or the delete. *)
Definition users_step (is_email : string -> bool) (ev : users_event) (s : users_view * db) : users_view * db :=
  let (v, d) := s in
  match ev with
  | DialogDelete => handleDeleteUser is_email v d
  | _ => let v' := users_update v ev in
         if deps_changed v v' then fetchUsers is_email v' d else (v', d)
  end.

(** The first render: the effect runs once with the initial state. *)
Definition users_mount (is_email : string -> bool) (d : db) : users_view * db := fetchUsers is_email users_init d.

Inductive users_reach (is_email : string -> bool) : users_view * db -> Prop :=
| ur_mount d : wf_db d -> users_reach is_email (users_mount is_email d)
| ur_step ev s : users_reach is_email s -> users_reach is_email (users_step is_email ev s).

(** ** The page's fetch and delete against the server *)

(** The table the server sends for the page's current query, with page
    size [l]. *)
Definition server_page (d : db) (v : users_view) (l : Z) : list (Z * user) :=
  firstn (Z.to_nat l) (skipn (Z.to_nat (uv_page v * l))
    (fetched_users d (Some (uv_usernameFilter v)) (Some (uv_emailFilter v)))).

Definition server_total (d : db) (v : users_view) : Z :=
  Z.of_nat (length (fetched_users d (Some (uv_usernameFilter v)) (Some (uv_emailFilter v)))).

(** What the page shows in every reachable state: the server's page for
    its query, a page size among the options, no error, a dialog target
    that is a stored user, on a well-formed database. *)
Definition users_inv (v : users_view) (d : db) : Prop :=
  wf_db d /\ 0 <= uv_page v /\ uv_error v = None /\
  (forall id, uv_userToDelete v = Some id -> id ∈ tbl_keys (users d)) /\
  exists l, uv_limit v = js_of_Z l /\ l ∈ rowsPerPageOptions /\
    uv_users v = server_page d v l /\ uv_totalUsers v = server_total d v.

Lemma fetchUsers_run is_email v d l :
  0 <= uv_page v -> uv_limit v = js_of_Z l -> 1 <= l ->
  fetchUsers is_email v d = (set_list v (server_page d v l) (server_total d v), d).
Proof.
  intros Hp Hl H1. unfold fetchUsers, users_answer, uquery_of, axios, users_list_request. cbn [uq_username uq_email uq_page uq_limit].
  rewrite Hl, number_to_string_of_Z.
  change (handle is_email _ d) with
    (getUsers (Some (uv_usernameFilter v)) (Some (uv_emailFilter v)) None
       (Some (int_to_string (uv_page v + 1))) (Some (int_to_string l)) d).
  rewrite (getUsers_run d _ _ None _ _ (uv_page v + 1) l); [| apply int_to_string_roundtrip | apply int_to_string_roundtrip | lia | lia].
  simpl. unfold server_page, server_total. do 4 f_equal. lia.
Qed.

Lemma handleDeleteUser_run is_email v d id :
  wf_db d -> uv_userToDelete v = Some id -> id ∈ tbl_keys (users d) ->
  handleDeleteUser is_email v d = fetchUsers is_email (set_dialog v false None) (without_user d id).
Proof.
  intros W Ht Hk. unfold handleDeleteUser. rewrite Ht.
  assert (Hid : 1 <= id) by (destruct (wf_users d W) as (_ & Hb & _); rewrite Forall_forall in Hb; apply Hb, Hk).
  destruct (Z.eqb_spec id 0); [lia|].
  destruct (tbl_find (users d) id) as [u|] eqn:Hu; [|apply tbl_find_None in Hu; contradiction].
  unfold axios. change (handle is_email (user_delete_request id) d) with (deleteUser (int_to_string id) d).
  rewrite (deleteUser_run d (int_to_string id) id u W (int_to_string_roundtrip id) Hu). reflexivity.
Qed.

Lemma options_pos l : l ∈ rowsPerPageOptions -> 1 <= l.
Proof. unfold rowsPerPageOptions. intros H. apply list_elem_of_In in H. simpl in H. intuition lia. Qed.

Lemma server_page_keys d v l id : id ∈ map fst (server_page d v l) -> id ∈ tbl_keys (users d).
Proof.
  intros H. apply list_elem_of_In, in_map_iff in H as [[k u] [<- Hin]].
  apply firstn_skipn_In, tbl_filter_In in Hin as [Hin _]. simpl. exact (tbl_keys_in _ _ _ Hin).
Qed.

(** A fetch with a valid query establishes the invariant. *)
Lemma fetch_establishes is_email v d l :
  wf_db d -> 0 <= uv_page v -> uv_error v = None -> uv_limit v = js_of_Z l -> l ∈ rowsPerPageOptions ->
  (forall id, uv_userToDelete v = Some id -> id ∈ tbl_keys (users d)) ->
  users_inv (fst (fetchUsers is_email v d)) (snd (fetchUsers is_email v d)).
Proof.
  intros W Hp He Hl Ho Ht. rewrite (fetchUsers_run is_email v d l Hp Hl (options_pos l Ho)).
  unfold users_inv. simpl. do 4 (split; [assumption|]). exists l. repeat split; assumption.
Qed.

(** An event other than the delete keeps the table, the total and the
    error, and keeps the query valid. *)
Lemma users_update_inv v d ev l :
  ev <> DialogDelete -> users_inv v d -> uv_limit v = js_of_Z l -> l ∈ rowsPerPageOptions ->
  let v' := users_update v ev in
  0 <= uv_page v' /\ uv_error v' = None /\
  (forall id, uv_userToDelete v' = Some id -> id ∈ tbl_keys (users d)) /\
  (exists l', uv_limit v' = js_of_Z l' /\ l' ∈ rowsPerPageOptions) /\
  uv_users v' = uv_users v /\ uv_totalUsers v' = uv_totalUsers v.
Proof.
  intros Hev (W & Hp & He & Ht & l0 & Hl0 & Ho0 & Hu & Htot) Hl Ho. simpl.
  destruct ev as [s|s|n|n|id| |]; simpl; try contradiction.
  - repeat split; eauto.
  - repeat split; eauto.
  - destruct (page_change_allowed _ _ _ n) eqn:E; simpl; repeat split; eauto.
    eapply page_change_nonneg; eassumption.
  - case_bool_decide as Hn; simpl; repeat split; eauto; [lia|].
    exists n. rewrite parse_int10_roundtrip. auto.
  - case_bool_decide as Hid; simpl; repeat split; eauto.
    intros k [= <-]. rewrite Hu in Hid. exact (server_page_keys d v l0 id Hid).
  - repeat split; eauto. discriminate.
Qed.

Lemma deps_same_page v v' d l :
  deps_changed v v' = false -> server_page d v' l = server_page d v l /\ server_total d v' = server_total d v.
Proof.
  unfold deps_changed. intros H. apply negb_false_iff in H.
  apply andb_true_iff in H as [H _]. apply andb_true_iff in H as [H Hp]. apply andb_true_iff in H as [Hu He].
  apply String.eqb_eq in Hu, He. apply Z.eqb_eq in Hp.
  unfold server_page, server_total. rewrite Hu, He, Hp. auto.
Qed.

Lemma without_user_wf d id u : wf_db d -> tbl_find (users d) id = Some u -> wf_db (without_user d id).
Proof.
  intros W Hu. pose proof (gw_ok_wf d _ (deleteUser_ok (int_to_string id) d) W) as W'.
  rewrite (deleteUser_run d (int_to_string id) id u W (int_to_string_roundtrip id) Hu) in W'. exact W'.
Qed.

(** In the synchronous model, where each event's requests are answered
    before the next event, every state of the user list page reachable
    from its first render on a well-formed database, through any sequence
    of filter inputs, page and page-size changes and deletes, the table shows
    exactly the server's page for the current filters, page and page size
    (the users at positions [page * limit] to [page * limit + limit - 1]
    of the filtered users), the total is the number of filtered users,
    no error is shown, and the database is well formed. *)
Lemma users_page_consistent is_email s : users_reach is_email s -> users_inv (fst s) (snd s).
Proof.
  induction 1 as [d W | ev [v d] _ IH]; cbn [fst snd] in *.
  - apply (fetch_establishes is_email users_init d 10 W); try reflexivity; [set_solver | discriminate].
  - pose proof IH as (W & Hp & He & Ht & l & Hl & Ho & Hu & Htot). assert (Hev : ev = DialogDelete \/ ev <> DialogDelete)
      by (destruct ev; [right; discriminate .. | left; reflexivity]).
    destruct Hev as [->|Hev].
    + change (users_step is_email DialogDelete (v, d)) with (handleDeleteUser is_email v d).
      destruct (uv_userToDelete v) as [id|] eqn:Htd; [|unfold handleDeleteUser; rewrite Htd; exact IH].
      pose proof (Ht id eq_refl) as Hk. destruct (tbl_find (users d) id) as [u|] eqn:Hf;
        [|apply tbl_find_None in Hf; contradiction].
      rewrite (handleDeleteUser_run is_email v d id W Htd Hk).
      apply (fetch_establishes _ _ _ l (without_user_wf d id u W Hf)); auto. simpl. discriminate.
    + destruct (users_update_inv v d ev l Hev IH Hl Ho) as (Hp' & He' & Ht' & (l' & Hl' & Ho') & Hu' & Htot').
      assert (Hstep : users_step is_email ev (v, d)
                      = if deps_changed v (users_update v ev) then fetchUsers is_email (users_update v ev) d
                        else (users_update v ev, d)) by (destruct ev; [reflexivity .. | contradiction]).
      rewrite Hstep. destruct (deps_changed v (users_update v ev)) eqn:Hd.
      * apply (fetch_establishes _ _ _ l'); auto.
      * destruct (deps_same_page v (users_update v ev) d l Hd) as [Hsp Hst].
        assert (Hll : uv_limit (users_update v ev) = uv_limit v).
        { unfold deps_changed in Hd. apply negb_false_iff, andb_true_iff in Hd as [_ Hd]. apply jsnum_eqb_eq in Hd.
          symmetry. exact Hd. }
        unfold users_inv. cbn [fst snd]. split; [exact W|]. split; [exact Hp'|]. split; [exact He'|].
        split; [exact Ht'|]. exists l. rewrite Hll, Hu', Htot', Hsp, Hst. auto.
Qed.

(** C23: typing in the Username filter does not reset the page.  On page
    [p >= 1] with page size [l], a new filter that matches at most [p * l]
    users is fetched for the same page: the table is empty, while the
    total counts the matching users (the pagination then shows a range
    past the end). *)
Theorem filter_keeps_page is_email v d f l :
  1 <= uv_page v -> uv_limit v = js_of_Z l -> 1 <= l -> f <> uv_usernameFilter v ->
  Z.of_nat (length (fetched_users d (Some f) (Some (uv_emailFilter v)))) <= uv_page v * l ->
  uv_users (fst (users_step is_email (UsernameInput f) (v, d))) = [] /\
  uv_page (fst (users_step is_email (UsernameInput f) (v, d))) = uv_page v /\
  uv_totalUsers (fst (users_step is_email (UsernameInput f) (v, d)))
    = Z.of_nat (length (fetched_users d (Some f) (Some (uv_emailFilter v)))).
Proof.
  intros Hp Hl H1 Hf Hn. unfold users_step. simpl users_update.
  assert (Hd : deps_changed v (set_query v f (uv_emailFilter v) (uv_page v) (uv_limit v)) = true).
  { unfold deps_changed. simpl. destruct (String.eqb_spec (uv_usernameFilter v) f); [congruence | reflexivity]. }
  rewrite Hd, (fetchUsers_run is_email _ d l) by (simpl; auto; lia). simpl.
  split; [|split; reflexivity]. unfold server_page. simpl.
  rewrite skipn_all2; [apply firstn_nil|]. lia.
Qed.

(** Eleven users, so that the list has a second page. *)
Definition eleven_users_db : db :=
  mkDb (map (fun k => (k, mkUser "N" ("a" +:+ int_to_string k) (int_to_string k +:+ "@x.com") "1" "w")) (seqZ 1 11))
       [] [] [] [] 12 1 1 1 1.

Lemma filter_keeps_page_witness :
  let s := users_step simple_email (PageChange 1) (users_mount simple_email eleven_users_db) in
  users_reach simple_email s /\
  uv_users (fst (users_step simple_email (UsernameInput "a11") (fst s, snd s))) = [] /\
  uv_page (fst (users_step simple_email (UsernameInput "a11") (fst s, snd s))) = uv_page (fst s) /\
  uv_totalUsers (fst (users_step simple_email (UsernameInput "a11") (fst s, snd s)))
    = Z.of_nat (length (fetched_users (snd s) (Some "a11") (Some (uv_emailFilter (fst s))))).
Proof.
  split; [apply ur_step, ur_mount; unfold eleven_users_db; vm_compute; wf_concrete|].
  apply (filter_keeps_page simple_email _ _ "a11" 10); vm_compute; first [reflexivity | discriminate | congruence].
Defined.
