(* ===== verification/ClientDetail.v ===== *)
(** * The detail pages of the client

    [src/blog-app/src/app/users/[userId]/page.tsx] loads a user and the
    user's posts, links each post to [/posts/${post.id}] and the
    "Create Post" button to [/users/${userId}/posts/create], and deletes
    the user after a confirmation dialog.
    [src/blog-app/src/app/posts/[postId]/page.tsx] loads one post with its
    author, links the author to [/users/${post.user?.id}], and deletes the
    post after a confirmation dialog.  Each page is a record of its state
    hooks; its effect runs once on mount with the route parameter; the
    dialog's buttons are events.

    The theorems: deleting a stored post from its page removes exactly
    that post, navigates to /posts and makes the page of that id fail to
    load ([post_delete_flow]).  Deleting a user from its page removes the user with its
    address, geo, company and posts, navigates to /users, and leaves
    every post card the page showed pointing at a page that fails to
    load ([user_delete_from_page]). *)

From S2P Require Import Prelude JsValue Schema Gateway GatewayFacts Validation UserController PostController Server Client.
Local Open Scope Z_scope.

(** ** The user detail page *)

Record detail_view := mkDetailView {
  dv_user : option payload;    (* [user], the body of GET /users/:id *)
  dv_posts : payload;          (* [posts], the body of GET /users/:id/posts *)
  dv_error : option string; dv_loading : bool; dv_open : bool; dv_deleting : bool;
  dv_route : option string;
}.

Definition detail_init : detail_view := mkDetailView None (PPostList []) None true false false None.

(** [axios.get(`${API}/users/${userId}`)], [.../posts] and [axios.delete]. *)
Definition user_get_request (userId : string) : request :=
  mkRequest GET ["users"; userId] no_query no_body None.
Definition user_posts_request (userId : string) : request :=
  mkRequest GET ["users"; userId; "posts"] no_query no_body None.
Definition detail_delete_request (userId : string) : request :=
  mkRequest DELETE ["users"; userId] no_query no_body None.

(** [fetchUserData]: [Promise.all] sends both requests; both are reads, so
    their order does not matter.  [if (!userId) return] leaves [loading]
    set, since it returns before the [try]. *)
Definition fetchUserData (is_email : string -> bool) (userId : string) (v : detail_view) (d : db)
  : detail_view * db :=
  if String.eqb userId "" then (v, d) else
  let (r1, d1) := axios is_email (user_get_request userId) d in
  let (r2, d2) := axios is_email (user_posts_request userId) d1 in
  match r1, r2 with
  | AxOk a, AxOk b =>
      (mkDetailView (Some (payload_of a)) (payload_of b) (dv_error v) false (dv_open v) (dv_deleting v) (dv_route v), d2)
  | _, _ =>
      (mkDetailView (dv_user v) (dv_posts v) (Some "Failed to fetch user data. Please try again later.") false
         (dv_open v) (dv_deleting v) (dv_route v), d2)
  end.

(** [handleDeleteUser] of the detail page, with its [finally] closing the dialog. *)
Definition detailDeleteUser (is_email : string -> bool) (userId : string) (v : detail_view) (d : db)
  : detail_view * db :=
  if String.eqb userId "" then (v, d) else
  let (r, d') := axios is_email (detail_delete_request userId) d in
  match r with
  | AxOk _ => (mkDetailView (dv_user v) (dv_posts v) (dv_error v) (dv_loading v) false false (Some "/users"), d')
  | _ => (mkDetailView (dv_user v) (dv_posts v) (Some "Failed to delete user. Please try again later.")
            (dv_loading v) false false (dv_route v), d')
  end.

(** ** The post detail page *)

Record post_view := mkPostView {
  pd_post : option payload;     (* post, the body of GET /posts/:id *)
  pd_error : option string; pd_deleting : bool; pd_open : bool;
  pd_route : option string;     (* the path [router.push] went to *)
}.

Definition post_view_init : post_view := mkPostView None None false false None.

Definition post_get_request (postId : string) : request :=
  mkRequest GET ["posts"; postId] no_query no_body None.
Definition post_delete_request (postId : string) : request :=
  mkRequest DELETE ["posts"; postId] no_query no_body None.

(** [fetchPost]: [if (postId)], the GET, [setPost(res.data)] or the error. *)
Definition fetchPost (is_email : string -> bool) (postId : string) (v : post_view) (d : db) : post_view * db :=
  if String.eqb postId "" then (v, d) else
  let (res, d') := axios is_email (post_get_request postId) d in
  match res with
  | AxOk r => (mkPostView (Some (payload_of r)) (pd_error v) (pd_deleting v) (pd_open v) (pd_route v), d')
  | _ => (mkPostView (pd_post v) (Some "Unable to load post details. Please try again later.") (pd_deleting v)
            (pd_open v) (pd_route v), d')
  end.

(** [handleDeletePost], with its [finally]. *)
Definition handleDeletePost (is_email : string -> bool) (postId : string) (v : post_view) (d : db) : post_view * db :=
  if String.eqb postId "" then (v, d) else
  let (res, d') := axios is_email (post_delete_request postId) d in
  match res with
  | AxOk _ => (mkPostView (pd_post v) (pd_error v) false false (Some "/posts"), d')
  | _ => (mkPostView (pd_post v) (Some "Failed to delete the post. Please try again later.") false false
            (pd_route v), d')
  end.

(** The route parameter of the author link [`/users/${post.user?.id}`]. *)
Definition author_link (p : payload) : option string :=
  match p with PPostFull _ _ (uid, _) => Some (int_to_string uid) | _ => None end.

(** The database after DELETE /posts/:id of a stored post. *)
Definition without_post (d : db) (pid : Z) : db := set_posts d (drop (fun k _ => Z.eqb k pid) (posts d)).

(** ** The pages as event systems *)

(** The user page renders its body (buttons and dialog included) only
    when [isLoading || loading] is false, no [error] is set and [user] is
    loaded; Auth0's [isLoading] is false behind [withAuthenticationRequired]. *)
Definition detail_rendered (v : detail_view) : bool :=
  negb (dv_loading v) && match dv_error v, dv_user v with None, Some _ => true | _, _ => false end.

Inductive detail_event :=
| DetailDeleteOpen        (* "Delete User": handleClickOpen, disabled while deleting *)
| DetailDialogClose       (* the dialog's "Cancel" or onClose: handleClose *)
| DetailDialogDelete.     (* the dialog's "Delete": handleDeleteUser *)

Definition set_detail_open (v : detail_view) (o : bool) : detail_view :=
  mkDetailView (dv_user v) (dv_posts v) (dv_error v) (dv_loading v) o (dv_deleting v) (dv_route v).

Definition detail_step (is_email : string -> bool) (userId : string) (ev : detail_event) (s : detail_view * db)
  : detail_view * db :=
  let (v, d) := s in
  if negb (detail_rendered v) then (v, d) else
  match ev with
  | DetailDeleteOpen => if dv_deleting v then (v, d) else (set_detail_open v true, d)
  | DetailDialogClose => (set_detail_open v false, d)
  | DetailDialogDelete => if dv_open v then detailDeleteUser is_email userId v d else (v, d)
  end.

(** The first render: the effect runs with the route parameter. *)
Definition detail_mount (is_email : string -> bool) (userId : string) (d : db) : detail_view * db :=
  fetchUserData is_email userId detail_init d.

(** The post page renders its body when no [error] is set and [post] is
    loaded. *)
Definition post_rendered (v : post_view) : bool :=
  match pd_error v, pd_post v with None, Some _ => true | _, _ => false end.

Inductive post_event :=
| PostDeleteOpen          (* "Delete Post": handleClickOpen, disabled while deleting *)
| PostDialogClose         (* "Cancel" or onClose: handleClose *)
| PostDialogDelete.       (* "Delete", disabled while deleting: handleDeletePost *)

Definition set_post_open (v : post_view) (o : bool) : post_view :=
  mkPostView (pd_post v) (pd_error v) (pd_deleting v) o (pd_route v).

Definition post_step (is_email : string -> bool) (postId : string) (ev : post_event) (s : post_view * db)
  : post_view * db :=
  let (v, d) := s in
  if negb (post_rendered v) then (v, d) else
  match ev with
  | PostDeleteOpen => if pd_deleting v then (v, d) else (set_post_open v true, d)
  | PostDialogClose => (set_post_open v false, d)
  | PostDialogDelete => if pd_open v && negb (pd_deleting v) then handleDeletePost is_email postId v d else (v, d)
  end.

Definition post_mount (is_email : string -> bool) (postId : string) (d : db) : post_view * db :=
  fetchPost is_email postId post_view_init d.

(** ** Loading and deleting *)

(** The detail page of a user, read back from a database whose users,
    addresses, geos and companies are those of [d]. *)
Lemma fetchUserData_run is_email v d d' uid u :
  users d' = users d -> addresses d' = addresses d -> geos d' = geos d -> companies d' = companies d ->
  int4_range uid = true -> tbl_find (users d) uid = Some u ->
  fetchUserData is_email (int_to_string uid) v d'
  = (mkDetailView (Some (PUserFull uid u (option_map (with_geo d) (user_address d uid)) (user_company d uid)))
       (PPostList (tbl_filter (fun _ p => Z.eqb (post_userId p) uid) (posts d'))) (dv_error v) false
       (dv_open v) (dv_deleting v) (dv_route v), d').
Proof.
  intros E1 E2 E3 E4 Hr Hu. unfold fetchUserData.
  rewrite int_to_string_nonempty.
  unfold axios. change (handle is_email (user_get_request _) d') with (getUserById (int_to_string uid) d').
  unfold getUserById, scatch, sbind.
  rewrite (user_findUnique_full_run _ uid _ (js_integer_string _ _ (int_to_string_roundtrip uid)) Hr).
  unfold user_address, user_company, with_geo, address_geo_of. rewrite E1, E2, E3, E4, Hu. cbn -[handle].
  change (handle is_email (user_posts_request _) d') with (getUserPosts (int_to_string uid) d').
  rewrite (getUserPosts_run d' _ uid (int_to_string_roundtrip uid) Hr). reflexivity.
Qed.

Lemma fetchPost_run is_email v d pid p u :
  int4_range pid = true -> tbl_find (posts d) pid = Some p -> tbl_find (users d) (post_userId p) = Some u ->
  fetchPost is_email (int_to_string pid) v d
  = (mkPostView (Some (PPostFull pid p (post_userId p, u))) (pd_error v) (pd_deleting v) (pd_open v) (pd_route v), d).
Proof.
  intros Hr Hp Hu. unfold fetchPost. rewrite int_to_string_nonempty. unfold axios.
  change (handle is_email (post_get_request _) d) with (getPostById (int_to_string pid) d).
  rewrite (getPostById_run _ pid p u d (int_to_string_roundtrip pid) Hr Hp Hu). reflexivity.
Qed.

Lemma deletePost_run d pid p :
  int4_range pid = true -> tbl_find (posts d) pid = Some p ->
  deletePost (int_to_string pid) d = (Ok (mkResponse 204 PEmpty), without_post d pid).
Proof.
  intros Hr Hp. unfold deletePost, post_delete, scatch, sbind, sget.
  rewrite (int_arg_run _ _ _ (js_integer_string _ _ (int_to_string_roundtrip pid)) Hr). simpl. rewrite Hp.
  reflexivity.
Qed.

Lemma getPostById_none d sid pid :
  string_to_number sid = js_of_Z pid -> int4_range pid = true -> tbl_find (posts d) pid = None ->
  getPostById sid d = (Ok (mkResponse 404 (PError "Post not found.")), d).
Proof.
  intros Hsid Hr Hp. unfold getPostById, post_findUnique_with_user, scatch, sbind, sget.
  rewrite (int_arg_run _ _ _ (js_integer_string _ _ Hsid) Hr). simpl. rewrite Hp. reflexivity.
Qed.

(** The page of an id no post has: GET answers 404, the page shows the
    load error. *)
Lemma fetchPost_missing is_email v d pid :
  int4_range pid = true -> tbl_find (posts d) pid = None ->
  fetchPost is_email (int_to_string pid) v d
  = (mkPostView (pd_post v) (Some "Unable to load post details. Please try again later.") (pd_deleting v)
       (pd_open v) (pd_route v), d).
Proof.
  intros Hr Hp. unfold fetchPost. rewrite int_to_string_nonempty. unfold axios.
  change (handle is_email (post_get_request _) d) with (getPostById (int_to_string pid) d).
  rewrite (getPostById_none _ _ pid (int_to_string_roundtrip pid) Hr Hp). reflexivity.
Qed.

Lemma detailDeleteUser_run is_email v d uid u :
  wf_db d -> tbl_find (users d) uid = Some u ->
  detailDeleteUser is_email (int_to_string uid) v d
  = (mkDetailView (dv_user v) (dv_posts v) (dv_error v) (dv_loading v) false false (Some "/users"), without_user d uid).
Proof.
  intros W Hu. unfold detailDeleteUser. rewrite int_to_string_nonempty. unfold axios.
  change (handle is_email (detail_delete_request _) d) with (deleteUser (int_to_string uid) d).
  rewrite (deleteUser_run d _ uid u W (int_to_string_roundtrip uid) Hu). reflexivity.
Qed.

(** A post of [uid] is gone once [uid] is deleted. *)
Lemma without_user_post_gone d uid pid p :
  NoDup (tbl_keys (posts d)) -> In (pid, p) (posts d) -> post_userId p = uid ->
  tbl_find (posts (without_user d uid)) pid = None.
Proof.
  intros Hnd Hin Hp. simpl. unfold drop. rewrite tbl_find_filter by exact Hnd.
  rewrite (tbl_find_In_NoDup _ _ _ Hnd Hin), Hp, Z.eqb_refl. reflexivity.
Qed.

(** C29: on the page of a stored post (route parameter [String(id)]),
    "Delete Post" then the dialog's "Delete" removes exactly that post
    (the database becomes [without_post]), closes the dialog and
    navigates to /posts; the database stays well formed; and opening
    the page of the same id again shows the load error, since GET
    answers 404. *)
Theorem post_delete_flow is_email d pid p :
  wf_db d -> tbl_find (posts d) pid = Some p ->
  let s := post_step is_email (int_to_string pid) PostDialogDelete
             (post_step is_email (int_to_string pid) PostDeleteOpen (post_mount is_email (int_to_string pid) d)) in
  pd_route (fst s) = Some "/posts" /\ pd_open (fst s) = false /\ snd s = without_post d pid /\ wf_db (snd s) /\
  pd_error (fst (post_mount is_email (int_to_string pid) (snd s)))
  = Some "Unable to load post details. Please try again later.".
Proof.
  intros W Hp. pose proof (int4_range_find _ _ _ _ (wf_posts d W) Hp) as Hr.
  destruct (post_user_exists d pid p W Hp) as [u Hu]. cbv zeta.
  assert (Hm : post_mount is_email (int_to_string pid) d
               = (mkPostView (Some (PPostFull pid p (post_userId p, u))) None false false None, d))
    by exact (fetchPost_run is_email post_view_init d pid p u Hr Hp Hu).
  rewrite Hm.
  unfold post_step at 2. cbn. unfold post_step. cbn -[handleDeletePost].
  assert (Hd : forall v, handleDeletePost is_email (int_to_string pid) v d
               = (mkPostView (pd_post v) (pd_error v) false false (Some "/posts"), without_post d pid)).
  { intros v. unfold handleDeletePost. rewrite int_to_string_nonempty. unfold axios.
    change (handle is_email (post_delete_request _) d) with (deletePost (int_to_string pid) d).
    rewrite (deletePost_run d pid p Hr Hp). reflexivity. }
  rewrite Hd. cbn [fst snd pd_route pd_open]. do 3 (split; [reflexivity|]). split.
  - pose proof (gw_ok_wf d _ (deletePost_ok (int_to_string pid) d) W) as W'.
    rewrite (deletePost_run d pid p Hr Hp) in W'. exact W'.
  - destruct (wf_posts d W) as (Hnd & _). unfold post_mount.
    rewrite (fetchPost_missing is_email post_view_init (without_post d pid) pid Hr (find_drop_self _ pid Hnd)).
    reflexivity.
Qed.

Lemma post_delete_flow_witness :
  let s := post_step simple_email "1" PostDialogDelete
             (post_step simple_email "1" PostDeleteOpen (post_mount simple_email "1" sample_db)) in
  pd_route (fst s) = Some "/posts" /\ pd_open (fst s) = false /\ snd s = without_post sample_db 1 /\ wf_db (snd s) /\
  pd_error (fst (post_mount simple_email "1" (snd s))) = Some "Unable to load post details. Please try again later.".
Proof. exact (post_delete_flow simple_email sample_db 1 (mkPost "t" "b" 1) sample_db_wf eq_refl). Defined.

(** C30: on the page of a stored user (route parameter [String(id)]), the
    first render shows the user's posts; "Delete User" then the dialog's
    "Delete" removes the user with its address, geo, company and posts
    (the database becomes [without_user]), closes the dialog and
    navigates to /users; every post card the page showed now leads to a
    page that fails to load. *)
Theorem user_delete_from_page is_email d uid u :
  wf_db d -> tbl_find (users d) uid = Some u ->
  let s0 := detail_mount is_email (int_to_string uid) d in
  let s := detail_step is_email (int_to_string uid) DetailDialogDelete
             (detail_step is_email (int_to_string uid) DetailDeleteOpen s0) in
  dv_posts (fst s0) = PPostList (tbl_filter (fun _ p => Z.eqb (post_userId p) uid) (posts d)) /\
  dv_route (fst s) = Some "/users" /\ dv_open (fst s) = false /\ snd s = without_user d uid /\
  forall pid p, In (pid, p) (tbl_filter (fun _ p => Z.eqb (post_userId p) uid) (posts d)) ->
    pd_error (fst (post_mount is_email (int_to_string pid) (snd s)))
    = Some "Unable to load post details. Please try again later.".
Proof.
  intros W Hu. pose proof (int4_range_find _ _ _ _ (wf_users d W) Hu) as Hr. cbv zeta.
  unfold detail_mount. rewrite (fetchUserData_run is_email detail_init d d uid u eq_refl eq_refl eq_refl eq_refl Hr Hu).
  unfold detail_step at 2. cbn. unfold detail_step. cbn -[detailDeleteUser].
  rewrite (detailDeleteUser_run is_email _ d uid u W Hu). cbn.
  split; [reflexivity|]. do 3 (split; [reflexivity|]). intros pid p Hin.
  apply tbl_filter_In in Hin as [Hin Hp]. apply Z.eqb_eq in Hp.
  destruct (wf_posts d W) as (Hnd & _).
  pose proof (int4_range_key _ _ _ (wf_posts d W) (tbl_keys_in _ _ _ Hin)) as Hrp.
  unfold post_mount. rewrite (fetchPost_missing is_email post_view_init _ pid Hrp (without_user_post_gone d uid pid p Hnd Hin Hp)).
  reflexivity.
Qed.

Lemma user_delete_from_page_witness :
  let s0 := detail_mount simple_email "1" sample_db in
  let s := detail_step simple_email "1" DetailDialogDelete (detail_step simple_email "1" DetailDeleteOpen s0) in
  dv_posts (fst s0) = PPostList (tbl_filter (fun _ p => Z.eqb (post_userId p) 1) (posts sample_db)) /\
  dv_route (fst s) = Some "/users" /\ dv_open (fst s) = false /\ snd s = without_user sample_db 1 /\
  forall pid p, In (pid, p) (tbl_filter (fun _ p => Z.eqb (post_userId p) 1) (posts sample_db)) ->
    pd_error (fst (post_mount simple_email (int_to_string pid) (snd s)))
    = Some "Unable to load post details. Please try again later.".
Proof. exact (user_delete_from_page simple_email sample_db 1 (mkUser "A" "u1" "a@x.com" "1" "w") sample_db_wf eq_refl). Defined.
