(* ===== verification/ClientForms.v ===== *)
(** * The create forms of the client

    [src/blog-app/src/app/users/create/page.tsx] keeps a nested [userData]
    object, one field per input, and posts it whole to /users.  Its
    [required] inputs are checked by the browser before the form's
    [onSubmit] runs.  [src/blog-app/src/app/users/[userId]/posts/create/page.tsx]
    posts [{ userId, title, body }] to /posts, where [userId] is the route
    parameter, and navigates back to the user's page on success, whose
    model is in [ClientDetail].

    The theorems: a create-user submission that passes the required
    check is answered 201 and stores exactly the typed data, or, when the
    username or email is taken, shows the server's duplicate message
    and writes nothing; it is never a 500 ([create_form_submit]).  A post created from a
    user's page is the last post of that user's list afterwards ([post_form_roundtrip]). *)

From S2P Require Import Prelude JsValue Schema Gateway GatewayFacts Validation UserController PostController Server Client ClientDetail.
Local Open Scope Z_scope.

(** ** The create-user page *)

Record form_geo := mkFormGeo { fg_lat : string; fg_lng : string }.
Record form_address := mkFormAddress {
  fa_street : string; fa_suite : string; fa_city : string; fa_zipcode : string; fa_geo : form_geo;
}.
Record form_company := mkFormCompany { fc_name : string; fc_catchPhrase : string; fc_bs : string }.

(** [userData]. *)
Record user_form := mkUserForm {
  ud_name : string; ud_username : string; ud_email : string; ud_phone : string; ud_website : string;
  ud_address : form_address; ud_company : form_company;
}.

(** The initial value of [userData], and the value [handleSubmit] resets it to. *)
Definition empty_user_form : user_form :=
  mkUserForm "" "" "" "" "" (mkFormAddress "" "" "" "" (mkFormGeo "" "")) (mkFormCompany "" "" "").

Record create_view := mkCreateView {
  cv_error : option string; cv_success : option string; cv_userData : user_form;
}.

Definition create_init : create_view := mkCreateView None None empty_user_form.

(** The [name] attributes of the inputs each handler serves. *)
Inductive user_field := FName | FUsername | FEmail | FPhone | FWebsite.
Inductive address_field := FStreet | FSuite | FCity | FZipcode.
Inductive geo_field := FLat | FLng.
Inductive company_field := FCompanyName | FCatchPhrase | FBs.

(** [handleChange]: [{ ...prev, [name]: value }]. *)
Definition set_user_field (u : user_form) (f : user_field) (x : string) : user_form :=
  let '(mkUserForm n un em ph ws a c) := u in
  match f with
  | FName => mkUserForm x un em ph ws a c
  | FUsername => mkUserForm n x em ph ws a c
  | FEmail => mkUserForm n un x ph ws a c
  | FPhone => mkUserForm n un em x ws a c
  | FWebsite => mkUserForm n un em ph x a c
  end.

(** [handleAddressChange]: [{ ...prev, address: { ...prev.address, [name]: value } }]. *)
Definition set_address_field (u : user_form) (f : address_field) (x : string) : user_form :=
  let '(mkFormAddress st su ci zp g) := ud_address u in
  let a' := match f with
            | FStreet => mkFormAddress x su ci zp g
            | FSuite => mkFormAddress st x ci zp g
            | FCity => mkFormAddress st su x zp g
            | FZipcode => mkFormAddress st su ci x g
            end in
  mkUserForm (ud_name u) (ud_username u) (ud_email u) (ud_phone u) (ud_website u) a' (ud_company u).

(** [handleGeoChange]. *)
Definition set_geo_field (u : user_form) (f : geo_field) (x : string) : user_form :=
  let a := ud_address u in
  let g := fa_geo a in
  let g' := match f with FLat => mkFormGeo x (fg_lng g) | FLng => mkFormGeo (fg_lat g) x end in
  mkUserForm (ud_name u) (ud_username u) (ud_email u) (ud_phone u) (ud_website u)
    (mkFormAddress (fa_street a) (fa_suite a) (fa_city a) (fa_zipcode a) g') (ud_company u).

(** [handleCompanyChange]. *)
Definition set_company_field (u : user_form) (f : company_field) (x : string) : user_form :=
  let c := ud_company u in
  let c' := match f with
            | FCompanyName => mkFormCompany x (fc_catchPhrase c) (fc_bs c)
            | FCatchPhrase => mkFormCompany (fc_name c) x (fc_bs c)
            | FBs => mkFormCompany (fc_name c) (fc_catchPhrase c) x
            end in
  mkUserForm (ud_name u) (ud_username u) (ud_email u) (ud_phone u) (ud_website u) (ud_address u) c'.

(** The inputs marked [required]: the browser submits only when they are
    filled. *)
Definition required_filled (u : user_form) : bool :=
  negb (String.eqb (ud_name u) "") && negb (String.eqb (ud_username u) "") && negb (String.eqb (ud_email u) "")
  && negb (String.eqb (fa_street (ud_address u)) "") && negb (String.eqb (fa_city (ud_address u)) "")
  && negb (String.eqb (fa_zipcode (ud_address u)) "") && negb (String.eqb (fc_name (ud_company u)) "").

(** [userData] as the JSON body: every field a string, [address.geo] and
    [company] always objects. *)
Definition user_form_body (u : user_form) : user_body :=
  let a := ud_address u in
  let c := ud_company u in
  mkUserBody (JStr (ud_name u)) (JStr (ud_username u)) (JStr (ud_email u)) (JStr (ud_phone u)) (JStr (ud_website u))
    (OVal (mkAddressBody (JStr (fa_street a)) (JStr (fa_suite a)) (JStr (fa_city a)) (JStr (fa_zipcode a))
             (OVal (mkGeoIn (JStr (fg_lat (fa_geo a))) (JStr (fg_lng (fa_geo a)))))))
    (OVal (mkCompanyIn (JStr (fc_name c)) (JStr (fc_catchPhrase c)) (JStr (fc_bs c)))).

(** [axios.post(`${API}/users`, userData)] *)
Definition create_user_request (u : user_form) : request :=
  mkRequest POST ["users"] no_query (mkBody (user_form_body u) empty_post_body) None.

(** [err.response?.data?.error || fallback]. *)
Definition error_message (r : ax_result) (fallback : string) : string :=
  match r with
  | AxErr resp => match payload_of resp with PError m => if String.eqb m "" then fallback else m | _ => fallback end
  | _ => fallback
  end.

(** [handleSubmit] of the create-user page. *)
Definition handleSubmitUser (is_email : string -> bool) (v : create_view) (d : db) : create_view * db :=
  let (res, d') := axios is_email (create_user_request (cv_userData v)) d in
  match res with
  | AxOk _ => (mkCreateView None (Some "User created successfully!") empty_user_form, d')
  | _ => (mkCreateView (Some (error_message res "Failed to create user. Please try again later.")) None
            (cv_userData v), d')
  end.

Inductive create_event :=
| UserInput (f : user_field) (x : string)
| AddressInput (f : address_field) (x : string)
| GeoInput (f : geo_field) (x : string)
| CompanyInput (f : company_field) (x : string)
| SubmitUser.

Definition create_step (is_email : string -> bool) (ev : create_event) (s : create_view * db) : create_view * db :=
  let (v, d) := s in
  let upd u := mkCreateView (cv_error v) (cv_success v) u in
  match ev with
  | UserInput f x => (upd (set_user_field (cv_userData v) f x), d)
  | AddressInput f x => (upd (set_address_field (cv_userData v) f x), d)
  | GeoInput f x => (upd (set_geo_field (cv_userData v) f x), d)
  | CompanyInput f x => (upd (set_company_field (cv_userData v) f x), d)
  | SubmitUser => if required_filled (cv_userData v) then handleSubmitUser is_email v d else (v, d)
  end.

(** The user row, address fields, geo and company a form stores. *)
Definition form_user (u : user_form) : user :=
  mkUser (ud_name u) (ud_username u) (ud_email u) (ud_phone u) (ud_website u).

(** ** The create-post page *)

Record post_form_view := mkPostFormView {
  pv_title : string; pv_body : string; pv_error : option string; pv_success : option string;
  pv_loading : bool; pv_route : option string;   (* the path [router.push] went to *)
}.

Definition post_form_init : post_form_view := mkPostFormView "" "" None None false None.

(** [axios.post(`${API}/posts`, { userId, title, body })]; [userId] is the
    route parameter, a string. *)
Definition create_post_request (userId title body : string) : request :=
  mkRequest POST ["posts"] no_query (mkBody no_user_body (mkPostBody (JStr title) (JStr body) (JStr userId))) None.

(** [handleSubmit] of the create-post page, with its [finally]. *)
Definition handleSubmitPost (is_email : string -> bool) (userId : string) (v : post_form_view) (d : db)
  : post_form_view * db :=
  let (res, d') := axios is_email (create_post_request userId (pv_title v) (pv_body v)) d in
  match res with
  | AxOk _ => (mkPostFormView "" "" None (Some "Post created successfully!") false (Some ("/users/" +:+ userId)), d')
  | _ => (mkPostFormView (pv_title v) (pv_body v) (Some "Failed to create post. Please try again later.")
            (pv_success v) false (pv_route v), d')
  end.

(** The submit button, disabled while loading, and the two required inputs. *)
Definition submit_post (is_email : string -> bool) (userId : string) (v : post_form_view) (d : db)
  : post_form_view * db :=
  if negb (pv_loading v) && negb (String.eqb (pv_title v) "") && negb (String.eqb (pv_body v) "")
  then handleSubmitPost is_email userId v d else (v, d).

Inductive post_form_event :=
| TitleChange (s : string)    (* onChange of the Title field: setTitle *)
| BodyChange (s : string)     (* onChange of the Body field: setBody *)
| SubmitPost.                 (* the form's onSubmit *)

Definition post_form_step (is_email : string -> bool) (userId : string) (ev : post_form_event)
  (s : post_form_view * db) : post_form_view * db :=
  let (v, d) := s in
  match ev with
  | TitleChange x => (mkPostFormView x (pv_body v) (pv_error v) (pv_success v) (pv_loading v) (pv_route v), d)
  | BodyChange x => (mkPostFormView (pv_title v) x (pv_error v) (pv_success v) (pv_loading v) (pv_route v), d)
  | SubmitPost => submit_post is_email userId v d
  end.

(** A form filled in completely, for the examples. *)
Definition sample_form : user_form :=
  mkUserForm "Ann" "ann" "ann@x.com" "555" "ann.dev"
    (mkFormAddress "Main St" "Apt 1" "Springfield" "12345" (mkFormGeo "1.5" "2.5"))
    (mkFormCompany "Acme" "We build" "things").

(** ** Submitting the create-user form *)

Lemma user_form_body_create u :
  user_form_body u =
  create_body (form_user u) (fa_street (ud_address u)) (Some (fa_suite (ud_address u))) (fa_city (ud_address u))
    (fa_zipcode (ud_address u)) (Some (fg_lat (fa_geo (ud_address u)), fg_lng (fa_geo (ud_address u))))
    (Some (fc_name (ud_company u), Some (fc_catchPhrase (ud_company u)), Some (fc_bs (ud_company u)))).
Proof. reflexivity. Qed.

Lemma axios_create_user is_email u d : axios is_email (create_user_request u) d =
  let (o, d') := createUser (user_form_body u) d in
  match o with
  | Ok resp => (if (200 <=? status resp) && (status resp <? 300) then AxOk resp else AxErr resp, d')
  | Exn _ => (AxNoResponse, d')
  end.
Proof. reflexivity. Qed.

(** The database a successful submission of [u] leaves. *)
Definition form_created_db (d : db) (u : user_form) : db :=
  let a := ud_address u in
  let c := ud_company u in
  created_db d (form_user u) (mkAddress (fa_street a) (Some (fa_suite a)) (fa_city a) (fa_zipcode a) (seq_user d))
    (Some (fg_lat (fa_geo a), fg_lng (fa_geo a))) (Some (fc_name c, Some (fc_catchPhrase c), Some (fc_bs c))).

(** [handleSubmit] with a fresh username and email: the success message,
    the form reset, the typed user stored. *)
Lemma handleSubmitUser_fresh is_email v d :
  wf_db d -> seq_user d <= int4_max -> seq_address d <= int4_max -> seq_geo d <= int4_max ->
  seq_company d <= int4_max ->
  ud_username (cv_userData v) ∉ col (users d) username -> ud_email (cv_userData v) ∉ col (users d) email ->
  handleSubmitUser is_email v d
  = (mkCreateView None (Some "User created successfully!") empty_user_form, form_created_db d (cv_userData v)).
Proof.
  intros. unfold handleSubmitUser. rewrite axios_create_user, user_form_body_create, createUser_run by assumption.
  reflexivity.
Qed.

(** C24: submitting the create-user form with its required inputs filled,
    on a well-formed database with room in its sequences, either creates
    exactly the typed user (a fresh username and email: the success
    message, the form reset, the user with its address, geo and company
    stored under the next ids), or (the username or email is taken)
    shows the server's message "Username or email already exists.",
    keeps what was typed and writes nothing.  Since a username and email
    are either both fresh or not, the generic "Failed to create user"
    message never shows. *)
Theorem create_form_submit is_email v d :
  wf_db d -> required_filled (cv_userData v) = true ->
  seq_user d <= int4_max -> seq_address d <= int4_max -> seq_geo d <= int4_max -> seq_company d <= int4_max ->
  (ud_username (cv_userData v) ∉ col (users d) username -> ud_email (cv_userData v) ∉ col (users d) email ->
   create_step is_email SubmitUser (v, d)
   = (mkCreateView None (Some "User created successfully!") empty_user_form, form_created_db d (cv_userData v))) /\
  (ud_username (cv_userData v) ∈ col (users d) username \/ ud_email (cv_userData v) ∈ col (users d) email ->
   create_step is_email SubmitUser (v, d)
   = (mkCreateView (Some "Username or email already exists.") None (cv_userData v), d)).
Proof.
  intros W Hreq S1 S2 S3 S4. unfold create_step. rewrite Hreq. unfold handleSubmitUser.
  split.
  - intros Hu He. apply handleSubmitUser_fresh; assumption.
  - intros Hd. rewrite axios_create_user. destruct (findFirst_dup_taken _ _ d Hd) as [r Hr].
    unfold createUser, scatch, sbind. cbn [user_form_body b_username b_email]. rewrite Hr. reflexivity.
Qed.

Lemma create_form_submit_witness :
  create_step (fun _ => true) SubmitUser (mkCreateView None None sample_form, sample_db)
  = (mkCreateView None (Some "User created successfully!") empty_user_form, form_created_db sample_db sample_form).
Proof.
  apply (proj1 (create_form_submit (fun _ => true) (mkCreateView None None sample_form) sample_db sample_db_wf
                  eq_refl ltac:(vm_compute; congruence) ltac:(vm_compute; congruence)
                  ltac:(vm_compute; congruence) ltac:(vm_compute; congruence)));
    vm_compute; set_solver.
Defined.

(** ** Submitting the create-post form *)

Lemma createPost_run d t b uid :
  seq_post d <= int4_max -> uid ∈ tbl_keys (users d) -> int4_range uid = true ->
  createPost (mkPostBody (JStr t) (JStr b) (JStr (int_to_string uid))) d
  = (Ok (mkResponse 201 (PPost (seq_post d) (mkPost t b uid))),
     set_posts (bump_seq d SPost) (posts d ++ [(seq_post d, mkPost t b uid)])).
Proof.
  intros Hs Hk Hr. unfold createPost, post_create, req_str, scatch, sbind. cbn [pb_title pb_body pb_userId sret].
  rewrite (int_arg_run _ _ _ (js_integer_string _ _ (int_to_string_roundtrip uid)) Hr).
  rewrite (insert_post_run (mkPost t b uid) d Hs Hk). reflexivity.
Qed.

(** The database after POST /posts of [mkPost t b uid]. *)
Definition post_created_db (d : db) (t b : string) (uid : Z) : db :=
  set_posts (bump_seq d SPost) (posts d ++ [(seq_post d, mkPost t b uid)]).

(** Submitting the create-post form of an existing user with a non-empty
    title and body. *)
Lemma submit_post_run is_email v d uid u :
  wf_db d -> tbl_find (users d) uid = Some u -> seq_post d <= int4_max ->
  pv_loading v = false -> pv_title v <> "" -> pv_body v <> "" ->
  submit_post is_email (int_to_string uid) v d
  = (mkPostFormView "" "" None (Some "Post created successfully!") false (Some ("/users/" +:+ int_to_string uid)),
     post_created_db d (pv_title v) (pv_body v) uid).
Proof.
  intros W Hu Hs Hl Ht Hb.
  assert (Hk : uid ∈ tbl_keys (users d)) by (apply list_elem_of_In, in_map_iff; exists (uid, u); auto using tbl_find_Some).
  pose proof (int4_range_key _ _ _ (wf_users d W) Hk) as Hr.
  unfold submit_post. rewrite Hl. destruct (String.eqb_spec (pv_title v) "") as [|_]; [contradiction|].
  destruct (String.eqb_spec (pv_body v) "") as [|_]; [contradiction|]. cbn [negb andb].
  unfold handleSubmitPost, axios.
  change (handle is_email (create_post_request _ _ _) d)
    with (createPost (mkPostBody (JStr (pv_title v)) (JStr (pv_body v)) (JStr (int_to_string uid))) d).
  rewrite (createPost_run d _ _ uid Hs Hk Hr). reflexivity.
Qed.

(** on the create-post page of an existing user (route parameter
    [String(id)]), submitting a non-empty title and body stores the post
    under the next post id, shows the success message, clears the inputs
    and navigates to [/users/id]; the detail page loaded there shows the
    same user as before and its post list is the user's former posts
    followed by the new one. *)
Theorem post_form_roundtrip is_email v d uid u :
  wf_db d -> tbl_find (users d) uid = Some u -> seq_post d <= int4_max ->
  pv_loading v = false -> pv_title v <> "" -> pv_body v <> "" ->
  let s := submit_post is_email (int_to_string uid) v d in
  fst s = mkPostFormView "" "" None (Some "Post created successfully!") false (Some ("/users/" +:+ int_to_string uid)) /\
  fst (fetchUserData is_email (int_to_string uid) detail_init (snd s))
  = mkDetailView (Some (PUserFull uid u (option_map (with_geo d) (user_address d uid)) (user_company d uid)))
      (PPostList (tbl_filter (fun _ p => Z.eqb (post_userId p) uid) (posts d)
                  ++ [(seq_post d, mkPost (pv_title v) (pv_body v) uid)]))
      None false false false None.
Proof.
  intros W Hu Hs Hl Ht Hb. rewrite (submit_post_run is_email v d uid u W Hu Hs Hl Ht Hb). split; [reflexivity|].
  cbn [snd]. rewrite (fetchUserData_run is_email detail_init d _ uid u); try reflexivity; try assumption.
  2: exact (int4_range_find _ _ _ _ (wf_users d W) Hu).
  unfold tbl_filter. simpl. rewrite List.filter_app. simpl. rewrite Z.eqb_refl. reflexivity.
Qed.

Lemma post_form_roundtrip_witness :
  let s := submit_post (fun _ => true) "1" (mkPostFormView "Hello" "World" None None false None) sample_db in
  fst s = mkPostFormView "" "" None (Some "Post created successfully!") false (Some ("/users/" +:+ "1")) /\
  fst (fetchUserData (fun _ => true) "1" detail_init (snd s))
  = mkDetailView (Some (PUserFull 1 (mkUser "A" "u1" "a@x.com" "1" "w")
                          (option_map (with_geo sample_db) (user_address sample_db 1)) (user_company sample_db 1)))
      (PPostList (tbl_filter (fun _ p => Z.eqb (post_userId p) 1) (posts sample_db)
                  ++ [(seq_post sample_db, mkPost "Hello" "World" 1)]))
      None false false false None.
Proof.
  exact (post_form_roundtrip (fun _ => true) (mkPostFormView "Hello" "World" None None false None) sample_db 1
           (mkUser "A" "u1" "a@x.com" "1" "w") sample_db_wf eq_refl ltac:(vm_compute; congruence)
           eq_refl ltac:(discriminate) ltac:(discriminate)).
Defined.
