(* ===== verification/ClientPosts.v ===== *)
(** * The posts list page [src/blog-app/src/app/posts/page.tsx]

    The page lists the posts with their authors, filtered by title and
    paged by MUI's [TablePagination]; each card links to
    [/posts/${post.id}], the post page of [ClientDetail].  The list only
    reads, so its steps never change the database.  Once an error is set
    the page renders only the alert, so it takes no further input.

    In the synchronous model, where each fetch is answered before the
    next input, every reachable state of the list shows the server's
    page of posts, each with its stored author ([posts_page_consistent]).  Following a card's link opens that
    post, and following its author link opens a user page that lists
    the post ([post_links_roundtrip]). *)

From S2P Require Import Prelude JsValue Schema Gateway GatewayFacts Validation UserController PostController Server Client ClientDetail.
Local Open Scope Z_scope.

(** ** The posts list page *)

Record posts_view := mkPostsView {
  av_posts : list (Z * post * (Z * user));   (* posts, each with [user] *)
  av_error : option string;                  (* error *)
  av_titleFilter : string;                   (* titleFilter *)
  av_page : Z;                               (* page, 0-based *)
  av_rowsPerPage : jsnum;                    (* rowsPerPage *)
  av_totalPosts : Z;                         (* totalPosts *)
}.

Definition posts_init : posts_view := mkPostsView [] None "" 0 (js_of_Z 10) 0.

Definition set_posts_list (v : posts_view) (ps : list (Z * post * (Z * user))) (total : Z) : posts_view :=
  mkPostsView ps (av_error v) (av_titleFilter v) (av_page v) (av_rowsPerPage v) total.

Definition set_posts_query (v : posts_view) (t : string) (page : Z) (rows : jsnum) : posts_view :=
  mkPostsView (av_posts v) (av_error v) t page rows (av_totalPosts v).

(** What [fetchPosts] does with the answer, once it arrives:
    [setPosts(res.data.posts); setTotalPosts(res.data.total)], or the
    error.  A 2xx answer of GET /posts is always a page object
    ([ApiDocs.getPosts_answers]). *)
Definition posts_resolve (v : posts_view) (res : ax_result) : posts_view :=
  match res with
  | AxOk resp =>
      match payload_of resp with
      | PPostPage ps total => set_posts_list v ps total
      | _ => v
      end
  | _ => mkPostsView (av_posts v) (Some "Failed to fetch posts. Please try again later.") (av_titleFilter v)
           (av_page v) (av_rowsPerPage v) (av_totalPosts v)
  end.

(** The query an effect run captures: [titleFilter], [page] and
    [rowsPerPage] of the render that ran it. *)
Record posts_query := mkPostsQuery { pq_title : string; pq_page : Z; pq_rows : jsnum }.

Definition query_of (v : posts_view) : posts_query := mkPostsQuery (av_titleFilter v) (av_page v) (av_rowsPerPage v).

(** [await axios.get(`${API}/posts`, { params: ... })] of a query. *)
Definition posts_answer (is_email : string -> bool) (q : posts_query) (d : db) : ax_result * db :=
  axios is_email (posts_list_request (pq_title q) (pq_page q) (pq_rows q)) d.

(** [fetchPosts]: GET /posts for the query of the render that ran the
    effect, then [posts_resolve]. *)
Definition fetchPosts (is_email : string -> bool) (v : posts_view) (d : db) : posts_view * db :=
  let (res, d') := posts_answer is_email (query_of v) d in (posts_resolve v res, d').

(** The effect's dependencies [titleFilter, page, rowsPerPage]. *)
Definition posts_deps_changed (v v' : posts_view) : bool :=
  negb (String.eqb (av_titleFilter v) (av_titleFilter v') && Z.eqb (av_page v) (av_page v')
        && jsnum_eqb (av_rowsPerPage v) (av_rowsPerPage v')).

Inductive posts_event :=
| TitleInput (s : string)           (* onChange of the title filter *)
| PostsPageChange (newPage : Z)     (* handleChangePage *)
| PostsRowsChange (n : Z).          (* handleChangeRowsPerPage, option n *)

Definition posts_update (v : posts_view) (ev : posts_event) : posts_view :=
  match ev with
  | TitleInput s => set_posts_query v s (av_page v) (av_rowsPerPage v)
  | PostsPageChange n =>
      let rows := match js_integer (av_rowsPerPage v) with Some r => r | None => 0 end in
      if page_change_allowed (av_page v) (av_totalPosts v) rows n
      then set_posts_query v (av_titleFilter v) n (av_rowsPerPage v) else v
  | PostsRowsChange n =>
      if bool_decide (n ∈ mui_rowsPerPageOptions)
      then set_posts_query v (av_titleFilter v) 0 (parse_int10 (int_to_string n)) else v
  end.

(** One event: nothing is rendered but the alert once [error] is set. *)
Definition posts_step (is_email : string -> bool) (ev : posts_event) (s : posts_view * db) : posts_view * db :=
  let (v, d) := s in
  match av_error v with
  | Some _ => (v, d)
  | None => let v' := posts_update v ev in if posts_deps_changed v v' then fetchPosts is_email v' d else (v', d)
  end.

Definition posts_mount (is_email : string -> bool) (d : db) : posts_view * db := fetchPosts is_email posts_init d.

(** The states of the list page opened on the database [d0]. *)
Inductive posts_reach (is_email : string -> bool) (d0 : db) : posts_view * db -> Prop :=
| pr_mount : wf_db d0 -> posts_reach is_email d0 (posts_mount is_email d0)
| pr_step ev s : posts_reach is_email d0 s -> posts_reach is_email d0 (posts_step is_email ev s).

(** The route parameter of a card's link [`/posts/${post.id}`]. *)
Definition post_link (x : Z * post * (Z * user)) : string := int_to_string (fst (fst x)).

(** ** What the list shows *)

(** The posts the server pages through for the list's filter, and the page
    of them for page size [l]. *)
Definition title_posts (d : db) (v : posts_view) : table post :=
  fetched_posts d (str_filter (Some (av_titleFilter v))) None.

Definition posts_server_page (d : db) (v : posts_view) (l : Z) : table post :=
  firstn (Z.to_nat l) (skipn (Z.to_nat (av_page v * l)) (title_posts d v)).

(** Each listed post carries its stored author. *)
Definition authored (d : db) (ps : list (Z * post * (Z * user))) : Prop :=
  Forall (fun x => fst (snd x) = post_userId (snd (fst x)) /\ tbl_find (users d) (fst (snd x)) = Some (snd (snd x))) ps.

Definition posts_inv (v : posts_view) (d : db) : Prop :=
  wf_db d /\ 0 <= av_page v /\ av_error v = None /\
  exists l, av_rowsPerPage v = js_of_Z l /\ l ∈ mui_rowsPerPageOptions /\
    map fst (av_posts v) = posts_server_page d v l /\ authored d (av_posts v) /\
    av_totalPosts v = Z.of_nat (length (title_posts d v)).

Lemma posts_answer_run is_email q d l :
  wf_db d -> 0 <= pq_page q -> pq_rows q = js_of_Z l -> 1 <= l ->
  exists ps,
    posts_answer is_email q d
    = (AxOk (mkResponse 200 (PPostPage ps (Z.of_nat (length (fetched_posts d (str_filter (Some (pq_title q))) None))))), d) /\
    map fst ps = firstn (Z.to_nat l) (skipn (Z.to_nat (pq_page q * l)) (fetched_posts d (str_filter (Some (pq_title q))) None)) /\
    authored d ps.
Proof.
  intros W Hp Hl H1. unfold posts_answer, axios, posts_list_request. rewrite Hl, number_to_string_of_Z.
  destruct (getPosts_run d (Some (pq_title q)) None (Some (int_to_string (pq_page q + 1)))
              (Some (int_to_string l)) (pq_page q + 1) l W) as (ps & Hr & Hm & Ha);
    [apply int_to_string_roundtrip | apply int_to_string_roundtrip | lia | lia | left; reflexivity |].
  change (handle is_email _ d) with
    (getPosts (Some (pq_title q)) None (Some (int_to_string (pq_page q + 1))) (Some (int_to_string l)) d).
  rewrite Hr. exists ps. split; [reflexivity|]. split; [|exact Ha].
  rewrite Hm. do 3 f_equal. lia.
Qed.

Lemma fetchPosts_run is_email v d l :
  wf_db d -> 0 <= av_page v -> av_rowsPerPage v = js_of_Z l -> 1 <= l ->
  exists ps, fetchPosts is_email v d = (set_posts_list v ps (Z.of_nat (length (title_posts d v))), d) /\
    map fst ps = posts_server_page d v l /\ authored d ps.
Proof.
  intros W Hp Hl H1. destruct (posts_answer_run is_email (query_of v) d l W Hp Hl H1) as (ps & Hr & Hm & Ha).
  unfold fetchPosts. rewrite Hr. exists ps. auto.
Qed.

Lemma posts_fetch_establishes is_email v d l :
  wf_db d -> 0 <= av_page v -> av_error v = None -> av_rowsPerPage v = js_of_Z l -> l ∈ mui_rowsPerPageOptions ->
  snd (fetchPosts is_email v d) = d /\ posts_inv (fst (fetchPosts is_email v d)) d.
Proof.
  intros W Hp He Hl Ho.
  assert (H1 : 1 <= l) by (unfold mui_rowsPerPageOptions in Ho; apply list_elem_of_In in Ho; simpl in Ho; intuition lia).
  destruct (fetchPosts_run is_email v d l W Hp Hl H1) as (ps & Hr & Hm & Ha). rewrite Hr.
  split; [reflexivity|]. unfold posts_inv. simpl. do 3 (split; [assumption|]). exists l. auto.
Qed.

(** An event keeps a valid query valid, and keeps the list, the total
    and the error. *)
Lemma posts_update_valid v ev :
  0 <= av_page v -> (exists l, av_rowsPerPage v = js_of_Z l /\ l ∈ mui_rowsPerPageOptions) ->
  let v' := posts_update v ev in
  0 <= av_page v' /\ av_error v' = av_error v /\
  (exists l', av_rowsPerPage v' = js_of_Z l' /\ l' ∈ mui_rowsPerPageOptions) /\
  av_posts v' = av_posts v /\ av_totalPosts v' = av_totalPosts v.
Proof.
  intros Hp (l & Hl & Ho). simpl.
  destruct ev as [s|n|n]; simpl.
  - repeat split; eauto.
  - destruct (page_change_allowed _ _ _ n) eqn:E; simpl; repeat split; eauto.
    eapply page_change_nonneg; eassumption.
  - case_bool_decide as Hn; simpl; repeat split; eauto; [lia|].
    exists n. rewrite parse_int10_roundtrip. auto.
Qed.

(** The same, on a consistent list. *)
Lemma posts_update_inv v d ev :
  posts_inv v d ->
  let v' := posts_update v ev in
  0 <= av_page v' /\ av_error v' = None /\ (exists l', av_rowsPerPage v' = js_of_Z l' /\ l' ∈ mui_rowsPerPageOptions) /\
  av_posts v' = av_posts v /\ av_totalPosts v' = av_totalPosts v.
Proof.
  intros (W & Hp & He & l & Hl & Ho & _). rewrite <- He. apply posts_update_valid; eauto.
Qed.

Lemma posts_deps_same v v' d l :
  posts_deps_changed v v' = false ->
  posts_server_page d v' l = posts_server_page d v l /\ title_posts d v' = title_posts d v /\
  av_rowsPerPage v' = av_rowsPerPage v.
Proof.
  unfold posts_deps_changed. intros H. apply negb_false_iff in H.
  apply andb_true_iff in H as [H Hr]. apply andb_true_iff in H as [Ht Hp].
  apply String.eqb_eq in Ht. apply Z.eqb_eq in Hp. apply jsnum_eqb_eq in Hr.
  unfold posts_server_page, title_posts. rewrite Ht, Hp, Hr. auto.
Qed.

(** An input that leaves the query as it was keeps a consistent list
    consistent. *)
Lemma posts_inv_same v d ev :
  posts_inv v d -> posts_deps_changed v (posts_update v ev) = false -> posts_inv (posts_update v ev) d.
Proof.
  intros Inv Hd. pose proof Inv as (W & Hp & He & l & Hl & Ho & Hm & Ha & Ht).
  destruct (posts_update_inv v d ev Inv) as (Hp' & He' & _ & Hps & Htot).
  destruct (posts_deps_same v (posts_update v ev) d l Hd) as (Hsp & Htp & Hr).
  unfold posts_inv. do 3 (split; [assumption|]). exists l. rewrite Hr, Hps, Htot, Hsp, Htp. auto.
Qed.

(** In the synchronous model (each fetch answered before the next input;
    [PostsAsync] drops that assumption), in every state of the posts list reachable from its first render
    on a well-formed database [d0], through any title inputs, page and
    page-size changes, the database is still [d0] (the page only reads),
    no error is shown, the cards are exactly the server's page of the
    posts whose title contains the filter (positions [page * rows] to
    [page * rows + rows - 1]), each with its stored author, and the total
    counts those posts. *)
Lemma posts_page_consistent is_email d0 s :
  posts_reach is_email d0 s -> snd s = d0 /\ posts_inv (fst s) d0.
Proof.
  induction 1 as [W | ev [v d] _ [Hd IH]]; cbn [fst snd] in *.
  - apply (posts_fetch_establishes is_email posts_init d0 10 W); try reflexivity. set_solver.
  - subst d. pose proof IH as (W & Hp & He & l & Hl & Ho & Hm & Ha & Ht).
    unfold posts_step. rewrite He.
    destruct (posts_update_inv v d0 ev IH) as (Hp' & He' & (l' & Hl' & Ho') & Hps & Htot).
    destruct (posts_deps_changed v (posts_update v ev)) eqn:Hd.
    + apply (posts_fetch_establishes _ _ _ l'); auto.
    + split; [reflexivity | exact (posts_inv_same v d0 ev IH Hd)].
Qed.

(** ** Following the links *)

(** A card of a consistent list is a stored post with its stored author. *)
Lemma listed_post_stored v d x :
  posts_inv v d -> In x (av_posts v) ->
  tbl_find (posts d) (fst (fst x)) = Some (snd (fst x)) /\ fst (snd x) = post_userId (snd (fst x)) /\
  tbl_find (users d) (fst (snd x)) = Some (snd (snd x)).
Proof.
  intros (W & _ & _ & l & _ & _ & Hm & Ha & _) Hin. destruct x as [[k q] [a w]]. cbn [fst snd].
  unfold authored in Ha. rewrite List.Forall_forall in Ha. destruct (Ha _ Hin) as [Hu Hf]. split; [|auto].
  apply (in_map fst) in Hin. rewrite Hm in Hin. unfold posts_server_page, title_posts in Hin.
  apply firstn_skipn_In in Hin. unfold fetched_posts in Hin. apply tbl_filter_In in Hin as [Hin _].
  destruct (wf_posts d W) as (Hnd & _). exact (tbl_find_In_NoDup _ _ _ Hnd Hin).
Qed.

(** in every reachable state of the posts list opened on [d0], the
    link of each card opens the post detail page of that post (the post
    and its author as the card shows them, no error), and the author link
    of that page opens the author's page, which shows the author and
    lists the post among the author's posts. *)
Theorem post_links_roundtrip is_email d0 s pid p uid u :
  posts_reach is_email d0 s -> In (pid, p, (uid, u)) (av_posts (fst s)) ->
  fst (fetchPost is_email (post_link (pid, p, (uid, u))) post_view_init d0)
  = mkPostView (Some (PPostFull pid p (uid, u))) None false false None /\
  author_link (PPostFull pid p (uid, u)) = Some (int_to_string uid) /\
  dv_user (fst (fetchUserData is_email (int_to_string uid) detail_init d0))
  = Some (PUserFull uid u (option_map (with_geo d0) (user_address d0 uid)) (user_company d0 uid)) /\
  exists ps, dv_posts (fst (fetchUserData is_email (int_to_string uid) detail_init d0)) = PPostList ps /\
    In (pid, p) ps.
Proof.
  intros Hs Hin. destruct (posts_page_consistent is_email d0 s Hs) as [_ Inv].
  destruct (listed_post_stored _ _ _ Inv Hin) as (Hp & Hu & Hf). cbn [fst snd] in Hp, Hu, Hf. subst uid.
  pose proof Inv as (W & _).
  unfold post_link. cbn [fst].
  rewrite (fetchPost_run is_email post_view_init d0 pid p u (int4_range_find _ _ _ _ (wf_posts d0 W) Hp) Hp Hf).
  rewrite (fetchUserData_run is_email detail_init d0 d0 (post_userId p) u eq_refl eq_refl eq_refl eq_refl
             (int4_range_find _ _ _ _ (wf_users d0 W) Hf) Hf).
  split; [reflexivity|]. split; [reflexivity|]. split; [reflexivity|].
  eexists. split; [reflexivity|]. apply tbl_filter_In. split; [exact (tbl_find_Some _ _ _ Hp)|]. apply Z.eqb_refl.
Qed.

Lemma post_links_roundtrip_witness :
  let s := posts_mount simple_email sample_db in
  posts_reach simple_email sample_db s /\
  In (1, mkPost "t" "b" 1, (1, mkUser "A" "u1" "a@x.com" "1" "w")) (av_posts (fst s)) /\
  fst (fetchPost simple_email (post_link (1, mkPost "t" "b" 1, (1, mkUser "A" "u1" "a@x.com" "1" "w")))
         post_view_init sample_db)
  = mkPostView (Some (PPostFull 1 (mkPost "t" "b" 1) (1, mkUser "A" "u1" "a@x.com" "1" "w"))) None false false None.
Proof.
  assert (Hs : posts_reach simple_email sample_db (posts_mount simple_email sample_db)) by exact (pr_mount _ _ sample_db_wf).
  assert (Hin : In (1, mkPost "t" "b" 1, (1, mkUser "A" "u1" "a@x.com" "1" "w"))
                   (av_posts (fst (posts_mount simple_email sample_db)))) by (vm_compute; left; reflexivity).
  split; [exact Hs|]. split; [exact Hin|].
  exact (proj1 (post_links_roundtrip simple_email sample_db _ 1 (mkPost "t" "b" 1) 1
                  (mkUser "A" "u1" "a@x.com" "1" "w") Hs Hin)).
Defined.

