(* ===== verification/PostsAsync.v ===== *)
(** * The posts list with its requests in flight

    [fetchPosts] is asynchronous: the effect of a render sends GET /posts
    for the query of that render ([titleFilter], [page], [rowsPerPage])
    and, when the answer arrives, calls [setPosts] and [setTotalPosts] on
    the page's state as it is then ([posts_resolve]).  The effect of
    [src/blog-app/src/app/posts/page.tsx] has no cleanup and no ignore
    flag: the answer of an earlier query is applied like any other.  Each
    keystroke in the filter changes [titleFilter] and starts a request.

    A state of the page is its React state, the queries of the requests in
    flight, in the order sent, and the database.  An event is a user
    input (as in [ClientPosts]; one that changes the query starts a
    request) or the answer of one of the requests in flight, in any
    order: the browser keeps several connections to the API open and the
    server answers each request when its queries finish.

    The theorems: when the answers arrive in the order the requests were
    sent, the list is consistent with the filter whenever no request is
    in flight ([posts_fifo_consistent]); from any such state, two title
    inputs answered out of order leave the list showing the posts of the
    older filter under the newer one ([posts_answers_out_of_order]). *)

From S2P Require Import Prelude JsValue Schema Gateway GatewayFacts Validation UserController PostController Server Client ClientPosts.
Local Open Scope Z_scope.

Record posts_async := mkPostsAsync {
  pa_view : posts_view;              (* the React state *)
  pa_pending : list posts_query;     (* the queries of the requests in flight, oldest first *)
  pa_db : db;
}.

Inductive posts_aevent :=
| PInput (e : posts_event)           (* a user input *)
| PAnswer (n : nat).                 (* the answer to the [n]-th request in flight *)

Section Async.
Variable is_email : string -> bool.

(** The first render runs the effect. *)
Definition posts_amount (d : db) : posts_async := mkPostsAsync posts_init [query_of posts_init] d.

Definition posts_astep (ev : posts_aevent) (s : posts_async) : posts_async :=
  match ev with
  | PInput e =>
      match av_error (pa_view s) with
      | Some _ => s
      | None =>
          let v' := posts_update (pa_view s) e in
          if posts_deps_changed (pa_view s) v' then mkPostsAsync v' (pa_pending s ++ [query_of v']) (pa_db s)
          else mkPostsAsync v' (pa_pending s) (pa_db s)
      end
  | PAnswer n =>
      match pa_pending s !! n with
      | None => s
      | Some q =>
          let (res, d') := posts_answer is_email q (pa_db s) in
          mkPostsAsync (posts_resolve (pa_view s) res) (delete n (pa_pending s)) d'
      end
  end.

Definition posts_arun (evs : list posts_aevent) (s : posts_async) : posts_async :=
  fold_left (fun s ev => posts_astep ev s) evs s.

(** The states reached when every answer arrives in the order the
    requests were sent. *)
Inductive posts_fifo (d0 : db) : posts_async -> Prop :=
| pf_mount : wf_db d0 -> posts_fifo d0 (posts_amount d0)
| pf_input e s : posts_fifo d0 s -> posts_fifo d0 (posts_astep (PInput e) s)
| pf_answer s : posts_fifo d0 s -> posts_fifo d0 (posts_astep (PAnswer 0) s).
End Async.

(** A query the page can send: a page from 0 and one of MUI's page sizes. *)
Definition query_ok (q : posts_query) : Prop :=
  0 <= pq_page q /\ exists l, pq_rows q = js_of_Z l /\ l ∈ mui_rowsPerPageOptions.

(** What holds while the answers arrive in order: no error, valid
    queries, the newest request is for the current query, and with
    nothing in flight the list is consistent. *)
Definition fifo_inv (d0 : db) (s : posts_async) : Prop :=
  wf_db d0 /\ pa_db s = d0 /\ av_error (pa_view s) = None /\ query_ok (query_of (pa_view s)) /\
  Forall query_ok (pa_pending s) /\
  match last (pa_pending s) with
  | None => posts_inv (pa_view s) d0
  | Some q => q = query_of (pa_view s)
  end.

(** ** Answers in the order sent *)

Lemma query_of_update_same v ev :
  posts_deps_changed v (posts_update v ev) = false -> query_of (posts_update v ev) = query_of v.
Proof.
  unfold posts_deps_changed. intros H. apply negb_false_iff in H.
  apply andb_true_iff in H as [H Hr]. apply andb_true_iff in H as [Ht Hp].
  apply String.eqb_eq in Ht. apply Z.eqb_eq in Hp. apply jsnum_eqb_eq in Hr.
  unfold query_of. rewrite Ht, Hp, Hr. reflexivity.
Qed.

Lemma fifo_inv_mount d0 : wf_db d0 -> fifo_inv d0 (posts_amount d0).
Proof.
  intros W. assert (Hq : query_ok (query_of posts_init)) by (split; [cbn; lia | exists 10; split; [reflexivity | set_solver]]).
  unfold fifo_inv, posts_amount. cbn [pa_view pa_pending pa_db].
  split; [exact W|]. split; [reflexivity|]. split; [reflexivity|]. split; [exact Hq|].
  split; [constructor; [exact Hq | constructor] | reflexivity].
Qed.

Lemma fifo_inv_input is_email d0 e s : fifo_inv d0 s -> fifo_inv d0 (posts_astep is_email (PInput e) s).
Proof.
  destruct s as [v ps d]. unfold fifo_inv. cbn [pa_view pa_pending pa_db posts_astep].
  intros (W & -> & He & [Hp Hr] & Hps & Hl). rewrite He.
  destruct (posts_update_valid v e Hp Hr) as (Hp' & He' & Hr' & _ & _). rewrite He in He'.
  assert (Hq' : query_ok (query_of (posts_update v e))) by (split; assumption).
  destruct (posts_deps_changed v (posts_update v e)) eqn:Hd; cbn [pa_view pa_pending pa_db].
  - rewrite last_snoc, Forall_app. split; [exact W|]. split; [reflexivity|]. split; [exact He'|].
    split; [exact Hq'|]. split; [split; [exact Hps | constructor; [exact Hq' | constructor]] | reflexivity].
  - do 5 (split; auto). destruct (last ps) as [q|].
    + rewrite (query_of_update_same v e Hd). exact Hl.
    + exact (posts_inv_same v d0 e Hl Hd).
Qed.

Lemma fifo_inv_answer is_email d0 s : fifo_inv d0 s -> fifo_inv d0 (posts_astep is_email (PAnswer 0) s).
Proof.
  destruct s as [v [|q rest] d]; [intros H; exact H|]. unfold fifo_inv. cbn [pa_view pa_pending pa_db posts_astep].
  intros (W & -> & He & [Hp Hr] & Hps & Hl). apply Forall_cons in Hps as [[Hqp (l & Hql & Ho)] Hrest].
  assert (H1 : 1 <= l) by (apply list_elem_of_In in Ho; cbn in Ho; intuition lia).
  cbn [lookup list_lookup].
  destruct (posts_answer_run is_email q d0 l W Hqp Hql H1) as (ps & Hans & Hm & Ha). rewrite Hans.
  cbn [pa_view pa_pending pa_db posts_resolve payload_of delete list_delete].
  do 5 (split; auto). destruct rest as [|q' rest].
  - cbn in Hl |- *. subst q. split; [exact W|]. do 2 (split; auto). exists l. cbn in Hql.
    split; [exact Hql|]. split; [exact Ho|]. split; [exact Hm|]. auto.
  - rewrite last_cons_cons in Hl. destruct (last (q' :: rest)) eqn:E; [exact Hl|].
    apply last_None in E. discriminate.
Qed.

Lemma posts_fifo_inv is_email d0 s : posts_fifo is_email d0 s -> fifo_inv d0 s.
Proof.
  induction 1 as [W | e s _ IH | s _ IH];
    [exact (fifo_inv_mount d0 W) | exact (fifo_inv_input is_email d0 e s IH) | exact (fifo_inv_answer is_email d0 s IH)].
Qed.

(** C27: while the answers arrive in the order the requests were sent,
    the page never shows an error, and whenever no request is in flight
    the database is still [d0] and the list is consistent: the cards are
    the server's page of the posts whose title contains the current
    filter, each with its author, and the total counts those posts. *)
Theorem posts_fifo_consistent is_email d0 s :
  posts_fifo is_email d0 s -> pa_pending s = [] -> pa_db s = d0 /\ posts_inv (pa_view s) d0.
Proof.
  intros Hs Hp. destruct (posts_fifo_inv is_email d0 s Hs) as (_ & Hd & _ & _ & _ & Hl).
  rewrite Hp in Hl. exact (conj Hd Hl).
Qed.

Lemma posts_fifo_consistent_witness :
  let s := posts_astep simple_email (PAnswer 0) (posts_amount sample_db) in
  posts_fifo simple_email sample_db s /\ pa_pending s = [] /\ pa_db s = sample_db /\ posts_inv (pa_view s) sample_db.
Proof.
  assert (Hs : posts_fifo simple_email sample_db (posts_astep simple_email (PAnswer 0) (posts_amount sample_db)))
    by exact (pf_answer _ _ _ (pf_mount _ _ sample_db_wf)).
  split; [exact Hs|]. split; [reflexivity|]. exact (posts_fifo_consistent simple_email sample_db _ Hs eq_refl).
Defined.

(** ** Answers out of order *)

(** A title input that changes the filter sends a request for the new query. *)
Lemma title_input_sends is_email v ps d t :
  av_error v = None -> t <> av_titleFilter v ->
  posts_astep is_email (PInput (TitleInput t)) (mkPostsAsync v ps d)
  = mkPostsAsync (set_posts_query v t (av_page v) (av_rowsPerPage v))
      (ps ++ [mkPostsQuery t (av_page v) (av_rowsPerPage v)]) d.
Proof.
  intros He Ht. cbn [posts_astep pa_view pa_pending pa_db]. rewrite He. cbn [posts_update].
  unfold posts_deps_changed. cbn [av_titleFilter av_page av_rowsPerPage set_posts_query].
  destruct (String.eqb_spec (av_titleFilter v) t); [congruence|]. reflexivity.
Qed.

(** The answer to a request for a valid query: the server's page of the
    posts whose title contains the query's title, and their number. *)
Lemma answer_resolves is_email q d l v :
  wf_db d -> 0 <= pq_page q -> pq_rows q = js_of_Z l -> 1 <= l ->
  exists ps, posts_resolve v (fst (posts_answer is_email q d))
             = set_posts_list v ps (Z.of_nat (length (fetched_posts d (str_filter (Some (pq_title q))) None))) /\
             snd (posts_answer is_email q d) = d.
Proof.
  intros W Hp Hl H1. destruct (posts_answer_run is_email q d l W Hp Hl H1) as (ps & Hans & _ & _).
  rewrite Hans. exists ps. split; reflexivity.
Qed.

(** C28: the page does not discard the answers of older queries.  From
    any state of the page with nothing in flight (reached with the
    answers in order), the user types a new title [t1] and then [t2];
    when the answer for [t2] arrives before the one for [t1], nothing is
    left in flight and the filter shows [t2], but the list and the total
    are those of [t1]: whenever the two titles match different numbers
    of posts, the list is not consistent with the filter. *)
Theorem posts_answers_out_of_order is_email d0 s t1 t2 :
  posts_fifo is_email d0 s -> pa_pending s = [] -> t1 <> av_titleFilter (pa_view s) -> t2 <> t1 ->
  length (fetched_posts d0 (str_filter (Some t1)) None) <> length (fetched_posts d0 (str_filter (Some t2)) None) ->
  let s' := posts_arun is_email [PInput (TitleInput t1); PInput (TitleInput t2); PAnswer 1; PAnswer 0] s in
  pa_pending s' = [] /\ av_titleFilter (pa_view s') = t2 /\
  av_totalPosts (pa_view s') = Z.of_nat (length (fetched_posts d0 (str_filter (Some t1)) None)) /\
  ~ posts_inv (pa_view s') d0.
Proof.
  intros Hs Hp0 Ht1 Ht2 Hlen s'. destruct (posts_fifo_inv is_email d0 s Hs) as (W & Hd & He & [Hp (l & Hl & Ho)] & _).
  assert (H1 : 1 <= l) by (apply list_elem_of_In in Ho; cbn in Ho; intuition lia).
  destruct s as [v ps d]. cbn [pa_view pa_pending pa_db] in *. subst ps d.
  unfold s', posts_arun. cbn [fold_left].
  rewrite (title_input_sends is_email v [] d0 t1 He Ht1), (title_input_sends is_email _ _ d0 t2); [|exact He | cbn; congruence].
  cbn [posts_astep pa_view pa_pending pa_db app lookup list_lookup set_posts_query av_page av_rowsPerPage].
  destruct (answer_resolves is_email (mkPostsQuery t2 (av_page v) (av_rowsPerPage v)) d0 l
              (set_posts_query (set_posts_query v t1 (av_page v) (av_rowsPerPage v)) t2 (av_page v) (av_rowsPerPage v))
              W Hp Hl H1) as (ps2 & Hr2 & Hd2).
  destruct (posts_answer is_email (mkPostsQuery t2 (av_page v) (av_rowsPerPage v)) d0) as [res2 d2] eqn:E2.
  cbn [fst snd pq_title] in Hr2, Hd2 |- *. subst d2. rewrite Hr2.
  cbn [pa_view pa_pending pa_db delete list_delete lookup list_lookup].
  destruct (answer_resolves is_email (mkPostsQuery t1 (av_page v) (av_rowsPerPage v)) d0 l
              (set_posts_list (set_posts_query (set_posts_query v t1 (av_page v) (av_rowsPerPage v)) t2 (av_page v)
                 (av_rowsPerPage v)) ps2 (Z.of_nat (length (fetched_posts d0 (str_filter (Some t2)) None))))
              W Hp Hl H1) as (ps1 & Hr1 & Hd1).
  destruct (posts_answer is_email (mkPostsQuery t1 (av_page v) (av_rowsPerPage v)) d0) as [res1 d1] eqn:E1.
  cbn [fst snd pq_title] in Hr1, Hd1 |- *. subst d1. rewrite Hr1. cbn.
  split; [reflexivity|]. split; [reflexivity|]. split; [reflexivity|].
  intros (_ & _ & _ & l' & _ & _ & _ & _ & Htot). unfold title_posts in Htot. cbn in Htot.
  apply Hlen. apply Nat2Z.inj. exact Htot.
Qed.

Lemma posts_answers_out_of_order_witness :
  let s := posts_astep simple_email (PAnswer 0) (posts_amount sample_db) in
  posts_fifo simple_email sample_db s /\ pa_pending s = [] /\
  ~ posts_inv (pa_view (posts_arun simple_email [PInput (TitleInput "t"); PInput (TitleInput "tz"); PAnswer 1; PAnswer 0] s))
      sample_db.
Proof.
  assert (Hs : posts_fifo simple_email sample_db (posts_astep simple_email (PAnswer 0) (posts_amount sample_db)))
    by exact (pf_answer _ _ _ (pf_mount _ _ sample_db_wf)).
  assert (Hp : pa_pending (posts_astep simple_email (PAnswer 0) (posts_amount sample_db)) = []) by reflexivity.
  split; [exact Hs|]. split; [exact Hp|].
  refine (proj2 (proj2 (proj2 (posts_answers_out_of_order simple_email sample_db _ "t" "tz" Hs Hp _ _ _))));
    vm_compute; congruence.
Defined.
