(* ===== verification/UsersAsync.v ===== *)
(** * The user list with its requests in flight

    [ClientUsers] runs each request to its answer within the event that
    sent it.  In [src/blog-app/src/app/users/page.tsx] both requests are
    asynchronous and nothing waits for them:
    - the effect calls [fetchUsers], a closure over the render that ran
      it: GET /users for that render's filters, [page] and [limit]; the
      answer calls [setUsers]/[setTotalUsers] (or [setError]) on the
      state as it is when it arrives ([users_resolve]);
    - the dialog's Delete button calls [handleDeleteUser], a closure over
      the render of the click: if [userToDelete] is set it sends
      DELETE /users/:id, and when that answers it closes the dialog,
      clears [userToDelete] and calls that render's [fetchUsers]; a
      rejection sets the error.  The button stays enabled while the
      DELETE is in flight, and the dialog stays open.

    A state is the page's React state, the requests in flight in the
    order sent, and the database; an event is a user input or the answer
    of one request in flight, in any order.  While the dialog is open,
    MUI's modal [Dialog] lets the user reach only its two buttons (and
    its [onClose], which is Cancel); while it is closed, only the page.

    The theorems: clicking Delete twice before the first DELETE answers
    deletes the user and then shows "Failed to delete user", whatever the
    state the dialog was opened from ([users_double_delete]); cancelling
    the dialog while the DELETE is in flight and typing a new filter
    leaves, even with every answer in order, the list of the old filter
    under the new one, since the refresh after the delete is the
    [fetchUsers] of the click's render ([users_cancel_stale]). *)

From S2P Require Import Prelude JsValue Schema Gateway GatewayFacts Validation UserController PostController Server Client ClientUsers.
Local Open Scope Z_scope.

(** A request in flight: a [fetchUsers] with its query, or the DELETE of
    [handleDeleteUser] with the query of the [fetchUsers] it calls next. *)
Inductive users_req :=
| RFetch (q : users_query)
| RDelete (id : Z) (q : users_query).

Record users_async := mkUsersAsync {
  ua_view : users_view;
  ua_pending : list users_req;   (* oldest first *)
  ua_db : db;
}.

Inductive users_aevent :=
| UInput (e : users_event)       (* a user input *)
| UAnswer (n : nat).             (* the answer to the [n]-th request in flight *)

(** What the user can reach: the dialog's buttons while it is open, the
    page behind it otherwise. *)
Definition ui_enabled (v : users_view) (e : users_event) : bool :=
  match e with
  | DialogCancel | DialogDelete => uv_open v
  | _ => negb (uv_open v)
  end.

Section Async.
Variable is_email : string -> bool.

(** The first render runs the effect. *)
Definition users_amount (d : db) : users_async := mkUsersAsync users_init [RFetch (uquery_of users_init)] d.

Definition users_astep (ev : users_aevent) (s : users_async) : users_async :=
  let v := ua_view s in
  match ev with
  | UInput e =>
      if ui_enabled v e then
        match e with
        | DialogDelete =>
            match uv_userToDelete v with
            | Some id =>
                if Z.eqb id 0 then s
                else mkUsersAsync v (ua_pending s ++ [RDelete id (uquery_of v)]) (ua_db s)
            | None => s
            end
        | _ =>
            let v' := users_update v e in
            if deps_changed v v' then mkUsersAsync v' (ua_pending s ++ [RFetch (uquery_of v')]) (ua_db s)
            else mkUsersAsync v' (ua_pending s) (ua_db s)
        end
      else s
  | UAnswer n =>
      match ua_pending s !! n with
      | None => s
      | Some (RFetch q) =>
          let (res, d') := users_answer is_email q (ua_db s) in
          mkUsersAsync (users_resolve v res) (delete n (ua_pending s)) d'
      | Some (RDelete id q) =>
          let (res, d') := axios is_email (user_delete_request id) (ua_db s) in
          match res with
          | AxOk _ => mkUsersAsync (set_dialog v false None) (delete n (ua_pending s) ++ [RFetch q]) d'
          | _ => mkUsersAsync (set_error v "Failed to delete user. Please try again later.") (delete n (ua_pending s)) d'
          end
      end
  end.

Definition users_arun (evs : list users_aevent) (s : users_async) : users_async :=
  fold_left (fun s ev => users_astep ev s) evs s.
End Async.

(** ** Deleting twice *)

(** An answer of the DELETE of [id], as [axios] returns it: the handler's
    answer and database. *)
Lemma delete_answer is_email id d :
  axios is_email (user_delete_request id) d =
  let (o, d') := deleteUser (int_to_string id) d in
  match o with
  | Ok resp => (if (200 <=? status resp) && (status resp <? 300) then AxOk resp else AxErr resp, d')
  | Exn _ => (AxNoResponse, d')
  end.
Proof. reflexivity. Qed.

(** A click on the dialog's Delete sends the DELETE of the chosen user. *)
Lemma delete_click is_email v ps d id :
  uv_open v = true -> uv_userToDelete v = Some id -> id <> 0 ->
  users_astep is_email (UInput DialogDelete) (mkUsersAsync v ps d) = mkUsersAsync v (ps ++ [RDelete id (uquery_of v)]) d.
Proof. intros Ho Ht Hid. cbn. rewrite Ho, Ht. destruct (Z.eqb_spec id 0); [contradiction | reflexivity]. Qed.

(** C22: the dialog's Delete button is not disabled while its DELETE is
    in flight.  From any state with nothing in flight and the dialog open
    on a stored user, two clicks on Delete before the first answer send
    two DELETEs for that user: the first deletes it and closes the
    dialog, the second answers 500, so the page shows "Failed to delete
    user" although the user is gone, and the list is refreshed for the
    query of the render where Delete was clicked. *)
Theorem users_double_delete is_email s id u :
  wf_db (ua_db s) -> ua_pending s = [] -> uv_open (ua_view s) = true -> uv_userToDelete (ua_view s) = Some id ->
  tbl_find (users (ua_db s)) id = Some u ->
  let s' := users_arun is_email [UInput DialogDelete; UInput DialogDelete; UAnswer 0; UAnswer 0] s in
  tbl_find (users (ua_db s')) id = None /\
  uv_error (ua_view s') = Some "Failed to delete user. Please try again later." /\
  ua_pending s' = [RFetch (uquery_of (ua_view s))].
Proof.
  intros W Hp Ho Ht Hu s'. destruct s as [v ps d]. cbn [ua_db ua_pending ua_view] in *. subst ps.
  assert (Hid : 1 <= id).
  { destruct (wf_users d W) as (_ & Hb & _). rewrite Forall_forall in Hb. apply Hb. exact (tbl_find_key _ _ _ Hu). }
  assert (Hr : int4_range id = true) by exact (int4_range_find _ _ _ _ (wf_users d W) Hu).
  unfold s', users_arun. cbn [fold_left]. rewrite !(delete_click is_email v _ d id Ho Ht) by lia.
  cbn [users_astep ua_view ua_pending ua_db app lookup list_lookup].
  rewrite !delete_answer, (deleteUser_run d (int_to_string id) id u W (int_to_string_roundtrip id) Hu).
  cbn [status Z.leb Z.ltb andb delete list_delete app ua_view ua_pending ua_db lookup list_lookup].
  destruct (without_user_spec d id (proj1 (wf_users d W))) as (Hgone & _).
  destruct (deleteUser_missing (without_user d id) (int_to_string id) id (int_to_string_roundtrip id) Hr Hgone)
    as [Ho2 Hu2].
  cbn. rewrite delete_answer. destruct (deleteUser (int_to_string id) (without_user d id)) as [o d2].
  cbn [fst snd] in Ho2, Hu2. subst o. cbn. split; [rewrite Hu2; exact Hgone | split; reflexivity].
Qed.

Lemma users_double_delete_witness :
  let s := mkUsersAsync (set_dialog users_init true (Some 1)) [] sample_db in
  tbl_find (users (ua_db (users_arun simple_email [UInput DialogDelete; UInput DialogDelete; UAnswer 0; UAnswer 0] s))) 1
  = None /\
  uv_error (ua_view (users_arun simple_email [UInput DialogDelete; UInput DialogDelete; UAnswer 0; UAnswer 0] s))
  = Some "Failed to delete user. Please try again later.".
Proof.
  destruct (users_double_delete simple_email (mkUsersAsync (set_dialog users_init true (Some 1)) [] sample_db) 1
              (mkUser "A" "u1" "a@x.com" "1" "w") sample_db_wf eq_refl eq_refl eq_refl eq_refl) as (H1 & H2 & _).
  split; [exact H1 | exact H2].
Defined.

(** ** Cancelling while the DELETE is in flight *)

(** The page the server sends for a query, and the number of users it
    pages through. *)
Definition query_page (d : db) (q : users_query) (l : Z) : list (Z * user) :=
  firstn (Z.to_nat l) (skipn (Z.to_nat (uq_page q * l)) (fetched_users d (Some (uq_username q)) (Some (uq_email q)))).

Definition query_total (d : db) (q : users_query) : Z :=
  Z.of_nat (length (fetched_users d (Some (uq_username q)) (Some (uq_email q)))).

Lemma users_answer_resolve is_email v q d l :
  0 <= uq_page q -> uq_limit q = js_of_Z l -> 1 <= l ->
  users_resolve v (fst (users_answer is_email q d)) = set_list v (query_page d q l) (query_total d q) /\
  snd (users_answer is_email q d) = d.
Proof.
  intros Hp Hl H1. unfold users_answer, axios, users_list_request. rewrite Hl, number_to_string_of_Z.
  change (handle is_email _ d) with
    (getUsers (Some (uq_username q)) (Some (uq_email q)) None
       (Some (int_to_string (uq_page q + 1))) (Some (int_to_string l)) d).
  rewrite (getUsers_run d _ _ None _ _ (uq_page q + 1) l); [| apply int_to_string_roundtrip | apply int_to_string_roundtrip | lia | lia].
  simpl. unfold query_page, query_total. split; [do 4 f_equal; lia | reflexivity].
Qed.

Lemma jsnum_eqb_refl a : jsnum_eqb a a = true.
Proof. destruct a as [| | |[n d]]; cbn; rewrite ?Z.eqb_refl, ?Pos.eqb_refl; reflexivity. Qed.

(** An input on the page with the dialog closed: its updates, and the
    fetch when a dependency changed. *)
Lemma page_input is_email v ps d e :
  uv_open v = false -> e <> DialogCancel -> e <> DialogDelete ->
  users_astep is_email (UInput e) (mkUsersAsync v ps d)
  = if deps_changed v (users_update v e) then mkUsersAsync (users_update v e) (ps ++ [RFetch (uquery_of (users_update v e))]) d
    else mkUsersAsync (users_update v e) ps d.
Proof. intros Ho H1 H2. destruct e; try contradiction; cbn; rewrite Ho; reflexivity. Qed.

(** Cancel closes the dialog at once; a DELETE in flight goes on. *)
Lemma cancel_click is_email v ps d :
  uv_open v = true ->
  users_astep is_email (UInput DialogCancel) (mkUsersAsync v ps d) = mkUsersAsync (set_dialog v false None) ps d.
Proof.
  intros Ho. cbn. rewrite Ho.
  assert (Hd : deps_changed v (set_dialog v false None) = false).
  { unfold deps_changed. cbn. rewrite !String.eqb_refl, Z.eqb_refl, jsnum_eqb_refl. reflexivity. }
  rewrite Hd. reflexivity.
Qed.

(** The answer to the oldest request, a fetch of a valid query. *)
Lemma answer_fetch is_email v q rest d l :
  0 <= uq_page q -> uq_limit q = js_of_Z l -> 1 <= l ->
  users_astep is_email (UAnswer 0) (mkUsersAsync v (RFetch q :: rest) d)
  = mkUsersAsync (set_list v (query_page d q l) (query_total d q)) rest d.
Proof.
  intros Hp Hl H1. destruct (users_answer_resolve is_email v q d l Hp Hl H1) as [Hr Hd].
  cbn [users_astep ua_pending ua_view ua_db lookup list_lookup delete list_delete].
  destruct (users_answer is_email q d) as [res d']. cbn [fst snd] in Hr, Hd. subst d'. rewrite Hr. reflexivity.
Qed.

(** The answer to the oldest request, the DELETE of a stored user. *)
Lemma answer_delete is_email v id q rest d u :
  wf_db d -> tbl_find (users d) id = Some u ->
  users_astep is_email (UAnswer 0) (mkUsersAsync v (RDelete id q :: rest) d)
  = mkUsersAsync (set_dialog v false None) (rest ++ [RFetch q]) (without_user d id).
Proof.
  intros W Hu. cbn [users_astep ua_pending ua_view ua_db lookup list_lookup delete list_delete].
  rewrite delete_answer, (deleteUser_run d (int_to_string id) id u W (int_to_string_roundtrip id) Hu). reflexivity.
Qed.

(** C25: the refresh after a delete is the [fetchUsers] of the render
    where Delete was clicked.  From any state with nothing in flight and
    the dialog open on a stored user, the user clicks Delete, then Cancel
    (the dialog closes at once, the DELETE goes on), then types a new
    username filter [f].  Even with every answer in the order sent,
    nothing is left in flight at the end and the filter shows [f], but
    the list and the total are those of the old filters: whenever the two
    filters match different numbers of the remaining users, the page is
    not consistent with its filter. *)
Theorem users_cancel_stale is_email s id u f l :
  wf_db (ua_db s) -> ua_pending s = [] -> uv_open (ua_view s) = true -> uv_userToDelete (ua_view s) = Some id ->
  tbl_find (users (ua_db s)) id = Some u -> 0 <= uv_page (ua_view s) -> uv_limit (ua_view s) = js_of_Z l ->
  l ∈ rowsPerPageOptions -> f <> uv_usernameFilter (ua_view s) ->
  query_total (without_user (ua_db s) id) (uquery_of (ua_view s))
  <> query_total (without_user (ua_db s) id) (mkUsersQuery f (uv_emailFilter (ua_view s)) (uv_page (ua_view s)) (js_of_Z l)) ->
  let s' := users_arun is_email [UInput DialogDelete; UInput DialogCancel; UInput (UsernameInput f);
                                 UAnswer 0; UAnswer 0; UAnswer 0] s in
  ua_pending s' = [] /\ ua_db s' = without_user (ua_db s) id /\ uv_usernameFilter (ua_view s') = f /\
  uv_totalUsers (ua_view s') = query_total (ua_db s') (uquery_of (ua_view s)) /\
  ~ users_inv (ua_view s') (ua_db s').
Proof.
  intros W Hp Ho Ht Hu Hpg Hl Hopt Hf Htot s'. destruct s as [v ps d]. cbn [ua_db ua_pending ua_view] in *. subst ps.
  pose proof (options_pos l Hopt) as H1.
  assert (Hid : id <> 0).
  { destruct (wf_users d W) as (_ & Hb & _). rewrite Forall_forall in Hb.
    specialize (Hb id (tbl_find_key _ _ _ Hu)). lia. }
  unfold s', users_arun. cbn [fold_left app].
  rewrite (delete_click is_email v [] d id Ho Ht Hid), (cancel_click is_email _ _ d Ho), page_input
    by (reflexivity || discriminate).
  cbn [users_update set_dialog uv_emailFilter uv_page uv_limit uv_usernameFilter app].
  assert (Hd2 : deps_changed (set_dialog v false None)
                  (set_query (set_dialog v false None) f (uv_emailFilter v) (uv_page v) (uv_limit v)) = true).
  { unfold deps_changed. cbn. destruct (String.eqb_spec (uv_usernameFilter v) f); [congruence | reflexivity]. }
  rewrite Hd2. cbn [app]. rewrite (answer_delete is_email _ id _ _ d u W Hu). cbn [app].
  rewrite (answer_fetch is_email _ _ _ _ l), (answer_fetch is_email _ (uquery_of v) _ _ l)
    by (cbn; first [exact Hpg | exact Hl | exact H1]).
  cbn [ua_pending ua_db ua_view set_list set_query set_dialog uv_usernameFilter uv_totalUsers].
  split; [reflexivity|]. split; [reflexivity|]. split; [reflexivity|]. split; [reflexivity|].
  intros (_ & _ & _ & _ & lx & _ & _ & _ & Htx). apply Htot. unfold server_total, query_total in *. cbn in Htx |- *. exact Htx.
Qed.

Lemma users_cancel_stale_witness :
  let s := mkUsersAsync (set_dialog users_init true (Some 1)) [] two_user_db in
  ~ users_inv (ua_view (users_arun simple_email [UInput DialogDelete; UInput DialogCancel; UInput (UsernameInput "zz");
                                                 UAnswer 0; UAnswer 0; UAnswer 0] s))
      (ua_db (users_arun simple_email [UInput DialogDelete; UInput DialogCancel; UInput (UsernameInput "zz");
                                       UAnswer 0; UAnswer 0; UAnswer 0] s)).
Proof.
  assert (W : wf_db two_user_db) by (unfold two_user_db, sample_db; vm_compute; wf_concrete).
  refine (proj2 (proj2 (proj2 (proj2 (users_cancel_stale simple_email
            (mkUsersAsync (set_dialog users_init true (Some 1)) [] two_user_db) 1 (mkUser "A" "u1" "a@x.com" "1" "w")
            "zz" 10 W eq_refl eq_refl eq_refl eq_refl _ eq_refl _ _ _)))));
    [cbn; lia | cbn; set_solver | cbn; discriminate | vm_compute; discriminate].
Defined.
