(* ===== verification/Routing.v ===== *)
(** * The client's routes and links

    Next.js maps a path to a page by the directories of [src/blog-app/src/app]:
    [page.tsx] is [/], [users/page.tsx] is [/users], [users/create] is
    [/users/create] (a static segment wins over the dynamic one),
    [users/[userId]] is [/users/:userId], [users/[userId]/posts/create],
    [posts/page.tsx] is [/posts] and [posts/[postId]] is [/posts/:postId].
    A trailing slash is redirected to the path without it.  [route_of] is
    that table.  The pages build their links with template literals such
    as [`/users/${user.id}`]; [user_href] and its siblings are those
    templates.  The navigation bar of [components/Navbar.tsx] (rendered by
    [layout.tsx] above every page), the links of the home page and the
    Auth0 redirect callback of [providers/Auth0Provider.tsx] complete the
    navigation.

    The theorem: every link the pages build for a stored id is parsed back
    to the intended page with the id's [String()] as its parameter, and
    every link of the navigation bar and of the home page reaches a page
    ([links_resolve]). *)

From S2P Require Import Prelude JsValue GatewayFacts.
From Stdlib Require Import Ascii DecimalString Decimal.
Local Open Scope Z_scope.

(** ** The route table *)

Inductive route :=
| RHome | RUsers | RUserCreate | RUser (userId : string) | RUserPostCreate (userId : string)
| RPosts | RPost (postId : string) | RNotFound.

(** The segments of a path, split at every ["/"]. *)
Fixpoint path_split (s : string) : list string :=
  match s with
  | EmptyString => [""]
  | String c s' =>
      if Ascii.eqb c "/" then "" :: path_split s'
      else match path_split s' with
           | [] => [String c ""]
           | x :: xs => String c x :: xs
           end
  end.

(** Next.js redirects [/a/b/] to [/a/b]: a final empty segment is dropped. *)
Definition strip_trailing (segs : list string) : list string :=
  match List.rev segs with
  | x :: r => if String.eqb x "" then List.rev r else segs
  | [] => segs
  end.

(** The directories of [src/app] that hold a [page.tsx]. *)
Definition route_segments (segs : list string) : route :=
  match segs with
  | [] => RHome
  | [a] => if String.eqb a "users" then RUsers else if String.eqb a "posts" then RPosts else RNotFound
  | [a; x] =>
      if String.eqb x "" then RNotFound
      else if String.eqb a "users" then (if String.eqb x "create" then RUserCreate else RUser x)
      else if String.eqb a "posts" then RPost x
      else RNotFound
  | [a; x; b; c] =>
      if String.eqb a "users" && negb (String.eqb x "") && String.eqb b "posts" && String.eqb c "create"
      then RUserPostCreate x else RNotFound
  | _ => RNotFound
  end.

Definition route_of (path : string) : route :=
  match path_split path with
  | x :: segs => if String.eqb x "" then route_segments (strip_trailing segs) else RNotFound
  | [] => RNotFound
  end.

(** ** The links the pages build *)

(** [href={`/users/${user.id}`}] and [router.push(`/users/${user.id}`)] of
    the users list; [`/users/${post.user?.id}`] of the post page. *)
Definition user_href (id : Z) : string := "/users/" +:+ int_to_string id.

(** [router.push(`/users/${userId}`)] of the create-post page: the route
    parameter as it came. *)
Definition user_param_href (userId : string) : string := "/users/" +:+ userId.

(** [href={`/users/${userId}/posts/create`}] of the user page. *)
Definition user_post_create_href (userId : string) : string := "/users/" +:+ userId +:+ "/posts/create".

(** [href={`/posts/${post.id}`}] of the posts list and of the user page. *)
Definition post_href (id : Z) : string := "/posts/" +:+ int_to_string id.

(** [router.push("/users/create")] of the users list. *)
Definition user_create_href : string := "/users/create".

(** ** The navigation bar, the home page and the sign-in redirect *)

Inductive nav_action :=
| NavTo (label href : string)   (* a [Button component={Link}]: its text and [href] *)
| NavLogout               (* [logout()] *)
| NavLogin.               (* [loginWithRedirect()] *)

(** [Navbar]: Users, Posts and Logout when signed in, Login otherwise. *)
Definition navbar (isAuthenticated : bool) : list nav_action :=
  if isAuthenticated then [NavTo "Users" "/users"; NavTo "Posts" "/posts"; NavLogout] else [NavLogin].

(** The two [Link]s of [HomePage]. *)
Definition home_links : list string := ["/users"; "/posts"].

(** [onRedirectCallback]: [router.push(appState?.returnTo || '/')]. *)
Definition onRedirectCallback (returnTo : option string) : string :=
  match returnTo with Some r => if String.eqb r "" then "/" else r | None => "/" end.

(** ** Splitting paths *)

Definition no_slash (s : string) : bool :=
  forallb (fun c => negb (Ascii.eqb c "/")) (String.list_ascii_of_string s).

(** Split [no_slash (String c a)] into its head and tail facts. *)
Ltac no_slash_head H :=
  unfold no_slash in *; cbn [String.list_ascii_of_string forallb] in H;
  apply andb_true_iff in H as [Hc Ha]; apply negb_true_iff in Hc.

Lemma path_split_segment a s :
  no_slash a = true -> path_split (a +:+ String "/" s) = a :: path_split s.
Proof.
  induction a as [|c a IH]; intros H; [reflexivity|]. no_slash_head H.
  rewrite str_app_cons. cbn [path_split]. rewrite Hc, IH by exact Ha. reflexivity.
Qed.

Lemma path_split_last a : no_slash a = true -> path_split a = [a].
Proof.
  induction a as [|c a IH]; intros H; [reflexivity|]. no_slash_head H.
  cbn [path_split]. rewrite Hc, IH by exact Ha. reflexivity.
Qed.

Lemma no_slash_uint u : no_slash (NilEmpty.string_of_uint u) = true.
Proof. induction u; exact IHu || reflexivity. Qed.

Lemma no_slash_int z : no_slash (int_to_string z) = true.
Proof. unfold int_to_string. destruct (Z.to_int z) as [u|u]; [apply no_slash_uint | exact (no_slash_uint u)]. Qed.

Lemma int_to_string_not_create z : String.eqb (int_to_string z) "create" = false.
Proof.
  apply String.eqb_neq. unfold int_to_string.
  destruct (Z.to_int z) as [u|u]; [destruct u|]; cbn; discriminate.
Qed.

#[export] Hint Rewrite no_slash_int int_to_string_not_create int_to_string_nonempty : blog_rw.

Lemma strip_trailing_nonempty l x : String.eqb x "" = false -> strip_trailing (l ++ [x]) = l ++ [x].
Proof. intros H. unfold strip_trailing. rewrite rev_unit, H. reflexivity. Qed.

(** ** Parsing the links back *)

(** A link [/a/x] with a static [a] and a printed integer [x]. *)
Lemma route_of_two a z :
  no_slash a = true ->
  route_of (String "/" (a +:+ String "/" (int_to_string z))) = route_segments [a; int_to_string z].
Proof.
  intros Ha. unfold route_of. cbn [path_split Ascii.eqb Bool.eqb].
  rewrite (path_split_segment a _ Ha), (path_split_last _ (no_slash_int z)).
  rewrite String.eqb_refl. change [a; int_to_string z] with ([a] ++ [int_to_string z]).
  rewrite strip_trailing_nonempty by apply int_to_string_nonempty. reflexivity.
Qed.

Lemma route_user id : route_of (user_href id) = RUser (int_to_string id).
Proof.
  exact (eq_trans (route_of_two "users" id eq_refl)
           ltac:(cbn [route_segments]; rewrite int_to_string_nonempty, int_to_string_not_create; reflexivity)).
Qed.

Lemma route_post id : route_of (post_href id) = RPost (int_to_string id).
Proof.
  exact (eq_trans (route_of_two "posts" id eq_refl)
           ltac:(cbn [route_segments]; rewrite int_to_string_nonempty; reflexivity)).
Qed.

Lemma route_user_post_create id : route_of (user_post_create_href (int_to_string id)) = RUserPostCreate (int_to_string id).
Proof.
  unfold route_of, user_post_create_href.
  change ("/users/" +:+ int_to_string id +:+ "/posts/create")
    with (String "/" ("users" +:+ String "/" (int_to_string id +:+ String "/" ("posts" +:+ String "/" "create")))).
  cbn [path_split Ascii.eqb Bool.eqb].
  rewrite (path_split_segment "users" _ eq_refl), (path_split_segment _ _ (no_slash_int id)),
    (path_split_segment "posts" _ eq_refl), (path_split_last "create" eq_refl).
  rewrite String.eqb_refl. change ["users"; int_to_string id; "posts"; "create"]
    with (["users"; int_to_string id; "posts"] ++ ["create"]).
  rewrite strip_trailing_nonempty by reflexivity.
  change (["users"; int_to_string id; "posts"] ++ ["create"]) with ["users"; int_to_string id; "posts"; "create"].
  cbn [route_segments]. rewrite int_to_string_nonempty. reflexivity.
Qed.

(** The links of the navigation bar of a signed-in session. *)
Definition nav_links (isAuthenticated : bool) : list string :=
  flat_map (fun a => match a with NavTo _ h => [h] | _ => [] end) (navbar isAuthenticated).

(** C31: the links the pages build for a stored id are parsed back by the
    route table to the intended page with [String(id)] as parameter:
    [/users/${id}] is the user page (never the create page),
    [/posts/${id}] the post page, [/users/${id}/posts/create] the
    create-post page; the create button's target is the create page; the
    navigation bar of a signed-in session, the home page's links and the
    default sign-in return path all reach a page. *)
Theorem links_resolve :
  (forall id, route_of (user_href id) = RUser (int_to_string id)) /\
  (forall id, route_of (post_href id) = RPost (int_to_string id)) /\
  (forall id, route_of (user_post_create_href (int_to_string id)) = RUserPostCreate (int_to_string id)) /\
  route_of user_create_href = RUserCreate /\
  Forall (fun h => route_of h <> RNotFound) (nav_links true ++ home_links ++ [onRedirectCallback None]).
Proof.
  split; [exact route_user|]. split; [exact route_post|]. split; [exact route_user_post_create|].
  split; [reflexivity|]. repeat constructor; discriminate.
Qed.
