(* ===== verification/Render.v ===== *)
(** * What the pages render

    Each page's JSX, as the content and the controls it shows in document
    order: [Typography], table cells and [DialogContentText] as text;
    [Alert] and [Typography color="error"] as an error or success message;
    a [TextField] with its label, value and [required] flag; a [Button]
    with its label and [disabled] flag; a [Button] whose [onClick] is
    [router.push(href)] with its target; a [next/link] [Link] with its
    [href] and the text inside it; MUI's [TablePagination] with the props
    the page passes.  Layout and styling ([Container], [Grid], [Card],
    [Divider], icons, variants, colours) carry no content and are dropped.
    An interpolation [{x}] renders as React renders a child: a string as
    itself, [null] and [undefined] as nothing ([Display]); a field read
    [user.name] on a body that has no such field is [undefined].

    [error && <Alert>] and [if (error) return] test the page's [error]
    state, which is [null] or one of the page's non-empty messages (every
    [setError] passes a literal, or [err.response?.data?.error || literal]),
    so the test is [error <> None].  Auth0's [isLoading] is false behind
    [withAuthenticationRequired], so its spinners and skeletons are not
    rendered. *)

From S2P Require Import Prelude JsValue Schema Gateway Server Client ClientUsers ClientDetail ClientForms ClientPosts Routing.
From Stdlib Require Import Btauto.
Local Open Scope Z_scope.

(** ** Rendered elements *)

Inductive elem :=
| ESpinner                                        (* CircularProgress *)
| EText (s : string)                              (* Typography, TableCell, DialogTitle, DialogContentText *)
| EError (s : string)                             (* Alert severity="error", Typography color="error" *)
| ESuccess (s : string)                           (* Alert severity="success" *)
| EField (label value : string) (required : bool) (* TextField *)
| EButton (label : string) (disabled : bool)      (* Button with its own onClick, or type="submit" *)
| EPush (label href : string)                     (* Button whose onClick is router.push(href) *)
| ELink (href : string) (text : list string)      (* Link: its href and the text inside it *)
| EPagination (count page : Z) (rowsPerPage : jsnum) (options : list Z).  (* TablePagination *)

(** React's rendering of an interpolated child [{x}]. *)
Class Display (A : Type) := display : A -> string.
#[export] Instance display_string : Display string := fun s => s.
#[export] Instance display_option {A} `{Display A} : Display (option A) :=
  fun o => match o with Some x => display x | None => "" end.

(** [{error && <Alert severity="error">{error}</Alert>}] and its success twin. *)
Definition error_alert (o : option string) : list elem := match o with Some e => [EError e] | None => [] end.
Definition success_alert (o : option string) : list elem := match o with Some s => [ESuccess s] | None => [] end.

(** The confirmation dialog of the three delete flows: MUI renders its
    content only while [open]. *)
Definition confirm_dialog (open : bool) (what : string) (deleteDisabled : bool) : list elem :=
  if open then
    [EText "Confirm Delete";
     EText ("Are you sure you want to delete this " +:+ what +:+ "? This action cannot be undone.");
     EButton "Cancel" false; EButton "Delete" deleteDisabled]
  else [].

(** ** Field reads on a response body *)

(** [user.name] and the like: the body of GET /users/:id. *)
Definition p_user (p : payload) : option user :=
  match p with PUser _ u | PUserFull _ u _ _ => Some u | _ => None end.
(** [user.address?.street] and the like. *)
Definition p_address (p : payload) : option address :=
  match p with PUserFull _ _ (Some (_, a, _)) _ => Some a | _ => None end.
(** [user.company?.name] and the like. *)
Definition p_company (p : payload) : option company :=
  match p with PUserFull _ _ _ (Some (_, c)) => Some c | _ => None end.
(** [post.title], [post.body]: the body of GET /posts/:id. *)
Definition p_post (p : payload) : option post :=
  match p with PPost _ q | PPostFull _ q _ => Some q | _ => None end.
(** [post.user?.name]. *)
Definition p_author (p : payload) : option user :=
  match p with PPostFull _ _ (_, u) => Some u | _ => None end.

(** [`/users/${post.user?.id}`]: "undefined" when the post has no user. *)
Definition post_author_href (p : payload) : string :=
  match author_link p with Some a => user_param_href a | None => "/users/undefined" end.

(** ** The navigation bar and the home page *)

Definition nav_elem (a : nav_action) : elem :=
  match a with NavTo l h => ELink h [l] | NavLogout => EButton "Logout" false | NavLogin => EButton "Login" false end.

(** [Navbar]: the title, then its buttons. *)
Definition navbar_render (isAuthenticated : bool) : list elem :=
  EText "Blog Admin" :: map nav_elem (navbar isAuthenticated).

(** [HomePage]: its two links. *)
Definition home_render : list elem := [ELink "/users" ["Users"]; ELink "/posts" ["Posts"]].

(** ** The users list *)

Definition user_row (r : Z * user) : list elem :=
  let (id, u) := r in
  [ELink (user_href id) [name u]; EText (username u); EText (email u);
   EPush "View" (user_href id); EButton "Delete" false].

Definition users_render (v : users_view) : list elem :=
  [EText "User List"] ++ error_alert (uv_error v) ++
  [EField "Username" (uv_usernameFilter v) false; EField "Email" (uv_emailFilter v) false;
   EPush "Create" user_create_href;
   EText "Name"; EText "Username"; EText "Email"; EText "Actions"] ++
  flat_map user_row (uv_users v) ++
  [EPagination (uv_totalUsers v) (uv_page v) (uv_limit v) rowsPerPageOptions] ++
  confirm_dialog (uv_open v) "user" false.

(** ** The create-user form *)

Definition create_render (v : create_view) : list elem :=
  let u := cv_userData v in
  let a := ud_address u in
  let c := ud_company u in
  [EText "Create User"] ++ error_alert (cv_error v) ++ success_alert (cv_success v) ++
  [EField "Name" (ud_name u) true; EField "Username" (ud_username u) true; EField "Email" (ud_email u) true;
   EField "Phone" (ud_phone u) false; EField "Website" (ud_website u) false;
   EText "Address";
   EField "Street" (fa_street a) true; EField "Suite" (fa_suite a) false; EField "City" (fa_city a) true;
   EField "Zipcode" (fa_zipcode a) true;
   EText "Geo";
   EField "Latitude" (fg_lat (fa_geo a)) false; EField "Longitude" (fg_lng (fa_geo a)) false;
   EText "Company";
   EField "Company Name" (fc_name c) true; EField "Catch Phrase" (fc_catchPhrase c) false;
   EField "BS" (fc_bs c) false;
   EButton "Create User" false; EButton "Go Back" false].

(** ** The user page *)

(** The card of [user]. *)
Definition user_card (p : payload) : list elem :=
  let u := p_user p in
  let a := p_address p in
  let c := p_company p in
  [EText (display (option_map name u)); EText ("@" +:+ display (option_map username u));
   EText ("Email: " +:+ display (option_map email u)); EText ("Phone: " +:+ display (option_map phone u));
   EText ("Website: " +:+ display (option_map website u));
   EText "Address";
   EText (display (option_map street a) +:+ ", " +:+ display (a ≫= suite) +:+ ", " +:+
          display (option_map city a) +:+ " " +:+ display (option_map zipcode a));
   EText "Company";
   EText (display (option_map comp_name c)); EText (display (c ≫= catchPhrase))].

(** [posts.length > 0 ? posts.map(...) : "No posts found for this user."];
    a body that is not an array has no positive [length]. *)
Definition user_posts_render (p : payload) : list elem :=
  match p with
  | PPostList ((_ :: _) as ps) => map (fun r => ELink (post_href (fst r)) [title (snd r)]) ps
  | _ => [EText "No posts found for this user."]
  end.

Definition detail_render (userId : string) (v : detail_view) : list elem :=
  if dv_loading v then [ESpinner] else
  match dv_error v with
  | Some e => [EError e]
  | None =>
      match dv_user v with
      | None => [EText "No user found."]
      | Some p =>
          [EText "User Details"; EButton "Delete User" (dv_deleting v)] ++ user_card p ++
          [EText "User Posts"; ELink (user_post_create_href userId) ["Create Post"]] ++
          user_posts_render (dv_posts v) ++ confirm_dialog (dv_open v) "user" false
      end
  end.

(** ** The create-post form *)

Definition post_form_render (v : post_form_view) : list elem :=
  [EText "Create New Post"] ++ error_alert (pv_error v) ++ success_alert (pv_success v) ++
  [EField "Title" (pv_title v) true; EField "Body" (pv_body v) true;
   EButton (if pv_loading v then "Creating..." else "Create Post") (pv_loading v);
   EButton "Go Back" false].

(** ** The posts list *)

Definition post_card (x : Z * post * (Z * user)) : elem :=
  let '(id, p, (_, u)) := x in ELink (post_href id) [title p; "by " +:+ name u].

Definition posts_render (v : posts_view) : list elem :=
  match av_error v with
  | Some e => [EError e]
  | None =>
      [EText "Posts"; EField "Filter by Title" (av_titleFilter v) false] ++ map post_card (av_posts v) ++
      [EPagination (av_totalPosts v) (av_page v) (av_rowsPerPage v) mui_rowsPerPageOptions]
  end.

(** ** The post page *)

Definition post_render (v : post_view) : list elem :=
  match pd_error v with
  | Some e => [EError e]
  | None =>
      match pd_post v with
      | None => [EText "No post found."]
      | Some p =>
          [EText (display (option_map title (p_post p))); EButton "Delete Post" (pd_deleting v);
           EText (display (option_map body (p_post p)));
           EText "Author:"; ELink (post_author_href p) [display (option_map name (p_author p))];
           EButton "Go Back" false] ++
          confirm_dialog (pd_open v) "post" (pd_deleting v)
      end
  end.

(** ** The browser's constraint validation *)

(** A form submits only when every rendered [required] field is
    non-empty. *)
Definition constraints_ok (es : list elem) : bool :=
  forallb (fun e => match e with EField _ x true => negb (String.eqb x "") | _ => true end) es.

(** The rendered links: a [Link]'s [href] and a [router.push] button's
    target. *)
Definition elem_links (e : elem) : list string :=
  match e with ELink h _ | EPush _ h => [h] | _ => [] end.

Definition rendered_links (es : list elem) : list string := flat_map elem_links es.

(** ** The forms' guards are the browser's validation *)

Lemma constraints_ok_app l1 l2 : constraints_ok (l1 ++ l2) = constraints_ok l1 && constraints_ok l2.
Proof. apply forallb_app. Qed.

Lemma constraints_ok_error_alert e : constraints_ok (error_alert e) = true.
Proof. destruct e; reflexivity. Qed.

Lemma constraints_ok_success_alert s : constraints_ok (success_alert s) = true.
Proof. destruct s; reflexivity. Qed.

#[export] Hint Rewrite constraints_ok_app constraints_ok_error_alert constraints_ok_success_alert : render.

Lemma required_filled_rendered v : required_filled (cv_userData v) = constraints_ok (create_render v).
Proof. unfold create_render. autorewrite with render. cbn. unfold required_filled. btauto. Qed.

(** The form models submit exactly when the browser would: the
    create-user form when every field its JSX marks [required] (Name,
    Username, Email, Street, City, Zipcode, Company Name) is non-empty,
    the create-post form when its submit button is enabled (not
    [loading]) and its two [required] fields are non-empty; otherwise the
    submit event changes nothing. *)
Lemma form_guards_rendered is_email v d userId w d' :
  create_step is_email SubmitUser (v, d)
  = (if constraints_ok (create_render v) then handleSubmitUser is_email v d else (v, d)) /\
  post_form_step is_email userId SubmitPost (w, d')
  = (if negb (pv_loading w) && constraints_ok (post_form_render w) then handleSubmitPost is_email userId w d'
     else (w, d')).
Proof.
  split.
  - cbn [create_step]. rewrite required_filled_rendered. reflexivity.
  - cbn [post_form_step]. unfold submit_post, post_form_render. autorewrite with render. cbn.
    rewrite !andb_true_r, andb_assoc. reflexivity.
Qed.
