(* ===== verification/App.v ===== *)
(** * The admin client as one system

    [layout.tsx] renders the navigation bar above the page of the current
    route.  A session of the client is a screen (the page of the route,
    with its state) and the database behind the API.  The user acts on the
    current page (its events, as the page files model them) or follows a
    link: one the page renders, or one of the navigation bar.  A page that
    calls [router.push] (after a create or a delete) moves to that route at
    the end of the event.  Every page sits behind
    [withAuthenticationRequired], so a session is signed in; paths typed by
    hand and the browser's history ([router.back]) are not modelled.

    The theorem: from the home page on a well-formed database, through any
    sequence of page events and link clicks, the database stays well
    formed, no click reaches a missing page, every route parameter is the
    [String()] of an id, and the post page only ever shows a post with its
    author ([app_session_ok]).  Every stored user can be reached: Users, the
    pagination's "next" as often as the user's row index requires, then
    the row, open the user's page ([user_page_reachable]). *)

From S2P Require Import Prelude JsValue Schema Gateway GatewayFacts Validation UserController PostController Server Client ClientUsers ClientDetail ClientForms ClientPosts Routing Render.
Local Open Scope Z_scope.

(** ** Screens, links and steps *)

Inductive screen :=
| SHome
| SUsers (v : users_view)
| SUserCreate (v : create_view)
| SUser (userId : string) (v : detail_view)
| SUserPostCreate (userId : string) (v : post_form_view)
| SPosts (v : posts_view)
| SPost (postId : string) (v : post_view)
| SNotFound.

Section App.
Variable is_email : string -> bool.

(** Rendering the page of a route: its state's initial values and its
    mount effect. *)
Definition open_route (r : route) (d : db) : screen * db :=
  match r with
  | RHome => (SHome, d)
  | RUsers => let (v, d') := users_mount is_email d in (SUsers v, d')
  | RUserCreate => (SUserCreate create_init, d)
  | RUser id => let (v, d') := detail_mount is_email id d in (SUser id v, d')
  | RUserPostCreate id => (SUserPostCreate id post_form_init, d)
  | RPosts => let (v, d') := posts_mount is_email d in (SPosts v, d')
  | RPost id => let (v, d') := post_mount is_email id d in (SPost id v, d')
  | RNotFound => (SNotFound, d)
  end.

(** The links a screen renders. *)
Definition screen_links (s : screen) : list string :=
  match s with
  | SHome => home_links
  | SUsers v => user_create_href :: map (fun r => user_href (fst r)) (uv_users v)
  | SUser id v =>
      if detail_rendered v then
        user_post_create_href id ::
        match dv_posts v with PPostList ps => map (fun r => post_href (fst r)) ps | _ => [] end
      else []
  | SPosts v => match av_error v with None => map (fun x => post_href (fst (fst x))) (av_posts v) | Some _ => [] end
  | SPost _ v => if post_rendered v then match pd_post v with Some p => [post_author_href p] | None => [] end else []
  | SUserCreate _ | SUserPostCreate _ _ | SNotFound => []
  end.

(** The target of a [router.push] the last event made. *)
Definition pushed_route (s : screen) : option string :=
  match s with
  | SUser _ v => dv_route v
  | SUserPostCreate _ v => pv_route v
  | SPost _ v => pd_route v
  | _ => None
  end.

Definition settle (s : screen * db) : screen * db :=
  match pushed_route (fst s) with Some h => open_route (route_of h) (snd s) | None => s end.

Inductive app_event :=
| Follow (href : string)
| UsersEv (e : users_event)
| CreateEv (e : create_event)
| DetailEv (e : detail_event)
| PostFormEv (e : post_form_event)
| PostsEv (e : posts_event)
| PostEv (e : post_event).

Definition app_step (ev : app_event) (s : screen * db) : screen * db :=
  let (sc, d) := s in
  match ev, sc with
  | Follow h, _ =>
      if bool_decide (h ∈ screen_links sc ++ nav_links true) then open_route (route_of h) d else (sc, d)
  | UsersEv e, SUsers v => let (v', d') := users_step is_email e (v, d) in (SUsers v', d')
  | CreateEv e, SUserCreate v => let (v', d') := create_step is_email e (v, d) in (SUserCreate v', d')
  | DetailEv e, SUser id v => settle (let (v', d') := detail_step is_email id e (v, d) in (SUser id v', d'))
  | PostFormEv e, SUserPostCreate id v =>
      settle (let (v', d') := post_form_step is_email id e (v, d) in (SUserPostCreate id v', d'))
  | PostsEv e, SPosts v => let (v', d') := posts_step is_email e (v, d) in (SPosts v', d')
  | PostEv e, SPost id v => settle (let (v', d') := post_step is_email id e (v, d) in (SPost id v', d'))
  | _, _ => (sc, d)
  end.

(** A sequence of events, in order. *)
Definition app_run (evs : list app_event) (s : screen * db) : screen * db :=
  fold_left (fun s ev => app_step ev s) evs s.

(** The sessions that start on the home page of a well-formed database. *)
Inductive app_reach : screen * db -> Prop :=
| ar_home d : wf_db d -> app_reach (SHome, d)
| ar_step ev s : app_reach s -> app_reach (app_step ev s).
End App.

(** A route parameter the pages produced: the [String()] of an id. *)
Definition printed_id (x : string) : Prop := exists z, x = int_to_string z.

(** What holds of every screen of a session: a page exists, its
    parameters are printed ids, no [router.push] is pending, and the post
    page holds a post with its author or nothing. *)
Definition screen_ok (s : screen) : Prop :=
  match s with
  | SNotFound => False
  | SUser id v => printed_id id /\ dv_route v = None
  | SUserPostCreate id v => printed_id id /\ pv_route v = None
  | SPost id v => printed_id id /\ pd_route v = None /\
      (pd_post v = None \/ exists pid p u, pd_post v = Some (PPostFull pid p u))
  | _ => True
  end.

(** The users list, unfiltered, on page [k] of ten rows, as the server
    sends it for the database [d]. *)
Definition users_at (d : db) (k : nat) (v : users_view) : Prop :=
  uv_page v = Z.of_nat k /\ uv_limit v = js_of_Z 10 /\ uv_usernameFilter v = "" /\ uv_emailFilter v = "" /\
  uv_totalUsers v = Z.of_nat (length (users d)) /\ uv_users v = server_page d v 10.

(** ** Every page keeps the database well formed *)

Create HintDb page_wf.

Lemma axios_wf is_email r d : wf_db d -> wf_db (snd (axios is_email r d)).
Proof.
  intros W. pose proof (gw_ok_wf d _ (handle_ok is_email r d) W) as W'. unfold axios.
  destruct (handle is_email r d) as [[|] d']; exact W'.
Qed.

Lemma pair_bind_wf {A B} (p : A * db) (k : A -> db -> B * db) :
  wf_db (snd p) -> (forall a d', wf_db d' -> wf_db (snd (k a d'))) -> wf_db (snd (let (a, d') := p in k a d')).
Proof. destruct p as [a d']. intros W H. exact (H a d' W). Qed.

#[export] Hint Resolve axios_wf : page_wf.

(** Unfold a page function and thread well-formedness through its calls. *)
Ltac page_wf :=
  repeat first
    [ assumption
    | progress cbn [snd fst]
    | solve [eauto with page_wf]
    | match goal with
      | |- wf_db (snd (let (_, _) := ?p in _)) => apply (pair_bind_wf p); [solve [eauto with page_wf] | intros ? ? ?]
      end
    | case_match ].

Lemma fetchUsers_wf e v d : wf_db d -> wf_db (snd (fetchUsers e v d)).
Proof. intros W. unfold fetchUsers, users_answer. page_wf. Qed.
#[export] Hint Resolve fetchUsers_wf : page_wf.

Lemma handleDeleteUser_wf e v d : wf_db d -> wf_db (snd (handleDeleteUser e v d)).
Proof. intros W. unfold handleDeleteUser. page_wf. Qed.
#[export] Hint Resolve handleDeleteUser_wf : page_wf.

Lemma users_step_wf e ev s : wf_db (snd s) -> wf_db (snd (users_step e ev s)).
Proof. destruct s as [v d]. intros W. unfold users_step. page_wf. Qed.

Lemma fetchUserData_wf e id v d : wf_db d -> wf_db (snd (fetchUserData e id v d)).
Proof. intros W. unfold fetchUserData. page_wf. Qed.
Lemma detailDeleteUser_wf e id v d : wf_db d -> wf_db (snd (detailDeleteUser e id v d)).
Proof. intros W. unfold detailDeleteUser. page_wf. Qed.
#[export] Hint Resolve fetchUserData_wf detailDeleteUser_wf : page_wf.

Lemma detail_step_wf e id ev s : wf_db (snd s) -> wf_db (snd (detail_step e id ev s)).
Proof. destruct s as [v d]. intros W. unfold detail_step. page_wf. Qed.

Lemma fetchPost_wf e id v d : wf_db d -> wf_db (snd (fetchPost e id v d)).
Proof. intros W. unfold fetchPost. page_wf. Qed.
Lemma handleDeletePost_wf e id v d : wf_db d -> wf_db (snd (handleDeletePost e id v d)).
Proof. intros W. unfold handleDeletePost. page_wf. Qed.
#[export] Hint Resolve fetchPost_wf handleDeletePost_wf : page_wf.

Lemma post_step_wf e id ev s : wf_db (snd s) -> wf_db (snd (post_step e id ev s)).
Proof. destruct s as [v d]. intros W. unfold post_step. page_wf. Qed.

Lemma fetchPosts_wf e v d : wf_db d -> wf_db (snd (fetchPosts e v d)).
Proof. intros W. unfold fetchPosts. page_wf. Qed.
#[export] Hint Resolve fetchPosts_wf : page_wf.

Lemma posts_step_wf e ev s : wf_db (snd s) -> wf_db (snd (posts_step e ev s)).
Proof. destruct s as [v d]. intros W. unfold posts_step. page_wf. Qed.

Lemma handleSubmitUser_wf e v d : wf_db d -> wf_db (snd (handleSubmitUser e v d)).
Proof. intros W. unfold handleSubmitUser. page_wf. Qed.
Lemma handleSubmitPost_wf e id v d : wf_db d -> wf_db (snd (handleSubmitPost e id v d)).
Proof. intros W. unfold handleSubmitPost. page_wf. Qed.
#[export] Hint Resolve handleSubmitUser_wf handleSubmitPost_wf : page_wf.

Lemma create_step_wf e ev s : wf_db (snd s) -> wf_db (snd (create_step e ev s)).
Proof. destruct s as [v d]. intros W. unfold create_step. page_wf. Qed.

Lemma post_form_step_wf e id ev s : wf_db (snd s) -> wf_db (snd (post_form_step e id ev s)).
Proof. destruct s as [v d]. intros W. unfold post_form_step, submit_post. page_wf. Qed.

#[export] Hint Resolve users_step_wf detail_step_wf post_step_wf posts_step_wf create_step_wf post_form_step_wf : page_wf.

Lemma open_route_wf e r d : wf_db d -> wf_db (snd (open_route e r d)).
Proof. intros W. destruct r; cbn [open_route]; unfold users_mount, detail_mount, posts_mount, post_mount; page_wf. Qed.
#[export] Hint Resolve open_route_wf : page_wf.

Lemma settle_wf e s : wf_db (snd s) -> wf_db (snd (settle e s)).
Proof. destruct s as [sc d]. intros W. unfold settle. page_wf. Qed.
#[export] Hint Resolve settle_wf : page_wf.

Lemma app_step_wf e ev s : wf_db (snd s) -> wf_db (snd (app_step e ev s)).
Proof. destruct s as [sc d]. intros W. unfold app_step. destruct ev, sc; cbv iota beta; try apply settle_wf; page_wf. Qed.

(** ** Every click reaches a page *)

(** The routes a session may open: an existing page whose parameters are
    printed ids. *)
Definition route_ok (r : route) : Prop :=
  match r with
  | RNotFound => False
  | RUser id | RUserPostCreate id | RPost id => printed_id id
  | _ => True
  end.

(** A 2xx answer of GET /posts/:id carries the post with its author. *)
Lemma getPostById_full id d :
  match fst (getPostById id d) with
  | Ok r => (200 <=? status r) && (status r <? 300) = true -> exists pid p u, payload_of r = PPostFull pid p u
  | Exn _ => True
  end.
Proof.
  unfold getPostById, scatch, sbind.
  destruct (post_findUnique_with_user _ d) as [[[[[pid p] u]|]|e] d']; cbn; eauto; discriminate.
Qed.

Definition post_shape_ok (o : option payload) : Prop :=
  o = None \/ exists pid p u, o = Some (PPostFull pid p u).

Lemma fetchPost_shape e id v d : post_shape_ok (pd_post v) -> post_shape_ok (pd_post (fst (fetchPost e id v d))).
Proof.
  intros H. unfold fetchPost. destruct (String.eqb id ""); [exact H|]. unfold axios.
  change (handle e (post_get_request id) d) with (getPostById id d).
  pose proof (getPostById_full id d) as Hf. destruct (getPostById id d) as [[r|x] d']; cbn in *; [|exact H].
  destruct ((200 <=? status r) && (status r <? 300)) eqn:E; cbn; [|exact H].
  destruct (Hf eq_refl) as (pid & p & u & ->). right. eauto.
Qed.

Lemma open_route_ok e r d : route_ok r -> screen_ok (fst (open_route e r d)).
Proof.
  destruct r as [| | |id|id| |id|]; cbn [route_ok open_route]; intros H; try contradiction.
  all: try (unfold post_mount; pose proof (fetchPost_shape e id post_view_init d (or_introl eq_refl)) as Hs).
  all: unfold users_mount, detail_mount, posts_mount, post_mount;
    try (match goal with |- screen_ok (fst (let (_, _) := ?p in _)) => destruct p as [v d'] eqn:E end);
    cbn [fst screen_ok]; try exact I.
  - split; [exact H|]. unfold fetchUserData in E. repeat case_match; simplify_eq; reflexivity.
  - split; [exact H | reflexivity].
  - cbn in Hs. split; [exact H|]. split; [|exact Hs].
    unfold fetchPost in E. repeat case_match; simplify_eq; reflexivity.
Qed.

Lemma user_href_ok z : route_ok (route_of (user_href z)).
Proof. rewrite route_user. exists z. reflexivity. Qed.
Lemma post_href_ok z : route_ok (route_of (post_href z)).
Proof. rewrite route_post. exists z. reflexivity. Qed.

Lemma links_ok sc h : screen_ok sc -> h ∈ screen_links sc ++ nav_links true -> route_ok (route_of h).
Proof.
  intros Hs Hh. apply elem_of_app in Hh as [Hh|Hh];
    [|change (nav_links true) with ["/users"; "/posts"] in Hh;
      repeat (apply elem_of_cons in Hh as [->|Hh]; [exact I|]); apply elem_of_nil in Hh; contradiction].
  destruct sc; cbn [screen_links] in Hh.
  - repeat (apply elem_of_cons in Hh as [->|Hh]; [exact I|]). apply elem_of_nil in Hh. contradiction.
  - apply elem_of_cons in Hh as [->|Hh]; [exact I|].
    apply list_elem_of_In, in_map_iff in Hh as [r [<- _]]. apply user_href_ok.
  - apply elem_of_nil in Hh. contradiction.
  - destruct Hs as [[z ->] _]. destruct (detail_rendered v); [|apply elem_of_nil in Hh; contradiction].
    apply elem_of_cons in Hh as [->|Hh]; [rewrite route_user_post_create; exists z; reflexivity|].
    destruct (dv_posts v); try (apply elem_of_nil in Hh; contradiction).
    apply list_elem_of_In, in_map_iff in Hh as [r [<- _]]. apply post_href_ok.
  - apply elem_of_nil in Hh. contradiction.
  - destruct (av_error v); [apply elem_of_nil in Hh; contradiction|].
    apply list_elem_of_In, in_map_iff in Hh as [r [<- _]]. apply post_href_ok.
  - destruct Hs as (_ & _ & [Hp | (pid & p & [uid u] & Hp)]); rewrite Hp in Hh;
      destruct (post_rendered v); cbn in Hh; try (apply elem_of_nil in Hh; contradiction).
    apply elem_of_cons in Hh as [->|Hh]; [|apply elem_of_nil in Hh; contradiction].
    exact (user_href_ok uid).
  - contradiction.
Qed.

(** ** The pages' [router.push] targets *)

Lemma detail_step_route e id ev v d :
  dv_route v = None ->
  dv_route (fst (detail_step e id ev (v, d))) = None \/ dv_route (fst (detail_step e id ev (v, d))) = Some "/users".
Proof. intros H. unfold detail_step, detailDeleteUser. repeat case_match; simplify_eq; cbn; auto. Qed.

Lemma post_form_step_route e id ev v d :
  pv_route v = None ->
  pv_route (fst (post_form_step e id ev (v, d))) = None \/
  pv_route (fst (post_form_step e id ev (v, d))) = Some (user_param_href id).
Proof. intros H. unfold post_form_step, submit_post, handleSubmitPost. repeat case_match; simplify_eq; cbn; auto. Qed.

Lemma post_step_route e id ev v d :
  pd_route v = None ->
  (pd_route (fst (post_step e id ev (v, d))) = None \/ pd_route (fst (post_step e id ev (v, d))) = Some "/posts") /\
  pd_post (fst (post_step e id ev (v, d))) = pd_post v.
Proof. intros H. unfold post_step, handleDeletePost, set_post_open. repeat case_match; simplify_eq; cbn; auto. Qed.

Lemma settle_ok e sc d :
  (pushed_route sc = None /\ screen_ok sc) \/ (exists h, pushed_route sc = Some h /\ route_ok (route_of h)) ->
  screen_ok (fst (settle e (sc, d))).
Proof.
  unfold settle. cbn [fst snd]. intros [[-> H] | (h & -> & H)]; [exact H | exact (open_route_ok e _ d H)].
Qed.

Lemma app_step_ok e ev sc d : screen_ok sc -> screen_ok (fst (app_step e ev (sc, d))).
Proof.
  intros Hs. unfold app_step. destruct ev as [h|ev|ev|ev|ev|ev|ev].
  { case_bool_decide as Hh; [exact (open_route_ok e _ d (links_ok sc h Hs Hh)) | exact Hs]. }
  all: destruct sc as [|v|v|id v|id v|v|id v|]; try exact Hs.
  all: try (match goal with |- screen_ok (fst (let (_, _) := ?p in _)) => destruct p; exact I end).
  - destruct Hs as [Hid Hr]. pose proof (detail_step_route e id ev v d Hr) as Hd.
    destruct (detail_step e id ev (v, d)) as [v' d']. apply settle_ok. cbn in Hd |- *.
    destruct Hd as [-> | ->]; [left; auto | right; eexists; split; [reflexivity | exact I]].
  - destruct Hs as [[z ->] Hr]. pose proof (post_form_step_route e (int_to_string z) ev v d Hr) as Hd.
    destruct (post_form_step e (int_to_string z) ev (v, d)) as [v' d']. apply settle_ok. cbn in Hd |- *.
    destruct Hd as [-> | ->]; [left; split; [reflexivity | split; [exists z|]; auto] |].
    right. eexists. split; [reflexivity|]. exact (user_href_ok z).
  - destruct Hs as (Hid & Hr & Hp). destruct (post_step_route e id ev v d Hr) as [Hd Hpost].
    destruct (post_step e id ev (v, d)) as [v' d']. apply settle_ok. cbn in Hd, Hpost |- *. rewrite Hpost.
    destruct Hd as [-> | ->]; [left; auto | right; eexists; split; [reflexivity | exact I]].
Qed.

(** C34: in every session of the client that starts on the home page of
    a well-formed database, through any sequence of page events (filters,
    paging, form inputs, submissions, dialogs, deletes) and clicks on the
    links a page or the navigation bar renders, the database stays well
    formed, no click and no [router.push] leads to a missing page, the
    route parameter of every page is the [String()] of an id, no
    navigation is left pending, and the post page holds nothing or a post
    with its author. *)
Theorem app_session_ok e s : app_reach e s -> wf_db (snd s) /\ screen_ok (fst s).
Proof.
  induction 1 as [d W | ev [sc d] _ [W Hs]]; [split; [exact W | exact I]|].
  split; [exact (app_step_wf e ev (sc, d) W) | exact (app_step_ok e ev sc d Hs)].
Qed.

Lemma app_session_ok_witness :
  let s := app_step simple_email (Follow "/posts/1")
             (app_step simple_email (Follow "/posts") (SHome, sample_db)) in
  app_reach simple_email s /\ wf_db (snd s) /\ screen_ok (fst s).
Proof.
  assert (R : app_reach simple_email (app_step simple_email (Follow "/posts/1")
                (app_step simple_email (Follow "/posts") (SHome, sample_db))))
    by (apply ar_step, ar_step, ar_home; exact sample_db_wf).
  split; [exact R|]. exact (app_session_ok simple_email _ R).
Defined.

(** ** Every stored user can be reached *)

Lemma fetched_all d : fetched_users d (Some "") (Some "") = users d.
Proof.
  unfold fetched_users, tbl_filter, user_matches. cbn. induction (users d) as [|x l IH]; cbn; [reflexivity|].
  rewrite IH. reflexivity.
Qed.

Lemma users_mount_at e d : exists v, users_mount e d = (v, d) /\ users_at d 0 v.
Proof.
  eexists. unfold users_mount. rewrite (fetchUsers_run e users_init d 10) by (reflexivity || lia || discriminate).
  split; [reflexivity|]. unfold users_at, server_total. cbn. rewrite fetched_all. repeat split.
Qed.

Lemma users_next_at e d k v :
  users_at d k v -> Z.of_nat k < last_page (Z.of_nat (length (users d))) 10 ->
  exists v', users_step e (PageChange (Z.of_nat k + 1)) (v, d) = (v', d) /\ users_at d (S k) v'.
Proof.
  intros (Hp & Hl & Hu & He & Ht & _) Hk. unfold users_step. cbn [users_update].
  rewrite Hl, js_integer_of_Z, Hp, Ht.
  assert (Ha : page_change_allowed (Z.of_nat k) (Z.of_nat (length (users d))) 10 (Z.of_nat k + 1) = true).
  { unfold page_change_allowed. apply orb_true_iff. right. apply andb_true_iff. split; [apply Z.eqb_refl | apply Z.ltb_lt; exact Hk]. }
  rewrite Ha. assert (Hd : deps_changed v (set_query v (uv_usernameFilter v) (uv_emailFilter v) (Z.of_nat k + 1) (js_of_Z 10)) = true).
  { unfold deps_changed. cbn. rewrite Hp, (proj2 (Z.eqb_neq (Z.of_nat k) (Z.of_nat k + 1)) ltac:(lia)).
    rewrite andb_false_r. reflexivity. }
  rewrite Hd. eexists. rewrite (fetchUsers_run e _ d 10) by (cbn; rewrite ?Hl; lia || reflexivity).
  split; [reflexivity|]. unfold users_at, server_total. cbn. rewrite Hu, He, fetched_all. repeat split; lia.
Qed.

Lemma users_walk_at e d j n v K :
  users_at d j v -> (j + n <= K)%nat -> Z.of_nat K <= last_page (Z.of_nat (length (users d))) 10 ->
  exists v', app_run e (map (fun k => UsersEv (PageChange (Z.of_nat k + 1))) (seq j n)) (SUsers v, d) = (SUsers v', d) /\
    users_at d (j + n) v'.
Proof.
  induction n as [|n IH] in j, v |- *; intros Hv Hn HK; [exists v; rewrite Nat.add_0_r; auto|].
  destruct (users_next_at e d j v Hv ltac:(lia)) as (v1 & Hs & Hv1).
  cbn [seq map app_run fold_left]. unfold app_step at 2. rewrite Hs.
  destruct (IH (S j) v1 Hv1 ltac:(lia) HK) as (v' & Hr & Hv'). exists v'. split; [exact Hr|].
  replace (j + S n)%nat with (S j + n)%nat by lia. exact Hv'.
Qed.

Lemma last_page_bound len i :
  (i < len)%nat -> Z.of_nat (i / 10) <= last_page (Z.of_nat len) 10.
Proof.
  intros Hi. unfold last_page. rewrite Nat2Z.inj_div.
  replace (Z.of_nat len + 10 - 1) with ((Z.of_nat len - 1) + 1 * 10) by lia.
  rewrite Z.div_add by lia. assert (Z.of_nat i / 10 <= (Z.of_nat len - 1) / 10) by (apply Z.div_le_mono; lia). lia.
Qed.

(** The row at index [i] of the unfiltered list is on page [i / 10]. *)
Lemma row_on_page d v i r :
  users_at d (i / 10) v -> nth_error (users d) i = Some r -> In r (uv_users v).
Proof.
  intros (Hp & _ & Hu & He & _ & Hl) Hr. rewrite Hl. unfold server_page. rewrite Hp, Hu, He, fetched_all.
  replace (Z.to_nat (Z.of_nat (i / 10) * 10)) with (i / 10 * 10)%nat by lia. change (Z.to_nat 10) with 10%nat.
  apply (nth_error_In _ (i mod 10)). rewrite nth_error_page by (apply Nat.mod_upper_bound; lia).
  rewrite <- Hr. f_equal. pose proof (Nat.div_mod_eq i 10). lia.
Qed.

(** C38: every stored user can be reached from the home page: following
    "Users", pressing the pagination's "next" [i / 10] times (the user is
    the [i]-th row of the unfiltered list, ten rows a page) and clicking
    the user's row opens the user's page, which shows the user with its
    address, geo and company and no error; no step changes the database. *)
Theorem user_page_reachable e d uid u :
  wf_db d -> tbl_find (users d) uid = Some u ->
  exists evs v, app_run e evs (SHome, d) = (SUser (int_to_string uid) v, d) /\
    dv_user v = Some (PUserFull uid u (option_map (with_geo d) (user_address d uid)) (user_company d uid)) /\
    dv_error v = None.
Proof.
  intros W Hu. apply tbl_find_Some in Hu as Hin. apply In_nth_error in Hin as [i Hi].
  pose proof (proj1 (nth_error_Some (users d) i) ltac:(congruence)) as Hlen.
  destruct (users_mount_at e d) as (v0 & Hm & H0).
  destruct (users_walk_at e d 0 (i / 10) v0 (i / 10) H0 ltac:(lia) (last_page_bound _ _ Hlen)) as (vK & Hw & HvK).
  exists ([Follow "/users"] ++ map (fun k => UsersEv (PageChange (Z.of_nat k + 1))) (seq 0 (i / 10))
          ++ [Follow (user_href uid)]).
  unfold app_run. rewrite !fold_left_app. cbn [fold_left].
  assert (H1 : app_step e (Follow "/users") (SHome, d) = (SUsers v0, d)).
  { unfold app_step. rewrite bool_decide_eq_true_2 by (apply elem_of_app; left; apply elem_of_cons; left; reflexivity).
    change (route_of "/users") with RUsers. cbn [open_route]. rewrite Hm. reflexivity. }
  rewrite H1. change (fold_left _ _ (SUsers v0, d)) with (app_run e (map (fun k => UsersEv (PageChange (Z.of_nat k + 1)))
    (seq 0 (i / 10))) (SUsers v0, d)). rewrite Hw.
  pose proof (row_on_page d vK i (uid, u) HvK Hi) as Hrow.
  unfold app_step. rewrite bool_decide_eq_true_2.
  2: { apply elem_of_app; left. apply elem_of_cons; right. apply list_elem_of_In, in_map_iff. exists (uid, u). auto. }
  rewrite route_user. cbn [open_route]. unfold detail_mount.
  rewrite (fetchUserData_run e detail_init d d uid u eq_refl eq_refl eq_refl eq_refl
             (int4_range_find _ _ _ _ (wf_users d W) Hu) Hu).
  eexists. split; [reflexivity|]. split; reflexivity.
Qed.

Lemma user_page_reachable_witness :
  let u := mkUser "N" "a11" "11@x.com" "1" "w" in
  exists evs v, app_run simple_email evs (SHome, eleven_users_db) = (SUser (int_to_string 11) v, eleven_users_db) /\
    dv_user v = Some (PUserFull 11 u (option_map (with_geo eleven_users_db) (user_address eleven_users_db 11))
                        (user_company eleven_users_db 11)) /\
    dv_error v = None.
Proof.
  apply (user_page_reachable simple_email eleven_users_db 11 (mkUser "N" "a11" "11@x.com" "1" "w"));
    [unfold eleven_users_db; vm_compute; wf_concrete | vm_compute; reflexivity].
Defined.
