(* ===== verification/Screens.v ===== *)
(** * The screens of a session as the user sees them

    [layout.tsx] renders the navigation bar above the page of the current
    route; [page_render] is the page of a screen of [App], as [Render]
    writes each page's JSX.  The theorems connect the session model to
    what is on screen: the links [App] lets the user follow agree with
    the links and [router.push] buttons the screen renders, a check
    that the two transcriptions of the pages' targets agree
    ([follow_links_rendered]); a user
    created through the form is shown, field by field, as typed on its
    page ([created_user_page]); a post created from a user's page is listed there, and
    its page shows its title, body and author ([created_post_shown]). *)

From S2P Require Import Prelude JsValue Schema Gateway GatewayFacts Validation UserController PostController Server Client ClientUsers ClientDetail ClientForms ClientPosts Routing Render App.
Local Open Scope Z_scope.

(** Next.js's built-in page for a path no [page.tsx] serves. *)
Definition not_found_render : list elem := [EText "404"; EText "This page could not be found."].

Definition page_render (s : screen) : list elem :=
  match s with
  | SHome => home_render
  | SUsers v => users_render v
  | SUserCreate v => create_render v
  | SUser id v => detail_render id v
  | SUserPostCreate _ v => post_form_render v
  | SPosts v => posts_render v
  | SPost _ v => post_render v
  | SNotFound => not_found_render
  end.

(** [RootLayout]: [<Navbar />] above [{children}], in a signed-in session. *)
Definition layout_render (s : screen) : list elem := navbar_render true ++ page_render s.

(** ** The rendered links *)

Lemma rendered_links_app l1 l2 : rendered_links (l1 ++ l2) = rendered_links l1 ++ rendered_links l2.
Proof. apply flat_map_app. Qed.

Lemma rendered_links_dialog o w b : rendered_links (confirm_dialog o w b) = [].
Proof. destruct o; reflexivity. Qed.

Lemma rendered_links_map {A} (f : A -> elem) (g : A -> string) l :
  (forall x, elem_links (f x) = [g x]) -> rendered_links (map f l) = map g l.
Proof. unfold rendered_links. intros H. induction l as [|x l IH]; [reflexivity|]. simpl. rewrite H, IH. reflexivity. Qed.

Lemma rendered_links_card p : rendered_links (user_card p) = [].
Proof. reflexivity. Qed.

#[export] Hint Rewrite rendered_links_app rendered_links_dialog rendered_links_card : render.

Lemma user_rows_links h l :
  h ∈ rendered_links (flat_map user_row l) <-> h ∈ map (fun r => user_href (fst r)) l.
Proof.
  induction l as [|[id u] l IH]; [reflexivity|].
  cbn [flat_map user_row map fst]. rewrite rendered_links_app, elem_of_app, IH. cbn. set_solver.
Qed.

Lemma user_posts_links p :
  rendered_links (user_posts_render p) = match p with PPostList ps => map (fun r => post_href (fst r)) ps | _ => [] end.
Proof. destruct p as [| | | | [|x ps] | | | | | | |]; try reflexivity.
  unfold user_posts_render. apply rendered_links_map. reflexivity.
Qed.

Lemma post_cards_links l : rendered_links (map post_card l) = map (fun x => post_href (fst (fst x))) l.
Proof. apply rendered_links_map. intros [[id p] [uid u]]. reflexivity. Qed.

Lemma page_links s h : h ∈ rendered_links (page_render s) <-> h ∈ screen_links s.
Proof.
  destruct s as [|v|v|id v|id v|v|id v|]; cbn [page_render screen_links].
  - reflexivity.
  - unfold users_render. autorewrite with render.
    replace (rendered_links (error_alert (uv_error v))) with (@nil string) by (destruct (uv_error v); reflexivity).
    pose proof (user_rows_links h (uv_users v)). cbn -[flat_map]. set_solver.
  - unfold create_render. destruct (cv_error v), (cv_success v); reflexivity.
  - unfold detail_render, detail_rendered.
    destruct (dv_loading v), (dv_error v), (dv_user v); try reflexivity.
    autorewrite with render. rewrite user_posts_links. cbn. rewrite app_nil_r. reflexivity.
  - unfold post_form_render. destruct (pv_error v), (pv_success v); reflexivity.
  - unfold posts_render. destruct (av_error v); [reflexivity|].
    autorewrite with render. rewrite post_cards_links. cbn. rewrite app_nil_r. reflexivity.
  - unfold post_render, post_rendered. destruct (pd_error v), (pd_post v); try reflexivity.
    autorewrite with render. reflexivity.
  - reflexivity.
Qed.

(** The links the session model lets the user follow from a screen
    ([screen_links] and the signed-in navigation bar, the guard of
    [Follow] in [app_step]) are exactly the targets of the [Link]s and
    [router.push] buttons the screen renders under [layout.tsx]: every
    rendered link is followable and nothing else is. *)
Lemma follow_links_rendered s h :
  h ∈ rendered_links (layout_render s) <-> h ∈ screen_links s ++ nav_links true.
Proof.
  unfold layout_render. rewrite rendered_links_app, !elem_of_app, page_links.
  change (rendered_links (navbar_render true)) with (nav_links true). tauto.
Qed.

(** ** What a created user's page shows *)

Lemma seq_user_range d : wf_db d -> seq_user d <= int4_max -> int4_range (seq_user d) = true.
Proof.
  intros W S. destruct (wf_users d W) as (_ & _ & Hs).
  unfold int4_range, int4_max in *. apply andb_true_iff; split; apply Z.leb_le; lia.
Qed.

Lemma created_find d u a g c : wf_db d -> tbl_find (users (created_db d u a g c)) (seq_user d) = Some u.
Proof.
  intros W. cbn [created_db users]. rewrite tbl_find_app, (proj2 (tbl_find_None _ _) (fresh_key _ _ (wf_users d W))).
  cbn. rewrite Z.eqb_refl. reflexivity.
Qed.

(** The user page of the user [createUser] just stored: its body as
    GET /users/:id answers it, and no posts. *)
Lemma fetchUserData_created is_email v d u a g c :
  wf_db d -> seq_user d <= int4_max -> addr_userId a = seq_user d ->
  fetchUserData is_email (int_to_string (seq_user d)) v (created_db d u a g c)
  = (mkDetailView (Some (created_full d u a g c)) (PPostList []) (dv_error v) false (dv_open v) (dv_deleting v)
       (dv_route v), created_db d u a g c).
Proof.
  intros W S Ha. set (D := created_db d u a g c).
  pose proof (getUserById_created d u a g c _ W S Ha (int_to_string_roundtrip _)) as E.
  fold D in E. rewrite (getUserById_run D _ u (seq_user_range d W S) (created_find d u a g c W)) in E.
  apply (f_equal (fun o => match o with Ok r => payload_of r | Exn _ => PEmpty end)) in E. cbn [payload_of] in E.
  rewrite (fetchUserData_run is_email v D D (seq_user d) u eq_refl eq_refl eq_refl eq_refl (seq_user_range d W S)
             (created_find d u a g c W)), E.
  rewrite (filter_none_match (posts D)); [reflexivity|].
  intros k p Hin. apply Z.eqb_neq. exact (fk_fresh_In _ _ _ _ _ _ (wf_post_fk d W) (wf_users d W) Hin).
Qed.

(** C36: submitting the create-user form filled in with a fresh username
    and email, on a well-formed database with room in its sequences,
    stores a user whose page [/users/${id}] (the next user id) shows what
    was typed: the name, [@username], [Email:], [Phone:] and [Website:]
    lines, the address line [street, suite, city zipcode], the company's
    name and catch phrase, the [Create Post] link of that id and no
    posts; its [Delete User] button is enabled. *)
Theorem created_user_page is_email v d :
  wf_db d -> required_filled (cv_userData v) = true ->
  seq_user d <= int4_max -> seq_address d <= int4_max -> seq_geo d <= int4_max -> seq_company d <= int4_max ->
  ud_username (cv_userData v) ∉ col (users d) username -> ud_email (cv_userData v) ∉ col (users d) email ->
  let f := cv_userData v in
  let a := ud_address f in
  let c := ud_company f in
  let d' := snd (app_step is_email (CreateEv SubmitUser) (SUserCreate v, d)) in
  page_render (fst (open_route is_email (route_of (user_href (seq_user d))) d'))
  = [EText "User Details"; EButton "Delete User" false;
     EText (ud_name f); EText ("@" +:+ ud_username f); EText ("Email: " +:+ ud_email f);
     EText ("Phone: " +:+ ud_phone f); EText ("Website: " +:+ ud_website f);
     EText "Address"; EText (fa_street a +:+ ", " +:+ fa_suite a +:+ ", " +:+ fa_city a +:+ " " +:+ fa_zipcode a);
     EText "Company"; EText (fc_name c); EText (fc_catchPhrase c);
     EText "User Posts"; ELink (user_post_create_href (int_to_string (seq_user d))) ["Create Post"];
     EText "No posts found for this user."].
Proof.
  intros W Hreq S1 S2 S3 S4 Hun Hem. cbn [app_step create_step]. rewrite Hreq.
  rewrite (handleSubmitUser_fresh is_email v d W S1 S2 S3 S4 Hun Hem). cbn [snd].
  rewrite route_user. cbn [open_route]. unfold detail_mount, form_created_db.
  rewrite fetchUserData_created by (assumption || reflexivity). reflexivity.
Qed.

Lemma created_user_page_witness :
  page_render (fst (open_route (fun _ => true) (route_of (user_href (seq_user sample_db)))
                      (snd (app_step (fun _ => true) (CreateEv SubmitUser)
                              (SUserCreate (mkCreateView None None sample_form), sample_db)))))
  = [EText "User Details"; EButton "Delete User" false;
     EText "Ann"; EText "@ann"; EText "Email: ann@x.com"; EText "Phone: 555"; EText "Website: ann.dev";
     EText "Address"; EText "Main St, Apt 1, Springfield 12345";
     EText "Company"; EText "Acme"; EText "We build";
     EText "User Posts"; ELink (user_post_create_href (int_to_string (seq_user sample_db))) ["Create Post"];
     EText "No posts found for this user."].
Proof.
  apply (created_user_page (fun _ => true) (mkCreateView None None sample_form) sample_db sample_db_wf eq_refl);
    vm_compute; first [congruence | set_solver].
Defined.

(** ** A created post, on the user's page and on its own *)

Lemma user_posts_render_nonempty ps :
  ps <> [] -> user_posts_render (PPostList ps) = map (fun r => ELink (post_href (fst r)) [title (snd r)]) ps.
Proof. destruct ps; [contradiction | reflexivity]. Qed.

Lemma post_created_find d t b uid :
  wf_db d -> tbl_find (posts (post_created_db d t b uid)) (seq_post d) = Some (mkPost t b uid).
Proof.
  intros W. cbn. rewrite tbl_find_app, (proj2 (tbl_find_None _ _) (fresh_key _ _ (wf_posts d W))).
  cbn. rewrite Z.eqb_refl. reflexivity.
Qed.

Lemma seq_post_range d : wf_db d -> seq_post d <= int4_max -> int4_range (seq_post d) = true.
Proof.
  intros W S. destruct (wf_posts d W) as (_ & _ & Hs).
  unfold int4_range, int4_max in *. apply andb_true_iff; split; apply Z.leb_le; lia.
Qed.

(** C37: on the create-post page of a stored user, submitting a
    non-empty title and body (the button enabled) moves to the user's
    page, which lists the new post as a link titled as typed; following
    that link opens the post's page, which shows the title, the body, the
    author's name linked to the author's page, an enabled [Delete Post]
    button and [Go Back]. *)
Theorem created_post_shown is_email v d uid u :
  wf_db d -> tbl_find (users d) uid = Some u -> seq_post d <= int4_max ->
  pv_loading v = false -> pv_title v <> "" -> pv_body v <> "" ->
  let s := app_step is_email (PostFormEv SubmitPost) (SUserPostCreate (int_to_string uid) v, d) in
  ELink (post_href (seq_post d)) [pv_title v] ∈ page_render (fst s) /\
  page_render (fst (app_step is_email (Follow (post_href (seq_post d))) s))
  = [EText (pv_title v); EButton "Delete Post" false; EText (pv_body v);
     EText "Author:"; ELink (user_href uid) [name u]; EButton "Go Back" false].
Proof.
  intros W Hu Hs Hl Ht Hb. cbn [app_step post_form_step].
  rewrite (submit_post_run is_email v d uid u W Hu Hs Hl Ht Hb).
  unfold settle. cbn [pushed_route fst snd pv_route].
  change ("/users/" +:+ int_to_string uid) with (user_href uid). rewrite route_user. cbn [open_route].
  set (D := post_created_db d (pv_title v) (pv_body v) uid). unfold detail_mount.
  rewrite (fetchUserData_run is_email detail_init d D uid u eq_refl eq_refl eq_refl eq_refl
             (int4_range_find _ _ _ _ (wf_users d W) Hu) Hu).
  assert (Hps : tbl_filter (fun _ p => Z.eqb (post_userId p) uid) (posts D)
                = tbl_filter (fun _ p => Z.eqb (post_userId p) uid) (posts d) ++ [(seq_post d, mkPost (pv_title v) (pv_body v) uid)]).
  { unfold tbl_filter. cbn. rewrite List.filter_app. cbn. rewrite Z.eqb_refl. reflexivity. }
  rewrite Hps. set (ps := _ ++ [_]).
  assert (Hin : ELink (post_href (seq_post d)) [pv_title v] ∈ map (fun r => ELink (post_href (fst r)) [title (snd r)]) ps).
  { apply list_elem_of_In, in_map_iff. exists (seq_post d, mkPost (pv_title v) (pv_body v) uid).
    split; [reflexivity | apply in_or_app; right; left; reflexivity]. }
  assert (Hne : ps <> []) by (unfold ps; intros H; apply app_eq_nil in H as [_ H]; discriminate).
  split.
  - cbn [page_render fst detail_render detail_init dv_loading dv_error dv_user dv_posts dv_open].
    rewrite user_posts_render_nonempty by exact Hne.
    apply list_elem_of_In in Hin. apply list_elem_of_In. rewrite !in_app_iff. tauto.
  - cbn [app_step fst snd]. rewrite bool_decide_eq_true_2.
    2: { cbn [screen_links detail_rendered dv_loading dv_error dv_user dv_posts negb andb].
         apply elem_of_app; left. apply elem_of_cons; right.
         apply list_elem_of_In, in_map_iff. exists (seq_post d, mkPost (pv_title v) (pv_body v) uid).
         split; [reflexivity | apply in_or_app; right; left; reflexivity]. }
    rewrite route_post. cbn [open_route]. unfold post_mount.
    rewrite (fetchPost_run is_email post_view_init D (seq_post d) (mkPost (pv_title v) (pv_body v) uid) u
               (seq_post_range d W Hs) (post_created_find d _ _ uid W) Hu).
    reflexivity.
Qed.

Lemma created_post_shown_witness :
  let s := app_step (fun _ => true) (PostFormEv SubmitPost)
             (SUserPostCreate (int_to_string 1) (mkPostFormView "Hello" "World" None None false None), sample_db) in
  ELink (post_href (seq_post sample_db)) ["Hello"] ∈ page_render (fst s) /\
  page_render (fst (app_step (fun _ => true) (Follow (post_href (seq_post sample_db))) s))
  = [EText "Hello"; EButton "Delete Post" false; EText "World";
     EText "Author:"; ELink (user_href 1) ["A"]; EButton "Go Back" false].
Proof.
  exact (created_post_shown (fun _ => true) (mkPostFormView "Hello" "World" None None false None) sample_db 1
           (mkUser "A" "u1" "a@x.com" "1" "w") sample_db_wf eq_refl ltac:(vm_compute; congruence)
           eq_refl ltac:(discriminate) ltac:(discriminate)).
Defined.
