(* ===== verification/Auth.v ===== *)
(** * Signing in and out of the admin client

    Every page of [src/blog-app/src/app] is exported as
    [withAuthenticationRequired(Page)].  Without a session the wrapper
    renders nothing in place of the page (so the page makes no request)
    and calls [loginWithRedirect({ appState: { returnTo } })], where
    [returnTo] is the current location, the path and its query string
    (the model keeps the path: no page reads the query string): the
    browser leaves for Auth0's login.  Next.js's built-in not-found page is not wrapped.  Back from
    Auth0, [Auth0ProviderWithNavigate]
    ([providers/Auth0Provider.tsx]) handles the callback and calls
    [onRedirectCallback(appState)], which pushes [appState?.returnTo || '/'].
    The navigation bar's Login calls [loginWithRedirect()] without an
    [appState]; its Logout calls [logout()], which leaves for Auth0's
    logout.

    A client is signed in on a screen of [App], or signed out on the
    not-found page, at Auth0's login with the [returnTo] of its
    [appState], or logged out.  Typing a path is an event here.

    The theorem: from any signed-out state, opening a path that has a
    page sends no request, leads to the login, and signing in lands on
    that page of that path, mounted on the database as it was; the
    navigation bar's Login lands on the home page ([signin_returns]). *)

From S2P Require Import Prelude JsValue Schema Gateway GatewayFacts Validation UserController PostController Server Client ClientUsers ClientDetail ClientForms ClientPosts Routing Render App.
Local Open Scope Z_scope.

Inductive client :=
| CApp (s : screen) (d : db)                   (* signed in, on a page of the app *)
| CAnon (path : string) (d : db)               (* signed out, on Next.js's not-found page *)
| CLogin (returnTo : option string) (d : db)   (* at Auth0's login; the appState's returnTo *)
| CLoggedOut (d : db).                         (* after logout(), at Auth0's logout *)

Inductive client_event :=
| Visit (path : string)       (* the user opens a path *)
| AppEv (ev : app_event)      (* an event of the signed-in app *)
| NavLogin                    (* the navigation bar's Login: loginWithRedirect() *)
| NavLogout                   (* the navigation bar's Logout: logout() *)
| LoginDone.                  (* Auth0 redirects back with a session *)

Definition client_db (c : client) : db :=
  match c with CApp _ d | CAnon _ d | CLogin _ d | CLoggedOut d => d end.

Section Auth.
Variable is_email : string -> bool.

Definition in_app (p : screen * db) : client := let (s, d) := p in CApp s d.

(** A path opened without a session: the wrapper's redirect to the
    login with [returnTo] the path, or Next.js's not-found page. *)
Definition anon_visit (path : string) (d : db) : client :=
  match route_of path with RNotFound => CAnon path d | _ => CLogin (Some path) d end.

Definition client_step (ev : client_event) (c : client) : client :=
  match ev, c with
  | Visit p, CApp _ d => in_app (open_route is_email (route_of p) d)
  | Visit p, _ => anon_visit p (client_db c)
  | AppEv e, CApp s d => in_app (app_step is_email e (s, d))
  | NavLogin, CAnon _ d => CLogin None d
  | NavLogout, CApp _ d => CLoggedOut d
  | LoginDone, CLogin rt d => in_app (open_route is_email (route_of (onRedirectCallback rt)) d)
  | _, _ => c
  end.
End Auth.

Definition signed_out (c : client) : bool := match c with CApp _ _ => false | _ => true end.

(** ** Signing in returns to the requested page *)

Lemma route_of_onRedirectCallback p : route_of (onRedirectCallback (Some p)) = route_of p.
Proof. unfold onRedirectCallback. destruct (String.eqb_spec p ""); [subst; reflexivity | reflexivity]. Qed.

(** C32: signed out (logged out, on the not-found page or already at the
    login), opening a path that has a page sends no request and leads to
    Auth0's login with that path as [returnTo]; signing in then lands on
    the page of that path, mounted on the same database.  On the
    not-found page, the navigation bar's Login leads to the login
    without [returnTo], and signing in lands on the home page. *)
Theorem signin_returns is_email c p :
  signed_out c = true -> route_of p <> RNotFound ->
  client_step is_email (Visit p) c = CLogin (Some p) (client_db c) /\
  client_step is_email LoginDone (client_step is_email (Visit p) c)
  = in_app (open_route is_email (route_of p) (client_db c)) /\
  (forall q d, client_step is_email LoginDone (client_step is_email NavLogin (CAnon q d)) = CApp SHome d).
Proof.
  intros Hc Hp.
  assert (Hv : client_step is_email (Visit p) c = CLogin (Some p) (client_db c)).
  { destruct c; try discriminate; cbn [client_step]; unfold anon_visit; destruct (route_of p); congruence. }
  split; [exact Hv|]. split; [|intros q d; reflexivity].
  rewrite Hv. cbn [client_step]. rewrite route_of_onRedirectCallback. reflexivity.
Qed.

Lemma signin_returns_witness :
  signed_out (CLoggedOut sample_db) = true /\ route_of "/posts/1" <> RNotFound /\
  client_step simple_email LoginDone (client_step simple_email (Visit "/posts/1") (CLoggedOut sample_db))
  = in_app (open_route simple_email (route_of "/posts/1") sample_db).
Proof.
  assert (H1 : signed_out (CLoggedOut sample_db) = true) by reflexivity.
  assert (H2 : route_of "/posts/1" <> RNotFound) by (vm_compute; discriminate).
  split; [exact H1|]. split; [exact H2|].
  exact (proj1 (proj2 (signin_returns simple_email (CLoggedOut sample_db) "/posts/1" H1 H2))).
Defined.
